(** * Wallet scripts: Solflare, Phantom and MetaMask to a Cosmos-SDK chain

    A shallow embedding of the browser scripts of the repository

      - [src/solfare.ts]               (module [Solflare]),
      - [src/phantom_not_working.ts]   (modules [Phantom] and [PhantomProvider],
                                        the two scripts that file holds),
      - [metamask/nolus.ts] and its console front end
                                       (modules [MetaMask] and [Main]).

    The scripts are glue over external libraries.  The libraries whose
    output the scripts build on are written out here from their published
    definitions (hex, base64, UTF-8, SHA-256, RIPEMD-160, bech32, the
    protobuf writer of cosmjs-types, [JSON.stringify], the number to string
    conversions of ECMAScript), so that every script can be run inside Rocq
    on a concrete wallet and node.  What lives outside the page (the wallet
    extension, the RPC node, the clock, the secp256k1 recovery of ethers)
    is a record of oracles, the [World] of each script.

    Conventions.
      - A [Uint8Array] is a [list byte].
      - A JavaScript string is the Rocq [string] of its UTF-8 bytes.  The
        scripts apply [length] and [slice] only to ASCII text (the bech32
        prefix, a hex signature), where bytes and code units coincide.
      - [console.log] and [console.error] have no effect on any value and
        are left out.
      - An [async] function is a computation in the monad [Async]: it
        appends the requests it sends to the outside to a trace and either
        returns a value or throws. *)

From Stdlib Require Import List String Ascii ZArith NArith Lia Bool.
From Stdlib.Strings Require Import Byte.
From Stdlib Require Import QArith Qcanon.
Import ListNotations.

Local Open Scope string_scope.
Local Open Scope Z_scope.

(** ** Bytes *)

Definition bytes := list byte.

Definition byte_to_Z (b : byte) : Z := Z.of_N (Byte.to_N b).

Definition byte_of_Z (z : Z) : byte :=
  match Byte.of_N (Z.to_N (z mod 256)) with
  | Some b => b
  | None => x00
  end.

Definition bytes_of_Zs (l : list Z) : bytes := map byte_of_Z l.

Definition toUtf8Bytes (s : string) : bytes := list_byte_of_string s.

Definition char_of_Z (z : Z) : ascii := ascii_of_byte (byte_of_Z z).

Definition Z_of_char (c : ascii) : Z := byte_to_Z (byte_of_ascii c).

(** [s.slice(i)] and [s.slice(i, j)] on byte arrays and on strings, for
    [i >= 0]; a negative [j] counts from the end, as in JavaScript. *)
Definition slice {A} (i : nat) (j : nat) (l : list A) : list A :=
  firstn (j - i) (skipn i l).

Definition slice_from {A} (i : nat) (l : list A) : list A := skipn i l.

Definition string_slice_neg (i : nat) (k : nat) (s : string) : string :=
  let l := list_ascii_of_string s in
  string_of_list_ascii (slice i (List.length l - k) l).

(** ** Thrown values and completions *)

(** What a [throw] carries: an [Error] object (with its [name], which is
    "Error", "TypeError", ...), or any other value, of which the scripts
    only ever take [String(v)]. *)
Inductive thrown :=
| ErrorObject (name message : string)
| OtherValue (repr : string).

Definition Error (message : string) : thrown := ErrorObject "Error" message.
Definition TypeError (message : string) : thrown := ErrorObject "TypeError" message.

(** [String(e)]; for an error object this is [Error.prototype.toString]. *)
Definition String_ (e : thrown) : string :=
  match e with
  | ErrorObject name message =>
      if (name =? "")%string then message
      else if (message =? "")%string then name
      else name ++ ": " ++ message
  | OtherValue repr => repr
  end.

Inductive completion (A : Type) :=
| Return (a : A)
| Throw (e : thrown).
Arguments Return {A} a.
Arguments Throw {A} e.

Definition cbind {A B} (c : completion A) (k : A -> completion B) : completion B :=
  match c with
  | Return a => k a
  | Throw e => Throw e
  end.

(** ** Hex ([@cosmjs/encoding]) *)

Module Hex.

Definition digit (d : Z) : ascii :=
  if d <? 10 then char_of_Z (48 + d) else char_of_Z (87 + d).

Fixpoint toHex (data : bytes) : string :=
  match data with
  | [] => ""
  | b :: rest =>
      String (digit (byte_to_Z b / 16))
        (String (digit (byte_to_Z b mod 16)) (toHex rest))
  end.

(** The value of a character matched by [[0-9a-f]] (case-insensitive). *)
Definition value (c : ascii) : option Z :=
  let n := Z_of_char c in
  if (48 <=? n) && (n <=? 57) then Some (n - 48)
  else if (97 <=? n) && (n <=? 102) then Some (n - 87)
  else if (65 <=? n) && (n <=? 70) then Some (n - 55)
  else None.

Fixpoint pairs (s : string) : completion bytes :=
  match s with
  | "" => Return []
  | String _ "" => Throw (Error "hex string length must be a multiple of 2")
  | String hi (String lo rest) =>
      match value hi, value lo with
      | Some h, Some l =>
          cbind (pairs rest) (fun out => Return (byte_of_Z (16 * h + l) :: out))
      | _, _ => Throw (Error "hex byte representation is invalid")
      end
  end.

(** [fromHex]: the length test comes first, then the bytes in order. *)
Definition fromHex (hexstring : string) : completion bytes :=
  if Nat.even (String.length hexstring) then pairs hexstring
  else Throw (Error "hex string length must be a multiple of 2").

End Hex.

(** ** Base64 ([@cosmjs/encoding], RFC 4648 with padding) *)

Module Base64.

Definition alphabet : string :=
  "ABCDEFGHIJKLMNOPQRSTUVWXYZabcdefghijklmnopqrstuvwxyz0123456789+/".

Definition sextet (i : Z) : ascii :=
  match String.get (Z.to_nat i) alphabet with
  | Some c => c
  | None => "="%char
  end.

Definition index (c : ascii) : option Z :=
  let n := Z_of_char c in
  if (65 <=? n) && (n <=? 90) then Some (n - 65)
  else if (97 <=? n) && (n <=? 122) then Some (n - 71)
  else if (48 <=? n) && (n <=? 57) then Some (n + 4)
  else if n =? 43 then Some 62
  else if n =? 47 then Some 63
  else None.

Fixpoint toBase64 (data : bytes) : string :=
  match data with
  | [] => ""
  | [a] =>
      let n := byte_to_Z a in
      String (sextet (n / 4)) (String (sextet (n mod 4 * 16)) "==")
  | [a; b] =>
      let n := byte_to_Z a * 256 + byte_to_Z b in
      String (sextet (n / 1024))
        (String (sextet (n / 16 mod 64)) (String (sextet (n mod 16 * 4)) "="))
  | a :: b :: c :: rest =>
      let n := byte_to_Z a * 65536 + byte_to_Z b * 256 + byte_to_Z c in
      String (sextet (n / 262144))
        (String (sextet (n / 4096 mod 64))
           (String (sextet (n / 64 mod 64))
              (String (sextet (n mod 64)) (toBase64 rest))))
  end.

(** The test [/^[a-zA-Z0-9+/]*={0,2}$/] of cosmjs. *)
Fixpoint padding_only (s : string) (allowed : nat) : bool :=
  match s with
  | "" => true
  | String c rest =>
      match allowed with
      | O => false
      | S k => Ascii.eqb c "=" && padding_only rest k
      end
  end.

Fixpoint format_ok (s : string) : bool :=
  match s with
  | "" => true
  | String c rest =>
      match index c with
      | Some _ => format_ok rest
      | None => padding_only s 2
      end
  end.

Definition rev (c : ascii) : Z :=
  match index c with Some i => i | None => 0 end.

(** [toByteArray] of base64-js on a string that passed both tests: groups
    of four characters, the last one possibly padded. *)
Fixpoint toByteArray (s : string) : bytes :=
  match s with
  | String c0 (String c1 (String c2 (String c3 rest))) =>
      if Ascii.eqb c2 "=" then
        [byte_of_Z (rev c0 * 4 + rev c1 / 16)]
      else if Ascii.eqb c3 "=" then
        let tmp := rev c0 * 1024 + rev c1 * 16 + rev c2 / 4 in
        [byte_of_Z (tmp / 256); byte_of_Z tmp]
      else
        let tmp := rev c0 * 262144 + rev c1 * 4096 + rev c2 * 64 + rev c3 in
        byte_of_Z (tmp / 65536) :: byte_of_Z (tmp / 256) :: byte_of_Z tmp
          :: toByteArray rest
  | _ => []
  end.

Definition fromBase64 (base64String : string) : completion bytes :=
  if negb (format_ok base64String) then
    Throw (Error "Invalid base64 string format")
  else if negb (Nat.eqb (Nat.modulo (String.length base64String) 4) 0) then
    Throw (Error "Invalid string. Length must be a multiple of 4")
  else Return (toByteArray base64String).

End Base64.

(** ** UTF-8 text: [Buffer.prototype.toString] and [TextEncoder] *)

Module Utf8.

(** One step of [utf8Slice] of the [buffer] package (the [Buffer] that
    the Vite configuration of the repository polyfills): the code point
    read at the head of [buf] and the number of bytes consumed.  An
    invalid or truncated sequence gives U+FFFD and consumes one byte. *)
Definition continuation (b : Z) : bool := Z.land b 192 =? 128.

Definition step (firstByte : Z) (following : list Z) : Z * nat :=
  let replacement := (65533, 1%nat) in
  if firstByte >? 239 then
    match following with
    | secondByte :: thirdByte :: fourthByte :: _ =>
        let tempCodePoint :=
          Z.lor (Z.lor (Z.lor (Z.shiftl (Z.land firstByte 15) 18)
                              (Z.shiftl (Z.land secondByte 63) 12))
                       (Z.shiftl (Z.land thirdByte 63) 6))
                (Z.land fourthByte 63) in
        if continuation secondByte && continuation thirdByte
           && continuation fourthByte
           && (tempCodePoint >? 65535) && (tempCodePoint <? 1114112)
        then (tempCodePoint, 4%nat) else replacement
    | _ => replacement
    end
  else if firstByte >? 223 then
    match following with
    | secondByte :: thirdByte :: _ =>
        let tempCodePoint :=
          Z.lor (Z.lor (Z.shiftl (Z.land firstByte 15) 12)
                       (Z.shiftl (Z.land secondByte 63) 6))
                (Z.land thirdByte 63) in
        if continuation secondByte && continuation thirdByte
           && (tempCodePoint >? 2047)
           && ((tempCodePoint <? 55296) || (tempCodePoint >? 57343))
        then (tempCodePoint, 3%nat) else replacement
    | _ => replacement
    end
  else if firstByte >? 191 then
    match following with
    | secondByte :: _ =>
        let tempCodePoint :=
          Z.lor (Z.shiftl (Z.land firstByte 31) 6) (Z.land secondByte 63) in
        if continuation secondByte && (tempCodePoint >? 127)
        then (tempCodePoint, 2%nat) else replacement
    | _ => replacement
    end
  else if firstByte <? 128 then (firstByte, 1%nat)
  else replacement.

(** The loop of [utf8Slice]; [fuel] bounds the number of code points by
    the number of bytes, since every step consumes at least one. *)
Fixpoint utf8Slice (fuel : nat) (buf : list Z) : list Z :=
  match fuel, buf with
  | S fuel', firstByte :: following =>
      let '(codePoint, bytesPerSequence) := step firstByte following in
      codePoint :: utf8Slice fuel' (skipn bytesPerSequence buf)
  | _, _ => []
  end.

Definition decode (buf : bytes) : list Z :=
  utf8Slice (List.length buf) (map byte_to_Z buf).

(** UTF-8 of one code point (a scalar value: the decoder above yields no
    surrogate). *)
Definition encode_code_point (c : Z) : list Z :=
  if c <? 128 then [c]
  else if c <? 2048 then
    [Z.lor 192 (Z.shiftr c 6); Z.lor 128 (Z.land c 63)]
  else if c <? 65536 then
    [Z.lor 224 (Z.shiftr c 12); Z.lor 128 (Z.land (Z.shiftr c 6) 63);
     Z.lor 128 (Z.land c 63)]
  else
    [Z.lor 240 (Z.shiftr c 18); Z.lor 128 (Z.land (Z.shiftr c 12) 63);
     Z.lor 128 (Z.land (Z.shiftr c 6) 63); Z.lor 128 (Z.land c 63)].

Definition encode (text : list Z) : bytes :=
  bytes_of_Zs (flat_map encode_code_point text).

(** [Buffer.from(data).toString()]: the text, as the string of its UTF-8
    bytes. *)
Definition Buffer_toString (data : bytes) : string :=
  string_of_list_byte (encode (decode data)).

(** [new TextEncoder().encode(text)]. *)
Definition TextEncoder_encode (text : string) : bytes :=
  list_byte_of_string text.

End Utf8.

(** ** SHA-256 ([@noble/hashes/sha256], FIPS 180-4) *)

Module Sha256.

Definition w32 (x : Z) : Z := x mod 4294967296.

Definition rotr (n x : Z) : Z :=
  Z.lor (Z.shiftr x n) (w32 (Z.shiftl x (32 - n))).

Definition not32 (x : Z) : Z := Z.lxor x 4294967295.

Definition Chi (x y z : Z) : Z := Z.lxor (Z.land x y) (Z.land (not32 x) z).
Definition Maj (x y z : Z) : Z :=
  Z.lxor (Z.lxor (Z.land x y) (Z.land x z)) (Z.land y z).
Definition Sigma0 (x : Z) := Z.lxor (Z.lxor (rotr 2 x) (rotr 13 x)) (rotr 22 x).
Definition Sigma1 (x : Z) := Z.lxor (Z.lxor (rotr 6 x) (rotr 11 x)) (rotr 25 x).
Definition sigma0 (x : Z) := Z.lxor (Z.lxor (rotr 7 x) (rotr 18 x)) (Z.shiftr x 3).
Definition sigma1 (x : Z) := Z.lxor (Z.lxor (rotr 17 x) (rotr 19 x)) (Z.shiftr x 10).

(** The round constants, eight to a row as the library lays them out. *)
Definition K : list Z :=
  List.concat
    [[0x428a2f98; 0x71374491; 0xb5c0fbcf; 0xe9b5dba5;
      0x3956c25b; 0x59f111f1; 0x923f82a4; 0xab1c5ed5];
     [0xd807aa98; 0x12835b01; 0x243185be; 0x550c7dc3;
      0x72be5d74; 0x80deb1fe; 0x9bdc06a7; 0xc19bf174];
     [0xe49b69c1; 0xefbe4786; 0x0fc19dc6; 0x240ca1cc;
      0x2de92c6f; 0x4a7484aa; 0x5cb0a9dc; 0x76f988da];
     [0x983e5152; 0xa831c66d; 0xb00327c8; 0xbf597fc7;
      0xc6e00bf3; 0xd5a79147; 0x06ca6351; 0x14292967];
     [0x27b70a85; 0x2e1b2138; 0x4d2c6dfc; 0x53380d13;
      0x650a7354; 0x766a0abb; 0x81c2c92e; 0x92722c85];
     [0xa2bfe8a1; 0xa81a664b; 0xc24b8b70; 0xc76c51a3;
      0xd192e819; 0xd6990624; 0xf40e3585; 0x106aa070];
     [0x19a4c116; 0x1e376c08; 0x2748774c; 0x34b0bcb5;
      0x391c0cb3; 0x4ed8aa4a; 0x5b9cca4f; 0x682e6ff3];
     [0x748f82ee; 0x78a5636f; 0x84c87814; 0x8cc70208;
      0x90befffa; 0xa4506ceb; 0xbef9a3f7; 0xc67178f2]].

(** The message, the bit 1, zeros up to 56 modulo 64 bytes, and the bit
    length on 8 bytes, most significant first. *)
Definition be_bytes (width : nat) (x : Z) : list Z :=
  map (fun i => (x / 2 ^ (8 * Z.of_nat i)) mod 256) (List.rev (seq 0 width)).

Definition pad (message : list Z) : list Z :=
  let len := Z.of_nat (List.length message) in
  let zeros := Z.to_nat ((55 - len) mod 64) in
  message ++ [128] ++ repeat 0 zeros ++ be_bytes 8 (8 * len).

Fixpoint be_words (fuel : nat) (data : list Z) : list Z :=
  match fuel, data with
  | S fuel', a :: b :: c :: d :: rest =>
      (((a * 256 + b) * 256 + c) * 256 + d) :: be_words fuel' rest
  | _, _ => []
  end.

(** The message schedule, most recent word first. *)
Fixpoint schedule (rounds : nat) (w : list Z) : list Z :=
  match rounds with
  | O => w
  | S k =>
      schedule k
        (w32 (sigma1 (nth 1 w 0) + nth 6 w 0 + sigma0 (nth 14 w 0) + nth 15 w 0)
           :: w)
  end.

Definition state := (Z * Z * Z * Z * Z * Z * Z * Z)%type.

Definition round (s : state) (kw : Z * Z) : state :=
  let '(a, b, c, d, e, f, g, h) := s in
  let T1 := h + Sigma1 e + Chi e f g + fst kw + snd kw in
  let T2 := Sigma0 a + Maj a b c in
  (w32 (T1 + T2), a, b, c, w32 (d + T1), e, f, g).

Definition compress (s : state) (block : list Z) : state :=
  let W := List.rev (schedule 48 (List.rev (be_words 16 block))) in
  let '(a, b, c, d, e, f, g, h) := s in
  let '(a', b', c', d', e', f', g', h') := fold_left round (combine K W) s in
  (w32 (a + a'), w32 (b + b'), w32 (c + c'), w32 (d + d'),
   w32 (e + e'), w32 (f + f'), w32 (g + g'), w32 (h + h')).

Fixpoint blocks (count : nat) (s : state) (data : list Z) : state :=
  match count with
  | O => s
  | S k => blocks k (compress s (firstn 64 data)) (skipn 64 data)
  end.

Definition digest (s : state) : list Z :=
  let '(a, b, c, d, e, f, g, h) := s in
  flat_map (be_bytes 4) [a; b; c; d; e; f; g; h].

Definition sha256 (message : bytes) : bytes :=
  let data := pad (map byte_to_Z message) in
  let s0 := (0x6a09e667, 0xbb67ae85, 0x3c6ef372, 0xa54ff53a,
             0x510e527f, 0x9b05688c, 0x1f83d9ab, 0x5be0cd19) in
  bytes_of_Zs (digest (blocks (List.length data / 64) s0 data)).

End Sha256.

(** ** RIPEMD-160 ([@noble/hashes/ripemd160]) *)

Module Ripemd160.

Definition w32 (x : Z) : Z := x mod 4294967296.

Definition rotl (n x : Z) : Z :=
  Z.lor (w32 (Z.shiftl x n)) (Z.shiftr x (32 - n)).

Definition not32 (x : Z) : Z := Z.lxor x 4294967295.

(** The five boolean functions, by group of sixteen steps. *)
Definition f (group : nat) (x y z : Z) : Z :=
  match group with
  | 0%nat => Z.lxor (Z.lxor x y) z
  | 1%nat => Z.lor (Z.land x y) (Z.land (not32 x) z)
  | 2%nat => Z.lxor (Z.lor x (not32 y)) z
  | 3%nat => Z.lor (Z.land x z) (Z.land y (not32 z))
  | _ => Z.lxor x (Z.lor y (not32 z))
  end.

Definition Kl : list Z := [0x00000000; 0x5a827999; 0x6ed9eba1; 0x8f1bbcdc; 0xa953fd4e].
Definition Kr : list Z := [0x50a28be6; 0x5c4dd124; 0x6d703ef3; 0x7a6d76e9; 0x00000000].

Definition idxL : list nat :=
  [0; 1; 2; 3; 4; 5; 6; 7; 8; 9; 10; 11; 12; 13; 14; 15;
   7; 4; 13; 1; 10; 6; 15; 3; 12; 0; 9; 5; 2; 14; 11; 8;
   3; 10; 14; 4; 9; 15; 8; 1; 2; 7; 0; 6; 13; 11; 5; 12;
   1; 9; 11; 10; 0; 8; 12; 4; 13; 3; 7; 15; 14; 5; 6; 2;
   4; 0; 5; 9; 7; 12; 2; 10; 14; 1; 3; 8; 11; 6; 15; 13]%nat.

Definition idxR : list nat :=
  [5; 14; 7; 0; 9; 2; 11; 4; 13; 6; 15; 8; 1; 10; 3; 12;
   6; 11; 3; 7; 0; 13; 5; 10; 14; 15; 8; 12; 4; 9; 1; 2;
   15; 5; 1; 3; 7; 14; 6; 9; 11; 8; 12; 2; 10; 0; 4; 13;
   8; 6; 4; 1; 3; 11; 15; 0; 5; 12; 2; 13; 9; 7; 10; 14;
   12; 15; 10; 4; 1; 5; 8; 7; 6; 2; 13; 14; 0; 3; 9; 11]%nat.

Definition shiftsL : list Z :=
  [11; 14; 15; 12; 5; 8; 7; 9; 11; 13; 14; 15; 6; 7; 9; 8;
   7; 6; 8; 13; 11; 9; 7; 15; 7; 12; 15; 9; 11; 7; 13; 12;
   11; 13; 6; 7; 14; 9; 13; 15; 14; 8; 13; 6; 5; 12; 7; 5;
   11; 12; 14; 15; 14; 15; 9; 8; 9; 14; 5; 6; 8; 6; 5; 12;
   9; 15; 5; 11; 6; 8; 13; 12; 5; 12; 13; 14; 11; 8; 5; 6].

Definition shiftsR : list Z :=
  [8; 9; 9; 11; 13; 15; 15; 5; 7; 7; 8; 11; 14; 14; 12; 6;
   9; 13; 15; 7; 12; 8; 9; 11; 7; 7; 12; 7; 6; 15; 13; 11;
   9; 7; 15; 11; 8; 6; 6; 14; 12; 13; 5; 14; 13; 13; 7; 5;
   15; 5; 8; 11; 14; 14; 6; 14; 6; 9; 12; 9; 12; 5; 15; 8;
   8; 5; 12; 9; 12; 5; 14; 6; 8; 13; 6; 5; 15; 13; 11; 11].

Definition le_bytes (width : nat) (x : Z) : list Z :=
  map (fun i => (x / 2 ^ (8 * Z.of_nat i)) mod 256) (seq 0 width).

Definition pad (message : list Z) : list Z :=
  let len := Z.of_nat (List.length message) in
  let zeros := Z.to_nat ((55 - len) mod 64) in
  message ++ [128] ++ repeat 0 zeros ++ le_bytes 8 (8 * len).

Fixpoint le_words (fuel : nat) (data : list Z) : list Z :=
  match fuel, data with
  | S fuel', a :: b :: c :: d :: rest =>
      (((d * 256 + c) * 256 + b) * 256 + a) :: le_words fuel' rest
  | _, _ => []
  end.

Definition line := (Z * Z * Z * Z * Z)%type.

Definition step (X : list Z) (group : nat) (k : Z) (l : line) (rs : nat * Z) : line :=
  let '(a, b, c, d, e) := l in
  let t := w32 (rotl (snd rs) (w32 (a + f group b c d + nth (fst rs) X 0 + k)) + e) in
  (e, t, b, rotl 10 c, d).

(** Sixteen steps of one line: [group] selects the boolean function. *)
Definition steps16 (X : list Z) (idx : list nat) (shifts : list Z)
    (j : nat) (group : nat) (k : Z) (l : line) : line :=
  fold_left (step X group k)
    (combine (firstn 16 (skipn (16 * j) idx)) (firstn 16 (skipn (16 * j) shifts))) l.

Definition left_line (X : list Z) (l : line) : line :=
  fold_left (fun acc j => steps16 X idxL shiftsL j j (nth j Kl 0) acc) (seq 0 5) l.

Definition right_line (X : list Z) (l : line) : line :=
  fold_left (fun acc j => steps16 X idxR shiftsR j (4 - j) (nth j Kr 0) acc) (seq 0 5) l.

Definition compress (h : line) (block : list Z) : line :=
  let X := le_words 16 block in
  let '(h0, h1, h2, h3, h4) := h in
  let '(al, bl, cl, dl, el) := left_line X h in
  let '(ar, br, cr, dr, er) := right_line X h in
  (w32 (h1 + cl + dr), w32 (h2 + dl + er), w32 (h3 + el + ar),
   w32 (h4 + al + br), w32 (h0 + bl + cr)).

Fixpoint blocks (count : nat) (h : line) (data : list Z) : line :=
  match count with
  | O => h
  | S k => blocks k (compress h (firstn 64 data)) (skipn 64 data)
  end.

Definition digest (h : line) : list Z :=
  let '(h0, h1, h2, h3, h4) := h in
  le_bytes 4 h0 ++ le_bytes 4 h1 ++ le_bytes 4 h2 ++ le_bytes 4 h3 ++ le_bytes 4 h4.

Definition ripemd160 (message : bytes) : bytes :=
  let data := pad (map byte_to_Z message) in
  let h := (0x67452301, 0xefcdab89, 0x98badcfe, 0x10325476, 0xc3d2e1f0) in
  bytes_of_Zs (digest (blocks (List.length data / 64) h data)).

End Ripemd160.

(** ** bech32 (the [bech32] package, version 1: [encode], [toWords]) *)

Module Bech32.

Definition ALPHABET : string := "qpzry9x8gf2tvdw0s3jn54khce6mua7l".

Definition charAt (x : Z) : string :=
  match String.get (Z.to_nat x) ALPHABET with
  | Some c => String c ""
  | None => ""
  end.

(** A JavaScript bitwise operator works on 32-bit signed integers. *)
Definition int32 (x : Z) : Z := (x + 2147483648) mod 4294967296 - 2147483648.

Definition bit (b : Z) (i : Z) (generator : Z) : Z :=
  if Z.testbit b i then generator else 0.

Definition polymodStep (pre : Z) : Z :=
  let b := Z.shiftr pre 25 in
  Z.lxor (Z.lxor (Z.lxor (Z.lxor (Z.lxor
    (int32 (Z.shiftl (Z.land pre 33554431) 5))
    (bit b 0 996825010)) (bit b 1 642813549)) (bit b 2 513874426))
    (bit b 3 1027748829)) (bit b 4 705979059).

Definition toLowerCase (s : string) : string :=
  string_of_list_ascii
    (map (fun c => let n := Z_of_char c in
                   if (65 <=? n) && (n <=? 90) then char_of_Z (n + 32) else c)
         (list_ascii_of_string s)).

(** [prefixChk]: the checksum state after the prefix, or the error text. *)
Definition prefixChk (prefix : string) : Z + string :=
  let codes := map Z_of_char (list_ascii_of_string prefix) in
  if forallb (fun c => negb ((c <? 33) || (c >? 126))) codes then
    let chk := fold_left (fun chk c => Z.lxor (polymodStep chk) (Z.shiftr c 5)) codes 1 in
    let chk := polymodStep chk in
    inl (fold_left (fun chk v => Z.lxor (polymodStep chk) (Z.land v 31)) codes chk)
  else inr ("Invalid prefix (" ++ prefix ++ ")").

Fixpoint encode_words (words : list Z) (chk : Z) (result : string)
  : completion (Z * string) :=
  match words with
  | [] => Return (chk, result)
  | x :: rest =>
      if negb (Z.shiftr (int32 x) 5 =? 0) then Throw (Error "Non 5-bit word")
      else encode_words rest (Z.lxor (polymodStep chk) x) (result ++ charAt x)
  end.

Definition checksum_chars (chk : Z) : string :=
  fold_left (fun result i => result ++ charAt (Z.land (Z.shiftr chk ((5 - i) * 5)) 31))
    [0; 1; 2; 3; 4; 5] "".

Definition encode (prefix : string) (words : list Z) : completion string :=
  if (Z.of_nat (String.length prefix) + 7 + Z.of_nat (List.length words) >? 90) then
    Throw (TypeError "Exceeds length limit")
  else
    let prefix := toLowerCase prefix in
    match prefixChk prefix with
    | inr message => Throw (Error message)
    | inl chk =>
        cbind (encode_words words chk (prefix ++ "1")) (fun '(chk, result) =>
          let chk := fold_left (fun c _ => polymodStep c) (seq 0 6) chk in
          let chk := Z.lxor chk 1 in
          Return (result ++ checksum_chars chk))
    end.

(** The inner [while (bits >= outBits)] of [convert]. *)
Fixpoint drain (fuel : nat) (outBits maxV value bits : Z) : list Z * Z :=
  match fuel with
  | O => ([], bits)
  | S k =>
      if bits >=? outBits then
        let bits := bits - outBits in
        let '(out, bits') := drain k outBits maxV value bits in
        (Z.land (Z.shiftr value bits) maxV :: out, bits')
      else ([], bits)
  end.

Fixpoint convert_loop (data : list Z) (inBits outBits maxV value bits : Z)
  : list Z * Z * Z :=
  match data with
  | [] => ([], value, bits)
  | d :: rest =>
      let value := Z.lor (int32 (Z.shiftl value inBits)) d in
      let bits := bits + inBits in
      let '(out, bits) := drain (Z.to_nat bits) outBits maxV value bits in
      let '(more, value', bits') := convert_loop rest inBits outBits maxV value bits in
      ((out ++ more)%list, value', bits')
  end.

(** [convert(data, inBits, outBits, true)]. *)
Definition convert_pad (data : list Z) (inBits outBits : Z) : list Z :=
  let maxV := Z.shiftl 1 outBits - 1 in
  let '(result, value, bits) := convert_loop data inBits outBits maxV 0 0 in
  if bits >? 0 then (result ++ [Z.land (int32 (Z.shiftl value (outBits - bits))) maxV])%list
  else result.

Definition toWords (data : bytes) : list Z :=
  convert_pad (map byte_to_Z data) 8 5.

End Bech32.

(** ** The protobuf writer and the messages of cosmjs-types

    [fromPartial] gives every field that the caller leaves out its default
    value, and [encode] writes no field that holds its default.  A record
    below has the fields the scripts set; the fields they never set
    (time-out height, extension options, payer, granter, tip) are at their
    default in every message and so never written. *)

Module Writer.

(** Base-128 varint of a non-negative integer. *)
Fixpoint varint_loop (fuel : nat) (n : Z) : list Z :=
  match fuel with
  | O => [n mod 128]
  | S k => if n <? 128 then [n] else (n mod 128 + 128) :: varint_loop k (n / 128)
  end.

Definition varint (n : Z) : bytes :=
  bytes_of_Zs (varint_loop (Z.to_nat (Z.log2 n / 7)) n).

Definition uint32 := varint.
Definition uint64 := varint.
Definition int32 := varint.

Definition bytes_ (data : bytes) : bytes :=
  (varint (Z.of_nat (List.length data)) ++ data)%list.

Definition string_ (text : string) : bytes := bytes_ (toUtf8Bytes text).

(** A field written only when it differs from its default. *)
Definition string_field (tag : Z) (text : string) : bytes :=
  if (text =? "")%string then [] else (uint32 tag ++ string_ text)%list.

Definition bytes_field (tag : Z) (data : bytes) : bytes :=
  match data with
  | [] => []
  | _ => (uint32 tag ++ bytes_ data)%list
  end.

Definition uint64_field (tag : Z) (n : Z) : bytes :=
  if n =? 0 then [] else (uint32 tag ++ uint64 n)%list.

(** [writer.uint32(tag).fork()] ... [.ldelim()]. *)
Definition message_field (tag : Z) (encoded : bytes) : bytes :=
  (uint32 tag ++ bytes_ encoded)%list.

End Writer.

Module Coin.
Record t := { denom : string; amount : string }.
Definition encode (message : t) : bytes :=
  (Writer.string_field 10 (denom message)
     ++ Writer.string_field 18 (amount message))%list.
End Coin.

Module MsgSend.
Record t := { fromAddress : string; toAddress : string; amount : list Coin.t }.
Definition encode (message : t) : bytes :=
  (Writer.string_field 10 (fromAddress message)
     ++ Writer.string_field 18 (toAddress message)
     ++ flat_map (fun v => Writer.message_field 26 (Coin.encode v)) (amount message))%list.
End MsgSend.

Module Any.
Record t := { typeUrl : string; value : bytes }.
Definition encode (message : t) : bytes :=
  (Writer.string_field 10 (typeUrl message)
     ++ Writer.bytes_field 18 (value message))%list.
End Any.

Module PubKey.
(** [cosmos.crypto.ed25519.PubKey] and [cosmos.crypto.secp256k1.PubKey]
    have the same single field. *)
Record t := { key : bytes }.
Definition encode (message : t) : bytes := Writer.bytes_field 10 (key message).
End PubKey.

Module TxBody.
Record t := { messages : list Any.t; memo : string }.
Definition encode (message : t) : bytes :=
  (flat_map (fun v => Writer.message_field 10 (Any.encode v)) (messages message)
     ++ Writer.string_field 18 (memo message))%list.
End TxBody.

Module SignMode.
Definition SIGN_MODE_DIRECT : Z := 1.
Definition SIGN_MODE_EIP_191 : Z := 191.
End SignMode.

Module ModeInfo.
(** [{ single: { mode } }]; [multi] is never set. *)
Record Single := { mode : Z }.
Record t := { single : option Single }.
Definition encode_single (message : Single) : bytes :=
  if mode message =? 0 then [] else (Writer.uint32 8 ++ Writer.int32 (mode message))%list.
Definition encode (message : t) : bytes :=
  match single message with
  | Some s => Writer.message_field 10 (encode_single s)
  | None => []
  end.
End ModeInfo.

Module SignerInfo.
Record t := { publicKey : option Any.t; modeInfo : option ModeInfo.t; sequence : Z }.
Definition encode (message : t) : bytes :=
  (match publicKey message with
   | Some k => Writer.message_field 10 (Any.encode k)
   | None => []
   end
     ++ match modeInfo message with
        | Some m => Writer.message_field 18 (ModeInfo.encode m)
        | None => []
        end
     ++ Writer.uint64_field 24 (sequence message))%list.
End SignerInfo.

Module Fee.
Record t := { amount : list Coin.t; gasLimit : Z }.
Definition encode (message : t) : bytes :=
  (flat_map (fun v => Writer.message_field 10 (Coin.encode v)) (amount message)
     ++ Writer.uint64_field 16 (gasLimit message))%list.
End Fee.

Module AuthInfo.
Record t := { signerInfos : list SignerInfo.t; fee : option Fee.t }.
Definition encode (message : t) : bytes :=
  (flat_map (fun v => Writer.message_field 10 (SignerInfo.encode v)) (signerInfos message)
     ++ match fee message with
        | Some f => Writer.message_field 18 (Fee.encode f)
        | None => []
        end)%list.
End AuthInfo.

Module SignDoc.
Record t := { bodyBytes : bytes; authInfoBytes : bytes;
              chainId : string; accountNumber : Z }.
Definition encode (message : t) : bytes :=
  (Writer.bytes_field 10 (bodyBytes message)
     ++ Writer.bytes_field 18 (authInfoBytes message)
     ++ Writer.string_field 26 (chainId message)
     ++ Writer.uint64_field 32 (accountNumber message))%list.
End SignDoc.

Module TxRaw.
Record t := { bodyBytes : bytes; authInfoBytes : bytes; signatures : list bytes }.
Definition encode (message : t) : bytes :=
  (Writer.bytes_field 10 (bodyBytes message)
     ++ Writer.bytes_field 18 (authInfoBytes message)
     ++ flat_map (fun v => (Writer.uint32 26 ++ Writer.bytes_ v)%list) (signatures message))%list.
End TxRaw.

(** ** JavaScript numbers

    A Number is an IEEE 754 binary64 value.  A finite one is the rational
    it denotes, kept in lowest terms, so that two finite numbers are equal
    exactly when their values are; [-0] is identified with [0].  Every
    arithmetic operation computes the exact rational result and rounds it
    to the nearest binary64 value, ties to even ([round]). *)

Module JsNumber.

Inductive number :=
| NaN
| Infinity (negative : bool)
| Finite (q : Q).

Definition ofZ (z : Z) : number := Finite (z # 1).

(** [2^e] for any integer [e]. *)
Definition pow2 (e : Z) : Q :=
  if 0 <=? e then (2 ^ e # 1) else (1 # Z.to_pos (2 ^ (- e))).

Definition pow10 (e : Z) : Q :=
  if 0 <=? e then (10 ^ e # 1) else (1 # Z.to_pos (10 ^ (- e))).

(** Nearest integer to a non-negative rational, ties to even. *)
Definition half_even (x : Q) : Z :=
  let d := Zpos (Qden x) in
  let f := Qnum x / d in
  let r := Qnum x mod d in
  match 2 * r ?= d with
  | Lt => f
  | Gt => f + 1
  | Eq => if Z.even f then f else f + 1
  end.

(** The exponent [e] with [2^e <= q < 2^(e+1)], for [q > 0]. *)
Definition exponent (q : Q) : Z :=
  let e0 := Z.log2 (Qnum q) - Z.log2 (Zpos (Qden q)) in
  if Qle_bool (pow2 e0) q then e0 else e0 - 1.

(** Rounding of a positive rational: 53 significant bits, exponent at
    least -1022 (below, the spacing stays that of the subnormals), and
    overflow to infinity from [2^1024] on. *)
Definition round_pos (q : Q) : option Q :=
  let u := Z.max (exponent q) (-1022) - 52 in
  let v := ((half_even (q / pow2 u) # 1) * pow2 u)%Q in
  if Qle_bool (pow2 1024) v then None else Some (Qred v).

(** Rounding of any rational, read in lowest terms. *)
Definition round (q : Q) : number :=
  let q := Qred q in
  match Qnum q with
  | Z0 => Finite 0
  | Zpos _ =>
      match round_pos q with Some v => Finite v | None => Infinity false end
  | Zneg _ =>
      match round_pos (- q)%Q with
      | Some v => Finite (Qred (- v)%Q)
      | None => Infinity true
      end
  end.

Definition is_negative (x : number) : bool :=
  match x with
  | NaN => false
  | Infinity negative => negative
  | Finite q => Qnum q <? 0
  end.

Definition is_zero (x : number) : bool :=
  match x with Finite q => Qnum q =? 0 | _ => false end.

(** [x * y]. *)
Definition mul (x y : number) : number :=
  match x, y with
  | Finite a, Finite b => round (a * b)%Q
  | NaN, _ | _, NaN => NaN
  | _, _ =>
      if is_zero x || is_zero y then NaN
      else Infinity (xorb (is_negative x) (is_negative y))
  end.

(** [x / y]. *)
Definition div (x y : number) : number :=
  match x, y with
  | NaN, _ | _, NaN => NaN
  | Infinity _, Infinity _ => NaN
  | Infinity _, Finite _ => Infinity (xorb (is_negative x) (is_negative y))
  | Finite _, Infinity _ => Finite 0
  | Finite a, Finite b =>
      if is_zero y then
        if is_zero x then NaN else Infinity (is_negative x)
      else round (a / b)%Q
  end.

(** *** Decimal digits *)

Fixpoint digits_loop (fuel : nat) (n : Z) (acc : string) : string :=
  match fuel with
  | O => acc
  | S k =>
      let acc := String (char_of_Z (48 + n mod 10)) acc in
      if n <? 10 then acc else digits_loop k (n / 10) acc
  end.

(** The decimal digits of a non-negative integer, no leading zero. *)
Definition decimal (n : Z) : string :=
  digits_loop (S (Z.to_nat (Z.log2 n))) n "".

Fixpoint zeros (n : nat) : string :=
  match n with O => "" | S k => String "0" (zeros k) end.

(** *** [Number.prototype.toString()] (radix 10)

    For a positive [x] the standard takes integers [n], [k], [s] with
    [10^(k-1) <= s < 10^k], such that [s * 10^(n-k)] rounds to [x], and
    [k] as small as possible; among several [s] the one nearest to [x],
    the even one on a tie. *)

(** The [n] with [10^(n-1) <= q < 10^n], for [q > 0]. *)
Fixpoint magnitude_down (fuel : nat) (q : Q) (n : Z) : Z :=
  match fuel with
  | O => n
  | S k => if Qle_bool 1 q then n else magnitude_down k (q * 10)%Q (n - 1)
  end.

Definition magnitude (q : Q) : Z :=
  if Qle_bool 1 q then Z.of_nat (String.length (decimal (Qnum q / Zpos (Qden q))))
  else magnitude_down 400 (q * 10)%Q 0.

Definition rounds_to (q : Q) (s p : Z) : bool :=
  match round ((s # 1) * pow10 p)%Q with
  | Finite v => Qeq_bool v q
  | _ => false
  end.

(** The candidates with [k] digits: the multiples of [10^(n0-k)] just
    below and just above [q]. *)
Definition candidate (q : Q) (n0 k : Z) : option Z :=
  let p := n0 - k in
  let lo := Qnum (q / pow10 p)%Q / Zpos (Qden (q / pow10 p)%Q) in
  let hi := lo + 1 in
  let dlo := (q - (lo # 1) * pow10 p)%Q in
  let dhi := ((hi # 1) * pow10 p - q)%Q in
  match rounds_to q lo p, rounds_to q hi p with
  | true, true =>
      match (dlo ?= dhi)%Q with
      | Lt => Some lo
      | Gt => Some hi
      | Eq => if Z.even lo then Some lo else Some hi
      end
  | true, false => Some lo
  | false, true => Some hi
  | false, false => None
  end.

Fixpoint shortest_loop (fuel : nat) (q : Q) (n0 k : Z) : Z * Z :=
  match fuel with
  | O => (Qnum (q / pow10 (n0 - k))%Q / Zpos (Qden (q / pow10 (n0 - k))%Q), k)
  | S fuel' =>
      match candidate q n0 k with
      | Some s => (s, k)
      | None => shortest_loop fuel' q n0 (k + 1)
      end
  end.

(** [(s, n, k)] for a positive [q]: up to 21 digits are tried, which
    covers every binary64 value (17 digits do) and every integer below
    [10^21]. *)
Definition shortest (q : Q) : Z * Z * Z :=
  let n0 := magnitude q in
  let '(s, k) := shortest_loop 20 q n0 1 in
  if s =? 10 ^ k then (10 ^ (k - 1), n0 + 1, k) else (s, n0, k).

Definition exponent_text (e : Z) : string :=
  (if e <? 0 then "e-" else "e+") ++ decimal (Z.abs e).

Definition format (s n k : Z) : string :=
  let ds := decimal s in
  if (k <=? n) && (n <=? 21) then ds ++ zeros (Z.to_nat (n - k))
  else if (0 <? n) && (n <=? 21) then
    substring 0 (Z.to_nat n) ds ++ "." ++ substring (Z.to_nat n) (Z.to_nat (k - n)) ds
  else if (-6 <? n) && (n <=? 0) then "0." ++ zeros (Z.to_nat (- n)) ++ ds
  else if k =? 1 then ds ++ exponent_text (n - 1)
  else substring 0 1 ds ++ "." ++ substring 1 (Z.to_nat (k - 1)) ds
         ++ exponent_text (n - 1).

Definition toString (x : number) : string :=
  match x with
  | NaN => "NaN"
  | Infinity negative => if negative then "-Infinity" else "Infinity"
  | Finite q =>
      match Qnum q with
      | Z0 => "0"
      | Zpos _ => let '(s, n, k) := shortest q in format s n k
      | Zneg _ => let '(s, n, k) := shortest (- q)%Q in "-" ++ format s n k
      end
  end.

(** *** [parseInt(string)] (no radix argument) *)

(** White space and line terminators of ECMAScript, in UTF-8. *)
Definition white_space : list string :=
  [String (char_of_Z 9) ""; String (char_of_Z 10) ""; String (char_of_Z 11) "";
   String (char_of_Z 12) ""; String (char_of_Z 13) ""; " ";
   string_of_list_byte [xc2; xa0]; string_of_list_byte [xe1; x9a; x80];
   string_of_list_byte [xe2; x80; x80]; string_of_list_byte [xe2; x80; x81];
   string_of_list_byte [xe2; x80; x82]; string_of_list_byte [xe2; x80; x83];
   string_of_list_byte [xe2; x80; x84]; string_of_list_byte [xe2; x80; x85];
   string_of_list_byte [xe2; x80; x86]; string_of_list_byte [xe2; x80; x87];
   string_of_list_byte [xe2; x80; x88]; string_of_list_byte [xe2; x80; x89];
   string_of_list_byte [xe2; x80; x8a]; string_of_list_byte [xe2; x80; xa8];
   string_of_list_byte [xe2; x80; xa9]; string_of_list_byte [xe2; x80; xaf];
   string_of_list_byte [xe2; x81; x9f]; string_of_list_byte [xe3; x80; x80];
   string_of_list_byte [xef; xbb; xbf]].

Definition drop_prefix (p s : string) : option string :=
  if String.prefix p s then
    Some (substring (String.length p) (String.length s - String.length p) s)
  else None.

Definition strip_one (s : string) : option string :=
  fold_left (fun found w => match found with
                            | Some _ => found
                            | None => drop_prefix w s
                            end) white_space None.

Fixpoint trim_start (fuel : nat) (s : string) : string :=
  match fuel with
  | O => s
  | S k => match strip_one s with
           | Some rest => trim_start k rest
           | None => s
           end
  end.

Definition digit_value (R : Z) (c : ascii) : option Z :=
  let n := Z_of_char c in
  let v := if (48 <=? n) && (n <=? 57) then n - 48
           else if (97 <=? n) && (n <=? 122) then n - 87
           else if (65 <=? n) && (n <=? 90) then n - 55
           else 36 in
  if v <? R then Some v else None.

(** The longest prefix of radix-[R] digits, read most significant
    first; [None] when it is empty. *)
Fixpoint digits_value (R : Z) (s : string) (acc : option Z) : option Z :=
  match s with
  | "" => acc
  | String c rest =>
      match digit_value R c with
      | Some d =>
          digits_value R rest
            (Some (R * match acc with Some a => a | None => 0 end + d))
      | None => acc
      end
  end.

Definition parseInt (inputString : string) : number :=
  let trimmed := trim_start (String.length inputString) inputString in
  let '(negative, unsigned) :=
    match drop_prefix "-" trimmed, drop_prefix "+" trimmed with
    | Some rest, _ => (true, rest)
    | None, Some rest => (false, rest)
    | None, None => (false, trimmed)
    end in
  let '(R, Zs) :=
    match drop_prefix "0x" unsigned, drop_prefix "0X" unsigned with
    | Some rest, _ => (16, rest)
    | None, Some rest => (16, rest)
    | None, None => (10, unsigned)
    end in
  match digits_value R Zs None with
  | None => NaN
  | Some mathInt => round ((if negative then - mathInt else mathInt) # 1)
  end.

End JsNumber.

(** ** [JSON.stringify] *)

Module Json.

(** The values the scripts serialise.  An object is the list of its
    members in insertion order, which is the order [JSON.stringify]
    writes them in (no key of the scripts is an array index).  A number
    is an integer below [10^21] in absolute value (a timestamp, a small
    constant), which is written with all its digits. *)
#[local] Set Warnings "-register-all".
Inductive value :=
| Str (s : string)
| Num (z : Z)
| Arr (items : list value)
| Obj (members : list (string * value)).

Definition number_text (z : Z) : string :=
  if z <? 0 then "-" ++ JsNumber.decimal (- z) else JsNumber.decimal z.

Definition dquote : string := String (char_of_Z 34) "".

Definition hex4 (n : Z) : string :=
  "00" ++ String (Hex.digit (n / 16)) (String (Hex.digit (n mod 16)) "").

Definition escape (c : ascii) : string :=
  let n := Z_of_char c in
  if n =? 34 then "\" ++ dquote else if n =? 92 then "\\"
  else if n =? 8 then "\b" else if n =? 9 then "\t" else if n =? 10 then "\n"
  else if n =? 12 then "\f" else if n =? 13 then "\r"
  else if n <? 32 then "\u" ++ hex4 n
  else String c "".

Fixpoint escape_all (s : string) : string :=
  match s with
  | "" => ""
  | String c rest => escape c ++ escape_all rest
  end.

(** [QuoteJSONString]. *)
Definition quote (s : string) : string := dquote ++ escape_all s ++ dquote.

Fixpoint join (separator : string) (parts : list string) : string :=
  match parts with
  | [] => ""
  | [x] => x
  | x :: rest => x ++ separator ++ join separator rest
  end.

Definition newline : string := String (char_of_Z 10) "".

(** [SerializeJSONObject] and [SerializeJSONArray] around the already
    serialised members. *)
Definition wrap (opening closing gap stepback : string) (partial : list string)
  : string :=
  match partial with
  | [] => opening ++ closing
  | _ =>
      if (gap =? "")%string then opening ++ join "," partial ++ closing
      else
        let indent := stepback ++ gap in
        opening ++ newline ++ indent ++ join ("," ++ newline ++ indent) partial
          ++ newline ++ stepback ++ closing
  end.

Fixpoint serialize (gap indent : string) (v : value) : string :=
  match v with
  | Str s => quote s
  | Num z => number_text z
  | Arr items =>
      wrap "[" "]" gap indent (map (serialize gap (indent ++ gap)) items)
  | Obj members =>
      wrap "{" "}" gap indent
        (map (fun m => quote (fst m) ++ (if (gap =? "")%string then ":" else ": ")
                         ++ serialize gap (indent ++ gap) (snd m)) members)
  end.

(** [JSON.stringify(v)] and [JSON.stringify(v, null, space)] for a
    number of spaces from 0 to 10. *)
Definition stringify (v : value) (space : nat) : string :=
  serialize (string_of_list_ascii (repeat " "%char space)) "" v.

End Json.

(** ** The outside of the page *)

(** A request that leaves the page: to the wallet extension or to the
    node.  The trace of a run is the list of the requests it sent, oldest
    first. *)
Inductive Request :=
| WalletConnect
| WalletSignMessage (message : bytes) (display : option string)
| EthereumRequest (method : string) (params : list (option string))
| StargateConnect (endpoint : string)
| GetAccount (address : string)
| HttpPost (url : string) (headers : list (string * string)) (body : string).

(** The account that [StargateClient.getAccount] resolves to; cosmjs gives
    both numbers as unsigned integers. *)
Module Account.
Record t := { accountNumber : N; sequence : N }.
End Account.

(** The JSON that the node answers a POST with, at the types of the
    Tendermint RPC; a field that is absent, or not of its type, is [None]. *)
Record RpcResult := {
  code : option Z;
  txhash : option string;
  hash : option string;
  log : option string;
  info : option string }.

Record RpcError := { message : option string }.

Record RpcResponse := { result : option RpcResult; error : option RpcError }.

(** The node and the clock.  [fetch] stands for [fetch] followed by
    [response.json()]: it throws when the request fails or the answer is
    no JSON object. *)
Record Node := {
  StargateClient_connect : string -> completion unit;
  getAccount : string -> completion (option Account.t);
  fetch : string -> list (string * string) -> string -> completion RpcResponse;
  Date_now : Z }.

(** The [publicKey] object of a Solana wallet. *)
Record PublicKey := { toBase58 : string; toBytes : bytes }.

(** ** Asynchronous computations *)

Definition Async (A : Type) : Type :=
  list Request -> completion A * list Request.

Definition ret {A} (a : A) : Async A := fun trace => (Return a, trace).

Definition throw {A} (e : thrown) : Async A := fun trace => (Throw e, trace).

Definition bind {A B} (m : Async A) (k : A -> Async B) : Async B :=
  fun trace =>
    match m trace with
    | (Return a, trace') => k a trace'
    | (Throw e, trace') => (Throw e, trace')
    end.

(** [try { body } catch (e) { handler }]. *)
Definition try_catch {A} (body : Async A) (handler : thrown -> Async A) : Async A :=
  fun trace =>
    match body trace with
    | (Return a, trace') => (Return a, trace')
    | (Throw e, trace') => handler e trace'
    end.

(** [await] of a request to the outside: the request is sent, then the
    answer of the world comes back (or the promise is rejected). *)
Definition await {A} (r : Request) (answer : completion A) : Async A :=
  fun trace => (answer, (trace ++ [r])%list).

(** A library call that may throw. *)
Definition call {A} (c : completion A) : Async A := fun trace => (c, trace).

(** A call of an async function that is not awaited, as the last thing
    a script does: what was started sends its requests, which the trace
    lists after those of the caller; its outcome, a rejection included,
    reaches nobody. *)
Definition detached {A} (m : Async A) : Async unit :=
  fun trace => (Return tt, snd (m trace)).

Definition run {A} (m : Async A) : completion A * list Request := m [].

Declare Scope async_scope.
Delimit Scope async_scope with async.
Notation "x <- m ;; k" := (bind m (fun x => k))
  (at level 61, m at next level, right associativity) : async_scope.
Notation "' pat <- m ;; k" := (bind m (fun x => match x with pat => k end))
  (at level 61, pat pattern, m at next level, right associativity) : async_scope.
Local Open Scope async_scope.

(** [a || b] on strings that may be [undefined]: the first if it is
    truthy (defined and not empty), else the second. *)
Definition truthy (s : option string) : bool :=
  match s with
  | Some text => negb (text =? "")%string
  | None => false
  end.

Definition or_else (a b : option string) : option string :=
  if truthy a then a else b.

Definition or_default (a : option string) (b : string) : string :=
  match or_else a (Some b) with
  | Some text => text
  | None => b
  end.

(** [`${v}`] of a string that may be [undefined]. *)
Definition template (v : option string) : string :=
  match v with
  | Some text => text
  | None => "undefined"
  end.

(** [result.code === 0]. *)
Definition code_is_zero (r : RpcResult) : bool :=
  match code r with
  | Some c => c =? 0
  | None => false
  end.

(** ** What the three ed25519 scripts share

    [src/solfare.ts] and the two scripts of [src/phantom_not_working.ts]
    hold the same [CONFIG] and, character for character up to their log
    messages, the same [fetchAccountInfo] and [broadcastTransaction]; they
    are embedded once. *)

Module Nolus.

Module CONFIG.
Definition rpc := "https://rpc.nolus.network".
Definition chainId := "pirin-1".
Definition addressPrefix := "nolus".
Definition denom := "unls".
End CONFIG.

Record PubkeyAny := { typeUrl : string; value : string }.

Record Address := {
  solanaAddress : string;
  pubkeyAny : PubkeyAny;
  bech32Addr : string;
  ed25519PublicKey : bytes }.

(** [{ accountNumber, sequence }], two BigInts. *)
Record AccountInfo := { accountNumber : Z; sequence : Z }.

(** What [sendTransaction] resolves to:
    [{ success: true, hash, result }],
    [{ success: false, error, code, result }] or
    [{ success: false, error }]. *)
Inductive SendResult :=
| Sent (hash : option string) (result : RpcResult)
| Rejected (error : string) (code : option Z) (result : RpcResult)
| Failed (error : string).

Definition success (r : SendResult) : bool :=
  match r with Sent _ _ => true | _ => false end.

Definition fetchAccountInfo (node : Node) (address : string) : Async AccountInfo :=
  client <- await (StargateConnect CONFIG.rpc)
              (StargateClient_connect node CONFIG.rpc) ;;
  account <- await (GetAccount address) (getAccount node address) ;;
  match account with
  | None => ret {| accountNumber := 0; sequence := 0 |}
  | Some account =>
      ret {| accountNumber := Z.of_N (Account.accountNumber account);
             sequence := Z.of_N (Account.sequence account) |}
  end.

Definition broadcastTransaction (node : Node) (txBytes : bytes)
  : Async (option RpcResult) :=
  let body :=
    Json.stringify
      (Json.Obj [("jsonrpc", Json.Str "2.0");
                 ("id", Json.Num (Date_now node));
                 ("method", Json.Str "broadcast_tx_sync");
                 ("params", Json.Obj [("tx", Json.Str (Base64.toBase64 txBytes))])])
      0 in
  let headers := [("Content-Type", "application/json")] in
  response <- await (HttpPost CONFIG.rpc headers body)
                (fetch node CONFIG.rpc headers body) ;;
  match error response with
  | Some error => throw (Error ("Broadcast failed: " ++ template (message error)))
  | None => ret (result response)
  end.

(** The tail of [sendTransaction], from [if (result.code === 0)] on; the
    three scripts agree on it. *)
Definition report (result : option RpcResult) : Async SendResult :=
  match result with
  | None => throw (TypeError "Cannot read properties of undefined (reading 'code')")
  | Some result =>
      if code_is_zero result then
        ret (Sent (or_else (txhash result) (hash result)) result)
      else
        ret (Rejected (or_default (log result) "Unknown error") (code result) result)
  end.

End Nolus.

(** ** [src/solfare.ts] *)

Module Solflare.
Import Nolus.

(** [window.solflare] and what it answers in this run; [publicKey] is
    the property as read after [connect()]. *)
Record Wallet := {
  isSolflare : bool;
  connect : completion bool;
  publicKey : option PublicKey;
  signMessage : bytes -> completion bytes }.

Record World := { solflare : option Wallet; node : Node }.

Definition getAddress (w : World) : Async Address :=
  match solflare w with
  | Some wallet =>
      if negb (isSolflare wallet) then
        throw (Error "Solflare wallet not found! Install from https://solflare.com/")
      else
        try_catch
          (isConnected <- await WalletConnect (connect wallet) ;;
           match isConnected, publicKey wallet with
           | true, Some publicKey =>
               let solanaAddress := toBase58 publicKey in
               let ed25519PublicKey := toBytes publicKey in
               let ed25519PubkeyProtoBytes :=
                 PubKey.encode {| PubKey.key := ed25519PublicKey |} in
               let pubkeyAny :=
                 {| typeUrl := "/cosmos.crypto.ed25519.PubKey";
                    value := Base64.toBase64 ed25519PubkeyProtoBytes |} in
               let hashBytes := Sha256.sha256 ed25519PublicKey in
               let addressBytes := slice 0 20 hashBytes in
               bech32Addr <- call (Bech32.encode CONFIG.addressPrefix
                                     (Bech32.toWords addressBytes)) ;;
               ret {| solanaAddress := solanaAddress;
                      pubkeyAny := pubkeyAny;
                      bech32Addr := bech32Addr;
                      ed25519PublicKey := ed25519PublicKey |}
           | _, _ =>
               throw (Error "Connection failed—user rejected or no publicKey available.")
           end)
          (fun connectError =>
             throw (Error ("Failed to connect to Solflare: " ++ String_ connectError)))
  | None =>
      throw (Error "Solflare wallet not found! Install from https://solflare.com/")
  end.

Definition sendTransaction (w : World) (toAddress amountStr memo : option string)
  : Async SendResult :=
  try_catch
    (address <- getAddress w ;;
     let pubkeyAny := pubkeyAny address in
     let bech32Addr := bech32Addr address in
     account <- fetchAccountInfo (node w) bech32Addr ;;
     let accountNumber := accountNumber account in
     let sequence := sequence account in
     let amount := or_default amountStr "1000000" in
     let toAddr := or_default toAddress bech32Addr in
     let feeAmount := "500" in
     let gasLimit := 200000 in
     let msgSend :=
       {| MsgSend.fromAddress := bech32Addr;
          MsgSend.toAddress := toAddr;
          MsgSend.amount := [{| Coin.denom := CONFIG.denom; Coin.amount := amount |}] |} in
     let txBody :=
       {| TxBody.messages :=
            [{| Any.typeUrl := "/cosmos.bank.v1beta1.MsgSend";
                Any.value := MsgSend.encode msgSend |}];
          TxBody.memo := or_default memo "solflare-ed25519-test" |} in
     let txBodyBytes := TxBody.encode txBody in
     publicKeyValue <- call (Base64.fromBase64 (value pubkeyAny)) ;;
     let authInfo :=
       {| AuthInfo.signerInfos :=
            [{| SignerInfo.publicKey :=
                  Some {| Any.typeUrl := typeUrl pubkeyAny;
                          Any.value := publicKeyValue |};
                SignerInfo.modeInfo :=
                  Some {| ModeInfo.single :=
                            Some {| ModeInfo.mode := SignMode.SIGN_MODE_DIRECT |} |};
                SignerInfo.sequence := sequence |}];
          AuthInfo.fee :=
            Some {| Fee.amount := [{| Coin.denom := CONFIG.denom;
                                      Coin.amount := feeAmount |}];
                    Fee.gasLimit := gasLimit |} |} in
     let authInfoBytes := AuthInfo.encode authInfo in
     let signDoc :=
       {| SignDoc.bodyBytes := txBodyBytes;
          SignDoc.authInfoBytes := authInfoBytes;
          SignDoc.chainId := CONFIG.chainId;
          SignDoc.accountNumber := accountNumber |} in
     let signBytes := SignDoc.encode signDoc in
     match solflare w with
     | None =>
         throw (TypeError "Cannot read properties of undefined (reading 'signMessage')")
     | Some wallet =>
         signature <- await (WalletSignMessage signBytes None)
                        (signMessage wallet signBytes) ;;
         let txRaw :=
           {| TxRaw.bodyBytes := txBodyBytes;
              TxRaw.authInfoBytes := authInfoBytes;
              TxRaw.signatures := [signature] |} in
         let txBytes := TxRaw.encode txRaw in
         result <- broadcastTransaction (node w) txBytes ;;
         report result
     end)
    (fun error => ret (Failed (String_ error))).

Definition checkSolflareWallet (w : World) : bool :=
  match solflare w with
  | Some wallet => isSolflare wallet
  | None => false
  end.

Definition testTransaction (w : World) : Async SendResult :=
  sendTransaction w None (Some "1") (Some "Solflare ED25519 test").

End Solflare.

(** [connect], which the script exposes as [window.connect]. *)
Module SolflareWindow.
Import Nolus Solflare.

Definition connect (w : World) : Async unit :=
  try_catch
    (if negb (checkSolflareWallet w) then throw (Error "Solflare required")
     else
       address <- getAddress w ;;
       let bech32Addr := bech32Addr address in
       account <- fetchAccountInfo (node w) bech32Addr ;;
       started <- detached (testTransaction w) ;;
       ret tt)
    (fun error => throw error).

End SolflareWindow.

(** ** [src/phantom_not_working.ts], first script *)

Module Phantom.
Import Nolus.

(** [window.phantom.solana] and what it answers in this run. *)
Record Wallet := {
  isPhantom : bool;
  connect : completion (option PublicKey);
  signMessage : bytes -> option string -> completion bytes }.

Record World := { phantom : option Wallet; node : Node }.

Definition getAddress (w : World) : Async Address :=
  try_catch
    (connected <-
       match phantom w with
       | Some wallet => await WalletConnect (connect wallet)
       | None =>
           throw (TypeError
             "Cannot destructure property 'publicKey' of '(intermediate value)' as it is undefined.")
       end ;;
     match connected with
     | None =>
         throw (Error "Connection failed—user rejected or no publicKey available.")
     | Some publicKey =>
         let solanaAddress := toBase58 publicKey in
         let ed25519PublicKey := toBytes publicKey in
         let ed25519PubkeyProtoBytes :=
           PubKey.encode {| PubKey.key := ed25519PublicKey |} in
         let pubkeyAny :=
           {| typeUrl := "/cosmos.crypto.ed25519.PubKey";
              value := Base64.toBase64 ed25519PubkeyProtoBytes |} in
         let hashBytes := Sha256.sha256 ed25519PublicKey in
         let addressBytes := slice 0 20 hashBytes in
         bech32Addr <- call (Bech32.encode CONFIG.addressPrefix
                               (Bech32.toWords addressBytes)) ;;
         ret {| solanaAddress := solanaAddress;
                pubkeyAny := pubkeyAny;
                bech32Addr := bech32Addr;
                ed25519PublicKey := ed25519PublicKey |}
     end)
    (fun connectError =>
       throw (Error ("Failed to connect to Phantom: " ++ String_ connectError))).

Definition sendTransaction (w : World) (toAddress amountStr memo : option string)
  : Async SendResult :=
  try_catch
    (address <- getAddress w ;;
     let pubkeyAny := pubkeyAny address in
     let bech32Addr := bech32Addr address in
     account <- fetchAccountInfo (node w) bech32Addr ;;
     let accountNumber := accountNumber account in
     let sequence := sequence account in
     let amount := or_default amountStr "1000000" in
     let toAddr := or_default toAddress bech32Addr in
     let feeAmount := "500" in
     let gasLimit := 200000 in
     let msgSend :=
       {| MsgSend.fromAddress := bech32Addr;
          MsgSend.toAddress := toAddr;
          MsgSend.amount := [{| Coin.denom := CONFIG.denom; Coin.amount := amount |}] |} in
     let txBody :=
       {| TxBody.messages :=
            [{| Any.typeUrl := "/cosmos.bank.v1beta1.MsgSend";
                Any.value := MsgSend.encode msgSend |}];
          TxBody.memo := or_default memo "phantom-ed25519-test" |} in
     let txBodyBytes := TxBody.encode txBody in
     publicKeyValue <- call (Base64.fromBase64 (value pubkeyAny)) ;;
     let authInfo :=
       {| AuthInfo.signerInfos :=
            [{| SignerInfo.publicKey :=
                  Some {| Any.typeUrl := typeUrl pubkeyAny;
                          Any.value := publicKeyValue |};
                SignerInfo.modeInfo :=
                  Some {| ModeInfo.single :=
                            Some {| ModeInfo.mode := SignMode.SIGN_MODE_DIRECT |} |};
                SignerInfo.sequence := sequence |}];
          AuthInfo.fee :=
            Some {| Fee.amount := [{| Coin.denom := CONFIG.denom;
                                      Coin.amount := feeAmount |}];
                    Fee.gasLimit := gasLimit |} |} in
     let authInfoBytes := AuthInfo.encode authInfo in
     let signDoc :=
       {| SignDoc.bodyBytes := txBodyBytes;
          SignDoc.authInfoBytes := authInfoBytes;
          SignDoc.chainId := CONFIG.chainId;
          SignDoc.accountNumber := accountNumber |} in
     let signBytes := SignDoc.encode signDoc in
     match phantom w with
     | None =>
         throw (TypeError "Cannot read properties of undefined (reading 'solana')")
     | Some wallet =>
         signature <- await (WalletSignMessage signBytes (Some "utf8"))
                        (signMessage wallet signBytes (Some "utf8")) ;;
         let txRaw :=
           {| TxRaw.bodyBytes := txBodyBytes;
              TxRaw.authInfoBytes := authInfoBytes;
              TxRaw.signatures := [signature] |} in
         let txBytes := TxRaw.encode txRaw in
         result <- broadcastTransaction (node w) txBytes ;;
         report result
     end)
    (fun error => ret (Failed (String_ error))).

Definition checkPhantomWallet (w : World) : bool :=
  match phantom w with
  | Some wallet => isPhantom wallet
  | None => false
  end.

Definition testTransaction (w : World) : Async SendResult :=
  sendTransaction w None (Some "1") (Some "Phantom ED25519 test").

End Phantom.

Module PhantomWindow.
Import Nolus Phantom.

Definition connect (w : World) : Async unit :=
  try_catch
    (if negb (checkPhantomWallet w) then throw (Error "Phantom required")
     else
       address <- getAddress w ;;
       let bech32Addr := bech32Addr address in
       account <- fetchAccountInfo (node w) bech32Addr ;;
       started <- detached (testTransaction w) ;;
       ret tt)
    (fun error => throw error).

End PhantomWindow.

(** ** [src/phantom_not_working.ts], second script *)

Module PhantomProvider.
Import Nolus.

(** A [PhantomProvider] and what it answers in this run. *)
Record Provider := {
  isPhantom : bool;
  connect : completion (option PublicKey);
  signMessage : bytes -> completion bytes }.

(** [window.phantom?.solana] and [window.solana]. *)
Record World := {
  phantom_solana : option Provider;
  solana : option Provider;
  node : Node }.

Definition getPhantom (w : World) : option Provider :=
  match phantom_solana w with
  | Some p => Some p
  | None => solana w
  end.

Definition checkPhantomWallet (w : World) : bool :=
  match getPhantom w with
  | Some p => isPhantom p
  | None => false
  end.

Definition getAddress (w : World) : Async Address :=
  match getPhantom w with
  | Some phantom =>
      if negb (isPhantom phantom) then
        throw (Error "Phantom wallet not found! Install from https://phantom.app/")
      else
        try_catch
          (connected <- await WalletConnect (connect phantom) ;;
           match connected with
           | None =>
               throw (Error "Connection failed—user rejected or no publicKey available.")
           | Some publicKey =>
               let solanaAddress := toBase58 publicKey in
               let ed25519PublicKey := toBytes publicKey in
               let ed25519PubkeyProtoBytes :=
                 PubKey.encode {| PubKey.key := ed25519PublicKey |} in
               let pubkeyAny :=
                 {| typeUrl := "/cosmos.crypto.ed25519.PubKey";
                    value := Base64.toBase64 ed25519PubkeyProtoBytes |} in
               let hashBytes := Sha256.sha256 ed25519PublicKey in
               let addressBytes := slice 0 20 hashBytes in
               bech32Addr <- call (Bech32.encode CONFIG.addressPrefix
                                     (Bech32.toWords addressBytes)) ;;
               ret {| solanaAddress := solanaAddress;
                      pubkeyAny := pubkeyAny;
                      bech32Addr := bech32Addr;
                      ed25519PublicKey := ed25519PublicKey |}
           end)
          (fun e => throw (Error ("Failed to connect to Phantom: " ++ String_ e)))
  | None =>
      throw (Error "Phantom wallet not found! Install from https://phantom.app/")
  end.

Definition sendTransaction (w : World) (toAddress amountStr memo : option string)
  : Async SendResult :=
  try_catch
    (address <- getAddress w ;;
     let pubkeyAny := pubkeyAny address in
     let bech32Addr := bech32Addr address in
     account <- fetchAccountInfo (node w) bech32Addr ;;
     let accountNumber := accountNumber account in
     let sequence := sequence account in
     let amount := or_default amountStr "1000000" in
     let toAddr := or_default toAddress bech32Addr in
     let feeAmount := "500" in
     let gasLimit := 200000 in
     let msgSend :=
       {| MsgSend.fromAddress := bech32Addr;
          MsgSend.toAddress := toAddr;
          MsgSend.amount := [{| Coin.denom := CONFIG.denom; Coin.amount := amount |}] |} in
     let txBody :=
       {| TxBody.messages :=
            [{| Any.typeUrl := "/cosmos.bank.v1beta1.MsgSend";
                Any.value := MsgSend.encode msgSend |}];
          TxBody.memo := or_default memo "phantom-ed25519-test" |} in
     let txBodyBytes := TxBody.encode txBody in
     publicKeyValue <- call (Base64.fromBase64 (value pubkeyAny)) ;;
     let authInfo :=
       {| AuthInfo.signerInfos :=
            [{| SignerInfo.publicKey :=
                  Some {| Any.typeUrl := typeUrl pubkeyAny;
                          Any.value := publicKeyValue |};
                SignerInfo.modeInfo :=
                  Some {| ModeInfo.single :=
                            Some {| ModeInfo.mode := SignMode.SIGN_MODE_DIRECT |} |};
                SignerInfo.sequence := sequence |}];
          AuthInfo.fee :=
            Some {| Fee.amount := [{| Coin.denom := CONFIG.denom;
                                      Coin.amount := feeAmount |}];
                    Fee.gasLimit := gasLimit |} |} in
     let authInfoBytes := AuthInfo.encode authInfo in
     let signDoc :=
       {| SignDoc.bodyBytes := txBodyBytes;
          SignDoc.authInfoBytes := authInfoBytes;
          SignDoc.chainId := CONFIG.chainId;
          SignDoc.accountNumber := accountNumber |} in
     let signBytes := SignDoc.encode signDoc in
     match getPhantom w with
     | None =>
         throw (TypeError "Cannot read properties of undefined (reading 'signMessage')")
     | Some phantom =>
         let encodedMessage :=
           Utf8.TextEncoder_encode (Utf8.Buffer_toString signBytes) in
         signature <- await (WalletSignMessage encodedMessage None)
                        (signMessage phantom encodedMessage) ;;
         let txRaw :=
           {| TxRaw.bodyBytes := txBodyBytes;
              TxRaw.authInfoBytes := authInfoBytes;
              TxRaw.signatures := [signature] |} in
         let txBytes := TxRaw.encode txRaw in
         result <- broadcastTransaction (node w) txBytes ;;
         report result
     end)
    (fun error => ret (Failed (String_ error))).

Definition testTransaction (w : World) : Async SendResult :=
  sendTransaction w None (Some "1") (Some "Phantom ED25519 test").

End PhantomProvider.

Module PhantomProviderWindow.
Import Nolus PhantomProvider.

Definition connect (w : World) : Async unit :=
  try_catch
    (if negb (checkPhantomWallet w) then throw (Error "Phantom required")
     else
       address <- getAddress w ;;
       let bech32Addr := bech32Addr address in
       account <- fetchAccountInfo (node w) bech32Addr ;;
       started <- detached (testTransaction w) ;;
       ret tt)
    (fun error => throw error).

End PhantomProviderWindow.

(** ** [metamask/nolus.ts] *)

Module MetaMask.

Module CONFIG.
Definition rpc := "https://pion-rpc.nolus.network".
Definition chainId := "pion-1".
Definition addressPrefix := "neutron".
Definition denom := "untrn".
Definition faucetUrl := "https://faucet.pulsar.scrttestnet.com/".
End CONFIG.

(** [window.ethereum.request], by method. *)
Record Ethereum := {
  eth_requestAccounts : completion unit;
  eth_accounts : completion (list string);
  personal_sign : string -> option string -> completion string }.

(** The secp256k1 side of ethers, which is not modelled: the EIP-191
    digest of a message, and the recovery of the public key (a hex
    string) from a digest and a signature. *)
Record Ethers := {
  hashMessage : string -> string;
  recoverPublicKey : string -> string -> completion string }.

Record World := { ethereum : option Ethereum; ethers : Ethers; node : Node }.

Record Address := {
  ethAddress : option string;
  pubkeyAny : Any.t;
  bech32Addr : string }.

(** [{ accountNumber, sequence }], two numbers. *)
Record AccountInfo := { accountNumber : N; sequence : N }.

(** [{ success: true, hash, result }] or
    [{ success: false, error, result }]. *)
Inductive SendResult :=
| Sent (hash : option string) (result : RpcResult)
| Rejected (error : option string) (result : RpcResult).

Definition success (r : SendResult) : bool :=
  match r with Sent _ _ => true | Rejected _ _ => false end.

(** [hexlify] of ethers. *)
Definition hexlify (data : bytes) : string := "0x" ++ Hex.toHex data.

(** [getBytes] of ethers on a string: [0x] and pairs of hex digits. *)
Definition getBytes (value : string) : completion bytes :=
  match JsNumber.drop_prefix "0x" value with
  | Some digits =>
      match Hex.fromHex digits with
      | Return data => Return data
      | Throw _ => Throw (TypeError "invalid BytesLike value")
      end
  | None => Throw (TypeError "invalid BytesLike value")
  end.

(** [window.ethereum.request({ method, params })]. *)
Definition request {A} (w : World) (method : string) (params : list (option string))
    (answer : Ethereum -> completion A) : Async A :=
  match ethereum w with
  | Some provider => await (EthereumRequest method params) (answer provider)
  | None => throw (TypeError "Cannot read properties of undefined (reading 'request')")
  end.

(** [new Uint8Array(33)], its first byte set from the parity of the
    last byte of [y], then [set(x, 1)]. *)
Definition compress (uncompressed : bytes) : bytes :=
  let x := slice 1 33 uncompressed in
  let y := slice_from 33 uncompressed in
  let parity := byte_to_Z (last y x00) mod 2 in
  ((if parity =? 0 then x02 else x03)
     :: x ++ repeat x00 (32 - List.length x))%list.

Definition getAddress (w : World) : Async Address :=
  requested <- request w "eth_requestAccounts" [] eth_requestAccounts ;;
  accounts <- request w "eth_accounts" [] eth_accounts ;;
  let ethAddress := nth_error accounts 0 in
  let message := "Generate Cosmos pubkey" in
  sig <- request w "personal_sign" [Some (hexlify (toUtf8Bytes message)); ethAddress]
           (fun provider =>
              personal_sign provider (hexlify (toUtf8Bytes message)) ethAddress) ;;
  let digest := hashMessage (ethers w) message in
  fullPubkey <- call (recoverPublicKey (ethers w) digest sig) ;;
  uncompressed <- call (getBytes fullPubkey) ;;
  let compressed := compress uncompressed in
  let pubkeyProtoBytes := PubKey.encode {| PubKey.key := compressed |} in
  let pubkeyAny :=
    {| Any.typeUrl := "/cosmos.crypto.secp256k1.PubKey";
       Any.value := pubkeyProtoBytes |} in
  let sha := Sha256.sha256 compressed in
  let rip := Ripemd160.ripemd160 sha in
  bech32Addr <- call (Bech32.encode CONFIG.addressPrefix (Bech32.toWords rip)) ;;
  ret {| ethAddress := ethAddress; pubkeyAny := pubkeyAny; bech32Addr := bech32Addr |}.

Definition fetchAccountInfo (w : World) (address : string) : Async AccountInfo :=
  try_catch
    (client <- await (StargateConnect CONFIG.rpc)
                 (StargateClient_connect (node w) CONFIG.rpc) ;;
     account <- await (GetAccount address) (getAccount (node w) address) ;;
     match account with
     | None => ret {| accountNumber := 0; sequence := 0 |}
     | Some account =>
         ret {| accountNumber := Account.accountNumber account;
                sequence := Account.sequence account |}
     end)
    (fun error => throw error).

Definition broadcastTransaction (w : World) (txBytes : bytes)
  : Async (option RpcResult) :=
  try_catch
    (let body :=
       Json.stringify
         (Json.Obj [("jsonrpc", Json.Str "2.0");
                    ("id", Json.Num (Date_now (node w)));
                    ("method", Json.Str "broadcast_tx_sync");
                    ("params", Json.Obj [("tx", Json.Str (Base64.toBase64 txBytes))])])
         0 in
     let headers := [("Content-Type", "application/json");
                     ("Accept", "application/json")] in
     response <- await (HttpPost CONFIG.rpc headers body)
                   (fetch (node w) CONFIG.rpc headers body) ;;
     match error response with
     | Some error =>
         throw (Error ("Neutron RPC Error: " ++ template (message error)))
     | None => ret (result response)
     end)
    (fun error => throw error).

(** The number [n] as [n.toString()] prints it: an unsigned integer of
    cosmjs is below [2^53] and prints all its digits. *)
Definition toString (n : N) : string := JsNumber.decimal (Z.of_N n).

Definition sendTransaction (w : World) (toAddress amount memo : option string)
  : Async SendResult :=
  try_catch
    (address <- getAddress w ;;
     let ethAddress := ethAddress address in
     let pubkeyAny := pubkeyAny address in
     let bech32Addr := bech32Addr address in
     account <- fetchAccountInfo w bech32Addr ;;
     let accountNumber := accountNumber account in
     let sequence := sequence account in
     let exactSignDoc :=
       Json.Obj
         [("account_number", Json.Str (toString accountNumber));
          ("chain_id", Json.Str CONFIG.chainId);
          ("fee", Json.Obj
             [("amount", Json.Arr
                 [Json.Obj [("amount", Json.Str "5000");
                            ("denom", Json.Str CONFIG.denom)]]);
              ("gas", Json.Str "200000")]);
          ("memo", Json.Str (or_default memo "Neutron Network transaction"));
          ("msgs", Json.Arr
             [Json.Obj
                [("type", Json.Str "cosmos-sdk/MsgSend");
                 ("value", Json.Obj
                    [("amount", Json.Arr
                        [Json.Obj [("amount", Json.Str (or_default amount "1000000"));
                                   ("denom", Json.Str CONFIG.denom)]]);
                     ("from_address", Json.Str bech32Addr);
                     ("to_address", Json.Str (or_default toAddress bech32Addr))])]]);
          ("sequence", Json.Str (toString sequence))] in
     let messageBytes := toUtf8Bytes (Json.stringify exactSignDoc 4) in
     let msgToSign := "0x" ++ Hex.toHex messageBytes in
     sigResult <- request w "personal_sign" [Some msgToSign; ethAddress]
                    (fun provider => personal_sign provider msgToSign ethAddress) ;;
     sig <- call (Hex.fromHex (string_slice_neg 2 2 sigResult)) ;;
     let msgSend :=
       {| MsgSend.fromAddress := bech32Addr;
          MsgSend.toAddress := or_default toAddress bech32Addr;
          MsgSend.amount := [{| Coin.denom := CONFIG.denom;
                                Coin.amount := or_default amount "1000000" |}] |} in
     let txBodyBytes :=
       TxBody.encode
         {| TxBody.messages :=
              [{| Any.typeUrl := "/cosmos.bank.v1beta1.MsgSend";
                  Any.value := MsgSend.encode msgSend |}];
            TxBody.memo := or_default memo "Neutron Network transaction" |} in
     let authInfoBytes :=
       AuthInfo.encode
         {| AuthInfo.signerInfos :=
              [{| SignerInfo.publicKey := Some pubkeyAny;
                  SignerInfo.modeInfo :=
                    Some {| ModeInfo.single :=
                              Some {| ModeInfo.mode := SignMode.SIGN_MODE_EIP_191 |} |};
                  SignerInfo.sequence := Z.of_N sequence |}];
            AuthInfo.fee :=
              Some {| Fee.amount := [{| Coin.denom := CONFIG.denom;
                                        Coin.amount := "5000" |}];
                      Fee.gasLimit := 200000 |} |} in
     let txRaw :=
       {| TxRaw.bodyBytes := txBodyBytes;
          TxRaw.authInfoBytes := authInfoBytes;
          TxRaw.signatures := [sig] |} in
     let txBytes := TxRaw.encode txRaw in
     result <- broadcastTransaction w txBytes ;;
     match result with
     | None => throw (TypeError "Cannot read properties of undefined (reading 'code')")
     | Some result =>
         if code_is_zero result then ret (Sent (hash result) result)
         else ret (Rejected (log result) result)
     end)
    (fun error => throw error).

(** [checkTestnet] resolves to the JSON of the answer. *)
Definition checkTestnet (w : World) : Async RpcResponse :=
  try_catch
    (let body :=
       Json.stringify
         (Json.Obj [("jsonrpc", Json.Str "2.0");
                    ("id", Json.Num 1);
                    ("method", Json.Str "abci_info");
                    ("params", Json.Obj [])])
         0 in
     let headers := [("Content-Type", "application/json")] in
     result <- await (HttpPost CONFIG.rpc headers body)
                 (fetch (node w) CONFIG.rpc headers body) ;;
     ret result)
    (fun error => throw error).

(** [{ address, accountNumber, sequence }]. *)
Definition getAccountInfo (w : World) : Async (string * N * N) :=
  try_catch
    (address <- getAddress w ;;
     let bech32Addr := bech32Addr address in
     accountInfo <- fetchAccountInfo w bech32Addr ;;
     ret (bech32Addr, accountNumber accountInfo, sequence accountInfo))
    (fun error => throw error).

End MetaMask.

(** ** The console front end of the MetaMask script *)

Module Main.
Import MetaMask.

(** [{ success: true, hash, explorerUrl }] or [{ success: false, error }]. *)
Inductive FnResult :=
| FnSent (hash explorerUrl : option string)
| FnFailed (error : option string).

Definition sendTransactionFn (w : World) (toAddress amount memo : option string)
  : Async FnResult :=
  try_catch
    (result <- sendTransaction w toAddress amount memo ;;
     match result with
     | Sent hash _ => ret (FnSent hash hash)
     | Rejected error _ => ret (FnFailed error)
     end)
    (fun error => throw error).

Definition testTransaction (w : World) : Async SendResult :=
  try_catch
    (result <- sendTransaction w None (Some "1000000")
                 (Some "Test transaction from MetaMask") ;;
     if success result then ret result else ret result)
    (fun error => throw error).

Definition sendToAddress (w : World) (recipientAddress amount : string)
    (memo : option string) : Async SendResult :=
  try_catch
    (result <- sendTransaction w (Some recipientAddress) (Some amount) memo ;;
     ret result)
    (fun error => throw error).

(** [{ success: true, address, accountNumber, sequence }]. *)
Definition connect (w : World) : Async (string * N * N) :=
  try_catch
    (info <- checkTestnet w ;;
     accountInfo <- getAccountInfo w ;;
     sent <- sendTransaction w (Some "nolus1nlfjlsfrvlruxylh22teyp80mtc72wgx2c3u9r")
               (Some "1") (Some "test") ;;
     ret accountInfo)
    (fun error => throw error).

Definition scrtToUscrt (scrtAmount : JsNumber.number) : string :=
  JsNumber.toString (JsNumber.mul scrtAmount (JsNumber.ofZ 1000000)).

Definition uscrtToScrt (uscrtAmount : string) : JsNumber.number :=
  JsNumber.div (JsNumber.parseInt uscrtAmount) (JsNumber.ofZ 1000000).

End Main.

(* ================================================================== *)
(** ** [vite.config.ts] *)

(** The one function of the build configuration, [manualChunks], which
    names the chunk of a module from its path. *)
Module ViteConfig.

(** [s.includes(sub)]. *)
Fixpoint includes (sub s : string) : bool :=
  String.prefix sub s
  || match s with
     | "" => false
     | String _ rest => includes sub rest
     end.

(** [s.split(separator)] for a separator that is not empty: the pieces
    between its occurrences, found from left to right.  [skip] counts the
    characters of an occurrence that are still to be passed over, [piece]
    holds the piece that is being read. *)
Fixpoint split_loop (separator s : string) (skip : nat) (piece : string)
  : list string :=
  match s with
  | "" => [piece]
  | String c rest =>
      match skip with
      | S k => split_loop separator rest k piece
      | O =>
          if String.prefix separator s then
            piece :: split_loop separator rest (String.length separator - 1) ""
          else split_loop separator rest 0 (piece ++ String c "")
      end
  end.

Definition split (separator s : string) : list string :=
  split_loop separator s 0 "".

(** [manualChunks(id)]: a chunk name, or [undefined]. *)
Definition manualChunks (id : string) : completion (option string) :=
  if includes "node_modules" id then
    match nth_error (split "node_modules/" id) 1 with
    | None =>
        Throw (TypeError "Cannot read properties of undefined (reading 'split')")
    | Some after =>
        let parts := split "/" after in
        match parts with
        | [] =>
            Throw (TypeError
                     "Cannot read properties of undefined (reading 'startsWith')")
        | first :: _ =>
            let pkg :=
              if String.prefix "@" first then Json.join "/" (firstn 2 parts)
              else first in
            Return (Some ("vendor_" ++ pkg))
        end
    end
  else Return None.

End ViteConfig.

(* ================================================================== *)
(** * The vocabulary of the specification

    The definitions of this part follow the words of the specification,
    not the text of the scripts: the theorems compare the two. *)

Module Spec.

(** The address of the Phantom and Solflare scripts: bech32, prefix
    [nolus], of the first 20 bytes of SHA-256 of the public key. *)
Definition nolus_address (ed25519PublicKey : bytes) : completion string :=
  Bech32.encode "nolus"
    (Bech32.toWords (firstn 20 (Sha256.sha256 ed25519PublicKey))).

(** The address of the MetaMask script: bech32, prefix [neutron], of
    RIPEMD-160 of SHA-256 of the compressed public key. *)
Definition neutron_address (compressed : bytes) : completion string :=
  Bech32.encode "neutron"
    (Bech32.toWords (Ripemd160.ripemd160 (Sha256.sha256 compressed))).

(** The account state that a reply of the node stands for: account
    number and sequence, both zero when the node knows no account. *)
Definition fetched (reply : option Account.t) : N * N :=
  match reply with
  | Some account => (Account.accountNumber account, Account.sequence account)
  | None => (0%N, 0%N)
  end.

Definition account_number (state : N * N) : Z := Z.of_N (fst state).
Definition sequence (state : N * N) : Z := Z.of_N (snd state).

(** The body of a bank transfer of one coin, with a memo. *)
Definition transfer (denom sender recipient amount memo : string) : TxBody.t :=
  {| TxBody.messages :=
       [{| Any.typeUrl := "/cosmos.bank.v1beta1.MsgSend";
           Any.value :=
             MsgSend.encode
               {| MsgSend.fromAddress := sender;
                  MsgSend.toAddress := recipient;
                  MsgSend.amount :=
                    [{| Coin.denom := denom; Coin.amount := amount |}] |} |}];
     TxBody.memo := memo |}.

(** The auth info of one signer: public key, signing mode and sequence
    in its [SignerInfo]; a fee of one coin and a gas limit. *)
Definition signer (publicKey : Any.t) (mode sequence : Z)
    (denom fee : string) (gas : Z) : AuthInfo.t :=
  {| AuthInfo.signerInfos :=
       [{| SignerInfo.publicKey := Some publicKey;
           SignerInfo.modeInfo :=
             Some {| ModeInfo.single := Some {| ModeInfo.mode := mode |} |};
           SignerInfo.sequence := sequence |}];
     AuthInfo.fee :=
       Some {| Fee.amount := [{| Coin.denom := denom; Coin.amount := fee |}];
               Fee.gasLimit := gas |} |}.

Definition ed25519_key (publicKey : bytes) : Any.t :=
  {| Any.typeUrl := "/cosmos.crypto.ed25519.PubKey";
     Any.value := PubKey.encode {| PubKey.key := publicKey |} |}.

Definition secp256k1_key (compressed : bytes) : Any.t :=
  {| Any.typeUrl := "/cosmos.crypto.secp256k1.PubKey";
     Any.value := PubKey.encode {| PubKey.key := compressed |} |}.

(** The sign document of the Phantom and Solflare scripts: fee 500 unls,
    gas limit 200000, chain pirin-1, mode SIGN_MODE_DIRECT. *)
Definition direct_auth (publicKey : bytes) (sequence : Z) : AuthInfo.t :=
  signer (ed25519_key publicKey) SignMode.SIGN_MODE_DIRECT sequence
    "unls" "500" 200000.

Definition direct_sign_doc (publicKey : bytes)
    (sender recipient amount memo : string) (state : N * N) : SignDoc.t :=
  {| SignDoc.bodyBytes := TxBody.encode (transfer "unls" sender recipient amount memo);
     SignDoc.authInfoBytes :=
       AuthInfo.encode (direct_auth publicKey (sequence state));
     SignDoc.chainId := "pirin-1";
     SignDoc.accountNumber := account_number state |}.

(** The final signed transaction: body, auth info and one signature. *)
Definition signed_tx (body auth : bytes) (signature : bytes) : bytes :=
  TxRaw.encode {| TxRaw.bodyBytes := body;
                  TxRaw.authInfoBytes := auth;
                  TxRaw.signatures := [signature] |}.

Definition direct_tx (publicKey : bytes) (sender recipient amount memo : string)
    (state : N * N) (signature : bytes) : bytes :=
  signed_tx (TxBody.encode (transfer "unls" sender recipient amount memo))
    (AuthInfo.encode (direct_auth publicKey (sequence state))) signature.

(** The JSON-RPC envelope: exactly [jsonrpc], [id], [method], [params]. *)
Definition envelope (id : Z) (method : string) (params : Json.value) : Json.value :=
  Json.Obj [("jsonrpc", Json.Str "2.0"); ("id", Json.Num id);
            ("method", Json.Str method); ("params", params)].

Definition broadcast_body (id : Z) (txBytes : bytes) : string :=
  Json.stringify
    (envelope id "broadcast_tx_sync"
       (Json.Obj [("tx", Json.Str (Base64.toBase64 txBytes))]))
    0.

Definition abci_info_body : string :=
  Json.stringify (envelope 1 "abci_info" (Json.Obj [])) 0.

(** A coin of the JSON sign document: the [amount] key, then [denom]. *)
Definition json_coin (amount denom : string) : Json.value :=
  Json.Obj [("amount", Json.Str amount); ("denom", Json.Str denom)].

(** The JSON sign document of the MetaMask script. *)
Definition json_sign_doc (state : N * N)
    (sender recipient amount memo : string) : Json.value :=
  Json.Obj
    [("account_number", Json.Str (JsNumber.decimal (account_number state)));
     ("chain_id", Json.Str "pion-1");
     ("fee", Json.Obj [("amount", Json.Arr [json_coin "5000" "untrn"]);
                       ("gas", Json.Str "200000")]);
     ("memo", Json.Str memo);
     ("msgs", Json.Arr
        [Json.Obj
           [("type", Json.Str "cosmos-sdk/MsgSend");
            ("value", Json.Obj
               [("amount", Json.Arr [json_coin amount "untrn"]);
                ("from_address", Json.Str sender);
                ("to_address", Json.Str recipient)])]]);
     ("sequence", Json.Str (JsNumber.decimal (sequence state)))].

(** What the MetaMask script asks [personal_sign] to sign: the JSON
    document with 4 spaces of indentation, as hex. *)
Definition json_payload (doc : Json.value) : string :=
  "0x" ++ Hex.toHex (toUtf8Bytes (Json.stringify doc 4)).

Definition eip191_auth (compressed : bytes) (sequence : Z) : AuthInfo.t :=
  signer (secp256k1_key compressed) SignMode.SIGN_MODE_EIP_191 sequence
    "untrn" "5000" 200000.

Definition eip191_tx (compressed : bytes) (sender recipient amount memo : string)
    (state : N * N) (signature : bytes) : bytes :=
  signed_tx (TxBody.encode (transfer "untrn" sender recipient amount memo))
    (AuthInfo.encode (eip191_auth compressed (sequence state))) signature.

(** The message whose signature the MetaMask script recovers the public
    key from. *)
Definition key_message : string := "Generate Cosmos pubkey".

(** An integer is exactly representable when rounding it to binary64
    leaves it as it is. *)
Definition representable (z : Z) : Prop :=
  JsNumber.round (z # 1) = JsNumber.Finite (z # 1).

(** The three requests of the MetaMask script that lead to the key. *)
Definition key_requests (ethAddress : option string) : list Request :=
  [EthereumRequest "eth_requestAccounts" [];
   EthereumRequest "eth_accounts" [];
   EthereumRequest "personal_sign"
     [Some (MetaMask.hexlify (toUtf8Bytes key_message)); ethAddress]].

(** An optional argument: its value when it is given (and, as the
    scripts test it with [||], not empty), else the default. *)
Definition given_or (argument : option string) (default : string) : string :=
  match argument with
  | None => default
  | Some "" => default
  | Some text => text
  end.

(** No request is sent twice, and at most one of them is a POST. *)
Definition is_post (r : Request) : bool :=
  match r with HttpPost _ _ _ => true | _ => false end.

Definition is_signature (r : Request) : bool :=
  match r with WalletSignMessage _ _ => true | _ => false end.

(** A request to the wallet for a signature, in either kind of wallet. *)
Definition asks_signature (r : Request) : bool :=
  match r with
  | WalletSignMessage _ _ => true
  | EthereumRequest method _ => (method =? "personal_sign")%string
  | _ => false
  end.

(** The names of the members of every object of a JSON value ascend. *)
Fixpoint ascending (names : list string) : bool :=
  match names with
  | a :: (b :: _) as rest => String.ltb a b && ascending rest
  | _ => true
  end.

Fixpoint keys_sorted (v : Json.value) : bool :=
  match v with
  | Json.Obj members =>
      ascending (map fst members) && forallb (fun m => keys_sorted (snd m)) members
  | Json.Arr items => forallb keys_sorted items
  | _ => true
  end.

(** What the front end makes of the result of [sendTransaction]. *)
Definition front_end (c : completion MetaMask.SendResult)
  : completion Main.FnResult :=
  match c with
  | Return (MetaMask.Sent hash _) => Return (Main.FnSent hash hash)
  | Return (MetaMask.Rejected error _) => Return (Main.FnFailed error)
  | Throw e => Throw e
  end.

Definition no_retry (trace : list Request) : Prop :=
  NoDup trace /\ (List.length (filter is_post trace) <= 1)%nat.

(** The reply of the node to a POST is a result with code 0 and no
    RPC-level error. *)
Definition accepted (node : Node) (url : string) (headers : list (string * string))
    (body : string) (res : RpcResult) : Prop :=
  fetch node url headers body = Return {| result := Some res; error := None |}
  /\ code res = Some 0.

(** The public key that each wallet hands to its script in a world. *)
Definition solflare_key (w : Solflare.World) (wallet : Solflare.Wallet)
    (publicKey : bytes) : Prop :=
  Solflare.solflare w = Some wallet
  /\ Solflare.isSolflare wallet = true
  /\ Solflare.connect wallet = Return true
  /\ exists key, Solflare.publicKey wallet = Some key /\ toBytes key = publicKey.

Definition phantom_key (w : Phantom.World) (wallet : Phantom.Wallet)
    (publicKey : bytes) : Prop :=
  Phantom.phantom w = Some wallet
  /\ exists key, Phantom.connect wallet = Return (Some key) /\ toBytes key = publicKey.

Definition provider_key (w : PhantomProvider.World)
    (provider : PhantomProvider.Provider) (publicKey : bytes) : Prop :=
  PhantomProvider.getPhantom w = Some provider
  /\ PhantomProvider.isPhantom provider = true
  /\ exists key, PhantomProvider.connect provider = Return (Some key)
                 /\ toBytes key = publicKey.

(** MetaMask: the accounts are requested, the first account signs the
    key message, and the public key recovered from that signature is
    compressed. *)
Definition metamask_key (w : MetaMask.World) (provider : MetaMask.Ethereum)
    (ethAddress : option string) (compressed : bytes) : Prop :=
  MetaMask.ethereum w = Some provider
  /\ exists accounts sig fullPubkey uncompressed,
       MetaMask.eth_requestAccounts provider = Return tt
       /\ MetaMask.eth_accounts provider = Return accounts
       /\ ethAddress = nth_error accounts 0
       /\ MetaMask.personal_sign provider
            (MetaMask.hexlify (toUtf8Bytes key_message)) ethAddress = Return sig
       /\ MetaMask.recoverPublicKey (MetaMask.ethers w)
            (MetaMask.hashMessage (MetaMask.ethers w) key_message) sig
          = Return fullPubkey
       /\ MetaMask.getBytes fullPubkey = Return uncompressed
       /\ compressed = MetaMask.compress uncompressed.

End Spec.

(** * Sample worlds, for running the scripts *)

Module Sample.

Definition key32 : bytes := bytes_of_Zs (map Z.of_nat (seq 1 32)).
Definition signature64 : bytes := bytes_of_Zs (map Z.of_nat (seq 100 64)).

Definition ok_result : RpcResult :=
  {| code := Some 0; txhash := None; hash := Some "5F3A"; log := None; info := None |}.

(** A node that knows the account (number 7, sequence 3) and accepts the
    transaction. *)
Definition node : Node :=
  {| StargateClient_connect := fun _ => Return tt;
     getAccount := fun _ =>
       Return (Some {| Account.accountNumber := 7; Account.sequence := 3 |});
     fetch := fun _ _ _ => Return {| result := Some ok_result; error := None |};
     Date_now := 1700000000000 |}.

(** The same node before the account exists. *)
Definition fresh_node : Node :=
  {| StargateClient_connect := fun _ => Return tt;
     getAccount := fun _ => Return None;
     fetch := fun _ _ _ => Return {| result := Some ok_result; error := None |};
     Date_now := 1700000000000 |}.

(** A node that replies to the broadcast with code 5. *)
Definition rejecting_node : Node :=
  {| StargateClient_connect := fun _ => Return tt;
     getAccount := fun _ => Return None;
     fetch := fun _ _ _ =>
       Return {| result := Some {| code := Some 5; txhash := None; hash := None;
                                   log := Some "insufficient funds";
                                   info := None |};
                 error := None |};
     Date_now := 1700000000000 |}.

(** A node that cannot be reached for the account lookup. *)
Definition unreachable_node : Node :=
  {| StargateClient_connect := fun _ => Throw (TypeError "Failed to fetch");
     getAccount := fun _ => Return None;
     fetch := fun _ _ _ => Return {| result := Some ok_result; error := None |};
     Date_now := 1700000000000 |}.

(** A node that answers the broadcast with a JSON-RPC error. *)
Definition erring_node : Node :=
  {| StargateClient_connect := fun _ => Return tt;
     getAccount := fun _ => Return None;
     fetch := fun _ _ _ =>
       Return {| result := None;
                 error := Some {| message := Some "tx already exists in cache" |} |};
     Date_now := 1700000000000 |}.

(** What a wallet throws when the user declines. *)
Definition rejection : thrown := Error "User rejected the request.".

Definition key : PublicKey := {| toBase58 := "4vJ9"; toBytes := key32 |}.

(** The address of [key32] on Nolus. *)
Definition address : string := "nolus14cskcth4y3ar0qkpxhh6y7drunxuvyy5a9qtt8".

(** The sign document of the Phantom test transaction at the first node. *)
Definition sign_doc : SignDoc.t :=
  Spec.direct_sign_doc key32 address address "1" "Phantom ED25519 test" (7%N, 3%N).

Definition solflare_wallet : Solflare.Wallet :=
  {| Solflare.isSolflare := true;
     Solflare.connect := Return true;
     Solflare.publicKey := Some key;
     Solflare.signMessage := fun _ => Return signature64 |}.

Definition solflare (n : Node) : Solflare.World :=
  {| Solflare.solflare := Some solflare_wallet; Solflare.node := n |}.

(** A Solflare wallet whose user declines the connection, and one whose
    user connects and then declines to sign. *)
Definition refusing_wallet : Solflare.Wallet :=
  {| Solflare.isSolflare := true;
     Solflare.connect := Throw rejection;
     Solflare.publicKey := None;
     Solflare.signMessage := fun _ => Throw rejection |}.

Definition unsigning_wallet : Solflare.Wallet :=
  {| Solflare.isSolflare := true;
     Solflare.connect := Return true;
     Solflare.publicKey := Some key;
     Solflare.signMessage := fun _ => Throw rejection |}.

(** A page without the Solflare extension. *)
Definition no_solflare : Solflare.World :=
  {| Solflare.solflare := None; Solflare.node := node |}.

Definition phantom_wallet : Phantom.Wallet :=
  {| Phantom.isPhantom := true;
     Phantom.connect := Return (Some key);
     Phantom.signMessage := fun _ _ => Return signature64 |}.

Definition phantom (n : Node) : Phantom.World :=
  {| Phantom.phantom := Some phantom_wallet; Phantom.node := n |}.

Definition provider : PhantomProvider.Provider :=
  {| PhantomProvider.isPhantom := true;
     PhantomProvider.connect := Return (Some key);
     PhantomProvider.signMessage := fun _ => Return signature64 |}.

Definition phantom_provider (n : Node) : PhantomProvider.World :=
  {| PhantomProvider.phantom_solana := Some provider;
     PhantomProvider.solana := None;
     PhantomProvider.node := n |}.

(** An uncompressed secp256k1 key as ethers prints it ([04], x, y), and
    a 65-byte signature. *)
Definition uncompressed_hex : string :=
  "0x04" ++ Hex.toHex (bytes_of_Zs (map Z.of_nat (seq 1 64))).

Definition signature65_hex : string :=
  "0x" ++ Hex.toHex (signature64 ++ [x1b])%list.

(** The two coordinates of that key. *)
Definition key_x : bytes := bytes_of_Zs (map Z.of_nat (seq 1 32)).
Definition key_y : bytes := bytes_of_Zs (map Z.of_nat (seq 33 32)).

(** The compressed form of that key, [02] and x, and its address on
    Neutron. *)
Definition compressed : bytes := bytes_of_Zs (2 :: map Z.of_nat (seq 1 32)).

Definition neutron_address : string :=
  "neutron19mhhfs3xmyt9lk9uah33kk9lgucqz9dqzwee6d".

Definition eth_address : string := "0x52908400098527886e0f7030069857d2e4169ee7".

Definition ethereum : MetaMask.Ethereum :=
  {| MetaMask.eth_requestAccounts := Return tt;
     MetaMask.eth_accounts := Return [eth_address];
     MetaMask.personal_sign := fun _ _ => Return signature65_hex |}.

Definition metamask (n : Node) : MetaMask.World :=
  {| MetaMask.ethereum := Some ethereum;
     MetaMask.ethers :=
       {| MetaMask.hashMessage := fun _ => "0x00";
          MetaMask.recoverPublicKey := fun _ _ => Return uncompressed_hex |};
     MetaMask.node := n |}.

End Sample.

(* ================================================================== *)
(** * Vocabulary of the proofs *)

(** A computation that only adds to the trace, and does the same
    whatever was sent before it. *)
Definition appends {A} (m : Async A) : Prop :=
  forall trace, m trace = (fst (run m), (trace ++ snd (run m))%list).

(** A 5-bit word of bech32. *)
Definition word5 (x : Z) : Prop := 0 <= x < 32.

(** Strings of decimal digits. *)
Definition is_digit (c : ascii) : bool :=
  (48 <=? Z_of_char c) && (Z_of_char c <=? 57).

Fixpoint all_digits (s : string) : bool :=
  match s with
  | "" => true
  | String c rest => is_digit c && all_digits rest
  end.

(** The integer part of [x / 10^p]. *)
Definition floor_scaled (x p : Z) : Z :=
  Qnum ((x # 1) / JsNumber.pow10 p)%Q / Zpos (Qden ((x # 1) / JsNumber.pow10 p)%Q).

(** A piece in which no occurrence of the separator begins. *)
Definition clear_of (separator a t : string) : Prop :=
  forall a1 c a2,
    a = a1 ++ String c a2 ->
    String.prefix separator (String c a2 ++ separator ++ t) = false.

(* ================================================================== *)
(** * Facts about the libraries *)

(** ** Bytes *)

Lemma byte_to_Z_range (b : byte) : 0 <= byte_to_Z b < 256.
Proof.
  unfold byte_to_Z. pose proof (Byte.to_N_bounded b). lia.
Qed.

Lemma byte_of_to_Z (b : byte) : byte_of_Z (byte_to_Z b) = b.
Proof.
  unfold byte_of_Z. rewrite Z.mod_small by apply byte_to_Z_range.
  unfold byte_to_Z. rewrite N2Z.id, Byte.of_to_N. reflexivity.
Qed.

Lemma byte_of_Z_mod (z : Z) : byte_of_Z (z mod 256) = byte_of_Z z.
Proof.
  unfold byte_of_Z. rewrite Z.mod_mod by lia. reflexivity.
Qed.

Lemma byte_of_Z_eq_mod (x y : Z) : x mod 256 = y mod 256 -> byte_of_Z x = byte_of_Z y.
Proof.
  intros H. rewrite <- (byte_of_Z_mod x), <- (byte_of_Z_mod y), H. reflexivity.
Qed.

Lemma byte_of_Z_is (z : Z) (b : byte) : z mod 256 = byte_to_Z b -> byte_of_Z z = b.
Proof.
  intros H. rewrite <- byte_of_Z_mod, H. apply byte_of_to_Z.
Qed.

Lemma bytes_of_Zs_to_Z (data : bytes) : bytes_of_Zs (map byte_to_Z data) = data.
Proof.
  unfold bytes_of_Zs. induction data as [|b data IH]; simpl.
  - reflexivity.
  - rewrite byte_of_to_Z, IH. reflexivity.
Qed.

(** ** Strings *)

Lemma append_assoc (s t u : string) : (s ++ t) ++ u = s ++ (t ++ u).
Proof.
  induction s as [|c s IH]; cbn [String.append]; [reflexivity|].
  rewrite IH. reflexivity.
Qed.

Lemma append_empty_r (s : string) : s ++ "" = s.
Proof.
  induction s as [|c s IH]; cbn [String.append]; [reflexivity|].
  rewrite IH. reflexivity.
Qed.

(** Linear arithmetic with divisions and remainders by constants. *)
Ltac zdiv := Z.to_euclidean_division_equations; lia.

(** A boolean test that holds on [0 .. n-1] holds below [n]. *)
Lemma below_forallb (P : Z -> bool) (n : nat) :
  forallb P (map Z.of_nat (seq 0 n)) = true ->
  forall i, 0 <= i < Z.of_nat n -> P i = true.
Proof.
  intros H i Hi. rewrite forallb_forall in H. apply H.
  apply in_map_iff. exists (Z.to_nat i). split.
  - lia.
  - apply in_seq. lia.
Qed.

(** Lists three elements at a time. *)
Lemma list_ind3 {A} (P : list A -> Prop) :
  P [] -> (forall a, P [a]) -> (forall a b, P [a; b]) ->
  (forall a b c l, P l -> P (a :: b :: c :: l)) ->
  forall l, P l.
Proof.
  intros H0 H1 H2 H3.
  assert (H : forall l, P l /\ (forall a, P (a :: l)) /\ (forall a b, P (a :: b :: l))).
  { induction l as [|x l (IHa & IHb & IHc)].
    - auto.
    - repeat split; auto. }
  intros l. apply H.
Qed.

(** ** Base64 round trip *)

Module Base64Facts.
Import Base64.

Lemma index_sextet (i : Z) : 0 <= i < 64 -> index (sextet i) = Some i.
Proof.
  intros Hi.
  pose proof (below_forallb
    (fun i => match index (sextet i) with Some j => j =? i | None => false end) 64) as H.
  specialize (H eq_refl i Hi). cbv beta in H.
  destruct (index (sextet i)) as [j|]; [|discriminate].
  apply Z.eqb_eq in H. congruence.
Qed.

Lemma rev_sextet (i : Z) : 0 <= i < 64 -> rev (sextet i) = i.
Proof.
  intros Hi. unfold rev. rewrite index_sextet by assumption. reflexivity.
Qed.

Lemma sextet_not_padding (i : Z) : 0 <= i < 64 -> Ascii.eqb (sextet i) "=" = false.
Proof.
  intros Hi.
  exact (proj1 (negb_true_iff _)
           (below_forallb (fun i => negb (Ascii.eqb (sextet i) "=")) 64 eq_refl i Hi)).
Qed.

Lemma toByteArray_toBase64 (data : bytes) : toByteArray (toBase64 data) = data.
Proof.
  induction data as [|a|a b|a b c rest IH] using list_ind3.
  - reflexivity.
  - pose proof (byte_to_Z_range a) as Ha.
    cbn [toBase64 toByteArray].
    rewrite Ascii.eqb_refl.
    rewrite !rev_sextet by zdiv.
    f_equal. apply byte_of_Z_is. zdiv.
  - pose proof (byte_to_Z_range a) as Ha. pose proof (byte_to_Z_range b) as Hb.
    cbn [toBase64 toByteArray].
    rewrite sextet_not_padding, Ascii.eqb_refl by zdiv.
    rewrite !rev_sextet by zdiv.
    f_equal; [|f_equal]; apply byte_of_Z_is; zdiv.
  - pose proof (byte_to_Z_range a) as Ha. pose proof (byte_to_Z_range b) as Hb.
    pose proof (byte_to_Z_range c) as Hc.
    cbn [toBase64 toByteArray].
    rewrite !sextet_not_padding by zdiv.
    rewrite !rev_sextet by zdiv.
    rewrite IH.
    f_equal; [|f_equal; [|f_equal]]; apply byte_of_Z_is; zdiv.
Qed.

Lemma format_ok_toBase64 (data : bytes) : format_ok (toBase64 data) = true.
Proof.
  induction data as [|a|a b|a b c rest IH] using list_ind3.
  - reflexivity.
  - pose proof (byte_to_Z_range a) as Ha.
    cbn [toBase64 format_ok]. rewrite !index_sextet by zdiv. reflexivity.
  - pose proof (byte_to_Z_range a) as Ha. pose proof (byte_to_Z_range b) as Hb.
    cbn [toBase64 format_ok]. rewrite !index_sextet by zdiv. reflexivity.
  - pose proof (byte_to_Z_range a) as Ha. pose proof (byte_to_Z_range b) as Hb.
    pose proof (byte_to_Z_range c) as Hc.
    cbn [toBase64 format_ok]. rewrite !index_sextet by zdiv. exact IH.
Qed.

Lemma length_toBase64 (data : bytes) :
  Nat.modulo (String.length (toBase64 data)) 4 = 0%nat.
Proof.
  induction data as [|a|a b|a b c rest IH] using list_ind3; try reflexivity.
  cbn [toBase64 String.length].
  change (S (S (S (S (String.length (toBase64 rest))))))
    with (4 + String.length (toBase64 rest))%nat.
  rewrite <- Nat.Div0.add_mod_idemp_r, IH. reflexivity.
Qed.

(** Decoding undoes encoding, and does not throw. *)
Lemma fromBase64_toBase64 (data : bytes) : fromBase64 (toBase64 data) = Return data.
Proof.
  unfold fromBase64.
  rewrite format_ok_toBase64, length_toBase64, toByteArray_toBase64. reflexivity.
Qed.

End Base64Facts.

(** ** Hash lengths *)

Lemma length_bytes_of_Zs (l : list Z) : List.length (bytes_of_Zs l) = List.length l.
Proof. apply length_map. Qed.

Lemma sha256_length (message : bytes) : List.length (Sha256.sha256 message) = 32%nat.
Proof.
  unfold Sha256.sha256. rewrite length_bytes_of_Zs.
  destruct (Sha256.blocks _ _ _) as [[[[[[[a b] c] d] e] f] g] h].
  reflexivity.
Qed.

Lemma ripemd160_length (message : bytes) :
  List.length (Ripemd160.ripemd160 message) = 20%nat.
Proof.
  unfold Ripemd160.ripemd160. rewrite length_bytes_of_Zs.
  destruct (Ripemd160.blocks _ _ _) as [[[[a b] c] d] e].
  reflexivity.
Qed.

Lemma slice_length_le {A} (i j : nat) (l : list A) :
  (List.length (slice i j l) <= j - i)%nat.
Proof. unfold slice. apply firstn_le_length. Qed.

Lemma sha256_first20 (message : bytes) :
  List.length (slice 0 20 (Sha256.sha256 message)) = 20%nat.
Proof.
  unfold slice. cbn [skipn Nat.sub]. rewrite length_firstn, sha256_length. reflexivity.
Qed.

(** ** bech32 never throws on a short hash *)

Module Bech32Facts.
Import Bech32.

Lemma land_31 (x : Z) : word5 (Z.land x 31).
Proof.
  unfold word5. change 31 with (Z.ones 5). rewrite Z.land_ones by lia.
  apply Z.mod_pos_bound. lia.
Qed.

Lemma drain_spec (fuel : nat) (value bits : Z) :
  0 <= bits ->
  let out := fst (drain fuel 5 31 value bits) in
  let bits' := snd (drain fuel 5 31 value bits) in
  Forall word5 out /\ 0 <= bits' /\ 5 * Z.of_nat (List.length out) + bits' <= bits.
Proof.
  revert bits. induction fuel as [|fuel IH]; intros bits Hbits; cbn [drain].
  - cbn. split; [constructor|lia].
  - destruct (bits >=? 5) eqn:Hge.
    + apply Z.geb_le in Hge.
      specialize (IH (bits - 5) ltac:(lia)). cbv zeta in IH.
      destruct (drain fuel 5 31 value (bits - 5)) as [out bits'].
      cbn [fst snd] in *. destruct IH as (Hout & Hpos & Hsum).
      split; [constructor; [apply land_31|assumption]|].
      cbn [List.length]. lia.
    + cbn. split; [constructor|lia].
Qed.

Lemma convert_loop_spec (data : list Z) (value bits : Z) :
  0 <= bits ->
  let '(out, _, bits') := convert_loop data 8 5 31 value bits in
  Forall word5 out /\ 0 <= bits'
  /\ 5 * Z.of_nat (List.length out) + bits' <= bits + 8 * Z.of_nat (List.length data).
Proof.
  revert value bits. induction data as [|d data IH]; intros value bits Hbits;
    cbn [convert_loop].
  - split; [constructor|]. cbn [List.length]. lia.
  - pose proof (drain_spec (Z.to_nat (bits + 8))
                  (Z.lor (int32 (Z.shiftl value 8)) d) (bits + 8) ltac:(lia)) as Hd.
    cbv zeta in Hd.
    destruct (drain _ 5 31 _ (bits + 8)) as [out bits1]. cbn [fst snd] in Hd.
    destruct Hd as (Hout & Hpos & Hsum).
    specialize (IH (Z.lor (int32 (Z.shiftl value 8)) d) bits1 Hpos).
    destruct (convert_loop data 8 5 31 _ bits1) as [[more value'] bits'].
    destruct IH as (Hmore & Hpos' & Hsum').
    split; [apply Forall_app; split; assumption|].
    rewrite length_app, Nat2Z.inj_add. cbn [List.length]. lia.
Qed.

Lemma toWords_spec (data : bytes) :
  Forall word5 (toWords data)
  /\ 5 * Z.of_nat (List.length (toWords data)) <= 8 * Z.of_nat (List.length data) + 5.
Proof.
  unfold toWords, convert_pad.
  change (Z.shiftl 1 5 - 1) with 31.
  pose proof (convert_loop_spec (map byte_to_Z data) 0 0 ltac:(lia)) as H.
  destruct (convert_loop (map byte_to_Z data) 8 5 31 0 0) as [[out value] bits].
  rewrite length_map in H. destruct H as (Hout & Hpos & Hsum).
  destruct (bits >? 0).
  - split.
    + apply Forall_app. split; [assumption|]. constructor; [apply land_31|constructor].
    + rewrite length_app, Nat2Z.inj_add. cbn [List.length]. lia.
  - split; [assumption|lia].
Qed.

Lemma encode_words_returns (words : list Z) :
  Forall word5 words ->
  forall chk result, exists out, encode_words words chk result = Return out.
Proof.
  induction 1 as [|x words Hx _ IH]; intros chk result; cbn [encode_words].
  - eauto.
  - assert (Z.shiftr (int32 x) 5 = 0) as ->.
    { unfold word5 in Hx. unfold int32. rewrite Z.shiftr_div_pow2 by lia.
      change (2 ^ 5) with 32. zdiv. }
    cbn. apply IH.
Qed.

(** [encode] returns whenever the prefix is well formed, the words are
    5-bit words, and the whole fits in 90 characters. *)
Lemma encode_returns (prefix : string) (words : list Z) :
  (exists chk, prefixChk (toLowerCase prefix) = inl chk) ->
  Forall word5 words ->
  Z.of_nat (String.length prefix) + 7 + Z.of_nat (List.length words) <= 90 ->
  exists address, encode prefix words = Return address.
Proof.
  intros [chk Hchk] Hwords Hlen. unfold encode.
  destruct (Z.gtb_spec (Z.of_nat (String.length prefix) + 7
                        + Z.of_nat (List.length words)) 90) as [Hgt|_]; [lia|].
  rewrite Hchk.
  destruct (encode_words_returns words Hwords chk (toLowerCase prefix ++ "1"))
    as [[chk' result] ->].
  cbn [cbind]. eauto.
Qed.

(** The address of a hash of at most 20 bytes, under either prefix of
    the scripts. *)
Lemma encode_hash_returns (prefix : string) (data : bytes) :
  prefix = "nolus" \/ prefix = "neutron" ->
  (List.length data <= 20)%nat ->
  exists address, encode prefix (toWords data) = Return address.
Proof.
  intros Hprefix Hlen.
  destruct (toWords_spec data) as (Hwords & Hcount).
  apply encode_returns.
  - destruct Hprefix; subst; eexists; vm_compute; reflexivity.
  - assumption.
  - assert (Z.of_nat (String.length prefix) <= 7)
      by (destruct Hprefix; subst; cbn; lia).
    lia.
Qed.

End Bech32Facts.

(** ** Numbers and their decimal strings *)

Module JsNumberFacts.
Import JsNumber.

Lemma digit_char (d : Z) :
  0 <= d < 10 ->
  digit_value 10 (char_of_Z (48 + d)) = Some d /\ is_digit (char_of_Z (48 + d)) = true.
Proof.
  intros Hd.
  pose proof (below_forallb
    (fun d => match digit_value 10 (char_of_Z (48 + d)) with
              | Some v => (v =? d) && is_digit (char_of_Z (48 + d))
              | None => false
              end) 10 eq_refl d Hd) as H.
  cbv beta in H. destruct (digit_value 10 (char_of_Z (48 + d))); [|discriminate].
  apply andb_true_iff in H. destruct H as [H1 H2].
  apply Z.eqb_eq in H1. subst. auto.
Qed.

Lemma mod10_range (n : Z) : 0 <= n mod 10 < 10.
Proof. apply Z.mod_pos_bound. lia. Qed.

(** The accumulator of [digits_loop] is only ever extended at the front. *)
Lemma digits_loop_app (fuel : nat) (n : Z) (acc : string) :
  digits_loop fuel n acc = digits_loop fuel n "" ++ acc.
Proof.
  revert n acc. induction fuel as [|fuel IH]; intros n acc; cbn [digits_loop].
  - reflexivity.
  - destruct (n <? 10).
    + reflexivity.
    + rewrite IH. rewrite (IH _ (String _ "")).
      rewrite append_assoc. reflexivity.
Qed.

Lemma all_digits_app (s t : string) :
  all_digits (s ++ t) = all_digits s && all_digits t.
Proof.
  induction s as [|c s IH]; cbn [String.append all_digits].
  - reflexivity.
  - rewrite IH. apply andb_assoc.
Qed.

Lemma all_digits_loop (fuel : nat) (n : Z) (acc : string) :
  all_digits acc = true -> all_digits (digits_loop fuel n acc) = true.
Proof.
  revert n acc. induction fuel as [|fuel IH]; intros n acc Hacc; cbn [digits_loop].
  - assumption.
  - assert (all_digits (String (char_of_Z (48 + n mod 10)) acc) = true) as H.
    { cbn [all_digits]. rewrite (proj2 (digit_char _ (mod10_range n))). assumption. }
    destruct (n <? 10); [assumption|apply IH; assumption].
Qed.

Lemma all_digits_decimal (n : Z) : all_digits (decimal n) = true.
Proof. apply all_digits_loop. reflexivity. Qed.

Lemma all_digits_zeros (k : nat) : all_digits (zeros k) = true.
Proof. induction k; [reflexivity|exact IHk]. Qed.

(** A decimal string is not empty. *)
Lemma digits_loop_head (fuel : nat) (n : Z) (acc : string) :
  exists c rest, digits_loop (S fuel) n acc = String c rest.
Proof.
  revert n acc. induction fuel as [|fuel IH]; intros n acc.
  - cbn [digits_loop]. destruct (n <? 10); eauto.
  - change (digits_loop (S (S fuel)) n acc)
      with (if n <? 10 then String (char_of_Z (48 + n mod 10)) acc
            else digits_loop (S fuel) (n / 10) (String (char_of_Z (48 + n mod 10)) acc)).
    destruct (n <? 10); [eauto|apply IH].
Qed.

(** Reading the digits back gives the number. *)
Lemma digits_loop_value (fuel : nat) (n : Z) (acc : string) :
  0 <= n < 2 ^ Z.of_nat (S fuel) ->
  digits_value 10 (digits_loop (S fuel) n acc) None = digits_value 10 acc (Some n).
Proof.
  revert n acc. induction fuel as [|fuel IH]; intros n acc Hn.
  - assert ((n <? 10) = true) as Hlt
      by (apply Z.ltb_lt; change (2 ^ Z.of_nat 1) with 2 in Hn; lia).
    cbn [digits_loop]. rewrite Hlt. cbn [digits_value].
    rewrite (proj1 (digit_char _ (mod10_range n))).
    rewrite Z.mod_small by (apply Z.ltb_lt in Hlt; lia). reflexivity.
  - change (digits_loop (S (S fuel)) n acc)
      with (if n <? 10 then String (char_of_Z (48 + n mod 10)) acc
            else digits_loop (S fuel) (n / 10) (String (char_of_Z (48 + n mod 10)) acc)).
    destruct (Z.ltb_spec n 10) as [Hlt|Hge].
    + cbn [digits_value]. rewrite (proj1 (digit_char _ (mod10_range n))).
      rewrite Z.mod_small by lia. reflexivity.
    + rewrite IH.
      * cbn [digits_value]. rewrite (proj1 (digit_char _ (mod10_range n))).
        do 2 f_equal. zdiv.
      * rewrite Nat2Z.inj_succ, Z.pow_succ_r in Hn by lia. zdiv.
Qed.

Lemma decimal_value (n : Z) (rest : string) :
  0 <= n ->
  digits_value 10 (decimal n ++ rest) None = digits_value 10 rest (Some n).
Proof.
  intros Hn. unfold decimal. rewrite <- digits_loop_app.
  apply digits_loop_value. split; [assumption|].
  rewrite Nat2Z.inj_succ, Z2Nat.id by apply Z.log2_nonneg.
  destruct (Z.eq_dec n 0) as [->|Hne]; [reflexivity|].
  apply Z.log2_spec. lia.
Qed.

Lemma zeros_value (k : nat) (a : Z) :
  digits_value 10 (zeros k) (Some a) = Some (a * 10 ^ Z.of_nat k).
Proof.
  revert a. induction k as [|k IH]; intros a.
  - cbn. f_equal. lia.
  - cbn [zeros digits_value].
    change (digit_value 10 "0") with (Some 0). cbv beta iota.
    rewrite IH. f_equal. rewrite Nat2Z.inj_succ, Z.pow_succ_r by lia. lia.
Qed.

(** *** [parseInt] on a string of digits *)

Lemma digit_cases (c : ascii) :
  is_digit c = true ->
  In c ["0"; "1"; "2"; "3"; "4"; "5"; "6"; "7"; "8"; "9"]%char.
Proof.
  destruct c as [[] [] [] [] [] [] [] []]; intros H;
    first [discriminate H | cbn [In]; tauto].
Qed.

Ltac by_digit c H :=
  let Hc := fresh in
  pose proof (digit_cases c H) as Hc; cbn [In] in Hc;
  repeat (destruct Hc as [Hc|Hc]; [subst c|]); [..|destruct Hc].

Lemma digit_head (c : ascii) (rest : string) :
  is_digit c = true ->
  strip_one (String c rest) = None
  /\ drop_prefix "-" (String c rest) = None
  /\ drop_prefix "+" (String c rest) = None.
Proof.
  intros H. by_digit c H; vm_compute; auto.
Qed.

Lemma digit_not_x (c : ascii) :
  is_digit c = true -> c <> "x"%char /\ c <> "X"%char.
Proof.
  intros H. by_digit c H; split; discriminate.
Qed.

Lemma no_hex_prefix (c : ascii) (rest : string) :
  is_digit c = true -> all_digits rest = true ->
  drop_prefix "0x" (String c rest) = None /\ drop_prefix "0X" (String c rest) = None.
Proof.
  intros Hc Hrest. unfold drop_prefix.
  assert (String.prefix "0x" (String c rest) = false
          /\ String.prefix "0X" (String c rest) = false) as [-> ->]; [|auto].
  cbn [String.prefix].
  destruct (ascii_dec "0" c) as [_|_]; [|auto].
  destruct rest as [|c1 rest]; [auto|].
  cbn [String.prefix].
  cbn [all_digits] in Hrest. apply andb_true_iff in Hrest. destruct Hrest as [Hc1 _].
  destruct (digit_not_x c1 Hc1) as [Hx HX].
  destruct (ascii_dec "x" c1); [congruence|].
  destruct (ascii_dec "X" c1); [congruence|]. auto.
Qed.

Lemma parseInt_digits (s : string) (v : Z) :
  s <> "" -> all_digits s = true ->
  digits_value 10 s None = Some v ->
  parseInt s = round (v # 1).
Proof.
  intros Hne Hall Hv. destruct s as [|c rest]; [congruence|].
  cbn [all_digits] in Hall. apply andb_true_iff in Hall. destruct Hall as [Hc Hrest].
  destruct (digit_head c rest Hc) as (Hws & Hminus & Hplus).
  destruct (no_hex_prefix c rest Hc Hrest) as [Hx HX].
  unfold parseInt. cbn [String.length trim_start].
  rewrite Hws, Hminus, Hplus, Hx, HX, Hv. reflexivity.
Qed.

(** *** The length of a decimal string *)

Lemma length_append (s t : string) :
  String.length (s ++ t) = (String.length s + String.length t)%nat.
Proof.
  induction s as [|c s IH]; cbn [String.append String.length]; [reflexivity|].
  rewrite IH. reflexivity.
Qed.

Lemma digits_loop_length (fuel : nat) (n : Z) :
  0 <= n < 2 ^ (Z.of_nat (S fuel)) ->
  n < 10 ^ (Z.of_nat (String.length (digits_loop (S fuel) n "")))
  /\ (1 <= n -> 10 ^ (Z.of_nat (String.length (digits_loop (S fuel) n "")) - 1) <= n)
  /\ (1 <= String.length (digits_loop (S fuel) n ""))%nat.
Proof.
  revert n. induction fuel as [|fuel IH]; intros n Hn.
  - assert ((n <? 10) = true) as Hlt
      by (apply Z.ltb_lt; change (2 ^ Z.of_nat 1) with 2 in Hn; lia).
    cbn [digits_loop]. rewrite Hlt. cbn [String.length].
    apply Z.ltb_lt in Hlt. change (10 ^ Z.of_nat 1) with 10.
    change (10 ^ (Z.of_nat 1 - 1)) with 1. lia.
  - change (digits_loop (S (S fuel)) n "")
      with (if n <? 10 then String (char_of_Z (48 + n mod 10)) ""
            else digits_loop (S fuel) (n / 10) (String (char_of_Z (48 + n mod 10)) "")).
    destruct (Z.ltb_spec n 10) as [Hlt|Hge].
    + cbn [String.length]. change (10 ^ Z.of_nat 1) with 10.
      change (10 ^ (Z.of_nat 1 - 1)) with 1. lia.
    + rewrite digits_loop_app, length_append. cbn [String.length].
      assert (0 <= n / 10 < 2 ^ Z.of_nat (S fuel)) as Hdiv.
      { rewrite (Nat2Z.inj_succ (S fuel)), Z.pow_succ_r in Hn by lia. zdiv. }
      destruct (IH (n / 10) Hdiv) as (Hup & Hlow & Hlen).
      set (L := String.length (digits_loop (S fuel) (n / 10) "")) in *.
      replace (Z.of_nat (L + 1)) with (Z.succ (Z.of_nat L)) by lia.
      rewrite Z.pow_succ_r by lia.
      replace (Z.succ (Z.of_nat L) - 1) with (Z.succ (Z.of_nat L - 1)) by lia.
      rewrite Z.pow_succ_r by lia.
      specialize (Hlow ltac:(zdiv)).
      repeat split; [zdiv|intros _; zdiv|lia].
Qed.

Lemma decimal_length (n : Z) :
  0 <= n ->
  n < 10 ^ (Z.of_nat (String.length (decimal n)))
  /\ (1 <= n -> 10 ^ (Z.of_nat (String.length (decimal n)) - 1) <= n)
  /\ (1 <= String.length (decimal n))%nat.
Proof.
  intros Hn. unfold decimal. apply digits_loop_length. split; [assumption|].
  rewrite Nat2Z.inj_succ, Z2Nat.id by apply Z.log2_nonneg.
  destruct (Z.eq_dec n 0) as [->|Hne]; [reflexivity|].
  apply Z.log2_spec. lia.
Qed.

Lemma decimal_head (n : Z) : exists c rest, decimal n = String c rest.
Proof. apply digits_loop_head. Qed.

(** *** Rounding *)

Lemma round_compat (p q : Q) : (p == q)%Q -> round p = round q.
Proof.
  intros H. unfold round. rewrite (Qred_complete _ _ H). reflexivity.
Qed.

Lemma Qred_idem (q : Q) : Qred (Qred q) = Qred q.
Proof. apply Qred_complete, Qred_correct. Qed.

(** A finite result of [round] is in lowest terms. *)
Lemma Finite_inj (a b : Q) : Finite a = Finite b -> a = b.
Proof. congruence. Qed.

Lemma round_reduced (q v : Q) : round q = Finite v -> Qred v = v.
Proof.
  unfold round, round_pos. cbv zeta.
  destruct (Qnum (Qred q)).
  - intros H. apply Finite_inj in H. subst v. reflexivity.
  - destruct (Qle_bool _ _); [discriminate|].
    intros H. apply Finite_inj in H. rewrite <- H. apply Qred_idem.
  - destruct (Qle_bool _ _); [discriminate|].
    intros H. apply Finite_inj in H. rewrite <- H. apply Qred_idem.
Qed.

Lemma representable_reduced (x : Z) : Spec.representable x -> Qred (x # 1) = x # 1.
Proof. intros H. exact (round_reduced _ _ H). Qed.

Lemma pow10_nonneg (p : Z) : 0 <= p -> pow10 p = (10 ^ p # 1).
Proof.
  intros Hp. unfold pow10. destruct (Z.leb_spec 0 p); [reflexivity|lia].
Qed.

Lemma scaled (s p : Z) : 0 <= p -> ((s # 1) * pow10 p)%Q = (s * 10 ^ p # 1).
Proof. intros Hp. rewrite pow10_nonneg by assumption. reflexivity. Qed.

(** When [s * 10^p] passes the test of [candidate] for an exactly
    representable [x], it rounds to [x]. *)
Lemma rounds_to_exact (x s p : Z) :
  Spec.representable x -> 0 <= p ->
  rounds_to (x # 1) s p = true ->
  round (s * 10 ^ p # 1) = Finite (x # 1).
Proof.
  intros Hx Hp. unfold rounds_to. rewrite scaled by assumption.
  destruct (round (s * 10 ^ p # 1)) as [| |v] eqn:Hr; try discriminate.
  intros Heq. apply Qeq_bool_iff in Heq.
  rewrite <- (round_reduced _ _ Hr), <- (representable_reduced x Hx).
  f_equal. apply Qred_complete. assumption.
Qed.

Lemma representable_rounds_to (x : Z) :
  Spec.representable x -> rounds_to (x # 1) x 0 = true.
Proof.
  intros Hx. unfold rounds_to. rewrite scaled by lia.
  replace (x * 10 ^ 0) with x by (change (10 ^ 0) with 1; lia).
  rewrite Hx. apply Qeq_bool_iff. reflexivity.
Qed.

Lemma floor_scaled_nonneg (x p : Z) : 0 <= x -> 0 <= p -> 0 <= floor_scaled x p.
Proof.
  intros Hx Hp. unfold floor_scaled. apply Z.div_pos; [|lia].
  rewrite pow10_nonneg by assumption.
  pose proof (Z.pow_pos_nonneg 10 p ltac:(lia) Hp) as Hpos.
  unfold Qdiv, Qinv, Qmult. cbn [Qnum Qden].
  destruct (10 ^ p) eqn:E; cbn [Qnum Qden]; lia.
Qed.

Lemma floor_scaled_0 (x : Z) : floor_scaled x 0 = x.
Proof.
  unfold floor_scaled. change (pow10 0) with (1 # 1).
  unfold Qdiv, Qinv, Qmult. cbn [Qnum Qden Pos.mul].
  rewrite Z.mul_1_r. apply Z.div_1_r.
Qed.

Lemma candidate_spec (x n0 k s : Z) :
  0 <= x -> 0 <= n0 - k ->
  candidate (x # 1) n0 k = Some s ->
  rounds_to (x # 1) s (n0 - k) = true /\ 0 <= s.
Proof.
  intros Hx Hp. unfold candidate. fold (floor_scaled x (n0 - k)).
  pose proof (floor_scaled_nonneg x (n0 - k) Hx Hp) as Hlo.
  cbv zeta.
  destruct (rounds_to (x # 1) (floor_scaled x (n0 - k)) (n0 - k)) eqn:Elo;
    destruct (rounds_to (x # 1) (floor_scaled x (n0 - k) + 1) (n0 - k)) eqn:Ehi;
    try discriminate.
  - destruct (_ ?= _)%Q; [destruct (Z.even _)| |];
      intros H; injection H as <-; split; (assumption || lia).
  - intros H; injection H as <-; split; (assumption || lia).
  - intros H; injection H as <-; split; (assumption || lia).
Qed.

Lemma candidate_exact (x n0 : Z) :
  Spec.representable x -> candidate (x # 1) n0 n0 <> None.
Proof.
  intros Hx. unfold candidate. fold (floor_scaled x (n0 - n0)).
  rewrite Z.sub_diag, floor_scaled_0. cbv zeta.
  rewrite (representable_rounds_to x Hx).
  destruct (rounds_to _ _ _); [destruct (_ ?= _)%Q; [destruct (Z.even _)| |]|];
    discriminate.
Qed.

(** The search ends at some [k] up to the number of digits of [x], on
    digits that round to [x]. *)
Lemma shortest_loop_spec (x n0 : Z) (fuel : nat) (k : Z) :
  Spec.representable x -> 0 <= x ->
  Z.of_nat fuel + k = 21 -> 1 <= k <= n0 -> n0 <= 21 ->
  k <= snd (shortest_loop fuel (x # 1) n0 k) <= n0
  /\ 0 <= fst (shortest_loop fuel (x # 1) n0 k)
  /\ rounds_to (x # 1) (fst (shortest_loop fuel (x # 1) n0 k))
       (n0 - snd (shortest_loop fuel (x # 1) n0 k)) = true.
Proof.
  intros Hx Hpos. revert k.
  induction fuel as [|fuel IH]; intros k Hfuel Hk Hn0; cbn [shortest_loop].
  - assert (k = n0) as -> by lia. fold (floor_scaled x (n0 - n0)).
    rewrite Z.sub_diag, floor_scaled_0. cbn [fst snd]. rewrite Z.sub_diag.
    repeat split; try lia. apply representable_rounds_to. assumption.
  - destruct (candidate (x # 1) n0 k) as [s|] eqn:Hc.
    + cbn [fst snd].
      destruct (candidate_spec x n0 k s Hpos ltac:(lia) Hc) as [Hr Hs].
      repeat split; (assumption || lia).
    + assert (k <> n0) as Hne.
      { intros ->. exact (candidate_exact x n0 Hx Hc). }
      specialize (IH (k + 1) ltac:(lia) ltac:(lia) Hn0).
      destruct IH as (Hk' & Hs & Hr). repeat split; (assumption || lia).
Qed.

(** The powers of ten up to [10^21] are exactly representable. *)
Lemma pow10_representable (n : Z) : 0 <= n < 22 -> Spec.representable (10 ^ n).
Proof.
  intros Hn. unfold Spec.representable.
  pose proof (below_forallb
    (fun n => match round (10 ^ n # 1) with
              | Finite v => Qeq_bool v (10 ^ n # 1)
              | _ => false
              end) 22 eq_refl n Hn) as H.
  cbv beta in H.
  destruct (round (10 ^ n # 1)) as [| |v] eqn:Hr; try discriminate.
  apply Qeq_bool_iff in H.
  f_equal. rewrite <- (round_reduced _ _ Hr).
  apply Qred_complete in H. rewrite H.
  pose proof (Z.pow_pos_nonneg 10 n ltac:(lia) ltac:(lia)) as Hp.
  destruct (10 ^ n) as [|m|m]; try lia.
  unfold Qred. cbn [Qnum Qden].
  pose proof (Z.ggcd_gcd (Zpos m) 1) as Hg.
  pose proof (Z.ggcd_correct_divisors (Zpos m) 1) as Hd.
  destruct (Z.ggcd (Zpos m) 1) as [g [a b]]. cbn [fst snd] in *.
  rewrite Z.gcd_1_r in Hg. subst g. destruct Hd as [Ha Hb].
  rewrite Z.mul_1_l in Ha, Hb. subst a b. reflexivity.
Qed.

(** *** [toString] of an integer below [10^21] *)

Lemma magnitude_integer (x : Z) :
  1 <= x -> magnitude (x # 1) = Z.of_nat (String.length (decimal x)).
Proof.
  intros Hx. unfold magnitude.
  assert (Qle_bool 1 (x # 1) = true) as ->.
  { apply Qle_bool_iff. unfold Qle. cbn [Qnum Qden]. lia. }
  cbn [Qnum Qden]. rewrite Z.div_1_r. reflexivity.
Qed.

Lemma digits_below (x : Z) :
  1 <= x < 10 ^ 21 -> 1 <= Z.of_nat (String.length (decimal x)) <= 21.
Proof.
  intros Hx. destruct (decimal_length x ltac:(lia)) as (_ & Hlow & Hlen).
  specialize (Hlow ltac:(lia)). split; [lia|].
  assert (10 ^ (Z.of_nat (String.length (decimal x)) - 1) < 10 ^ 21) as H by lia.
  apply Z.pow_lt_mono_r_iff in H; lia.
Qed.

(** The string of such an integer is a run of digits followed by zeros,
    and the number they spell rounds to the integer. *)
Lemma toString_integer (x : Z) :
  Spec.representable x -> 1 <= x < 10 ^ 21 ->
  exists s z, 0 <= s
    /\ toString (Finite (x # 1)) = decimal s ++ zeros z
    /\ round (s * 10 ^ (Z.of_nat z) # 1) = Finite (x # 1).
Proof.
  intros Hrep Hx.
  pose proof (digits_below x Hx) as Hn0.
  destruct (decimal_length x ltac:(lia)) as (Hup & _ & _).
  assert (toString (Finite (x # 1))
          = let '(s, n, k) := shortest (x # 1) in format s n k) as ->.
  { destruct x as [|p|p]; try lia. reflexivity. }
  unfold shortest. rewrite magnitude_integer by lia.
  set (n0 := Z.of_nat (String.length (decimal x))) in *.
  pose proof (shortest_loop_spec x n0 20 1 Hrep ltac:(lia) eq_refl ltac:(lia) ltac:(lia))
    as (Hk & Hs & Hr).
  destruct (shortest_loop 20 (x # 1) n0 1) as [s k]. cbn [fst snd] in Hk, Hs, Hr.
  pose proof (rounds_to_exact x s (n0 - k) Hrep ltac:(lia) Hr) as Hround.
  destruct (Z.eqb_spec s (10 ^ k)) as [Heq|Hne].
  - exfalso. subst s.
    rewrite <- Z.pow_add_r in Hround by lia.
    replace (k + (n0 - k)) with n0 in Hround by lia.
    rewrite (pow10_representable n0 ltac:(lia)) in Hround.
    apply Finite_inj in Hround.
    assert (10 ^ n0 = x) by congruence. lia.
  - exists s, (Z.to_nat (n0 - k)). split; [assumption|]. split.
    + unfold format.
      destruct (Z.leb_spec k n0); [|lia]. destruct (Z.leb_spec n0 21); [|lia].
      reflexivity.
    + rewrite Z2Nat.id by lia. assumption.
Qed.

(** Parsing the string of such an integer gives it back. *)
Lemma parseInt_toString (x : Z) :
  Spec.representable x -> 1 <= x < 10 ^ 21 ->
  parseInt (toString (Finite (x # 1))) = Finite (x # 1).
Proof.
  intros Hrep Hx.
  destruct (toString_integer x Hrep Hx) as (s & z & Hs & -> & Hround).
  rewrite (parseInt_digits (decimal s ++ zeros z) (s * 10 ^ Z.of_nat z)).
  - assumption.
  - destruct (decimal_head s) as (c & rest & ->). discriminate.
  - rewrite all_digits_app, all_digits_decimal, all_digits_zeros. reflexivity.
  - rewrite decimal_value by assumption. apply zeros_value.
Qed.

End JsNumberFacts.

(** ** Hex round trip *)

Module HexFacts.
Import Hex.

Lemma value_digit (d : Z) : 0 <= d < 16 -> value (digit d) = Some d.
Proof.
  intros Hd.
  pose proof (below_forallb
    (fun d => match value (digit d) with Some v => v =? d | None => false end)
    16 eq_refl d Hd) as H.
  cbv beta in H. destruct (value (digit d)); [|discriminate].
  apply Z.eqb_eq in H. congruence.
Qed.

Lemma pairs_toHex (data : bytes) : pairs (toHex data) = Return data.
Proof.
  induction data as [|b data IH]; cbn [toHex pairs]; [reflexivity|].
  pose proof (byte_to_Z_range b) as Hb.
  rewrite !value_digit by zdiv. rewrite IH. cbn [cbind].
  do 2 f_equal. apply byte_of_Z_is. zdiv.
Qed.

Lemma even_length_toHex (data : bytes) : Nat.even (String.length (toHex data)) = true.
Proof.
  induction data as [|b data IH]; [reflexivity|exact IH].
Qed.

Lemma fromHex_toHex (data : bytes) : fromHex (toHex data) = Return data.
Proof.
  unfold fromHex. rewrite even_length_toHex. apply pairs_toHex.
Qed.

Lemma toHex_app (a b : bytes) : toHex (a ++ b)%list = toHex a ++ toHex b.
Proof.
  induction a as [|x a IH]; cbn [toHex app String.append]; [reflexivity|].
  rewrite IH. reflexivity.
Qed.

Lemma list_ascii_app (s t : string) :
  list_ascii_of_string (s ++ t)
  = (list_ascii_of_string s ++ list_ascii_of_string t)%list.
Proof.
  induction s as [|c s IH]; cbn [String.append list_ascii_of_string app];
    [reflexivity|].
  rewrite IH. reflexivity.
Qed.

(** A signature printed as [0x], the hex of its bytes and of one more
    byte: [slice(2, -2)] keeps the hex of the bytes. *)
Lemma slice_signature (rs : bytes) (v : byte) :
  string_slice_neg 2 2 ("0x" ++ toHex (rs ++ [v])%list) = toHex rs.
Proof.
  unfold string_slice_neg, slice.
  rewrite toHex_app.
  change ("0x" ++ (toHex rs ++ toHex [v]))
    with (String "0" (String "x" (toHex rs ++ toHex [v]))).
  cbn [list_ascii_of_string skipn List.length].
  rewrite list_ascii_app, length_app.
  change (List.length (list_ascii_of_string (toHex [v]))) with 2%nat.
  replace (S (S (List.length (list_ascii_of_string (toHex rs)) + 2)) - 2 - 2)%nat
    with (List.length (list_ascii_of_string (toHex rs)) + 0)%nat by lia.
  rewrite firstn_app_2. cbn [firstn]. rewrite app_nil_r.
  apply string_of_list_ascii_of_string.
Qed.

(** The script's stripping of a 65-byte signature gives its first 64
    bytes (and likewise at any length). *)
Lemma strip_recovery_byte (rs : bytes) (v : byte) :
  fromHex (string_slice_neg 2 2 ("0x" ++ toHex (rs ++ [v])%list)) = Return rs.
Proof. rewrite slice_signature. apply fromHex_toHex. Qed.

End HexFacts.

(** ** Small facts about the scripts' helpers *)

Lemma or_default_omitted (d : string) : or_default None d = d.
Proof. reflexivity. Qed.

Lemma or_default_given (c : ascii) (rest d : string) :
  or_default (Some (String c rest)) d = String c rest.
Proof. reflexivity. Qed.

Lemma or_default_given_or (argument : option string) (default : string) :
  or_default argument default = Spec.given_or argument default.
Proof. destruct argument as [[|c rest]|]; reflexivity. Qed.

Lemma code_is_zero_iff (r : RpcResult) : code_is_zero r = true <-> code r = Some 0.
Proof.
  unfold code_is_zero. destruct (code r) as [c|].
  - rewrite Z.eqb_eq. split; congruence.
  - split; discriminate.
Qed.

Lemma compress_length (uncompressed : bytes) :
  List.length (MetaMask.compress uncompressed) = 33%nat.
Proof.
  unfold MetaMask.compress. cbv zeta. cbn [List.length].
  rewrite length_app, repeat_length.
  pose proof (slice_length_le 1 33 uncompressed). lia.
Qed.

(** The JSON text of an object with a member starts with a brace, so the
    payload of the sign document is never the key message. *)
Lemma json_payload_head (m : string * Json.value) (ms : list (string * Json.value)) :
  String.get 2 (Spec.json_payload (Json.Obj (m :: ms))) = Some "7"%char.
Proof.
  unfold Spec.json_payload, Json.stringify.
  cbn [Json.serialize map Json.wrap repeat string_of_list_ascii].
  change ("    " =? "")%string with false. cbv iota.
  cbn [String.append toUtf8Bytes list_byte_of_string list_ascii_of_string map
       Hex.toHex String.get].
  reflexivity.
Qed.

Lemma json_payload_not_key_message (m : string * Json.value)
    (ms : list (string * Json.value)) :
  Spec.json_payload (Json.Obj (m :: ms))
  <> MetaMask.hexlify (toUtf8Bytes Spec.key_message).
Proof.
  intros H. pose proof (json_payload_head m ms) as Hhead.
  rewrite H in Hhead. vm_compute in Hhead. discriminate Hhead.
Qed.

(* ================================================================== *)
(** * The unit converters *)

(** C10, as the specification states it, fails: [10^15] and
    [10^15 * 1,000,000 = 10^21] are both exactly representable, but
    [scrtToUscrt] prints [10^21] as [1e+21], of which [parseInt] reads
    the digit 1 only. *)
Lemma unit_converters_not_inverse_at_1e15 :
  Spec.representable (10 ^ 15)
  /\ Spec.representable (10 ^ 15 * 1000000)
  /\ Main.scrtToUscrt (JsNumber.ofZ (10 ^ 15)) = "1e+21"
  /\ Main.uscrtToScrt (Main.scrtToUscrt (JsNumber.ofZ (10 ^ 15)))
     <> JsNumber.ofZ (10 ^ 15).
Proof.
  repeat split; try (vm_compute; reflexivity).
  intros H. vm_compute in H. discriminate H.
Qed.

(** C10 (amended): for every natural number [n] such that [n] and
    [n * 1,000,000] are exactly representable and [n * 1,000,000] is below
    [10^21], [uscrtToScrt (scrtToUscrt n) = n]. *)
Theorem unit_converters_inverse_below_1e21 (n : Z) :
  0 <= n ->
  Spec.representable n ->
  Spec.representable (n * 1000000) ->
  n * 1000000 < 10 ^ 21 ->
  Main.uscrtToScrt (Main.scrtToUscrt (JsNumber.ofZ n)) = JsNumber.ofZ n.
Proof.
  intros Hn Hrep Hrep' Hlt.
  unfold Main.scrtToUscrt, Main.uscrtToScrt, JsNumber.ofZ.
  cbn [JsNumber.mul].
  change ((n # 1) * (1000000 # 1))%Q with (n * 1000000 # 1).
  rewrite Hrep'.
  destruct (Z.eq_dec n 0) as [->|Hne].
  - vm_compute. reflexivity.
  - rewrite JsNumberFacts.parseInt_toString by (assumption || lia).
    cbn [JsNumber.div JsNumber.is_zero Qnum Z.eqb].
    rewrite (JsNumberFacts.round_compat _ (n # 1)).
    + exact Hrep.
    + unfold Qeq, Qdiv, Qinv, Qmult. cbn [Qnum Qden]. lia.
Qed.

(** The amended statement at [n = 5]: 5 scrt are ["5000000"] uscrt. *)
Lemma unit_converters_inverse_at_5 :
  Main.scrtToUscrt (JsNumber.ofZ 5) = "5000000"
  /\ Main.uscrtToScrt (Main.scrtToUscrt (JsNumber.ofZ 5)) = JsNumber.ofZ 5.
Proof.
  split.
  - vm_compute. reflexivity.
  - apply (unit_converters_inverse_below_1e21 5).
    + lia.
    + vm_compute. reflexivity.
    + vm_compute. reflexivity.
    + vm_compute. reflexivity.
Defined.

(* ================================================================== *)
(** * Running the scripts symbolically *)

(** The libraries are black boxes from here on. *)
#[global] Opaque Bech32.encode Bech32.toWords Sha256.sha256 Ripemd160.ripemd160
  Base64.toBase64 Base64.fromBase64 Hex.toHex Hex.fromHex Json.stringify
  SignDoc.encode TxBody.encode AuthInfo.encode TxRaw.encode MsgSend.encode
  PubKey.encode Utf8.Buffer_toString Utf8.TextEncoder_encode
  JsNumber.decimal MetaMask.getBytes MetaMask.compress MetaMask.hexlify
  or_default or_else String_ template code_is_zero String.append
  string_slice_neg toUtf8Bytes.

Create HintDb script discriminated.
#[global] Hint Unfold run bind ret throw try_catch await call
  Nolus.fetchAccountInfo Nolus.broadcastTransaction Nolus.report
  Solflare.getAddress Solflare.sendTransaction
  Phantom.getAddress Phantom.sendTransaction
  PhantomProvider.getAddress PhantomProvider.sendTransaction
  MetaMask.request MetaMask.getAddress MetaMask.fetchAccountInfo
  MetaMask.broadcastTransaction MetaMask.sendTransaction MetaMask.checkTestnet
  MetaMask.getAccountInfo MetaMask.toString : script.

Ltac reduce_in H :=
  cbn beta iota zeta in H;
  cbn [app negb Z.of_N Nolus.bech32Addr Nolus.pubkeyAny Nolus.value Nolus.typeUrl
       Nolus.accountNumber Nolus.sequence Nolus.solanaAddress
       Nolus.ed25519PublicKey MetaMask.ethAddress MetaMask.pubkeyAny
       MetaMask.bech32Addr MetaMask.accountNumber MetaMask.sequence] in H;
  rewrite ?Base64Facts.fromBase64_toBase64 in H.

(** Case analysis on the innermost test that blocks the run. *)
Ltac split_in H :=
  match type of H with
  | context [match ?x with _ => _ end] =>
      lazymatch x with
      | context [match _ with _ => _ end] => fail
      | _ => destruct x eqn:?
      end
  end.

(** [H : run script = (out, trace)] becomes, in every branch of the
    script, the value of [out] and of [trace]. *)
Ltac execute H :=
  autounfold with script in H; reduce_in H; repeat (split_in H; reduce_in H);
  let Hout := fresh "Hout" in
  let Htr := fresh "Htr" in
  pose proof (f_equal fst H) as Hout; pose proof (f_equal snd H) as Htr;
  cbn [fst snd] in Hout, Htr; clear H;
  try (match type of Htr with _ = ?tr => subst tr end);
  try (match type of Hout with _ = ?out => subst out end).

(** A request met in a concrete trace. *)
Ltac in_trace H :=
  cbn [In] in H;
  repeat match type of H with
         | _ \/ _ => destruct H as [H|H]
         | False => destruct H
         | _ = _ =>
             first [ discriminate H
                   | injection H as <- <- <-
                   | injection H as <- <-
                   | injection H as <- ]
         end.

Ltac no_retry :=
  split;
  [ repeat (constructor;
            [ let Hx := fresh in cbn [In]; intros Hx; in_trace Hx | ]);
    constructor
  | cbn [filter Spec.is_post List.length]; lia ].

Lemma Return_inj {A} (a b : A) : Return a = Return b -> a = b.
Proof. congruence. Qed.

(** Rewriting with what is known of the world, before the case analysis. *)
Ltac known_in H :=
  repeat (reduce_in H;
          match goal with
          | E : ?x = _ |- _ =>
              lazymatch type of H with
              | context [match x with _ => _ end] => rewrite E in H
              | context [match negb x with _ => _ end] => rewrite E in H
              end
          end);
  reduce_in H.

Ltac neutron_form H :=
  change (Spec.neutron_address ?c)
    with (Bech32.encode MetaMask.CONFIG.addressPrefix
            (Bech32.toWords (Ripemd160.ripemd160 (Sha256.sha256 c)))) in H.

Ltac nolus_form H :=
  change (Spec.nolus_address ?pk)
    with (Bech32.encode Nolus.CONFIG.addressPrefix
            (Bech32.toWords (slice 0 20 (Sha256.sha256 pk)))) in H.

(** The reply of the node, as a record. *)
Lemma response_eta (r : RpcResponse) (res : option RpcResult) (err : option RpcError) :
  result r = res -> error r = err -> r = {| result := res; error := err |}.
Proof. destruct r. cbn. congruence. Qed.

Lemma nolus_Sent_inj h h' res res' :
  Return (Nolus.Sent h res) = Return (Nolus.Sent h' res') -> h = h' /\ res = res'.
Proof. intros H. injection H as -> ->. auto. Qed.

Lemma In_last {A} (x : A) (l : list A) : In x (l ++ [x]).
Proof. apply in_or_app. right. left. reflexivity. Qed.

Module SolflareFacts.
Import Nolus Solflare.

Lemma solflare_getAddress_returns w a tr :
  run (getAddress w) = (Return a, tr) ->
  tr = [WalletConnect]
  /\ (exists wallet, Spec.solflare_key w wallet (ed25519PublicKey a))
  /\ Spec.nolus_address (ed25519PublicKey a) = Return (bech32Addr a)
  /\ pubkeyAny a
     = {| typeUrl := "/cosmos.crypto.ed25519.PubKey";
          value := Base64.toBase64
                     (PubKey.encode {| PubKey.key := ed25519PublicKey a |}) |}.
Proof.
  intros H. execute H; try discriminate Hout.
  apply Return_inj in Hout. subst a. cbn [ed25519PublicKey bech32Addr pubkeyAny].
  repeat split; try assumption.
  eexists. repeat split; try eassumption;
    try (apply negb_false_iff; assumption);
    try (eexists; split; [eassumption|reflexivity]).
Qed.

Lemma solflare_getAddress_connected w wallet publicKey :
  Spec.solflare_key w wallet publicKey ->
  exists a,
    run (getAddress w) = (Return a, [WalletConnect])
    /\ ed25519PublicKey a = publicKey
    /\ Spec.nolus_address publicKey = Return (bech32Addr a).
Proof.
  intros (Hw & His & Hc & key & Hk & <-).
  destruct (Bech32Facts.encode_hash_returns "nolus"
              (slice 0 20 (Sha256.sha256 (toBytes key))) (or_introl eq_refl)
              (slice_length_le 0 20 _)) as [address Haddress].
  change "nolus" with CONFIG.addressPrefix in Haddress.
  destruct (run (getAddress w)) as [out tr] eqn:H.
  autounfold with script in H. known_in H. execute H.
  eexists. split; [reflexivity|]. split; [reflexivity|assumption].
Qed.

(** Every signature request of a run: what was fetched before it, and
    the message it carries. *)
Lemma solflare_signs w toAddress amountStr memo out tr m d :
  run (sendTransaction w toAddress amountStr memo) = (out, tr) ->
  In (WalletSignMessage m d) tr ->
  exists wallet publicKey address reply rest,
    Spec.solflare_key w wallet publicKey
    /\ Spec.nolus_address publicKey = Return address
    /\ getAccount (node w) address = Return reply
    /\ tr = ([WalletConnect; StargateConnect CONFIG.rpc; GetAccount address;
             WalletSignMessage m d] ++ rest)%list
    /\ d = None
    /\ m = SignDoc.encode
             (Spec.direct_sign_doc publicKey address
                (or_default toAddress address) (or_default amountStr "1000000")
                (or_default memo "solflare-ed25519-test") (Spec.fetched reply)).
Proof.
  intros H Hin. execute H; in_trace Hin.
  all: do 5 eexists; cbn [app].
  all: repeat split;
    try eassumption; try reflexivity;
    try (apply negb_false_iff; assumption);
    try (eexists; split; [eassumption|reflexivity]).
  all: assumption.
Qed.

(** Every POST of a run: the signature it carries, and its body. *)
Lemma solflare_broadcasts w toAddress amountStr memo out tr url headers body :
  run (sendTransaction w toAddress amountStr memo) = (out, tr) ->
  In (HttpPost url headers body) tr ->
  exists wallet publicKey address reply signature,
    Spec.solflare_key w wallet publicKey
    /\ Spec.nolus_address publicKey = Return address
    /\ getAccount (node w) address = Return reply
    /\ signMessage wallet
         (SignDoc.encode
             (Spec.direct_sign_doc publicKey address
                (or_default toAddress address) (or_default amountStr "1000000")
                (or_default memo "solflare-ed25519-test") (Spec.fetched reply)))
          = Return signature
    /\ tr = [WalletConnect; StargateConnect CONFIG.rpc; GetAccount address;
             WalletSignMessage
               (SignDoc.encode
             (Spec.direct_sign_doc publicKey address
                (or_default toAddress address) (or_default amountStr "1000000")
                (or_default memo "solflare-ed25519-test") (Spec.fetched reply)))
               None;
             HttpPost url headers body]
    /\ url = CONFIG.rpc
    /\ headers = [("Content-Type", "application/json")]
    /\ body = Spec.broadcast_body (Date_now (node w))
                (Spec.direct_tx publicKey address
                   (or_default toAddress address) (or_default amountStr "1000000")
                   (or_default memo "solflare-ed25519-test") (Spec.fetched reply)
                   signature).
Proof.
  intros H Hin. execute H; in_trace Hin.
  all: do 5 eexists.
  all: repeat split;
    try eassumption; try reflexivity;
    try (apply negb_false_iff; assumption);
    try (eexists; split; [eassumption|reflexivity]).
  all: assumption.
Qed.

(** How a run ends. *)
Lemma solflare_outcome w toAddress amountStr memo out tr :
  run (sendTransaction w toAddress amountStr memo) = (out, tr) ->
  (exists r, out = Return r)
  /\ (forall h res,
        out = Return (Sent h res) <->
        exists headers body,
          In (HttpPost CONFIG.rpc headers body) tr
          /\ Spec.accepted (node w) CONFIG.rpc headers body res
          /\ h = or_else (txhash res) (hash res))
  /\ Spec.no_retry tr.
Proof.
  intros H. execute H.
  all: split; [eauto|split; [|no_retry]].
  all: intros h res; split;
    [ intros Ho; try discriminate Ho
    | intros (headers & body & Hin & (Hfetch & Hcode) & ->); in_trace Hin ].
  all: try match goal with
           | E : fetch _ _ _ _ = _ |- _ =>
               tryif constr_eq E Hfetch then fail
               else pose proof (eq_trans (eq_sym E) Hfetch) as Hsame
           end.
  all: try discriminate Hsame.
  all: try (apply Return_inj in Hsame; subst; cbn [result error] in * ).
  all: try discriminate.
  all: try match goal with
           | E : Some _ = Some _ |- _ => injection E as <-
           end.
  all: try (apply code_is_zero_iff in Hcode; congruence).
  all: apply nolus_Sent_inj in Ho; destruct Ho as [<- <-];
    do 2 eexists; (split; [|split]);
    [ cbn [In]; do 4 right; left; reflexivity
    | split;
      [ match goal with E : fetch _ _ _ _ = Return ?r |- _ =>
          rewrite E; f_equal; apply response_eta; assumption end
      | apply code_is_zero_iff; assumption ]
    | reflexivity ].
Qed.

(** A run ends in [{ success: false, error, code, result }] exactly when
    the node replied to the broadcast with a result whose code is not 0. *)
Lemma solflare_rejected w toAddress amountStr memo out tr :
  run (sendTransaction w toAddress amountStr memo) = (out, tr) ->
  forall err c res,
    out = Return (Rejected err c res) <->
    exists headers body,
      In (HttpPost CONFIG.rpc headers body) tr
      /\ fetch (node w) CONFIG.rpc headers body
         = Return {| result := Some res; error := None |}
      /\ code res <> Some 0
      /\ err = or_default (log res) "Unknown error"
      /\ c = code res.
Proof.
  intros H. execute H.
  all: intros err c res; split;
    [ intros Ho; try discriminate Ho
    | intros (headers & body & Hin & Hfetch & Hcode & -> & ->); in_trace Hin ].
  all: try match goal with
           | E : fetch _ _ _ _ = _ |- _ =>
               tryif constr_eq E Hfetch then fail
               else pose proof (eq_trans (eq_sym E) Hfetch) as Hsame
           end.
  all: try discriminate Hsame.
  all: try (apply Return_inj in Hsame; subst; cbn [result error] in * ).
  all: try discriminate.
  all: try match goal with
           | E : Some _ = Some _ |- _ => injection E as <-
           end.
  all: try (exfalso; apply Hcode; apply code_is_zero_iff; assumption).
  all: try reflexivity.
  all: injection Ho as <- <- <-;
    do 2 eexists; (split; [|split; [|split; [|split]]]);
    [ cbn [In]; do 4 right; left; reflexivity
    | match goal with E : fetch _ _ _ _ = Return ?r |- _ =>
        rewrite E; f_equal; apply response_eta; assumption end
    | intros Hz; apply code_is_zero_iff in Hz; congruence
    | reflexivity
    | reflexivity ].
Qed.

(** With a connected wallet and a node that knows no account, the run
    goes on to the signature request, and on to the broadcast when the
    wallet signs. *)
Lemma solflare_fresh_account w wallet publicKey address toAddress amountStr memo :
  Spec.solflare_key w wallet publicKey ->
  Spec.nolus_address publicKey = Return address ->
  StargateClient_connect (node w) CONFIG.rpc = Return tt ->
  getAccount (node w) address = Return None ->
  exists out rest,
    run (sendTransaction w toAddress amountStr memo)
    = (out,
       [WalletConnect; StargateConnect CONFIG.rpc; GetAccount address;
        WalletSignMessage
          (SignDoc.encode
             (Spec.direct_sign_doc publicKey address
                (or_default toAddress address) (or_default amountStr "1000000")
                (or_default memo "solflare-ed25519-test") (0%N, 0%N)))
          None] ++ rest)%list
    /\ forall signature,
         signMessage wallet
         (SignDoc.encode
             (Spec.direct_sign_doc publicKey address
                (or_default toAddress address) (or_default amountStr "1000000")
                (or_default memo "solflare-ed25519-test") (0%N, 0%N)))
          = Return signature ->
         rest = [HttpPost CONFIG.rpc [("Content-Type", "application/json")]
                   (Spec.broadcast_body (Date_now (node w))
                      (Spec.direct_tx publicKey address
                         (or_default toAddress address)
                         (or_default amountStr "1000000")
                         (or_default memo "solflare-ed25519-test") (0%N, 0%N)
                         signature))].
Proof.
  intros (Hw & His & Hc & key & Hk & <-) Haddress Hclient Haccount.
  nolus_form Haddress.
  destruct (run (sendTransaction w toAddress amountStr memo)) as [out tr] eqn:H.
  autounfold with script in H. known_in H.
  execute H.
  all: do 2 eexists; cbn [app]; (split; [reflexivity|]).
  all: intros signature Hsig;
       match goal with
       | E : signMessage _ _ = _ |- _ =>
           tryif constr_eq E Hsig then fail
           else pose proof (eq_trans (eq_sym E) Hsig) as Hsame
       end.
  all: first [ discriminate Hsame
             | apply Return_inj in Hsame; subst; reflexivity ].
Qed.

End SolflareFacts.

Module PhantomFacts.
Import Nolus Phantom.

Lemma phantom_getAddress_returns w a tr :
  run (getAddress w) = (Return a, tr) ->
  tr = [WalletConnect]
  /\ (exists wallet, Spec.phantom_key w wallet (ed25519PublicKey a))
  /\ Spec.nolus_address (ed25519PublicKey a) = Return (bech32Addr a)
  /\ pubkeyAny a
     = {| typeUrl := "/cosmos.crypto.ed25519.PubKey";
          value := Base64.toBase64
                     (PubKey.encode {| PubKey.key := ed25519PublicKey a |}) |}.
Proof.
  intros H. execute H; try discriminate Hout.
  apply Return_inj in Hout. subst a. cbn [ed25519PublicKey bech32Addr pubkeyAny].
  repeat split; try assumption.
  eexists. repeat split; try eassumption;
    try (apply negb_false_iff; assumption);
    try (eexists; split; [eassumption|reflexivity]).
Qed.

Lemma phantom_getAddress_connected w wallet publicKey :
  Spec.phantom_key w wallet publicKey ->
  exists a,
    run (getAddress w) = (Return a, [WalletConnect])
    /\ ed25519PublicKey a = publicKey
    /\ Spec.nolus_address publicKey = Return (bech32Addr a).
Proof.
  intros (Hw & key & Hc & <-).
  destruct (Bech32Facts.encode_hash_returns "nolus"
              (slice 0 20 (Sha256.sha256 (toBytes key))) (or_introl eq_refl)
              (slice_length_le 0 20 _)) as [address Haddress].
  change "nolus" with CONFIG.addressPrefix in Haddress.
  destruct (run (getAddress w)) as [out tr] eqn:H.
  autounfold with script in H. known_in H. execute H.
  eexists. split; [reflexivity|]. split; [reflexivity|assumption].
Qed.

(** Every signature request of a run: what was fetched before it, and
    the message it carries. *)
Lemma phantom_signs w toAddress amountStr memo out tr m d :
  run (sendTransaction w toAddress amountStr memo) = (out, tr) ->
  In (WalletSignMessage m d) tr ->
  exists wallet publicKey address reply rest,
    Spec.phantom_key w wallet publicKey
    /\ Spec.nolus_address publicKey = Return address
    /\ getAccount (node w) address = Return reply
    /\ tr = ([WalletConnect; StargateConnect CONFIG.rpc; GetAccount address;
             WalletSignMessage m d] ++ rest)%list
    /\ d = (Some "utf8")
    /\ m = SignDoc.encode
             (Spec.direct_sign_doc publicKey address
                (or_default toAddress address) (or_default amountStr "1000000")
                (or_default memo "phantom-ed25519-test") (Spec.fetched reply)).
Proof.
  intros H Hin. execute H; in_trace Hin.
  all: do 5 eexists; cbn [app].
  all: repeat split;
    try eassumption; try reflexivity;
    try (apply negb_false_iff; assumption);
    try (eexists; split; [eassumption|reflexivity]).
  all: assumption.
Qed.

(** Every POST of a run: the signature it carries, and its body. *)
Lemma phantom_broadcasts w toAddress amountStr memo out tr url headers body :
  run (sendTransaction w toAddress amountStr memo) = (out, tr) ->
  In (HttpPost url headers body) tr ->
  exists wallet publicKey address reply signature,
    Spec.phantom_key w wallet publicKey
    /\ Spec.nolus_address publicKey = Return address
    /\ getAccount (node w) address = Return reply
    /\ signMessage wallet
         (SignDoc.encode
             (Spec.direct_sign_doc publicKey address
                (or_default toAddress address) (or_default amountStr "1000000")
                (or_default memo "phantom-ed25519-test") (Spec.fetched reply)))
          (Some "utf8")
          = Return signature
    /\ tr = [WalletConnect; StargateConnect CONFIG.rpc; GetAccount address;
             WalletSignMessage
               (SignDoc.encode
             (Spec.direct_sign_doc publicKey address
                (or_default toAddress address) (or_default amountStr "1000000")
                (or_default memo "phantom-ed25519-test") (Spec.fetched reply)))
               (Some "utf8");
             HttpPost url headers body]
    /\ url = CONFIG.rpc
    /\ headers = [("Content-Type", "application/json")]
    /\ body = Spec.broadcast_body (Date_now (node w))
                (Spec.direct_tx publicKey address
                   (or_default toAddress address) (or_default amountStr "1000000")
                   (or_default memo "phantom-ed25519-test") (Spec.fetched reply)
                   signature).
Proof.
  intros H Hin. execute H; in_trace Hin.
  all: do 5 eexists.
  all: repeat split;
    try eassumption; try reflexivity;
    try (apply negb_false_iff; assumption);
    try (eexists; split; [eassumption|reflexivity]).
  all: assumption.
Qed.

(** How a run ends. *)
Lemma phantom_outcome w toAddress amountStr memo out tr :
  run (sendTransaction w toAddress amountStr memo) = (out, tr) ->
  (exists r, out = Return r)
  /\ (forall h res,
        out = Return (Sent h res) <->
        exists headers body,
          In (HttpPost CONFIG.rpc headers body) tr
          /\ Spec.accepted (node w) CONFIG.rpc headers body res
          /\ h = or_else (txhash res) (hash res))
  /\ Spec.no_retry tr.
Proof.
  intros H. execute H.
  all: split; [eauto|split; [|no_retry]].
  all: intros h res; split;
    [ intros Ho; try discriminate Ho
    | intros (headers & body & Hin & (Hfetch & Hcode) & ->); in_trace Hin ].
  all: try match goal with
           | E : fetch _ _ _ _ = _ |- _ =>
               tryif constr_eq E Hfetch then fail
               else pose proof (eq_trans (eq_sym E) Hfetch) as Hsame
           end.
  all: try discriminate Hsame.
  all: try (apply Return_inj in Hsame; subst; cbn [result error] in * ).
  all: try discriminate.
  all: try match goal with
           | E : Some _ = Some _ |- _ => injection E as <-
           end.
  all: try (apply code_is_zero_iff in Hcode; congruence).
  all: apply nolus_Sent_inj in Ho; destruct Ho as [<- <-];
    do 2 eexists; (split; [|split]);
    [ cbn [In]; do 4 right; left; reflexivity
    | split;
      [ match goal with E : fetch _ _ _ _ = Return ?r |- _ =>
          rewrite E; f_equal; apply response_eta; assumption end
      | apply code_is_zero_iff; assumption ]
    | reflexivity ].
Qed.

(** A run ends in [{ success: false, error, code, result }] exactly when
    the node replied to the broadcast with a result whose code is not 0. *)
Lemma phantom_rejected w toAddress amountStr memo out tr :
  run (sendTransaction w toAddress amountStr memo) = (out, tr) ->
  forall err c res,
    out = Return (Rejected err c res) <->
    exists headers body,
      In (HttpPost CONFIG.rpc headers body) tr
      /\ fetch (node w) CONFIG.rpc headers body
         = Return {| result := Some res; error := None |}
      /\ code res <> Some 0
      /\ err = or_default (log res) "Unknown error"
      /\ c = code res.
Proof.
  intros H. execute H.
  all: intros err c res; split;
    [ intros Ho; try discriminate Ho
    | intros (headers & body & Hin & Hfetch & Hcode & -> & ->); in_trace Hin ].
  all: try match goal with
           | E : fetch _ _ _ _ = _ |- _ =>
               tryif constr_eq E Hfetch then fail
               else pose proof (eq_trans (eq_sym E) Hfetch) as Hsame
           end.
  all: try discriminate Hsame.
  all: try (apply Return_inj in Hsame; subst; cbn [result error] in * ).
  all: try discriminate.
  all: try match goal with
           | E : Some _ = Some _ |- _ => injection E as <-
           end.
  all: try (exfalso; apply Hcode; apply code_is_zero_iff; assumption).
  all: try reflexivity.
  all: injection Ho as <- <- <-;
    do 2 eexists; (split; [|split; [|split; [|split]]]);
    [ cbn [In]; do 4 right; left; reflexivity
    | match goal with E : fetch _ _ _ _ = Return ?r |- _ =>
        rewrite E; f_equal; apply response_eta; assumption end
    | intros Hz; apply code_is_zero_iff in Hz; congruence
    | reflexivity
    | reflexivity ].
Qed.

(** With a connected wallet and a node that knows no account, the run
    goes on to the signature request, and on to the broadcast when the
    wallet signs. *)
Lemma phantom_fresh_account w wallet publicKey address toAddress amountStr memo :
  Spec.phantom_key w wallet publicKey ->
  Spec.nolus_address publicKey = Return address ->
  StargateClient_connect (node w) CONFIG.rpc = Return tt ->
  getAccount (node w) address = Return None ->
  exists out rest,
    run (sendTransaction w toAddress amountStr memo)
    = (out,
       [WalletConnect; StargateConnect CONFIG.rpc; GetAccount address;
        WalletSignMessage
          (SignDoc.encode
             (Spec.direct_sign_doc publicKey address
                (or_default toAddress address) (or_default amountStr "1000000")
                (or_default memo "phantom-ed25519-test") (0%N, 0%N)))
          (Some "utf8")] ++ rest)%list
    /\ forall signature,
         signMessage wallet
         (SignDoc.encode
             (Spec.direct_sign_doc publicKey address
                (or_default toAddress address) (or_default amountStr "1000000")
                (or_default memo "phantom-ed25519-test") (0%N, 0%N)))
          (Some "utf8")
          = Return signature ->
         rest = [HttpPost CONFIG.rpc [("Content-Type", "application/json")]
                   (Spec.broadcast_body (Date_now (node w))
                      (Spec.direct_tx publicKey address
                         (or_default toAddress address)
                         (or_default amountStr "1000000")
                         (or_default memo "phantom-ed25519-test") (0%N, 0%N)
                         signature))].
Proof.
  intros (Hw & key & Hc & <-) Haddress Hclient Haccount.
  nolus_form Haddress.
  destruct (run (sendTransaction w toAddress amountStr memo)) as [out tr] eqn:H.
  autounfold with script in H. known_in H.
  execute H.
  all: do 2 eexists; cbn [app]; (split; [reflexivity|]).
  all: intros signature Hsig;
       match goal with
       | E : signMessage _ _ _ = _ |- _ =>
           tryif constr_eq E Hsig then fail
           else pose proof (eq_trans (eq_sym E) Hsig) as Hsame
       end.
  all: first [ discriminate Hsame
             | apply Return_inj in Hsame; subst; reflexivity ].
Qed.

End PhantomFacts.

Module PhantomProviderFacts.
Import Nolus PhantomProvider.

Lemma provider_getAddress_returns w a tr :
  run (getAddress w) = (Return a, tr) ->
  tr = [WalletConnect]
  /\ (exists wallet, Spec.provider_key w wallet (ed25519PublicKey a))
  /\ Spec.nolus_address (ed25519PublicKey a) = Return (bech32Addr a)
  /\ pubkeyAny a
     = {| typeUrl := "/cosmos.crypto.ed25519.PubKey";
          value := Base64.toBase64
                     (PubKey.encode {| PubKey.key := ed25519PublicKey a |}) |}.
Proof.
  intros H. execute H; try discriminate Hout.
  apply Return_inj in Hout. subst a. cbn [ed25519PublicKey bech32Addr pubkeyAny].
  repeat split; try assumption.
  eexists. repeat split; try eassumption;
    try (apply negb_false_iff; assumption);
    try (eexists; split; [eassumption|reflexivity]).
Qed.

Lemma provider_getAddress_connected w wallet publicKey :
  Spec.provider_key w wallet publicKey ->
  exists a,
    run (getAddress w) = (Return a, [WalletConnect])
    /\ ed25519PublicKey a = publicKey
    /\ Spec.nolus_address publicKey = Return (bech32Addr a).
Proof.
  intros (Hw & His & key & Hc & <-).
  destruct (Bech32Facts.encode_hash_returns "nolus"
              (slice 0 20 (Sha256.sha256 (toBytes key))) (or_introl eq_refl)
              (slice_length_le 0 20 _)) as [address Haddress].
  change "nolus" with CONFIG.addressPrefix in Haddress.
  destruct (run (getAddress w)) as [out tr] eqn:H.
  autounfold with script in H. known_in H. execute H.
  eexists. split; [reflexivity|]. split; [reflexivity|assumption].
Qed.

(** Every signature request of a run: what was fetched before it, and
    the message it carries. *)
Lemma provider_signs w toAddress amountStr memo out tr m d :
  run (sendTransaction w toAddress amountStr memo) = (out, tr) ->
  In (WalletSignMessage m d) tr ->
  exists wallet publicKey address reply rest,
    Spec.provider_key w wallet publicKey
    /\ Spec.nolus_address publicKey = Return address
    /\ getAccount (node w) address = Return reply
    /\ tr = ([WalletConnect; StargateConnect CONFIG.rpc; GetAccount address;
             WalletSignMessage m d] ++ rest)%list
    /\ d = None
    /\ m = Utf8.TextEncoder_encode
             (Utf8.Buffer_toString
                (SignDoc.encode
             (Spec.direct_sign_doc publicKey address
                (or_default toAddress address) (or_default amountStr "1000000")
                (or_default memo "phantom-ed25519-test") (Spec.fetched reply)))).
Proof.
  intros H Hin. execute H; in_trace Hin.
  all: do 5 eexists; cbn [app].
  all: repeat split;
    try eassumption; try reflexivity;
    try (apply negb_false_iff; assumption);
    try (eexists; split; [eassumption|reflexivity]).
  all: assumption.
Qed.

(** Every POST of a run: the signature it carries, and its body. *)
Lemma provider_broadcasts w toAddress amountStr memo out tr url headers body :
  run (sendTransaction w toAddress amountStr memo) = (out, tr) ->
  In (HttpPost url headers body) tr ->
  exists wallet publicKey address reply signature,
    Spec.provider_key w wallet publicKey
    /\ Spec.nolus_address publicKey = Return address
    /\ getAccount (node w) address = Return reply
    /\ signMessage wallet
         (Utf8.TextEncoder_encode
             (Utf8.Buffer_toString
                (SignDoc.encode
             (Spec.direct_sign_doc publicKey address
                (or_default toAddress address) (or_default amountStr "1000000")
                (or_default memo "phantom-ed25519-test") (Spec.fetched reply)))))
          = Return signature
    /\ tr = [WalletConnect; StargateConnect CONFIG.rpc; GetAccount address;
             WalletSignMessage
               (Utf8.TextEncoder_encode
             (Utf8.Buffer_toString
                (SignDoc.encode
             (Spec.direct_sign_doc publicKey address
                (or_default toAddress address) (or_default amountStr "1000000")
                (or_default memo "phantom-ed25519-test") (Spec.fetched reply)))))
               None;
             HttpPost url headers body]
    /\ url = CONFIG.rpc
    /\ headers = [("Content-Type", "application/json")]
    /\ body = Spec.broadcast_body (Date_now (node w))
                (Spec.direct_tx publicKey address
                   (or_default toAddress address) (or_default amountStr "1000000")
                   (or_default memo "phantom-ed25519-test") (Spec.fetched reply)
                   signature).
Proof.
  intros H Hin. execute H; in_trace Hin.
  all: do 5 eexists.
  all: repeat split;
    try eassumption; try reflexivity;
    try (apply negb_false_iff; assumption);
    try (eexists; split; [eassumption|reflexivity]).
  all: assumption.
Qed.

(** How a run ends. *)
Lemma provider_outcome w toAddress amountStr memo out tr :
  run (sendTransaction w toAddress amountStr memo) = (out, tr) ->
  (exists r, out = Return r)
  /\ (forall h res,
        out = Return (Sent h res) <->
        exists headers body,
          In (HttpPost CONFIG.rpc headers body) tr
          /\ Spec.accepted (node w) CONFIG.rpc headers body res
          /\ h = or_else (txhash res) (hash res))
  /\ Spec.no_retry tr.
Proof.
  intros H. execute H.
  all: split; [eauto|split; [|no_retry]].
  all: intros h res; split;
    [ intros Ho; try discriminate Ho
    | intros (headers & body & Hin & (Hfetch & Hcode) & ->); in_trace Hin ].
  all: try match goal with
           | E : fetch _ _ _ _ = _ |- _ =>
               tryif constr_eq E Hfetch then fail
               else pose proof (eq_trans (eq_sym E) Hfetch) as Hsame
           end.
  all: try discriminate Hsame.
  all: try (apply Return_inj in Hsame; subst; cbn [result error] in * ).
  all: try discriminate.
  all: try match goal with
           | E : Some _ = Some _ |- _ => injection E as <-
           end.
  all: try (apply code_is_zero_iff in Hcode; congruence).
  all: apply nolus_Sent_inj in Ho; destruct Ho as [<- <-];
    do 2 eexists; (split; [|split]);
    [ cbn [In]; do 4 right; left; reflexivity
    | split;
      [ match goal with E : fetch _ _ _ _ = Return ?r |- _ =>
          rewrite E; f_equal; apply response_eta; assumption end
      | apply code_is_zero_iff; assumption ]
    | reflexivity ].
Qed.

(** A run ends in [{ success: false, error, code, result }] exactly when
    the node replied to the broadcast with a result whose code is not 0. *)
Lemma provider_rejected w toAddress amountStr memo out tr :
  run (sendTransaction w toAddress amountStr memo) = (out, tr) ->
  forall err c res,
    out = Return (Rejected err c res) <->
    exists headers body,
      In (HttpPost CONFIG.rpc headers body) tr
      /\ fetch (node w) CONFIG.rpc headers body
         = Return {| result := Some res; error := None |}
      /\ code res <> Some 0
      /\ err = or_default (log res) "Unknown error"
      /\ c = code res.
Proof.
  intros H. execute H.
  all: intros err c res; split;
    [ intros Ho; try discriminate Ho
    | intros (headers & body & Hin & Hfetch & Hcode & -> & ->); in_trace Hin ].
  all: try match goal with
           | E : fetch _ _ _ _ = _ |- _ =>
               tryif constr_eq E Hfetch then fail
               else pose proof (eq_trans (eq_sym E) Hfetch) as Hsame
           end.
  all: try discriminate Hsame.
  all: try (apply Return_inj in Hsame; subst; cbn [result error] in * ).
  all: try discriminate.
  all: try match goal with
           | E : Some _ = Some _ |- _ => injection E as <-
           end.
  all: try (exfalso; apply Hcode; apply code_is_zero_iff; assumption).
  all: try reflexivity.
  all: injection Ho as <- <- <-;
    do 2 eexists; (split; [|split; [|split; [|split]]]);
    [ cbn [In]; do 4 right; left; reflexivity
    | match goal with E : fetch _ _ _ _ = Return ?r |- _ =>
        rewrite E; f_equal; apply response_eta; assumption end
    | intros Hz; apply code_is_zero_iff in Hz; congruence
    | reflexivity
    | reflexivity ].
Qed.

(** With a connected wallet and a node that knows no account, the run
    goes on to the signature request, and on to the broadcast when the
    wallet signs. *)
Lemma provider_fresh_account w wallet publicKey address toAddress amountStr memo :
  Spec.provider_key w wallet publicKey ->
  Spec.nolus_address publicKey = Return address ->
  StargateClient_connect (node w) CONFIG.rpc = Return tt ->
  getAccount (node w) address = Return None ->
  exists out rest,
    run (sendTransaction w toAddress amountStr memo)
    = (out,
       [WalletConnect; StargateConnect CONFIG.rpc; GetAccount address;
        WalletSignMessage
          (Utf8.TextEncoder_encode
             (Utf8.Buffer_toString
                (SignDoc.encode
             (Spec.direct_sign_doc publicKey address
                (or_default toAddress address) (or_default amountStr "1000000")
                (or_default memo "phantom-ed25519-test") (0%N, 0%N)))))
          None] ++ rest)%list
    /\ forall signature,
         signMessage wallet
         (Utf8.TextEncoder_encode
             (Utf8.Buffer_toString
                (SignDoc.encode
             (Spec.direct_sign_doc publicKey address
                (or_default toAddress address) (or_default amountStr "1000000")
                (or_default memo "phantom-ed25519-test") (0%N, 0%N)))))
          = Return signature ->
         rest = [HttpPost CONFIG.rpc [("Content-Type", "application/json")]
                   (Spec.broadcast_body (Date_now (node w))
                      (Spec.direct_tx publicKey address
                         (or_default toAddress address)
                         (or_default amountStr "1000000")
                         (or_default memo "phantom-ed25519-test") (0%N, 0%N)
                         signature))].
Proof.
  intros (Hw & His & key & Hc & <-) Haddress Hclient Haccount.
  nolus_form Haddress.
  destruct (run (sendTransaction w toAddress amountStr memo)) as [out tr] eqn:H.
  autounfold with script in H. known_in H.
  execute H.
  all: do 2 eexists; cbn [app]; (split; [reflexivity|]).
  all: intros signature Hsig;
       match goal with
       | E : signMessage _ _ = _ |- _ =>
           tryif constr_eq E Hsig then fail
           else pose proof (eq_trans (eq_sym E) Hsig) as Hsame
       end.
  all: first [ discriminate Hsame
             | apply Return_inj in Hsame; subst; reflexivity ].
Qed.

End PhantomProviderFacts.

Module MetaMaskFacts.
Import MetaMask.

Lemma metamask_getAddress_returns w a tr :
  run (getAddress w) = (Return a, tr) ->
  exists provider compressed,
    Spec.metamask_key w provider (ethAddress a) compressed
    /\ pubkeyAny a = Spec.secp256k1_key compressed
    /\ Spec.neutron_address compressed = Return (bech32Addr a)
    /\ tr = Spec.key_requests (ethAddress a).
Proof.
  intros H. execute H; try discriminate Hout.
  apply Return_inj in Hout. subst a. cbn [ethAddress bech32Addr pubkeyAny].
  do 2 eexists. split; [|repeat split; try reflexivity; eassumption].
  split; [eassumption|].
  match goal with u : unit |- _ => destruct u end.
  do 4 eexists. repeat split; try eassumption; reflexivity.
Qed.

Lemma metamask_getAddress_connected w provider eth compressed :
  Spec.metamask_key w provider eth compressed ->
  exists a,
    run (getAddress w) = (Return a, Spec.key_requests eth)
    /\ ethAddress a = eth
    /\ pubkeyAny a = Spec.secp256k1_key compressed
    /\ Spec.neutron_address compressed = Return (bech32Addr a).
Proof.
  intros (Hw & accounts & sig & fullPubkey & uncompressed
          & Hreq & Hacc & -> & Hsig & Hrec & Hbytes & ->).
  destruct (Bech32Facts.encode_hash_returns "neutron"
              (Ripemd160.ripemd160 (Sha256.sha256 (compress uncompressed)))
              (or_intror eq_refl)
              (Nat.eq_le_incl _ _ (ripemd160_length _))) as [address Haddress].
  change "neutron" with CONFIG.addressPrefix in Haddress.
  unfold Spec.key_message in *.
  destruct (run (getAddress w)) as [out tr] eqn:H.
  autounfold with script in H. known_in H. execute H.
  eexists. split; [reflexivity|]. repeat split; assumption.
Qed.

(** Every [personal_sign] request of a run is the one of [getAddress]
    or carries the JSON sign document built from what was fetched. *)
Lemma metamask_signs w toAddress amount memo out tr payload eth :
  run (sendTransaction w toAddress amount memo) = (out, tr) ->
  In (EthereumRequest "personal_sign" [Some payload; eth]) tr ->
  payload = hexlify (toUtf8Bytes Spec.key_message)
  \/ exists provider compressed address reply rest,
       Spec.metamask_key w provider eth compressed
       /\ Spec.neutron_address compressed = Return address
       /\ getAccount (node w) address = Return reply
       /\ tr = (Spec.key_requests eth
                  ++ [StargateConnect CONFIG.rpc; GetAccount address;
                      EthereumRequest "personal_sign" [Some payload; eth]]
                  ++ rest)%list
       /\ payload
          = Spec.json_payload
              (Spec.json_sign_doc (Spec.fetched reply) address
                 (or_default toAddress address) (or_default amount "1000000")
                 (or_default memo "Neutron Network transaction")).
Proof.
  intros H Hin. execute H; in_trace Hin; auto.
  all: right; do 5 eexists; cbn [app Spec.key_requests].
  all: repeat match goal with u : unit |- _ => destruct u end.
  all: split;
    [ split; [eassumption|];
      do 4 eexists; repeat split; try eassumption; reflexivity
    | repeat split; try eassumption; try reflexivity ].
Qed.

(** Every POST of a run: the signature it carries, and its body. *)
Lemma metamask_broadcasts w toAddress amount memo out tr url headers body :
  run (sendTransaction w toAddress amount memo) = (out, tr) ->
  In (HttpPost url headers body) tr ->
  exists provider eth compressed address reply sigResult sig,
    Spec.metamask_key w provider eth compressed
    /\ Spec.neutron_address compressed = Return address
    /\ getAccount (node w) address = Return reply
    /\ personal_sign provider
         (Spec.json_payload
            (Spec.json_sign_doc (Spec.fetched reply) address
               (or_default toAddress address) (or_default amount "1000000")
               (or_default memo "Neutron Network transaction")))
         eth
       = Return sigResult
    /\ Hex.fromHex (string_slice_neg 2 2 sigResult) = Return sig
    /\ tr = (Spec.key_requests eth
               ++ [StargateConnect CONFIG.rpc; GetAccount address;
                   EthereumRequest "personal_sign"
                     [Some (Spec.json_payload
                              (Spec.json_sign_doc (Spec.fetched reply) address
                                 (or_default toAddress address)
                                 (or_default amount "1000000")
                                 (or_default memo "Neutron Network transaction")));
                      eth];
                   HttpPost url headers body])%list
    /\ url = CONFIG.rpc
    /\ headers = [("Content-Type", "application/json");
                  ("Accept", "application/json")]
    /\ body = Spec.broadcast_body (Date_now (node w))
                (Spec.eip191_tx compressed address
                   (or_default toAddress address) (or_default amount "1000000")
                   (or_default memo "Neutron Network transaction")
                   (Spec.fetched reply) sig).
Proof.
  intros H Hin. execute H; in_trace Hin.
  all: do 7 eexists; cbn [app Spec.key_requests].
  all: repeat match goal with u : unit |- _ => destruct u end.
  all: split;
    [ split; [eassumption|];
      do 4 eexists; repeat split; try eassumption; reflexivity
    | repeat split; try eassumption; try reflexivity ].
Qed.

Lemma metamask_Sent_inj h h' res res' :
  Return (Sent h res) = Return (Sent h' res') -> h = h' /\ res = res'.
Proof. intros H. injection H as -> ->. auto. Qed.

Ltac distinct_requests :=
  repeat (constructor;
          [ let Hx := fresh in
            cbn [In]; intros Hx;
            repeat match type of Hx with
                   | _ \/ _ => destruct Hx as [Hx|Hx]
                   | False => destruct Hx
                   | _ = _ =>
                       first [ discriminate Hx
                             | injection Hx as Hx;
                               exact (json_payload_not_key_message _ _ (eq_sym Hx)) ]
                   end
          | ]);
  constructor.

(** How a run ends. *)
Lemma metamask_outcome w toAddress amount memo out tr :
  run (sendTransaction w toAddress amount memo) = (out, tr) ->
  (forall h res,
     out = Return (Sent h res) <->
     exists headers body,
       In (HttpPost CONFIG.rpc headers body) tr
       /\ Spec.accepted (node w) CONFIG.rpc headers body res
       /\ h = hash res)
  /\ Spec.no_retry tr.
Proof.
  intros H. execute H.
  all: split;
    [ | split; [distinct_requests|cbn [filter Spec.is_post List.length]; lia] ].
  all: intros h res; split;
    [ intros Ho; try discriminate Ho
    | intros (headers & body & Hin & (Hfetch & Hcode) & ->); in_trace Hin ].
  all: try match goal with
           | E : fetch _ _ _ _ = _ |- _ =>
               tryif constr_eq E Hfetch then fail
               else pose proof (eq_trans (eq_sym E) Hfetch) as Hsame
           end.
  all: try discriminate Hsame.
  all: try (apply Return_inj in Hsame; subst; cbn [result error] in * ).
  all: try discriminate.
  all: try match goal with
           | E : Some _ = Some _ |- _ => injection E as <-
           end.
  all: try (apply code_is_zero_iff in Hcode; congruence).
  all: apply metamask_Sent_inj in Ho; destruct Ho as [<- <-];
    do 2 eexists; (split; [|split]);
    [ cbn [In]; do 6 right; left; reflexivity
    | split;
      [ match goal with E : fetch _ _ _ _ = Return ?r |- _ =>
          rewrite E; f_equal; apply response_eta; assumption end
      | apply code_is_zero_iff; assumption ]
    | reflexivity ].
Qed.

(** A run ends in [{ success: false, error, result }] exactly when the
    node replied to the broadcast with a result whose code is not 0. *)
Lemma metamask_rejected w toAddress amount memo out tr :
  run (sendTransaction w toAddress amount memo) = (out, tr) ->
  forall err res,
    out = Return (Rejected err res) <->
    exists headers body,
      In (HttpPost CONFIG.rpc headers body) tr
      /\ fetch (node w) CONFIG.rpc headers body
         = Return {| result := Some res; error := None |}
      /\ code res <> Some 0
      /\ err = log res.
Proof.
  intros H. execute H.
  all: intros err res; split;
    [ intros Ho; try discriminate Ho
    | intros (headers & body & Hin & Hfetch & Hcode & ->); in_trace Hin ].
  all: try match goal with
           | E : fetch _ _ _ _ = _ |- _ =>
               tryif constr_eq E Hfetch then fail
               else pose proof (eq_trans (eq_sym E) Hfetch) as Hsame
           end.
  all: try discriminate Hsame.
  all: try (apply Return_inj in Hsame; subst; cbn [result error] in * ).
  all: try discriminate.
  all: try match goal with
           | E : Some _ = Some _ |- _ => injection E as <-
           end.
  all: try (exfalso; apply Hcode; apply code_is_zero_iff; assumption).
  all: try reflexivity.
  all: injection Ho as <- <-;
    do 2 eexists; (split; [|split; [|split]]);
    [ cbn [In]; do 6 right; left; reflexivity
    | match goal with E : fetch _ _ _ _ = Return ?r |- _ =>
        rewrite E; f_equal; apply response_eta; assumption end
    | intros Hz; apply code_is_zero_iff in Hz; congruence
    | reflexivity ].
Qed.

(** With a connected wallet and a node that knows no account, the run
    goes on to the signature request, and on to the broadcast when the
    wallet signs. *)
Lemma metamask_fresh_account w provider eth compressed address toAddress amount memo :
  Spec.metamask_key w provider eth compressed ->
  Spec.neutron_address compressed = Return address ->
  StargateClient_connect (node w) CONFIG.rpc = Return tt ->
  getAccount (node w) address = Return None ->
  exists out rest,
    run (sendTransaction w toAddress amount memo)
    = (out,
       Spec.key_requests eth
         ++ [StargateConnect CONFIG.rpc; GetAccount address;
             EthereumRequest "personal_sign"
               [Some (Spec.json_payload
                        (Spec.json_sign_doc (0%N, 0%N) address
                           (or_default toAddress address)
                           (or_default amount "1000000")
                           (or_default memo "Neutron Network transaction")));
                eth]]
         ++ rest)%list
    /\ forall sigResult sig,
         personal_sign provider
           (Spec.json_payload
              (Spec.json_sign_doc (0%N, 0%N) address
                 (or_default toAddress address) (or_default amount "1000000")
                 (or_default memo "Neutron Network transaction")))
           eth
         = Return sigResult ->
         Hex.fromHex (string_slice_neg 2 2 sigResult) = Return sig ->
         rest = [HttpPost CONFIG.rpc
                   [("Content-Type", "application/json");
                    ("Accept", "application/json")]
                   (Spec.broadcast_body (Date_now (node w))
                      (Spec.eip191_tx compressed address
                         (or_default toAddress address)
                         (or_default amount "1000000")
                         (or_default memo "Neutron Network transaction")
                         (0%N, 0%N) sig))].
Proof.
  intros (Hw & accounts & sig0 & fullPubkey & uncompressed
          & Hreq & Hacc & -> & Hsig0 & Hrec & Hbytes & ->)
         Haddress Hclient Haccount.
  neutron_form Haddress. unfold Spec.key_message in *.
  destruct (run (sendTransaction w toAddress amount memo)) as [out tr] eqn:H.
  autounfold with script in H. known_in H.
  execute H.
  all: do 2 eexists; cbn [app Spec.key_requests]; (split; [reflexivity|]).
  all: intros sigResult sig Hsig Hhex;
       match goal with
       | E : personal_sign _ _ _ = _ |- _ =>
           tryif constr_eq E Hsig then fail
           else tryif constr_eq E Hsig0 then fail
           else pose proof (eq_trans (eq_sym E) Hsig) as Hsame
       end.
  all: try discriminate Hsame.
  all: apply Return_inj in Hsame; subst;
       match goal with
       | E : Hex.fromHex _ = _ |- _ =>
           tryif constr_eq E Hhex then fail
           else pose proof (eq_trans (eq_sym E) Hhex) as Hsame
       end.
  all: first [ discriminate Hsame
             | apply Return_inj in Hsame; subst; reflexivity ].
Qed.

Lemma checkTestnet_request w out tr :
  run (checkTestnet w) = (out, tr) ->
  tr = [HttpPost CONFIG.rpc [("Content-Type", "application/json")]
          Spec.abci_info_body].
Proof. intros H. execute H; reflexivity. Qed.

Lemma metamask_broadcastTransaction_request w txBytes out tr :
  run (broadcastTransaction w txBytes) = (out, tr) ->
  tr = [HttpPost CONFIG.rpc
          [("Content-Type", "application/json"); ("Accept", "application/json")]
          (Spec.broadcast_body (Date_now (node w)) txBytes)].
Proof. intros H. execute H; reflexivity. Qed.

Lemma metamask_fetchAccountInfo_unknown w address :
  StargateClient_connect (node w) CONFIG.rpc = Return tt ->
  getAccount (node w) address = Return None ->
  run (fetchAccountInfo w address)
  = (Return {| accountNumber := 0; sequence := 0 |},
     [StargateConnect CONFIG.rpc; GetAccount address]).
Proof.
  intros Hclient Haccount. autounfold with script. cbn beta iota zeta.
  rewrite Hclient, Haccount. reflexivity.
Qed.

End MetaMaskFacts.

Module NolusFacts.
Import Nolus.

Lemma nolus_broadcastTransaction_request node txBytes out tr :
  run (broadcastTransaction node txBytes) = (out, tr) ->
  tr = [HttpPost CONFIG.rpc [("Content-Type", "application/json")]
          (Spec.broadcast_body (Date_now node) txBytes)].
Proof. intros H. execute H; reflexivity. Qed.

Lemma nolus_fetchAccountInfo_unknown node address :
  StargateClient_connect node CONFIG.rpc = Return tt ->
  getAccount node address = Return None ->
  run (fetchAccountInfo node address)
  = (Return {| accountNumber := 0; sequence := 0 |},
     [StargateConnect CONFIG.rpc; GetAccount address]).
Proof.
  intros Hclient Haccount. autounfold with script. cbn beta iota zeta.
  rewrite Hclient, Haccount. reflexivity.
Qed.

End NolusFacts.

(** ** The steps of a send, one after the other *)

(** What is known of an oracle's answer, against what a branch of the
    run found: the branch is impossible, or the two answers are one. *)
Ltac agree H :=
  first
    [ discriminate H
    | apply Return_inj in H; subst
    | match goal with
      | E : _ = _ |- _ =>
          tryif constr_eq E H then fail
          else (let Hs := fresh "Hsame" in
                pose proof (eq_trans (eq_sym E) H) as Hs;
                first [ discriminate Hs
                      | apply Return_inj in Hs; subst ])
      end ].

(** The two cases of an answer, in a goal [(throws -> _) /\ (returns -> _)]. *)
Ltac stops_or_goes :=
  split; [ let e := fresh "e" in let He := fresh "He" in
           intros e He; first [agree He; fail | reflexivity] | ].

Module SolflareSends.
Import Nolus Solflare.

(** The node is contacted only for a connected wallet. *)
Lemma solflare_contacts_node w toAddress amountStr memo out tr url :
  run (sendTransaction w toAddress amountStr memo) = (out, tr) ->
  In (StargateConnect url) tr ->
  exists wallet publicKey address,
    Spec.solflare_key w wallet publicKey
    /\ Spec.nolus_address publicKey = Return address.
Proof.
  intros H Hin. execute H; in_trace Hin.
  all: do 3 eexists.
  all: repeat split;
    try eassumption; try reflexivity;
    try (apply negb_false_iff; assumption);
    try (eexists; split; [eassumption|reflexivity]).
  all: match goal with E : Bech32.encode _ _ = _ |- _ => exact E end.
Qed.

(** With a connected wallet the run goes on, step by step, as long as
    each step is answered, and ends at the first that throws. *)
Lemma solflare_sends w wallet publicKey address toAddress amountStr memo :
  Spec.solflare_key w wallet publicKey ->
  Spec.nolus_address publicKey = Return address ->
  exists out rest1,
    run (sendTransaction w toAddress amountStr memo)
    = (out, [WalletConnect; StargateConnect CONFIG.rpc] ++ rest1)%list
    /\ (forall e,
          StargateClient_connect (node w) CONFIG.rpc = Throw e ->
          rest1 = [])
    /\ (StargateClient_connect (node w) CONFIG.rpc = Return tt ->
        exists rest2,
          rest1 = GetAccount address :: rest2
          /\ (forall e, getAccount (node w) address = Throw e -> rest2 = [])
          /\ forall reply,
               getAccount (node w) address = Return reply ->
               exists rest3,
                 rest2
                 = WalletSignMessage
                     (SignDoc.encode
                        (Spec.direct_sign_doc publicKey address
                           (Spec.given_or toAddress address)
                           (Spec.given_or amountStr "1000000")
                           (Spec.given_or memo "solflare-ed25519-test")
                           (Spec.fetched reply)))
                     None :: rest3
                 /\ (forall e,
                       signMessage wallet
                         (SignDoc.encode
                            (Spec.direct_sign_doc publicKey address
                               (Spec.given_or toAddress address)
                               (Spec.given_or amountStr "1000000")
                               (Spec.given_or memo "solflare-ed25519-test")
                               (Spec.fetched reply)))
                       = Throw e ->
                       rest3 = [])
                 /\ forall signature,
                      signMessage wallet
                        (SignDoc.encode
                           (Spec.direct_sign_doc publicKey address
                              (Spec.given_or toAddress address)
                              (Spec.given_or amountStr "1000000")
                              (Spec.given_or memo "solflare-ed25519-test")
                              (Spec.fetched reply)))
                      = Return signature ->
                      rest3
                      = [HttpPost CONFIG.rpc
                           [("Content-Type", "application/json")]
                           (Spec.broadcast_body (Date_now (node w))
                              (Spec.direct_tx publicKey address
                                 (Spec.given_or toAddress address)
                                 (Spec.given_or amountStr "1000000")
                                 (Spec.given_or memo "solflare-ed25519-test")
                                 (Spec.fetched reply) signature))]).
Proof.
  intros (Hw & His & Hc & key & Hk & <-) Haddress.
  nolus_form Haddress. rewrite <- !or_default_given_or.
  destruct (run (sendTransaction w toAddress amountStr memo)) as [out tr] eqn:H.
  autounfold with script in H. known_in H.
  execute H.
  all: do 2 eexists; cbn [app]; (split; [reflexivity|]).
  all: stops_or_goes.
  all: intros Hclient; try (agree Hclient; fail).
  all: eexists; (split; [reflexivity|]); stops_or_goes.
  all: intros reply Hreply; try (agree Hreply; fail).
  all: agree Hreply.
  all: eexists; (split; [reflexivity|]); stops_or_goes.
  all: intros signature Hsig; try (agree Hsig; fail).
  all: agree Hsig; reflexivity.
Qed.

(** The same, for a node that answers: the run reaches the signature
    request, and the broadcast when the wallet signs. *)
Lemma solflare_sends_answered w wallet publicKey address reply toAddress amountStr memo :
  Spec.solflare_key w wallet publicKey ->
  Spec.nolus_address publicKey = Return address ->
  StargateClient_connect (node w) CONFIG.rpc = Return tt ->
  getAccount (node w) address = Return reply ->
  exists out m rest,
    m = (SignDoc.encode
             (Spec.direct_sign_doc publicKey address
                   (Spec.given_or toAddress address)
                   (Spec.given_or amountStr "1000000")
                   (Spec.given_or memo "solflare-ed25519-test") (Spec.fetched reply)))
    /\ run (sendTransaction w toAddress amountStr memo)
       = (out,
          [WalletConnect; StargateConnect CONFIG.rpc; GetAccount address;
           WalletSignMessage m None] ++ rest)%list
    /\ forall signature,
         signMessage wallet m = Return signature ->
         rest = [HttpPost CONFIG.rpc [("Content-Type", "application/json")]
                   (Spec.broadcast_body (Date_now (node w))
                      (Spec.direct_tx publicKey address
                         (Spec.given_or toAddress address)
                         (Spec.given_or amountStr "1000000")
                         (Spec.given_or memo "solflare-ed25519-test") (Spec.fetched reply)
                         signature))].
Proof.
  intros Hkey Haddress Hclient Hreply.
  destruct (solflare_sends w wallet publicKey address toAddress amountStr memo
              Hkey Haddress) as (out & rest1 & Hrun & _ & Hgo).
  destruct (Hgo Hclient) as (rest2 & -> & _ & Hgo2).
  destruct (Hgo2 reply Hreply) as (rest3 & -> & _ & Hgo3).
  exists out. eexists. exists rest3.
  split; [reflexivity|]. split; [exact Hrun|exact Hgo3].
Qed.

End SolflareSends.

Module PhantomSends.
Import Nolus Phantom.

(** The node is contacted only for a connected wallet. *)
Lemma phantom_contacts_node w toAddress amountStr memo out tr url :
  run (sendTransaction w toAddress amountStr memo) = (out, tr) ->
  In (StargateConnect url) tr ->
  exists wallet publicKey address,
    Spec.phantom_key w wallet publicKey
    /\ Spec.nolus_address publicKey = Return address.
Proof.
  intros H Hin. execute H; in_trace Hin.
  all: do 3 eexists.
  all: repeat split;
    try eassumption; try reflexivity;
    try (apply negb_false_iff; assumption);
    try (eexists; split; [eassumption|reflexivity]).
  all: match goal with E : Bech32.encode _ _ = _ |- _ => exact E end.
Qed.

(** With a connected wallet the run goes on, step by step, as long as
    each step is answered, and ends at the first that throws. *)
Lemma phantom_sends w wallet publicKey address toAddress amountStr memo :
  Spec.phantom_key w wallet publicKey ->
  Spec.nolus_address publicKey = Return address ->
  exists out rest1,
    run (sendTransaction w toAddress amountStr memo)
    = (out, [WalletConnect; StargateConnect CONFIG.rpc] ++ rest1)%list
    /\ (forall e,
          StargateClient_connect (node w) CONFIG.rpc = Throw e ->
          rest1 = [])
    /\ (StargateClient_connect (node w) CONFIG.rpc = Return tt ->
        exists rest2,
          rest1 = GetAccount address :: rest2
          /\ (forall e, getAccount (node w) address = Throw e -> rest2 = [])
          /\ forall reply,
               getAccount (node w) address = Return reply ->
               exists rest3,
                 rest2
                 = WalletSignMessage
                     (SignDoc.encode
                        (Spec.direct_sign_doc publicKey address
                           (Spec.given_or toAddress address)
                           (Spec.given_or amountStr "1000000")
                           (Spec.given_or memo "phantom-ed25519-test")
                           (Spec.fetched reply)))
                     (Some "utf8") :: rest3
                 /\ (forall e,
                       signMessage wallet
                         (SignDoc.encode
                            (Spec.direct_sign_doc publicKey address
                               (Spec.given_or toAddress address)
                               (Spec.given_or amountStr "1000000")
                               (Spec.given_or memo "phantom-ed25519-test")
                               (Spec.fetched reply)))
                         (Some "utf8")
                       = Throw e ->
                       rest3 = [])
                 /\ forall signature,
                      signMessage wallet
                        (SignDoc.encode
                           (Spec.direct_sign_doc publicKey address
                              (Spec.given_or toAddress address)
                              (Spec.given_or amountStr "1000000")
                              (Spec.given_or memo "phantom-ed25519-test")
                              (Spec.fetched reply)))
                        (Some "utf8")
                      = Return signature ->
                      rest3
                      = [HttpPost CONFIG.rpc
                           [("Content-Type", "application/json")]
                           (Spec.broadcast_body (Date_now (node w))
                              (Spec.direct_tx publicKey address
                                 (Spec.given_or toAddress address)
                                 (Spec.given_or amountStr "1000000")
                                 (Spec.given_or memo "phantom-ed25519-test")
                                 (Spec.fetched reply) signature))]).
Proof.
  intros (Hw & key & Hc & <-) Haddress.
  nolus_form Haddress. rewrite <- !or_default_given_or.
  destruct (run (sendTransaction w toAddress amountStr memo)) as [out tr] eqn:H.
  autounfold with script in H. known_in H.
  execute H.
  all: do 2 eexists; cbn [app]; (split; [reflexivity|]).
  all: stops_or_goes.
  all: intros Hclient; try (agree Hclient; fail).
  all: eexists; (split; [reflexivity|]); stops_or_goes.
  all: intros reply Hreply; try (agree Hreply; fail).
  all: agree Hreply.
  all: eexists; (split; [reflexivity|]); stops_or_goes.
  all: intros signature Hsig; try (agree Hsig; fail).
  all: agree Hsig; reflexivity.
Qed.

(** The same, for a node that answers: the run reaches the signature
    request, and the broadcast when the wallet signs. *)
Lemma phantom_sends_answered w wallet publicKey address reply toAddress amountStr memo :
  Spec.phantom_key w wallet publicKey ->
  Spec.nolus_address publicKey = Return address ->
  StargateClient_connect (node w) CONFIG.rpc = Return tt ->
  getAccount (node w) address = Return reply ->
  exists out m rest,
    m = (SignDoc.encode
             (Spec.direct_sign_doc publicKey address
                   (Spec.given_or toAddress address)
                   (Spec.given_or amountStr "1000000")
                   (Spec.given_or memo "phantom-ed25519-test") (Spec.fetched reply)))
    /\ run (sendTransaction w toAddress amountStr memo)
       = (out,
          [WalletConnect; StargateConnect CONFIG.rpc; GetAccount address;
           WalletSignMessage m (Some "utf8")] ++ rest)%list
    /\ forall signature,
         signMessage wallet m (Some "utf8") = Return signature ->
         rest = [HttpPost CONFIG.rpc [("Content-Type", "application/json")]
                   (Spec.broadcast_body (Date_now (node w))
                      (Spec.direct_tx publicKey address
                         (Spec.given_or toAddress address)
                         (Spec.given_or amountStr "1000000")
                         (Spec.given_or memo "phantom-ed25519-test") (Spec.fetched reply)
                         signature))].
Proof.
  intros Hkey Haddress Hclient Hreply.
  destruct (phantom_sends w wallet publicKey address toAddress amountStr memo
              Hkey Haddress) as (out & rest1 & Hrun & _ & Hgo).
  destruct (Hgo Hclient) as (rest2 & -> & _ & Hgo2).
  destruct (Hgo2 reply Hreply) as (rest3 & -> & _ & Hgo3).
  exists out. eexists. exists rest3.
  split; [reflexivity|]. split; [exact Hrun|exact Hgo3].
Qed.

End PhantomSends.

Module ProviderSends.
Import Nolus PhantomProvider.

(** The node is contacted only for a connected wallet. *)
Lemma provider_contacts_node w toAddress amountStr memo out tr url :
  run (sendTransaction w toAddress amountStr memo) = (out, tr) ->
  In (StargateConnect url) tr ->
  exists wallet publicKey address,
    Spec.provider_key w wallet publicKey
    /\ Spec.nolus_address publicKey = Return address.
Proof.
  intros H Hin. execute H; in_trace Hin.
  all: do 3 eexists.
  all: repeat split;
    try eassumption; try reflexivity;
    try (apply negb_false_iff; assumption);
    try (eexists; split; [eassumption|reflexivity]).
  all: match goal with E : Bech32.encode _ _ = _ |- _ => exact E end.
Qed.

(** With a connected wallet the run goes on, step by step, as long as
    each step is answered, and ends at the first that throws. *)
Lemma provider_sends w wallet publicKey address toAddress amountStr memo :
  Spec.provider_key w wallet publicKey ->
  Spec.nolus_address publicKey = Return address ->
  exists out rest1,
    run (sendTransaction w toAddress amountStr memo)
    = (out, [WalletConnect; StargateConnect CONFIG.rpc] ++ rest1)%list
    /\ (forall e,
          StargateClient_connect (node w) CONFIG.rpc = Throw e ->
          rest1 = [])
    /\ (StargateClient_connect (node w) CONFIG.rpc = Return tt ->
        exists rest2,
          rest1 = GetAccount address :: rest2
          /\ (forall e, getAccount (node w) address = Throw e -> rest2 = [])
          /\ forall reply,
               getAccount (node w) address = Return reply ->
               exists rest3,
                 rest2
                 = WalletSignMessage
                     (Utf8.TextEncoder_encode
                        (Utf8.Buffer_toString
                           (SignDoc.encode
                              (Spec.direct_sign_doc publicKey address
                                 (Spec.given_or toAddress address)
                                 (Spec.given_or amountStr "1000000")
                                 (Spec.given_or memo "phantom-ed25519-test")
                                 (Spec.fetched reply)))))
                     None :: rest3
                 /\ (forall e,
                       signMessage wallet
                         (Utf8.TextEncoder_encode
                            (Utf8.Buffer_toString
                               (SignDoc.encode
                                  (Spec.direct_sign_doc publicKey address
                                     (Spec.given_or toAddress address)
                                     (Spec.given_or amountStr "1000000")
                                     (Spec.given_or memo "phantom-ed25519-test")
                                     (Spec.fetched reply)))))
                       = Throw e ->
                       rest3 = [])
                 /\ forall signature,
                      signMessage wallet
                        (Utf8.TextEncoder_encode
                           (Utf8.Buffer_toString
                              (SignDoc.encode
                                 (Spec.direct_sign_doc publicKey address
                                    (Spec.given_or toAddress address)
                                    (Spec.given_or amountStr "1000000")
                                    (Spec.given_or memo "phantom-ed25519-test")
                                    (Spec.fetched reply)))))
                      = Return signature ->
                      rest3
                      = [HttpPost CONFIG.rpc
                           [("Content-Type", "application/json")]
                           (Spec.broadcast_body (Date_now (node w))
                              (Spec.direct_tx publicKey address
                                 (Spec.given_or toAddress address)
                                 (Spec.given_or amountStr "1000000")
                                 (Spec.given_or memo "phantom-ed25519-test")
                                 (Spec.fetched reply) signature))]).
Proof.
  intros (Hw & His & key & Hc & <-) Haddress.
  nolus_form Haddress. rewrite <- !or_default_given_or.
  destruct (run (sendTransaction w toAddress amountStr memo)) as [out tr] eqn:H.
  autounfold with script in H. known_in H.
  execute H.
  all: do 2 eexists; cbn [app]; (split; [reflexivity|]).
  all: stops_or_goes.
  all: intros Hclient; try (agree Hclient; fail).
  all: eexists; (split; [reflexivity|]); stops_or_goes.
  all: intros reply Hreply; try (agree Hreply; fail).
  all: agree Hreply.
  all: eexists; (split; [reflexivity|]); stops_or_goes.
  all: intros signature Hsig; try (agree Hsig; fail).
  all: agree Hsig; reflexivity.
Qed.

(** The same, for a node that answers: the run reaches the signature
    request, and the broadcast when the wallet signs. *)
Lemma provider_sends_answered w wallet publicKey address reply toAddress amountStr memo :
  Spec.provider_key w wallet publicKey ->
  Spec.nolus_address publicKey = Return address ->
  StargateClient_connect (node w) CONFIG.rpc = Return tt ->
  getAccount (node w) address = Return reply ->
  exists out m rest,
    m = (Utf8.TextEncoder_encode
          (Utf8.Buffer_toString
             (SignDoc.encode
                (Spec.direct_sign_doc publicKey address
                   (Spec.given_or toAddress address)
                   (Spec.given_or amountStr "1000000")
                   (Spec.given_or memo "phantom-ed25519-test") (Spec.fetched reply)))))
    /\ run (sendTransaction w toAddress amountStr memo)
       = (out,
          [WalletConnect; StargateConnect CONFIG.rpc; GetAccount address;
           WalletSignMessage m None] ++ rest)%list
    /\ forall signature,
         signMessage wallet m = Return signature ->
         rest = [HttpPost CONFIG.rpc [("Content-Type", "application/json")]
                   (Spec.broadcast_body (Date_now (node w))
                      (Spec.direct_tx publicKey address
                         (Spec.given_or toAddress address)
                         (Spec.given_or amountStr "1000000")
                         (Spec.given_or memo "phantom-ed25519-test") (Spec.fetched reply)
                         signature))].
Proof.
  intros Hkey Haddress Hclient Hreply.
  destruct (provider_sends w wallet publicKey address toAddress amountStr memo
              Hkey Haddress) as (out & rest1 & Hrun & _ & Hgo).
  destruct (Hgo Hclient) as (rest2 & -> & _ & Hgo2).
  destruct (Hgo2 reply Hreply) as (rest3 & -> & _ & Hgo3).
  exists out. eexists. exists rest3.
  split; [reflexivity|]. split; [exact Hrun|exact Hgo3].
Qed.

End ProviderSends.

Module MetaMaskSends.
Import MetaMask.

Lemma metamask_contacts_node w toAddress amount memo out tr url :
  run (sendTransaction w toAddress amount memo) = (out, tr) ->
  In (StargateConnect url) tr ->
  exists provider eth compressed address,
    Spec.metamask_key w provider eth compressed
    /\ Spec.neutron_address compressed = Return address.
Proof.
  intros H Hin. unfold Spec.key_message. execute H; in_trace Hin.
  all: do 4 eexists.
  all: repeat match goal with u : unit |- _ => destruct u end.
  all: split;
    [ split; [eassumption|];
      do 4 eexists; repeat split; try eassumption; reflexivity
    | match goal with E : Bech32.encode _ _ = _ |- _ => exact E end ].
Qed.

Lemma metamask_sends w provider eth compressed address toAddress amount memo :
  Spec.metamask_key w provider eth compressed ->
  Spec.neutron_address compressed = Return address ->
  exists out rest1,
    run (sendTransaction w toAddress amount memo)
    = (out, Spec.key_requests eth ++ [StargateConnect CONFIG.rpc] ++ rest1)%list
    /\ (forall e,
          StargateClient_connect (node w) CONFIG.rpc = Throw e ->
          rest1 = [])
    /\ (StargateClient_connect (node w) CONFIG.rpc = Return tt ->
        exists rest2,
          rest1 = GetAccount address :: rest2
          /\ (forall e, getAccount (node w) address = Throw e -> rest2 = [])
          /\ forall reply,
               getAccount (node w) address = Return reply ->
               exists rest3,
                 rest2
                 = EthereumRequest "personal_sign"
                     [Some (Spec.json_payload
                              (Spec.json_sign_doc (Spec.fetched reply) address
                                 (Spec.given_or toAddress address)
                                 (Spec.given_or amount "1000000")
                                 (Spec.given_or memo "Neutron Network transaction")));
                      eth] :: rest3
                 /\ (forall e,
                       personal_sign provider
                         (Spec.json_payload
                            (Spec.json_sign_doc (Spec.fetched reply) address
                               (Spec.given_or toAddress address)
                               (Spec.given_or amount "1000000")
                               (Spec.given_or memo "Neutron Network transaction")))
                         eth
                       = Throw e ->
                       rest3 = [])
                 /\ forall sigResult,
                      personal_sign provider
                        (Spec.json_payload
                           (Spec.json_sign_doc (Spec.fetched reply) address
                              (Spec.given_or toAddress address)
                              (Spec.given_or amount "1000000")
                              (Spec.given_or memo "Neutron Network transaction")))
                        eth
                      = Return sigResult ->
                      (forall e,
                         Hex.fromHex (string_slice_neg 2 2 sigResult) = Throw e ->
                         rest3 = [])
                      /\ forall sig,
                           Hex.fromHex (string_slice_neg 2 2 sigResult) = Return sig ->
                           rest3
                           = [HttpPost CONFIG.rpc
                                [("Content-Type", "application/json");
                                 ("Accept", "application/json")]
                                (Spec.broadcast_body (Date_now (node w))
                                   (Spec.eip191_tx compressed address
                                      (Spec.given_or toAddress address)
                                      (Spec.given_or amount "1000000")
                                      (Spec.given_or memo "Neutron Network transaction")
                                      (Spec.fetched reply) sig))]).
Proof.
  intros (Hw & accounts & sig0 & fullPubkey & uncompressed
          & Hreq & Hacc & -> & Hsig0 & Hrec & Hbytes & ->)
         Haddress.
  neutron_form Haddress. unfold Spec.key_message in *.
  rewrite <- !or_default_given_or.
  destruct (run (sendTransaction w toAddress amount memo)) as [out tr] eqn:H.
  autounfold with script in H. known_in H.
  execute H.
  all: do 2 eexists; cbn [app Spec.key_requests]; (split; [reflexivity|]).
  all: stops_or_goes.
  all: intros Hclient; try (agree Hclient; fail).
  all: eexists; (split; [reflexivity|]); stops_or_goes.
  all: intros reply Hreply; try (agree Hreply; fail).
  all: agree Hreply.
  all: eexists; (split; [reflexivity|]); stops_or_goes.
  all: intros sigResult Hsig; try (agree Hsig; fail).
  all: agree Hsig.
  all: stops_or_goes.
  all: intros sig Hhex; try (agree Hhex; fail).
  all: agree Hhex; reflexivity.
Qed.

Lemma metamask_sends_answered w provider eth compressed address reply
    toAddress amount memo :
  Spec.metamask_key w provider eth compressed ->
  Spec.neutron_address compressed = Return address ->
  StargateClient_connect (node w) CONFIG.rpc = Return tt ->
  getAccount (node w) address = Return reply ->
  exists out payload rest,
    payload = Spec.json_payload
                (Spec.json_sign_doc (Spec.fetched reply) address
                   (Spec.given_or toAddress address)
                   (Spec.given_or amount "1000000")
                   (Spec.given_or memo "Neutron Network transaction"))
    /\ run (sendTransaction w toAddress amount memo)
       = (out,
          Spec.key_requests eth
            ++ [StargateConnect CONFIG.rpc; GetAccount address;
                EthereumRequest "personal_sign" [Some payload; eth]]
            ++ rest)%list
    /\ forall sigResult sig,
         personal_sign provider payload eth = Return sigResult ->
         Hex.fromHex (string_slice_neg 2 2 sigResult) = Return sig ->
         rest = [HttpPost CONFIG.rpc
                   [("Content-Type", "application/json");
                    ("Accept", "application/json")]
                   (Spec.broadcast_body (Date_now (node w))
                      (Spec.eip191_tx compressed address
                         (Spec.given_or toAddress address)
                         (Spec.given_or amount "1000000")
                         (Spec.given_or memo "Neutron Network transaction")
                         (Spec.fetched reply) sig))].
Proof.
  intros Hkey Haddress Hclient Hreply.
  destruct (metamask_sends w provider eth compressed address toAddress amount memo
              Hkey Haddress) as (out & rest1 & Hrun & _ & Hgo).
  destruct (Hgo Hclient) as (rest2 & -> & _ & Hgo2).
  destruct (Hgo2 reply Hreply) as (rest3 & -> & _ & Hgo3).
  exists out. eexists. exists rest3.
  split; [reflexivity|]. split; [exact Hrun|].
  intros sigResult sig Hsig Hhex. exact (proj2 (Hgo3 sigResult Hsig) sig Hhex).
Qed.

End MetaMaskSends.

(* ================================================================== *)
(** * The properties of the specification *)

(** ** The sample worlds *)

Lemma sample_solflare_key (n : Node) :
  Spec.solflare_key (Sample.solflare n) Sample.solflare_wallet Sample.key32.
Proof.
  repeat split. exists Sample.key. split; reflexivity.
Defined.

Lemma sample_phantom_key (n : Node) :
  Spec.phantom_key (Sample.phantom n) Sample.phantom_wallet Sample.key32.
Proof.
  split; [reflexivity|]. exists Sample.key. split; reflexivity.
Defined.

Lemma sample_provider_key (n : Node) :
  Spec.provider_key (Sample.phantom_provider n) Sample.provider Sample.key32.
Proof.
  repeat split. exists Sample.key. split; reflexivity.
Defined.

Lemma sample_metamask_key (n : Node) :
  Spec.metamask_key (Sample.metamask n) Sample.ethereum
    (Some Sample.eth_address) Sample.compressed.
Proof.
  split; [reflexivity|].
  exists [Sample.eth_address], Sample.signature65_hex,
    Sample.uncompressed_hex, (bytes_of_Zs (4 :: map Z.of_nat (seq 1 64))).
  repeat split; vm_compute; reflexivity.
Defined.

Lemma sample_nolus_address : Spec.nolus_address Sample.key32 = Return Sample.address.
Proof. vm_compute. reflexivity. Qed.

Lemma sample_neutron_address :
  Spec.neutron_address Sample.compressed = Return Sample.neutron_address.
Proof. vm_compute. reflexivity. Qed.

Lemma sample_signature_stripped :
  Hex.fromHex (string_slice_neg 2 2 Sample.signature65_hex)
  = Return Sample.signature64.
Proof. vm_compute. reflexivity. Qed.

Lemma sample_unsigning_key :
  Spec.solflare_key
    {| Solflare.solflare := Some Sample.unsigning_wallet;
       Solflare.node := Sample.node |}
    Sample.unsigning_wallet Sample.key32.
Proof.
  repeat split. exists Sample.key. split; reflexivity.
Defined.

Lemma sample_solflare_run :
  run (Solflare.testTransaction (Sample.solflare Sample.node))
  = (Return (Nolus.Sent (Some "5F3A") Sample.ok_result),
     [WalletConnect; StargateConnect "https://rpc.nolus.network";
      GetAccount Sample.address;
      WalletSignMessage
        (SignDoc.encode
           (Spec.direct_sign_doc Sample.key32 Sample.address Sample.address "1"
              "Solflare ED25519 test" (7%N, 3%N)))
        None;
      HttpPost "https://rpc.nolus.network" [("Content-Type", "application/json")]
        (Spec.broadcast_body 1700000000000
           (Spec.direct_tx Sample.key32 Sample.address Sample.address "1"
              "Solflare ED25519 test" (7%N, 3%N) Sample.signature64))]).
Proof. vm_compute. reflexivity. Qed.

Lemma metamask_key_unique w provider provider' eth eth' compressed compressed' :
  Spec.metamask_key w provider eth compressed ->
  Spec.metamask_key w provider' eth' compressed' ->
  compressed = compressed'.
Proof.
  intros (Hw & accounts & sig & full & raw & _ & Hacc & -> & Hsig & Hrec & Hbytes & ->)
         (Hw' & accounts' & sig' & full' & raw' & _ & Hacc' & -> & Hsig' & Hrec'
          & Hbytes' & ->).
  assert (provider = provider') by congruence. subst provider'.
  assert (accounts = accounts') by congruence. subst accounts'.
  assert (sig = sig') by congruence. subst sig'.
  assert (full = full') by congruence. subst full'.
  assert (raw = raw') by congruence. subst raw'.
  reflexivity.
Qed.

(** ** Address derivation *)

(** C1: for every connected wallet public key the script returns the
    address of the chain convention, bech32 with prefix [nolus] of the
    first 20 bytes of SHA-256 of the ed25519 key in the Solflare and
    Phantom scripts, bech32 with prefix [neutron] of RIPEMD-160 of SHA-256
    of the 33-byte compressed secp256k1 key in the MetaMask script; and
    every address a script returns is that one. *)
Theorem address_derivation :
  (forall w wallet publicKey,
     Spec.solflare_key w wallet publicKey ->
     exists a,
       run (Solflare.getAddress w) = (Return a, [WalletConnect])
       /\ Spec.nolus_address publicKey = Return (Nolus.bech32Addr a))
  /\ (forall w wallet publicKey,
        Spec.phantom_key w wallet publicKey ->
        exists a,
          run (Phantom.getAddress w) = (Return a, [WalletConnect])
          /\ Spec.nolus_address publicKey = Return (Nolus.bech32Addr a))
  /\ (forall w provider publicKey,
        Spec.provider_key w provider publicKey ->
        exists a,
          run (PhantomProvider.getAddress w) = (Return a, [WalletConnect])
          /\ Spec.nolus_address publicKey = Return (Nolus.bech32Addr a))
  /\ (forall w provider eth compressed,
        Spec.metamask_key w provider eth compressed ->
        List.length compressed = 33%nat
        /\ exists a,
             run (MetaMask.getAddress w) = (Return a, Spec.key_requests eth)
             /\ Spec.neutron_address compressed = Return (MetaMask.bech32Addr a))
  /\ (forall w a tr,
        run (Solflare.getAddress w) = (Return a, tr) ->
        Spec.nolus_address (Nolus.ed25519PublicKey a) = Return (Nolus.bech32Addr a))
  /\ (forall w a tr,
        run (Phantom.getAddress w) = (Return a, tr) ->
        Spec.nolus_address (Nolus.ed25519PublicKey a) = Return (Nolus.bech32Addr a))
  /\ (forall w a tr,
        run (PhantomProvider.getAddress w) = (Return a, tr) ->
        Spec.nolus_address (Nolus.ed25519PublicKey a) = Return (Nolus.bech32Addr a))
  /\ (forall w a tr,
        run (MetaMask.getAddress w) = (Return a, tr) ->
        exists provider compressed,
          Spec.metamask_key w provider (MetaMask.ethAddress a) compressed
          /\ Spec.neutron_address compressed = Return (MetaMask.bech32Addr a)).
Proof.
  repeat split.
  - intros w wallet publicKey Hkey.
    destruct (SolflareFacts.solflare_getAddress_connected w wallet publicKey Hkey)
      as (a & Hrun & _ & Haddress).
    eauto.
  - intros w wallet publicKey Hkey.
    destruct (PhantomFacts.phantom_getAddress_connected w wallet publicKey Hkey)
      as (a & Hrun & _ & Haddress).
    eauto.
  - intros w wallet publicKey Hkey.
    destruct (PhantomProviderFacts.provider_getAddress_connected w wallet publicKey Hkey)
      as (a & Hrun & _ & Haddress).
    eauto.
  - destruct H as (_ & accounts & sig & full & raw & _ & _ & _ & _ & _ & _ & ->).
    apply compress_length.
  - destruct (MetaMaskFacts.metamask_getAddress_connected w provider eth compressed H)
      as (a & Hrun & _ & _ & Haddress).
    eauto.
  - intros w a tr Hrun.
    apply (SolflareFacts.solflare_getAddress_returns w a tr Hrun).
  - intros w a tr Hrun.
    apply (PhantomFacts.phantom_getAddress_returns w a tr Hrun).
  - intros w a tr Hrun.
    apply (PhantomProviderFacts.provider_getAddress_returns w a tr Hrun).
  - intros w a tr Hrun.
    destruct (MetaMaskFacts.metamask_getAddress_returns w a tr Hrun)
      as (provider & compressed & Hkey & _ & Haddress & _).
    eauto.
Qed.

(** C1 on the sample wallets: the key [01 02 .. 20] has the address
    [nolus14csk...], the compressed key [02 01 .. 20] the address
    [neutron19mhh...]. *)
Lemma address_derivation_sample :
  (exists a,
     run (Solflare.getAddress (Sample.solflare Sample.node))
     = (Return a, [WalletConnect])
     /\ Spec.nolus_address Sample.key32 = Return (Nolus.bech32Addr a))
  /\ Spec.nolus_address Sample.key32
     = Return Sample.address
  /\ (List.length Sample.compressed = 33%nat
      /\ exists a,
           run (MetaMask.getAddress (Sample.metamask Sample.node))
           = (Return a,
              Spec.key_requests (Some Sample.eth_address))
           /\ Spec.neutron_address Sample.compressed
              = Return (MetaMask.bech32Addr a))
  /\ Spec.neutron_address Sample.compressed
     = Return Sample.neutron_address.
Proof.
  split; [|split; [|split]].
  - exact (proj1 address_derivation (Sample.solflare Sample.node)
             Sample.solflare_wallet Sample.key32 (sample_solflare_key Sample.node)).
  - vm_compute. reflexivity.
  - exact (proj1 (proj2 (proj2 (proj2 address_derivation)))
             (Sample.metamask Sample.node) Sample.ethereum _ Sample.compressed
             (sample_metamask_key Sample.node)).
  - vm_compute. reflexivity.
Defined.

(** C5: two runs of the derivation, in any two worlds, that start from
    the same public key bytes return the same address. *)
Theorem address_determinism :
  (forall w1 w2 a1 a2 t1 t2,
     run (Solflare.getAddress w1) = (Return a1, t1) ->
     run (Solflare.getAddress w2) = (Return a2, t2) ->
     Nolus.ed25519PublicKey a1 = Nolus.ed25519PublicKey a2 ->
     Nolus.bech32Addr a1 = Nolus.bech32Addr a2)
  /\ (forall w1 w2 a1 a2 t1 t2,
        run (Phantom.getAddress w1) = (Return a1, t1) ->
        run (Phantom.getAddress w2) = (Return a2, t2) ->
        Nolus.ed25519PublicKey a1 = Nolus.ed25519PublicKey a2 ->
        Nolus.bech32Addr a1 = Nolus.bech32Addr a2)
  /\ (forall w1 w2 a1 a2 t1 t2,
        run (PhantomProvider.getAddress w1) = (Return a1, t1) ->
        run (PhantomProvider.getAddress w2) = (Return a2, t2) ->
        Nolus.ed25519PublicKey a1 = Nolus.ed25519PublicKey a2 ->
        Nolus.bech32Addr a1 = Nolus.bech32Addr a2)
  /\ (forall w1 w2 a1 a2 t1 t2,
        run (Solflare.getAddress w1) = (Return a1, t1) ->
        run (Phantom.getAddress w2) = (Return a2, t2) ->
        Nolus.ed25519PublicKey a1 = Nolus.ed25519PublicKey a2 ->
        Nolus.bech32Addr a1 = Nolus.bech32Addr a2)
  /\ (forall w1 w2 provider1 provider2 eth1 eth2 compressed a1 a2 t1 t2,
        Spec.metamask_key w1 provider1 eth1 compressed ->
        Spec.metamask_key w2 provider2 eth2 compressed ->
        run (MetaMask.getAddress w1) = (Return a1, t1) ->
        run (MetaMask.getAddress w2) = (Return a2, t2) ->
        MetaMask.bech32Addr a1 = MetaMask.bech32Addr a2).
Proof.
  repeat split.
  - intros w1 w2 a1 a2 t1 t2 H1 H2 Hkey.
    destruct (SolflareFacts.solflare_getAddress_returns _ _ _ H1) as (_ & _ & E1 & _).
    destruct (SolflareFacts.solflare_getAddress_returns _ _ _ H2) as (_ & _ & E2 & _).
    rewrite Hkey, E2 in E1. exact (eq_sym (Return_inj _ _ E1)).
  - intros w1 w2 a1 a2 t1 t2 H1 H2 Hkey.
    destruct (PhantomFacts.phantom_getAddress_returns _ _ _ H1) as (_ & _ & E1 & _).
    destruct (PhantomFacts.phantom_getAddress_returns _ _ _ H2) as (_ & _ & E2 & _).
    rewrite Hkey, E2 in E1. exact (eq_sym (Return_inj _ _ E1)).
  - intros w1 w2 a1 a2 t1 t2 H1 H2 Hkey.
    destruct (PhantomProviderFacts.provider_getAddress_returns _ _ _ H1)
      as (_ & _ & E1 & _).
    destruct (PhantomProviderFacts.provider_getAddress_returns _ _ _ H2)
      as (_ & _ & E2 & _).
    rewrite Hkey, E2 in E1. exact (eq_sym (Return_inj _ _ E1)).
  - intros w1 w2 a1 a2 t1 t2 H1 H2 Hkey.
    destruct (SolflareFacts.solflare_getAddress_returns _ _ _ H1) as (_ & _ & E1 & _).
    destruct (PhantomFacts.phantom_getAddress_returns _ _ _ H2) as (_ & _ & E2 & _).
    rewrite Hkey, E2 in E1. exact (eq_sym (Return_inj _ _ E1)).
  - intros w1 w2 provider1 provider2 eth1 eth2 compressed a1 a2 t1 t2 K1 K2 H1 H2.
    destruct (MetaMaskFacts.metamask_getAddress_returns _ _ _ H1)
      as (p1 & c1 & K1' & _ & E1 & _).
    destruct (MetaMaskFacts.metamask_getAddress_returns _ _ _ H2)
      as (p2 & c2 & K2' & _ & E2 & _).
    rewrite <- (metamask_key_unique _ _ _ _ _ _ _ K1 K1') in E1.
    rewrite <- (metamask_key_unique _ _ _ _ _ _ _ K2 K2') in E2.
    rewrite E2 in E1. exact (eq_sym (Return_inj _ _ E1)).
Qed.

(** C5 on two different worlds with the same key: a Solflare wallet
    with a node that knows the account, a Phantom wallet with a node
    that does not. *)
Lemma address_determinism_sample :
  exists a1 a2,
    run (Solflare.getAddress (Sample.solflare Sample.node))
    = (Return a1, [WalletConnect])
    /\ run (Phantom.getAddress (Sample.phantom Sample.fresh_node))
       = (Return a2, [WalletConnect])
    /\ Nolus.bech32Addr a1 = Nolus.bech32Addr a2.
Proof.
  do 2 eexists.
  split; [vm_compute; reflexivity|].
  split; [vm_compute; reflexivity|].
  apply (proj1 (proj2 (proj2 (proj2 address_determinism)))
           (Sample.solflare Sample.node) (Sample.phantom Sample.fresh_node)
           _ _ [WalletConnect] [WalletConnect]);
    vm_compute; reflexivity.
Defined.

(** ** The message the wallet signs *)

(** C2: in the Solflare script and in the first Phantom script every
    message handed to [signMessage] is [SignDoc.encode] of the sign
    document, byte for byte; in the second Phantom script it is the UTF-8
    encoding of the text that [Buffer.toString] decodes from those
    bytes. *)
Theorem signed_message :
  (forall w toAddress amountStr memo out tr m d,
     run (Solflare.sendTransaction w toAddress amountStr memo) = (out, tr) ->
     In (WalletSignMessage m d) tr ->
     exists publicKey address reply,
       m = SignDoc.encode
             (Spec.direct_sign_doc publicKey address
                (or_default toAddress address) (or_default amountStr "1000000")
                (or_default memo "solflare-ed25519-test") (Spec.fetched reply)))
  /\ (forall w toAddress amountStr memo out tr m d,
        run (Phantom.sendTransaction w toAddress amountStr memo) = (out, tr) ->
        In (WalletSignMessage m d) tr ->
        exists publicKey address reply,
          m = SignDoc.encode
                (Spec.direct_sign_doc publicKey address
                   (or_default toAddress address) (or_default amountStr "1000000")
                   (or_default memo "phantom-ed25519-test") (Spec.fetched reply)))
  /\ (forall w toAddress amountStr memo out tr m d,
        run (PhantomProvider.sendTransaction w toAddress amountStr memo) = (out, tr) ->
        In (WalletSignMessage m d) tr ->
        exists publicKey address reply,
          m = Utf8.TextEncoder_encode
                (Utf8.Buffer_toString
                   (SignDoc.encode
                      (Spec.direct_sign_doc publicKey address
                         (or_default toAddress address)
                         (or_default amountStr "1000000")
                         (or_default memo "phantom-ed25519-test")
                         (Spec.fetched reply))))).
Proof.
  split; [|split].
  - intros w toAddress amountStr memo out tr m d Hrun Hin.
    destruct (SolflareFacts.solflare_signs _ _ _ _ _ _ _ _ Hrun Hin)
      as (_ & publicKey & address & reply & _ & _ & _ & _ & _ & _ & Hm).
    eauto.
  - intros w toAddress amountStr memo out tr m d Hrun Hin.
    destruct (PhantomFacts.phantom_signs _ _ _ _ _ _ _ _ Hrun Hin)
      as (_ & publicKey & address & reply & _ & _ & _ & _ & _ & _ & Hm).
    eauto.
  - intros w toAddress amountStr memo out tr m d Hrun Hin.
    destruct (PhantomProviderFacts.provider_signs _ _ _ _ _ _ _ _ Hrun Hin)
      as (_ & publicKey & address & reply & _ & _ & _ & _ & _ & _ & Hm).
    eauto.
Qed.

(** C2 in the sample world: what the Solflare wallet is asked to sign. *)
Lemma signed_message_sample :
  In (WalletSignMessage
        (SignDoc.encode
           (Spec.direct_sign_doc Sample.key32 Sample.address Sample.address "1"
              "Solflare ED25519 test" (7%N, 3%N)))
        None)
     (snd (run (Solflare.testTransaction (Sample.solflare Sample.node))))
  /\ exists publicKey address reply,
       SignDoc.encode
         (Spec.direct_sign_doc Sample.key32 Sample.address Sample.address "1"
            "Solflare ED25519 test" (7%N, 3%N))
       = SignDoc.encode
           (Spec.direct_sign_doc publicKey address
              (or_default None address) (or_default (Some "1") "1000000")
              (or_default (Some "Solflare ED25519 test") "solflare-ed25519-test")
              (Spec.fetched reply)).
Proof.
  assert (Hin : In (WalletSignMessage
                      (SignDoc.encode
                         (Spec.direct_sign_doc Sample.key32 Sample.address
                            Sample.address "1" "Solflare ED25519 test" (7%N, 3%N)))
                      None)
                   (snd (run (Solflare.testTransaction
                                (Sample.solflare Sample.node))))).
  { vm_compute. do 3 right. left. reflexivity. }
  split; [exact Hin|].
  exact (proj1 signed_message (Sample.solflare Sample.node) None (Some "1")
           (Some "Solflare ED25519 test") _ _ _ None
           (surjective_pairing _) Hin).
Defined.

(** The test transaction of the second Phantom script in the sample
    world: the wallet is asked to sign 282 bytes that begin
    [0a ef bf bd 01], not the 274 bytes [0a a0 01 ...] of the sign
    document. *)
Lemma phantom_provider_signs_other_bytes :
  In (WalletSignMessage
        (Utf8.TextEncoder_encode
           (Utf8.Buffer_toString (SignDoc.encode Sample.sign_doc))) None)
     (snd (run (PhantomProvider.testTransaction
                  (Sample.phantom_provider Sample.node))))
  /\ List.length (filter Spec.is_signature
                    (snd (run (PhantomProvider.testTransaction
                                 (Sample.phantom_provider Sample.node))))) = 1%nat
  /\ Utf8.TextEncoder_encode
       (Utf8.Buffer_toString (SignDoc.encode Sample.sign_doc))
     <> SignDoc.encode Sample.sign_doc
  /\ List.length (SignDoc.encode Sample.sign_doc) = 274%nat
  /\ List.length (Utf8.TextEncoder_encode
                    (Utf8.Buffer_toString (SignDoc.encode Sample.sign_doc)))
     = 282%nat
  /\ slice 0 3 (SignDoc.encode Sample.sign_doc) = [x0a; xa0; x01]
  /\ slice 0 5 (Utf8.TextEncoder_encode
                  (Utf8.Buffer_toString (SignDoc.encode Sample.sign_doc)))
     = [x0a; xef; xbf; xbd; x01].
Proof.
  split; [vm_compute; do 3 right; left; reflexivity|].
  split; [vm_compute; reflexivity|].
  split.
  { intros H. apply (f_equal (@List.length byte)) in H.
    vm_compute in H. discriminate H. }
  split; [vm_compute; reflexivity|].
  split; [vm_compute; reflexivity|].
  split; vm_compute; reflexivity.
Qed.

(** ** How a send ends *)



(** ** The MetaMask variant *)

(** The text of a coin of the JSON sign document: the amount key, then
    the denom key. *)
Lemma json_coin_text (amount denom : string) :
  Json.stringify (Spec.json_coin amount denom) 0
  = "{" ++ Json.quote "amount" ++ ":" ++ Json.quote amount ++ ","
        ++ Json.quote "denom" ++ ":" ++ Json.quote denom ++ "}".
Proof.
  with_strategy transparent [Json.stringify String.append]
    (unfold Json.stringify, Spec.json_coin, Json.quote; cbn;
     repeat first [ rewrite append_assoc
                  | progress cbn
                  | progress unfold Json.dquote ];
     reflexivity).
Qed.

(** C4: a run of the MetaMask [sendTransaction] that has the key and
    the account asks [personal_sign] to sign, as hex, the JSON sign
    document serialized with a 4-space indentation, whose coins list
    [amount] before [denom]; when the wallet signs, the run posts the
    transaction that holds, as its only signature, the bytes of the hex
    string that [personal_sign] returned between its [0x] prefix and its
    last byte, and whose auth info declares SIGN_MODE_EIP_191.  No other
    [personal_sign] request than this one and the one that recovers the
    key is made, and no other transaction is posted. *)
Theorem metamask_signed_payload :
  (forall w provider eth compressed address reply toAddress amount memo,
     Spec.metamask_key w provider eth compressed ->
     Spec.neutron_address compressed = Return address ->
     StargateClient_connect (MetaMask.node w) MetaMask.CONFIG.rpc = Return tt ->
     getAccount (MetaMask.node w) address = Return reply ->
     exists out payload rest,
       payload
       = "0x" ++ Hex.toHex
                   (toUtf8Bytes
                      (Json.stringify
                         (Json.Obj
                            [("account_number",
                              Json.Str
                                (JsNumber.decimal
                                   (Spec.account_number (Spec.fetched reply))));
                             ("chain_id", Json.Str "pion-1");
                             ("fee",
                              Json.Obj
                                [("amount", Json.Arr [Spec.json_coin "5000" "untrn"]);
                                 ("gas", Json.Str "200000")]);
                             ("memo",
                              Json.Str
                                (Spec.given_or memo "Neutron Network transaction"));
                             ("msgs",
                              Json.Arr
                                [Json.Obj
                                   [("type", Json.Str "cosmos-sdk/MsgSend");
                                    ("value",
                                     Json.Obj
                                       [("amount",
                                         Json.Arr
                                           [Spec.json_coin
                                              (Spec.given_or amount "1000000")
                                              "untrn"]);
                                        ("from_address", Json.Str address);
                                        ("to_address",
                                         Json.Str
                                           (Spec.given_or toAddress address))])]]);
                             ("sequence",
                              Json.Str
                                (JsNumber.decimal
                                   (Spec.sequence (Spec.fetched reply))))])
                         4))
       /\ run (MetaMask.sendTransaction w toAddress amount memo)
          = (out,
             Spec.key_requests eth
               ++ [StargateConnect MetaMask.CONFIG.rpc; GetAccount address;
                   EthereumRequest "personal_sign" [Some payload; eth]]
               ++ rest)%list
       /\ forall sigResult sig,
            MetaMask.personal_sign provider payload eth = Return sigResult ->
            Hex.fromHex (string_slice_neg 2 2 sigResult) = Return sig ->
            rest
            = [HttpPost MetaMask.CONFIG.rpc
                 [("Content-Type", "application/json");
                  ("Accept", "application/json")]
                 (Spec.broadcast_body (Date_now (MetaMask.node w))
                    (TxRaw.encode
                       {| TxRaw.bodyBytes :=
                            TxBody.encode
                              (Spec.transfer "untrn" address
                                 (Spec.given_or toAddress address)
                                 (Spec.given_or amount "1000000")
                                 (Spec.given_or memo "Neutron Network transaction"));
                          TxRaw.authInfoBytes :=
                            AuthInfo.encode
                              {| AuthInfo.signerInfos :=
                                   [{| SignerInfo.publicKey :=
                                         Some (Spec.secp256k1_key compressed);
                                       SignerInfo.modeInfo :=
                                         Some {| ModeInfo.single :=
                                                   Some {| ModeInfo.mode :=
                                                             SignMode.SIGN_MODE_EIP_191 |} |};
                                       SignerInfo.sequence :=
                                         Spec.sequence (Spec.fetched reply) |}];
                                 AuthInfo.fee :=
                                   Some {| Fee.amount :=
                                             [{| Coin.denom := "untrn";
                                                 Coin.amount := "5000" |}];
                                           Fee.gasLimit := 200000 |} |};
                          TxRaw.signatures := [sig] |}))])
  /\ (forall w toAddress amount memo out tr payload eth,
     run (MetaMask.sendTransaction w toAddress amount memo) = (out, tr) ->
     In (EthereumRequest "personal_sign" [Some payload; eth]) tr ->
     payload <> MetaMask.hexlify (toUtf8Bytes Spec.key_message) ->
     exists address state recipient sent_amount text,
       payload
       = "0x" ++ Hex.toHex
                   (toUtf8Bytes
                      (Json.stringify
                         (Json.Obj
                            [("account_number",
                              Json.Str (JsNumber.decimal (Spec.account_number state)));
                             ("chain_id", Json.Str "pion-1");
                             ("fee",
                              Json.Obj
                                [("amount", Json.Arr [Spec.json_coin "5000" "untrn"]);
                                 ("gas", Json.Str "200000")]);
                             ("memo", Json.Str text);
                             ("msgs",
                              Json.Arr
                                [Json.Obj
                                   [("type", Json.Str "cosmos-sdk/MsgSend");
                                    ("value",
                                     Json.Obj
                                       [("amount",
                                         Json.Arr [Spec.json_coin sent_amount "untrn"]);
                                        ("from_address", Json.Str address);
                                        ("to_address", Json.Str recipient)])]]);
                             ("sequence",
                              Json.Str (JsNumber.decimal (Spec.sequence state)))])
                         4)))
  /\ (forall w toAddress amount memo out tr url headers body,
        run (MetaMask.sendTransaction w toAddress amount memo) = (out, tr) ->
        In (HttpPost url headers body) tr ->
        exists provider eth payload sigResult sig bodyBytes publicKey sequence fee,
          In (EthereumRequest "personal_sign" [Some payload; eth]) tr
          /\ payload <> MetaMask.hexlify (toUtf8Bytes Spec.key_message)
          /\ MetaMask.ethereum w = Some provider
          /\ MetaMask.personal_sign provider payload eth = Return sigResult
          /\ Hex.fromHex (string_slice_neg 2 2 sigResult) = Return sig
          /\ body
             = Spec.broadcast_body (Date_now (MetaMask.node w))
                 (TxRaw.encode
                    {| TxRaw.bodyBytes := bodyBytes;
                       TxRaw.authInfoBytes :=
                         AuthInfo.encode
                           {| AuthInfo.signerInfos :=
                                [{| SignerInfo.publicKey := publicKey;
                                    SignerInfo.modeInfo :=
                                      Some {| ModeInfo.single :=
                                                Some {| ModeInfo.mode :=
                                                          SignMode.SIGN_MODE_EIP_191 |} |};
                                    SignerInfo.sequence := sequence |}];
                              AuthInfo.fee := fee |};
                       TxRaw.signatures := [sig] |}))
  /\ (forall (rs : bytes) (v : byte),
        Hex.fromHex (string_slice_neg 2 2 ("0x" ++ Hex.toHex (rs ++ [v])%list))
        = Return rs)
  /\ (forall amount denom,
        Json.stringify (Spec.json_coin amount denom) 0
        = "{" ++ Json.quote "amount" ++ ":" ++ Json.quote amount ++ ","
              ++ Json.quote "denom" ++ ":" ++ Json.quote denom ++ "}").
Proof.
  split; [|split; [|split; [|split]]].
  - intros w provider eth compressed address reply toAddress amount memo
      Hkey Haddress Hclient Hreply.
    exact (MetaMaskSends.metamask_sends_answered w provider eth compressed address
             reply toAddress amount memo Hkey Haddress Hclient Hreply).
  - intros w toAddress amount memo out tr payload eth Hrun Hin Hother.
    destruct (MetaMaskFacts.metamask_signs _ _ _ _ _ _ _ _ Hrun Hin)
      as [Hkey|(_ & _ & address & reply & _ & _ & _ & _ & _ & Hp)];
      [contradiction|].
    exists address, (Spec.fetched reply), (or_default toAddress address),
      (or_default amount "1000000"), (or_default memo "Neutron Network transaction").
    exact Hp.
  - intros w toAddress amount memo out tr url headers body Hrun Hin.
    destruct (MetaMaskFacts.metamask_broadcasts _ _ _ _ _ _ _ _ _ Hrun Hin)
      as (provider & eth & compressed & address & reply & sigResult & sig
          & Hkey & _ & _ & Hsign & Hhex & Htr & _ & _ & Hbody).
    exists provider, eth.
    eexists. exists sigResult, sig. do 4 eexists.
    split; [|split; [|split; [|split; [|split]]]].
    + rewrite Htr. apply in_or_app. right. cbn [In]. do 2 right. left. reflexivity.
    + apply json_payload_not_key_message.
    + apply Hkey.
    + exact Hsign.
    + exact Hhex.
    + exact Hbody.
  - exact HexFacts.strip_recovery_byte.
  - exact json_coin_text.
Qed.

(** C4 in the sample world: the test transaction of the front end, at
    a node that knows the account as number 7 at sequence 3, and the
    first two lines of the text that is signed. *)
Lemma metamask_signed_payload_sample :
  (exists out,
     run (MetaMask.sendTransaction (Sample.metamask Sample.node) None
            (Some "1000000") (Some "Test transaction from MetaMask"))
     = (out,
        [EthereumRequest "eth_requestAccounts" [];
         EthereumRequest "eth_accounts" [];
         EthereumRequest "personal_sign"
           [Some (MetaMask.hexlify (toUtf8Bytes "Generate Cosmos pubkey"));
            Some Sample.eth_address];
         StargateConnect "https://pion-rpc.nolus.network";
         GetAccount Sample.neutron_address;
         EthereumRequest "personal_sign"
           [Some ("0x" ++ Hex.toHex
                            (toUtf8Bytes
                               (Json.stringify
                                  (Spec.json_sign_doc (7%N, 3%N)
                                     Sample.neutron_address Sample.neutron_address
                                     "1000000" "Test transaction from MetaMask")
                                  4)));
            Some Sample.eth_address];
         HttpPost "https://pion-rpc.nolus.network"
           [("Content-Type", "application/json"); ("Accept", "application/json")]
           (Spec.broadcast_body 1700000000000
              (TxRaw.encode
                 {| TxRaw.bodyBytes :=
                      TxBody.encode
                        (Spec.transfer "untrn" Sample.neutron_address
                           Sample.neutron_address "1000000"
                           "Test transaction from MetaMask");
                    TxRaw.authInfoBytes :=
                      AuthInfo.encode
                        (Spec.signer (Spec.secp256k1_key Sample.compressed)
                           SignMode.SIGN_MODE_EIP_191 3 "untrn" "5000" 200000);
                    TxRaw.signatures := [Sample.signature64] |}))]))
  /\ String.prefix
       ("{" ++ Json.newline ++ "    " ++ Json.quote "account_number" ++ ": "
            ++ Json.quote "7" ++ "," ++ Json.newline
            ++ "    " ++ Json.quote "chain_id" ++ ": " ++ Json.quote "pion-1" ++ ",")
       (Json.stringify
          (Spec.json_sign_doc (7%N, 3%N)
             Sample.neutron_address
             Sample.neutron_address
             "1000000" "Test transaction from MetaMask") 4)
     = true.
Proof.
  split; [|vm_compute; reflexivity].
  destruct (proj1 metamask_signed_payload
              (Sample.metamask Sample.node) Sample.ethereum
              (Some Sample.eth_address) Sample.compressed Sample.neutron_address
              (Some {| Account.accountNumber := 7; Account.sequence := 3 |})
              None (Some "1000000") (Some "Test transaction from MetaMask")
              (sample_metamask_key Sample.node) sample_neutron_address
              eq_refl eq_refl)
    as (out & payload & rest & -> & Hrun & Hrest).
  exists out. rewrite Hrun.
  rewrite (Hrest Sample.signature65_hex Sample.signature64
             eq_refl sample_signature_stripped).
  reflexivity.
Defined.

(** ** Account number and sequence *)

(** C6: a run of [sendTransaction] that has the key asks the node for
    the account of the sender's address, and builds the sign document
    from the reply of the node in that run: its account number is the
    sign document's, its sequence the one of the [SignerInfo] (in the
    MetaMask script, the [account_number] and [sequence] fields of the
    JSON document); the transaction that is broadcast carries the same
    sequence.  No signature is requested and nothing is broadcast
    without that reply. *)
Theorem account_state_fetched_fresh :
  (forall w wallet publicKey address reply toAddress amountStr memo,
     Spec.solflare_key w wallet publicKey ->
     Spec.nolus_address publicKey = Return address ->
     StargateClient_connect (Solflare.node w) Nolus.CONFIG.rpc = Return tt ->
     getAccount (Solflare.node w) address = Return reply ->
     exists out m rest,
       m = SignDoc.encode
               (Spec.direct_sign_doc publicKey address
                     (Spec.given_or toAddress address)
                     (Spec.given_or amountStr "1000000")
                     (Spec.given_or memo "solflare-ed25519-test") (Spec.fetched reply))
       /\ run (Solflare.sendTransaction w toAddress amountStr memo)
          = (out,
             [WalletConnect; StargateConnect Nolus.CONFIG.rpc; GetAccount address;
              WalletSignMessage m None] ++ rest)%list
       /\ forall signature,
            Solflare.signMessage wallet m = Return signature ->
            rest = [HttpPost Nolus.CONFIG.rpc [("Content-Type", "application/json")]
                      (Spec.broadcast_body (Date_now (Solflare.node w))
                         (Spec.direct_tx publicKey address
                            (Spec.given_or toAddress address)
                            (Spec.given_or amountStr "1000000")
                            (Spec.given_or memo "solflare-ed25519-test") (Spec.fetched reply)
                            signature))])
  /\ (forall w wallet publicKey address reply toAddress amountStr memo,
        Spec.phantom_key w wallet publicKey ->
        Spec.nolus_address publicKey = Return address ->
        StargateClient_connect (Phantom.node w) Nolus.CONFIG.rpc = Return tt ->
        getAccount (Phantom.node w) address = Return reply ->
        exists out m rest,
          m = SignDoc.encode
                  (Spec.direct_sign_doc publicKey address
                        (Spec.given_or toAddress address)
                        (Spec.given_or amountStr "1000000")
                        (Spec.given_or memo "phantom-ed25519-test") (Spec.fetched reply))
          /\ run (Phantom.sendTransaction w toAddress amountStr memo)
             = (out,
                [WalletConnect; StargateConnect Nolus.CONFIG.rpc; GetAccount address;
                 WalletSignMessage m (Some "utf8")] ++ rest)%list
          /\ forall signature,
               Phantom.signMessage wallet m (Some "utf8") = Return signature ->
               rest = [HttpPost Nolus.CONFIG.rpc [("Content-Type", "application/json")]
                         (Spec.broadcast_body (Date_now (Phantom.node w))
                            (Spec.direct_tx publicKey address
                               (Spec.given_or toAddress address)
                               (Spec.given_or amountStr "1000000")
                               (Spec.given_or memo "phantom-ed25519-test") (Spec.fetched reply)
                               signature))])
  /\ (forall w wallet publicKey address reply toAddress amountStr memo,
        Spec.provider_key w wallet publicKey ->
        Spec.nolus_address publicKey = Return address ->
        StargateClient_connect (PhantomProvider.node w) Nolus.CONFIG.rpc = Return tt ->
        getAccount (PhantomProvider.node w) address = Return reply ->
        exists out m rest,
          m = Utf8.TextEncoder_encode
                  (Utf8.Buffer_toString
                     (SignDoc.encode
                        (Spec.direct_sign_doc publicKey address
                        (Spec.given_or toAddress address)
                        (Spec.given_or amountStr "1000000")
                        (Spec.given_or memo "phantom-ed25519-test") (Spec.fetched reply))))
          /\ run (PhantomProvider.sendTransaction w toAddress amountStr memo)
             = (out,
                [WalletConnect; StargateConnect Nolus.CONFIG.rpc; GetAccount address;
                 WalletSignMessage m None] ++ rest)%list
          /\ forall signature,
               PhantomProvider.signMessage wallet m = Return signature ->
               rest = [HttpPost Nolus.CONFIG.rpc [("Content-Type", "application/json")]
                         (Spec.broadcast_body (Date_now (PhantomProvider.node w))
                            (Spec.direct_tx publicKey address
                               (Spec.given_or toAddress address)
                               (Spec.given_or amountStr "1000000")
                               (Spec.given_or memo "phantom-ed25519-test") (Spec.fetched reply)
                               signature))])
  /\ (forall w provider eth compressed address reply toAddress amount memo,
        Spec.metamask_key w provider eth compressed ->
        Spec.neutron_address compressed = Return address ->
        StargateClient_connect (MetaMask.node w) MetaMask.CONFIG.rpc = Return tt ->
        getAccount (MetaMask.node w) address = Return reply ->
        exists out payload rest,
          payload = Spec.json_payload
                      (Spec.json_sign_doc (Spec.fetched reply) address
                         (Spec.given_or toAddress address)
                         (Spec.given_or amount "1000000")
                         (Spec.given_or memo "Neutron Network transaction"))
          /\ run (MetaMask.sendTransaction w toAddress amount memo)
             = (out,
                Spec.key_requests eth
                  ++ [StargateConnect MetaMask.CONFIG.rpc; GetAccount address;
                      EthereumRequest "personal_sign" [Some payload; eth]]
                  ++ rest)%list
          /\ forall sigResult sig,
               MetaMask.personal_sign provider payload eth = Return sigResult ->
               Hex.fromHex (string_slice_neg 2 2 sigResult) = Return sig ->
               rest = [HttpPost MetaMask.CONFIG.rpc
                         [("Content-Type", "application/json");
                          ("Accept", "application/json")]
                         (Spec.broadcast_body (Date_now (MetaMask.node w))
                            (Spec.eip191_tx compressed address
                               (Spec.given_or toAddress address)
                               (Spec.given_or amount "1000000")
                               (Spec.given_or memo "Neutron Network transaction")
                               (Spec.fetched reply) sig))])
  /\ (forall w toAddress amountStr memo out tr,
     run (Solflare.sendTransaction w toAddress amountStr memo) = (out, tr) ->
     (forall m d,
        In (WalletSignMessage m d) tr ->
        exists publicKey address recipient amount text reply rest,
          getAccount (Solflare.node w) address = Return reply
          /\ tr = ([WalletConnect; StargateConnect Nolus.CONFIG.rpc;
                    GetAccount address; WalletSignMessage m d] ++ rest)%list
          /\ m = SignDoc.encode
                   (Spec.direct_sign_doc publicKey address recipient amount text
                      (Spec.fetched reply)))
     /\ (forall url headers body,
           In (HttpPost url headers body) tr ->
           exists publicKey address recipient amount text reply signature,
             getAccount (Solflare.node w) address = Return reply
             /\ In (GetAccount address) tr
             /\ body = Spec.broadcast_body (Date_now (Solflare.node w))
                         (Spec.direct_tx publicKey address recipient amount text
                            (Spec.fetched reply) signature)))
  /\ (forall w toAddress amountStr memo out tr,
        run (Phantom.sendTransaction w toAddress amountStr memo) = (out, tr) ->
        (forall m d,
           In (WalletSignMessage m d) tr ->
           exists publicKey address recipient amount text reply rest,
             getAccount (Phantom.node w) address = Return reply
             /\ tr = ([WalletConnect; StargateConnect Nolus.CONFIG.rpc;
                       GetAccount address; WalletSignMessage m d] ++ rest)%list
             /\ m = SignDoc.encode
                      (Spec.direct_sign_doc publicKey address recipient amount text
                         (Spec.fetched reply)))
        /\ (forall url headers body,
              In (HttpPost url headers body) tr ->
              exists publicKey address recipient amount text reply signature,
                getAccount (Phantom.node w) address = Return reply
                /\ In (GetAccount address) tr
                /\ body = Spec.broadcast_body (Date_now (Phantom.node w))
                            (Spec.direct_tx publicKey address recipient amount text
                               (Spec.fetched reply) signature)))
  /\ (forall w toAddress amountStr memo out tr,
        run (PhantomProvider.sendTransaction w toAddress amountStr memo) = (out, tr) ->
        (forall m d,
           In (WalletSignMessage m d) tr ->
           exists publicKey address recipient amount text reply rest,
             getAccount (PhantomProvider.node w) address = Return reply
             /\ tr = ([WalletConnect; StargateConnect Nolus.CONFIG.rpc;
                       GetAccount address; WalletSignMessage m d] ++ rest)%list
             /\ m = Utf8.TextEncoder_encode
                      (Utf8.Buffer_toString
                         (SignDoc.encode
                            (Spec.direct_sign_doc publicKey address recipient
                               amount text (Spec.fetched reply)))))
        /\ (forall url headers body,
              In (HttpPost url headers body) tr ->
              exists publicKey address recipient amount text reply signature,
                getAccount (PhantomProvider.node w) address = Return reply
                /\ In (GetAccount address) tr
                /\ body = Spec.broadcast_body (Date_now (PhantomProvider.node w))
                            (Spec.direct_tx publicKey address recipient amount text
                               (Spec.fetched reply) signature)))
  /\ (forall w toAddress amount memo out tr,
        run (MetaMask.sendTransaction w toAddress amount memo) = (out, tr) ->
        (forall payload eth,
           In (EthereumRequest "personal_sign" [Some payload; eth]) tr ->
           payload <> MetaMask.hexlify (toUtf8Bytes Spec.key_message) ->
           exists address recipient sent text reply rest,
             getAccount (MetaMask.node w) address = Return reply
             /\ tr = (Spec.key_requests eth
                        ++ [StargateConnect MetaMask.CONFIG.rpc; GetAccount address;
                            EthereumRequest "personal_sign" [Some payload; eth]]
                        ++ rest)%list
             /\ payload = Spec.json_payload
                            (Spec.json_sign_doc (Spec.fetched reply) address
                               recipient sent text))
        /\ (forall url headers body,
              In (HttpPost url headers body) tr ->
              exists compressed address recipient sent text reply signature,
                getAccount (MetaMask.node w) address = Return reply
                /\ In (GetAccount address) tr
                /\ body = Spec.broadcast_body (Date_now (MetaMask.node w))
                            (Spec.eip191_tx compressed address recipient sent text
                               (Spec.fetched reply) signature)))
  /\ (forall account,
        Spec.fetched (Some account)
        = (Account.accountNumber account, Account.sequence account))
  /\ (forall publicKey sender recipient amount text state,
        SignDoc.accountNumber
          (Spec.direct_sign_doc publicKey sender recipient amount text state)
        = Z.of_N (fst state)
        /\ SignDoc.authInfoBytes
             (Spec.direct_sign_doc publicKey sender recipient amount text state)
           = AuthInfo.encode
               {| AuthInfo.signerInfos :=
                    [{| SignerInfo.publicKey := Some (Spec.ed25519_key publicKey);
                        SignerInfo.modeInfo :=
                          Some {| ModeInfo.single :=
                                    Some {| ModeInfo.mode :=
                                              SignMode.SIGN_MODE_DIRECT |} |};
                        SignerInfo.sequence := Z.of_N (snd state) |}];
                  AuthInfo.fee :=
                    Some {| Fee.amount :=
                              [{| Coin.denom := "unls"; Coin.amount := "500" |}];
                            Fee.gasLimit := 200000 |} |})
  /\ (forall state sender recipient amount text,
        exists fee memo msgs,
          Spec.json_sign_doc state sender recipient amount text
          = Json.Obj
              [("account_number", Json.Str (JsNumber.decimal (Z.of_N (fst state))));
               ("chain_id", Json.Str "pion-1"); fee; memo; msgs;
               ("sequence", Json.Str (JsNumber.decimal (Z.of_N (snd state))))])
  /\ (forall compressed sender recipient amount text state signature,
        Spec.eip191_tx compressed sender recipient amount text state signature
        = TxRaw.encode
            {| TxRaw.bodyBytes :=
                 TxBody.encode (Spec.transfer "untrn" sender recipient amount text);
               TxRaw.authInfoBytes :=
                 AuthInfo.encode
                   {| AuthInfo.signerInfos :=
                        [{| SignerInfo.publicKey :=
                              Some (Spec.secp256k1_key compressed);
                            SignerInfo.modeInfo :=
                              Some {| ModeInfo.single :=
                                        Some {| ModeInfo.mode :=
                                                  SignMode.SIGN_MODE_EIP_191 |} |};
                            SignerInfo.sequence := Z.of_N (snd state) |}];
                      AuthInfo.fee :=
                        Some {| Fee.amount :=
                                  [{| Coin.denom := "untrn";
                                      Coin.amount := "5000" |}];
                                Fee.gasLimit := 200000 |} |};
               TxRaw.signatures := [signature] |}).
Proof.
  split; [exact SolflareSends.solflare_sends_answered|].
  split; [exact PhantomSends.phantom_sends_answered|].
  split; [exact ProviderSends.provider_sends_answered|].
  split; [exact MetaMaskSends.metamask_sends_answered|].
  split; [|split; [|split; [|split; [|split; [|split; [|split]]]]]].
  - intros w toAddress amountStr memo out tr Hrun. split.
    + intros m d Hin.
      destruct (SolflareFacts.solflare_signs _ _ _ _ _ _ _ _ Hrun Hin)
        as (_ & publicKey & address & reply & rest & _ & _ & Hreply & Htr & _ & Hm).
      exists publicKey, address. do 3 eexists. exists reply, rest. eauto.
    + intros url headers body Hin.
      destruct (SolflareFacts.solflare_broadcasts _ _ _ _ _ _ _ _ _ Hrun Hin)
        as (_ & publicKey & address & reply & signature
            & _ & _ & Hreply & _ & Htr & _ & _ & Hbody).
      exists publicKey, address. do 3 eexists. exists reply, signature.
      split; [exact Hreply|]. split; [|exact Hbody].
      rewrite Htr. cbn [In]. auto.
  - intros w toAddress amountStr memo out tr Hrun. split.
    + intros m d Hin.
      destruct (PhantomFacts.phantom_signs _ _ _ _ _ _ _ _ Hrun Hin)
        as (_ & publicKey & address & reply & rest & _ & _ & Hreply & Htr & _ & Hm).
      exists publicKey, address. do 3 eexists. exists reply, rest. eauto.
    + intros url headers body Hin.
      destruct (PhantomFacts.phantom_broadcasts _ _ _ _ _ _ _ _ _ Hrun Hin)
        as (_ & publicKey & address & reply & signature
            & _ & _ & Hreply & _ & Htr & _ & _ & Hbody).
      exists publicKey, address. do 3 eexists. exists reply, signature.
      split; [exact Hreply|]. split; [|exact Hbody].
      rewrite Htr. cbn [In]. auto.
  - intros w toAddress amountStr memo out tr Hrun. split.
    + intros m d Hin.
      destruct (PhantomProviderFacts.provider_signs _ _ _ _ _ _ _ _ Hrun Hin)
        as (_ & publicKey & address & reply & rest & _ & _ & Hreply & Htr & _ & Hm).
      exists publicKey, address. do 3 eexists. exists reply, rest. eauto.
    + intros url headers body Hin.
      destruct (PhantomProviderFacts.provider_broadcasts _ _ _ _ _ _ _ _ _ Hrun Hin)
        as (_ & publicKey & address & reply & signature
            & _ & _ & Hreply & _ & Htr & _ & _ & Hbody).
      exists publicKey, address. do 3 eexists. exists reply, signature.
      split; [exact Hreply|]. split; [|exact Hbody].
      rewrite Htr. cbn [In]. auto.
  - intros w toAddress amount memo out tr Hrun. split.
    + intros payload eth Hin Hother.
      destruct (MetaMaskFacts.metamask_signs _ _ _ _ _ _ _ _ Hrun Hin)
        as [Hkey|(_ & _ & address & reply & rest & _ & _ & Hreply & Htr & Hp)];
        [contradiction|].
      exists address. do 3 eexists. exists reply, rest. eauto.
    + intros url headers body Hin.
      destruct (MetaMaskFacts.metamask_broadcasts _ _ _ _ _ _ _ _ _ Hrun Hin)
        as (_ & eth & compressed & address & reply & _ & signature
            & _ & _ & Hreply & _ & _ & Htr & _ & _ & Hbody).
      exists compressed, address. do 3 eexists. exists reply, signature.
      split; [exact Hreply|]. split; [|exact Hbody].
      rewrite Htr. apply in_or_app. right. cbn [In]. auto.
  - reflexivity.
  - intros. split; reflexivity.
  - intros. do 3 eexists. reflexivity.
  - reflexivity.
Qed.

(** C6 in the sample worlds, where the node knows the account as number
    7 at sequence 3: the run of each script, with every argument
    omitted. *)
Lemma account_state_fetched_fresh_sample :
  (exists out,
       run (Solflare.sendTransaction (Sample.solflare Sample.node) None None None)
       = (out,
          [WalletConnect; StargateConnect "https://rpc.nolus.network";
           GetAccount Sample.address;
           WalletSignMessage
             (SignDoc.encode
                 (Spec.direct_sign_doc Sample.key32 Sample.address Sample.address
                    "1000000" "solflare-ed25519-test" (7%N, 3%N)))
             None;
           HttpPost "https://rpc.nolus.network" [("Content-Type", "application/json")]
             (Spec.broadcast_body 1700000000000
                (Spec.direct_tx Sample.key32 Sample.address Sample.address
                   "1000000" "solflare-ed25519-test" (7%N, 3%N) Sample.signature64))]))
  /\ (exists out,
          run (Phantom.sendTransaction (Sample.phantom Sample.node) None None None)
          = (out,
             [WalletConnect; StargateConnect "https://rpc.nolus.network";
              GetAccount Sample.address;
              WalletSignMessage
                (SignDoc.encode
                    (Spec.direct_sign_doc Sample.key32 Sample.address Sample.address
                       "1000000" "phantom-ed25519-test" (7%N, 3%N)))
                (Some "utf8");
              HttpPost "https://rpc.nolus.network" [("Content-Type", "application/json")]
                (Spec.broadcast_body 1700000000000
                   (Spec.direct_tx Sample.key32 Sample.address Sample.address
                      "1000000" "phantom-ed25519-test" (7%N, 3%N) Sample.signature64))]))
  /\ (exists out,
          run (PhantomProvider.sendTransaction (Sample.phantom_provider Sample.node) None None None)
          = (out,
             [WalletConnect; StargateConnect "https://rpc.nolus.network";
              GetAccount Sample.address;
              WalletSignMessage
                (Utf8.TextEncoder_encode
                 (Utf8.Buffer_toString
                    (SignDoc.encode
                       (Spec.direct_sign_doc Sample.key32 Sample.address Sample.address
                       "1000000" "phantom-ed25519-test" (7%N, 3%N)))))
                None;
              HttpPost "https://rpc.nolus.network" [("Content-Type", "application/json")]
                (Spec.broadcast_body 1700000000000
                   (Spec.direct_tx Sample.key32 Sample.address Sample.address
                      "1000000" "phantom-ed25519-test" (7%N, 3%N) Sample.signature64))]))
  /\ (exists out,
          run (MetaMask.sendTransaction (Sample.metamask Sample.node) None None None)
          = (out,
             Spec.key_requests (Some Sample.eth_address)
               ++ [StargateConnect "https://pion-rpc.nolus.network";
                   GetAccount Sample.neutron_address;
                   EthereumRequest "personal_sign"
                     [Some (Spec.json_payload
                              (Spec.json_sign_doc (7%N, 3%N) Sample.neutron_address
                                 Sample.neutron_address "1000000"
                                 "Neutron Network transaction"));
                      Some Sample.eth_address];
                   HttpPost "https://pion-rpc.nolus.network"
                     [("Content-Type", "application/json");
                      ("Accept", "application/json")]
                     (Spec.broadcast_body 1700000000000
                        (Spec.eip191_tx Sample.compressed Sample.neutron_address
                           Sample.neutron_address "1000000"
                           "Neutron Network transaction" (7%N, 3%N)
                           Sample.signature64))])%list).
Proof.
  split; [|split; [|split]].
  - destruct (proj1 account_state_fetched_fresh
                (Sample.solflare Sample.node) Sample.solflare_wallet Sample.key32
                Sample.address
                (Some {| Account.accountNumber := 7; Account.sequence := 3 |})
                None None None (sample_solflare_key Sample.node) sample_nolus_address
                eq_refl eq_refl)
      as (out & m & rest & -> & Hrun & Hrest).
    exists out. rewrite Hrun, (Hrest Sample.signature64 eq_refl). reflexivity.
  - destruct (proj1 (proj2 account_state_fetched_fresh)
                (Sample.phantom Sample.node) Sample.phantom_wallet Sample.key32
                Sample.address
                (Some {| Account.accountNumber := 7; Account.sequence := 3 |})
                None None None (sample_phantom_key Sample.node) sample_nolus_address
                eq_refl eq_refl)
      as (out & m & rest & -> & Hrun & Hrest).
    exists out. rewrite Hrun, (Hrest Sample.signature64 eq_refl). reflexivity.
  - destruct (proj1 (proj2 (proj2 account_state_fetched_fresh))
                (Sample.phantom_provider Sample.node) Sample.provider Sample.key32
                Sample.address
                (Some {| Account.accountNumber := 7; Account.sequence := 3 |})
                None None None (sample_provider_key Sample.node) sample_nolus_address
                eq_refl eq_refl)
      as (out & m & rest & -> & Hrun & Hrest).
    exists out. rewrite Hrun, (Hrest Sample.signature64 eq_refl). reflexivity.
  - destruct (proj1 (proj2 (proj2 (proj2 account_state_fetched_fresh)))
                (Sample.metamask Sample.node) Sample.ethereum
                (Some Sample.eth_address) Sample.compressed Sample.neutron_address
                (Some {| Account.accountNumber := 7; Account.sequence := 3 |})
                None None None (sample_metamask_key Sample.node)
                sample_neutron_address eq_refl eq_refl)
      as (out & payload & rest & -> & Hrun & Hrest).
    exists out. rewrite Hrun.
    rewrite (Hrest Sample.signature65_hex Sample.signature64
               eq_refl sample_signature_stripped).
    reflexivity.
Defined.

(** ** The JSON-RPC envelope *)

(** The text of the envelope of a broadcast and of the status request. *)
Lemma broadcast_body_text (id : Z) (txBytes : bytes) :
  Spec.broadcast_body id txBytes
  = "{" ++ Json.quote "jsonrpc" ++ ":" ++ Json.quote "2.0" ++ ","
        ++ Json.quote "id" ++ ":" ++ Json.number_text id ++ ","
        ++ Json.quote "method" ++ ":" ++ Json.quote "broadcast_tx_sync" ++ ","
        ++ Json.quote "params" ++ ":{" ++ Json.quote "tx" ++ ":"
        ++ Json.quote (Base64.toBase64 txBytes) ++ "}}".
Proof.
  with_strategy transparent [Json.stringify String.append]
    (unfold Spec.broadcast_body, Spec.envelope, Json.stringify, Json.quote;
     repeat first [ rewrite append_assoc
                  | progress cbn
                  | progress unfold Json.dquote ];
     reflexivity).
Qed.

Lemma abci_info_body_text :
  Spec.abci_info_body
  = "{" ++ Json.quote "jsonrpc" ++ ":" ++ Json.quote "2.0" ++ ","
        ++ Json.quote "id" ++ ":1,"
        ++ Json.quote "method" ++ ":" ++ Json.quote "abci_info" ++ ","
        ++ Json.quote "params" ++ ":{}}".
Proof. vm_compute. reflexivity. Qed.

(** C7: [broadcastTransaction] sends one POST, whose body is the
    envelope with the members [jsonrpc] (2.0), [id], [method]
    ([broadcast_tx_sync]) and [params], the latter holding under [tx]
    the base64 text of the bytes it was given; in a run of
    [sendTransaction] those bytes are the signed transaction;
    [checkTestnet] sends one POST with the same envelope, method
    [abci_info] and empty [params]. *)
Theorem broadcast_envelope :
  (forall node txBytes,
     snd (run (Nolus.broadcastTransaction node txBytes))
     = [HttpPost Nolus.CONFIG.rpc [("Content-Type", "application/json")]
          (Json.stringify
             (Json.Obj
                [("jsonrpc", Json.Str "2.0");
                 ("id", Json.Num (Date_now node));
                 ("method", Json.Str "broadcast_tx_sync");
                 ("params",
                  Json.Obj [("tx", Json.Str (Base64.toBase64 txBytes))])])
             0)])
  /\ (forall w txBytes,
        snd (run (MetaMask.broadcastTransaction w txBytes))
        = [HttpPost MetaMask.CONFIG.rpc
             [("Content-Type", "application/json"); ("Accept", "application/json")]
             (Json.stringify
                (Json.Obj
                   [("jsonrpc", Json.Str "2.0");
                    ("id", Json.Num (Date_now (MetaMask.node w)));
                    ("method", Json.Str "broadcast_tx_sync");
                    ("params",
                     Json.Obj [("tx", Json.Str (Base64.toBase64 txBytes))])])
                0)])
  /\ (forall w,
        snd (run (MetaMask.checkTestnet w))
        = [HttpPost MetaMask.CONFIG.rpc [("Content-Type", "application/json")]
             (Json.stringify
                (Json.Obj
                   [("jsonrpc", Json.Str "2.0");
                    ("id", Json.Num 1);
                    ("method", Json.Str "abci_info");
                    ("params", Json.Obj [])])
                0)])
  /\ (forall w toAddress amountStr memo out tr url headers body,
        run (Solflare.sendTransaction w toAddress amountStr memo) = (out, tr) ->
        In (HttpPost url headers body) tr ->
        exists bodyBytes authInfoBytes message signature wallet,
          Solflare.solflare w = Some wallet
          /\ Solflare.signMessage wallet message = Return signature
          /\ body = Spec.broadcast_body (Date_now (Solflare.node w))
                      (TxRaw.encode {| TxRaw.bodyBytes := bodyBytes;
                                       TxRaw.authInfoBytes := authInfoBytes;
                                       TxRaw.signatures := [signature] |}))
  /\ (forall w toAddress amountStr memo out tr url headers body,
        run (Phantom.sendTransaction w toAddress amountStr memo) = (out, tr) ->
        In (HttpPost url headers body) tr ->
        exists bodyBytes authInfoBytes message display signature wallet,
          Phantom.phantom w = Some wallet
          /\ Phantom.signMessage wallet message display = Return signature
          /\ body = Spec.broadcast_body (Date_now (Phantom.node w))
                      (TxRaw.encode {| TxRaw.bodyBytes := bodyBytes;
                                       TxRaw.authInfoBytes := authInfoBytes;
                                       TxRaw.signatures := [signature] |}))
  /\ (forall w toAddress amountStr memo out tr url headers body,
        run (PhantomProvider.sendTransaction w toAddress amountStr memo) = (out, tr) ->
        In (HttpPost url headers body) tr ->
        exists bodyBytes authInfoBytes message signature provider,
          PhantomProvider.getPhantom w = Some provider
          /\ PhantomProvider.signMessage provider message = Return signature
          /\ body = Spec.broadcast_body (Date_now (PhantomProvider.node w))
                      (TxRaw.encode {| TxRaw.bodyBytes := bodyBytes;
                                       TxRaw.authInfoBytes := authInfoBytes;
                                       TxRaw.signatures := [signature] |}))
  /\ (forall w toAddress amount memo out tr url headers body,
        run (MetaMask.sendTransaction w toAddress amount memo) = (out, tr) ->
        In (HttpPost url headers body) tr ->
        exists bodyBytes authInfoBytes payload eth sigResult signature provider,
          MetaMask.ethereum w = Some provider
          /\ MetaMask.personal_sign provider payload eth = Return sigResult
          /\ Hex.fromHex (string_slice_neg 2 2 sigResult) = Return signature
          /\ body = Spec.broadcast_body (Date_now (MetaMask.node w))
                      (TxRaw.encode {| TxRaw.bodyBytes := bodyBytes;
                                       TxRaw.authInfoBytes := authInfoBytes;
                                       TxRaw.signatures := [signature] |}))
  /\ (forall id txBytes,
        Spec.broadcast_body id txBytes
        = "{" ++ Json.quote "jsonrpc" ++ ":" ++ Json.quote "2.0" ++ ","
              ++ Json.quote "id" ++ ":" ++ Json.number_text id ++ ","
              ++ Json.quote "method" ++ ":" ++ Json.quote "broadcast_tx_sync" ++ ","
              ++ Json.quote "params" ++ ":{" ++ Json.quote "tx" ++ ":"
              ++ Json.quote (Base64.toBase64 txBytes) ++ "}}")
  /\ Spec.abci_info_body
     = "{" ++ Json.quote "jsonrpc" ++ ":" ++ Json.quote "2.0" ++ ","
           ++ Json.quote "id" ++ ":1,"
           ++ Json.quote "method" ++ ":" ++ Json.quote "abci_info" ++ ","
           ++ Json.quote "params" ++ ":{}}".
Proof.
  split; [|split; [|split; [|split; [|split; [|split; [|split; [|split]]]]]]].
  - intros node txBytes.
    exact (NolusFacts.nolus_broadcastTransaction_request node txBytes _ _
             (surjective_pairing _)).
  - intros w txBytes.
    exact (MetaMaskFacts.metamask_broadcastTransaction_request w txBytes _ _
             (surjective_pairing _)).
  - intros w.
    exact (MetaMaskFacts.checkTestnet_request w _ _ (surjective_pairing _)).
  - intros w toAddress amountStr memo out tr url headers body Hrun Hin.
    destruct (SolflareFacts.solflare_broadcasts _ _ _ _ _ _ _ _ _ Hrun Hin)
      as (wallet & publicKey & address & reply & signature
          & Hkey & _ & _ & Hsign & _ & _ & _ & Hbody).
    do 3 eexists. exists signature, wallet.
    split; [apply Hkey|]. split; [exact Hsign|exact Hbody].
  - intros w toAddress amountStr memo out tr url headers body Hrun Hin.
    destruct (PhantomFacts.phantom_broadcasts _ _ _ _ _ _ _ _ _ Hrun Hin)
      as (wallet & publicKey & address & reply & signature
          & Hkey & _ & _ & Hsign & _ & _ & _ & Hbody).
    do 4 eexists. exists signature, wallet.
    split; [apply Hkey|]. split; [exact Hsign|exact Hbody].
  - intros w toAddress amountStr memo out tr url headers body Hrun Hin.
    destruct (PhantomProviderFacts.provider_broadcasts _ _ _ _ _ _ _ _ _ Hrun Hin)
      as (wallet & publicKey & address & reply & signature
          & Hkey & _ & _ & Hsign & _ & _ & _ & Hbody).
    do 3 eexists. exists signature, wallet.
    split; [apply Hkey|]. split; [exact Hsign|exact Hbody].
  - intros w toAddress amount memo out tr url headers body Hrun Hin.
    destruct (MetaMaskFacts.metamask_broadcasts _ _ _ _ _ _ _ _ _ Hrun Hin)
      as (provider & eth & compressed & address & reply & sigResult & signature
          & Hkey & _ & _ & Hsign & Hhex & _ & _ & _ & Hbody).
    do 3 eexists. exists eth, sigResult, signature, provider.
    split; [apply Hkey|]. split; [exact Hsign|]. split; [exact Hhex|exact Hbody].
  - exact broadcast_body_text.
  - exact abci_info_body_text.
Qed.

(** C7 in the sample world: the POST of the Solflare test transaction. *)
Lemma broadcast_envelope_sample :
  exists bodyBytes authInfoBytes message signature wallet,
    Solflare.solflare (Sample.solflare Sample.node) = Some wallet
    /\ Solflare.signMessage wallet message = Return signature
    /\ Spec.broadcast_body 1700000000000
         (Spec.direct_tx Sample.key32 Sample.address Sample.address "1"
            "Solflare ED25519 test" (7%N, 3%N) Sample.signature64)
       = Spec.broadcast_body (Date_now (Solflare.node (Sample.solflare Sample.node)))
           (TxRaw.encode {| TxRaw.bodyBytes := bodyBytes;
                            TxRaw.authInfoBytes := authInfoBytes;
                            TxRaw.signatures := [signature] |}).
Proof.
  apply (proj1 (proj2 (proj2 (proj2 broadcast_envelope)))
           (Sample.solflare Sample.node) None (Some "1")
           (Some "Solflare ED25519 test") _ _
           "https://rpc.nolus.network" [("Content-Type", "application/json")] _
           sample_solflare_run).
  cbn [In]. auto 6.
Defined.

(** ** An account the node does not know *)

(** C8: when the node reports no account, [fetchAccountInfo] returns
    account number 0 and sequence 0; [sendTransaction], with a connected
    wallet, goes on to ask for a signature of the sign document built
    with those zeros and, when the wallet signs, broadcasts the
    transaction built with them. *)
Theorem unknown_account_defaults :
  (forall node address,
     StargateClient_connect node Nolus.CONFIG.rpc = Return tt ->
     getAccount node address = Return None ->
     run (Nolus.fetchAccountInfo node address)
     = (Return {| Nolus.accountNumber := 0; Nolus.sequence := 0 |},
        [StargateConnect Nolus.CONFIG.rpc; GetAccount address]))
  /\ (forall w address,
        StargateClient_connect (MetaMask.node w) MetaMask.CONFIG.rpc = Return tt ->
        getAccount (MetaMask.node w) address = Return None ->
        run (MetaMask.fetchAccountInfo w address)
        = (Return {| MetaMask.accountNumber := 0; MetaMask.sequence := 0 |},
           [StargateConnect MetaMask.CONFIG.rpc; GetAccount address]))
  /\ (forall w wallet publicKey address toAddress amountStr memo,
        Spec.solflare_key w wallet publicKey ->
        Spec.nolus_address publicKey = Return address ->
        StargateClient_connect (Solflare.node w) Nolus.CONFIG.rpc = Return tt ->
        getAccount (Solflare.node w) address = Return None ->
        exists out recipient amount text rest,
          run (Solflare.sendTransaction w toAddress amountStr memo)
          = (out,
             [WalletConnect; StargateConnect Nolus.CONFIG.rpc; GetAccount address;
              WalletSignMessage
                (SignDoc.encode
                   (Spec.direct_sign_doc publicKey address recipient amount text
                      (0%N, 0%N)))
                None] ++ rest)%list
          /\ forall signature,
               Solflare.signMessage wallet
                 (SignDoc.encode
                    (Spec.direct_sign_doc publicKey address recipient amount text
                       (0%N, 0%N)))
               = Return signature ->
               rest = [HttpPost Nolus.CONFIG.rpc
                         [("Content-Type", "application/json")]
                         (Spec.broadcast_body (Date_now (Solflare.node w))
                            (Spec.direct_tx publicKey address recipient amount text
                               (0%N, 0%N) signature))])
  /\ (forall w wallet publicKey address toAddress amountStr memo,
        Spec.phantom_key w wallet publicKey ->
        Spec.nolus_address publicKey = Return address ->
        StargateClient_connect (Phantom.node w) Nolus.CONFIG.rpc = Return tt ->
        getAccount (Phantom.node w) address = Return None ->
        exists out recipient amount text rest,
          run (Phantom.sendTransaction w toAddress amountStr memo)
          = (out,
             [WalletConnect; StargateConnect Nolus.CONFIG.rpc; GetAccount address;
              WalletSignMessage
                (SignDoc.encode
                   (Spec.direct_sign_doc publicKey address recipient amount text
                      (0%N, 0%N)))
                (Some "utf8")] ++ rest)%list
          /\ forall signature,
               Phantom.signMessage wallet
                 (SignDoc.encode
                    (Spec.direct_sign_doc publicKey address recipient amount text
                       (0%N, 0%N)))
                 (Some "utf8")
               = Return signature ->
               rest = [HttpPost Nolus.CONFIG.rpc
                         [("Content-Type", "application/json")]
                         (Spec.broadcast_body (Date_now (Phantom.node w))
                            (Spec.direct_tx publicKey address recipient amount text
                               (0%N, 0%N) signature))])
  /\ (forall w provider publicKey address toAddress amountStr memo,
        Spec.provider_key w provider publicKey ->
        Spec.nolus_address publicKey = Return address ->
        StargateClient_connect (PhantomProvider.node w) Nolus.CONFIG.rpc = Return tt ->
        getAccount (PhantomProvider.node w) address = Return None ->
        exists out recipient amount text rest,
          run (PhantomProvider.sendTransaction w toAddress amountStr memo)
          = (out,
             [WalletConnect; StargateConnect Nolus.CONFIG.rpc; GetAccount address;
              WalletSignMessage
                (Utf8.TextEncoder_encode
                   (Utf8.Buffer_toString
                      (SignDoc.encode
                         (Spec.direct_sign_doc publicKey address recipient amount
                            text (0%N, 0%N)))))
                None] ++ rest)%list
          /\ forall signature,
               PhantomProvider.signMessage provider
                 (Utf8.TextEncoder_encode
                    (Utf8.Buffer_toString
                       (SignDoc.encode
                          (Spec.direct_sign_doc publicKey address recipient amount
                             text (0%N, 0%N)))))
               = Return signature ->
               rest = [HttpPost Nolus.CONFIG.rpc
                         [("Content-Type", "application/json")]
                         (Spec.broadcast_body (Date_now (PhantomProvider.node w))
                            (Spec.direct_tx publicKey address recipient amount text
                               (0%N, 0%N) signature))])
  /\ (forall w provider eth compressed address toAddress amount memo,
        Spec.metamask_key w provider eth compressed ->
        Spec.neutron_address compressed = Return address ->
        StargateClient_connect (MetaMask.node w) MetaMask.CONFIG.rpc = Return tt ->
        getAccount (MetaMask.node w) address = Return None ->
        exists out recipient sent text rest,
          run (MetaMask.sendTransaction w toAddress amount memo)
          = (out,
             Spec.key_requests eth
               ++ [StargateConnect MetaMask.CONFIG.rpc; GetAccount address;
                   EthereumRequest "personal_sign"
                     [Some (Spec.json_payload
                              (Spec.json_sign_doc (0%N, 0%N) address recipient
                                 sent text));
                      eth]]
               ++ rest)%list
          /\ forall sigResult signature,
               MetaMask.personal_sign provider
                 (Spec.json_payload
                    (Spec.json_sign_doc (0%N, 0%N) address recipient sent text))
                 eth
               = Return sigResult ->
               Hex.fromHex (string_slice_neg 2 2 sigResult) = Return signature ->
               rest = [HttpPost MetaMask.CONFIG.rpc
                         [("Content-Type", "application/json");
                          ("Accept", "application/json")]
                         (Spec.broadcast_body (Date_now (MetaMask.node w))
                            (Spec.eip191_tx compressed address recipient sent text
                               (0%N, 0%N) signature))]).
Proof.
  split; [|split; [|split; [|split; [|split]]]].
  - exact NolusFacts.nolus_fetchAccountInfo_unknown.
  - exact MetaMaskFacts.metamask_fetchAccountInfo_unknown.
  - intros w wallet publicKey address toAddress amountStr memo Hk Ha Hc Hn.
    destruct (SolflareFacts.solflare_fresh_account w wallet publicKey address
                toAddress amountStr memo Hk Ha Hc Hn) as (out & rest & Hrun & Hrest).
    exists out. do 3 eexists. exists rest. split; [exact Hrun|exact Hrest].
  - intros w wallet publicKey address toAddress amountStr memo Hk Ha Hc Hn.
    destruct (PhantomFacts.phantom_fresh_account w wallet publicKey address
                toAddress amountStr memo Hk Ha Hc Hn) as (out & rest & Hrun & Hrest).
    exists out. do 3 eexists. exists rest. split; [exact Hrun|exact Hrest].
  - intros w provider publicKey address toAddress amountStr memo Hk Ha Hc Hn.
    destruct (PhantomProviderFacts.provider_fresh_account w provider publicKey
                address toAddress amountStr memo Hk Ha Hc Hn)
      as (out & rest & Hrun & Hrest).
    exists out. do 3 eexists. exists rest. split; [exact Hrun|exact Hrest].
  - intros w provider eth compressed address toAddress amount memo Hk Ha Hc Hn.
    destruct (MetaMaskFacts.metamask_fresh_account w provider eth compressed
                address toAddress amount memo Hk Ha Hc Hn)
      as (out & rest & Hrun & Hrest).
    exists out. do 3 eexists. exists rest. split; [exact Hrun|exact Hrest].
Qed.

(** C8 in the sample world whose node knows no account. *)
Lemma unknown_account_defaults_sample :
  run (Nolus.fetchAccountInfo Sample.fresh_node Sample.address)
  = (Return {| Nolus.accountNumber := 0; Nolus.sequence := 0 |},
     [StargateConnect Nolus.CONFIG.rpc; GetAccount Sample.address])
  /\ exists out recipient amount text rest,
       run (Solflare.sendTransaction (Sample.solflare Sample.fresh_node)
              None None None)
       = (out,
          [WalletConnect; StargateConnect Nolus.CONFIG.rpc;
           GetAccount Sample.address;
           WalletSignMessage
             (SignDoc.encode
                (Spec.direct_sign_doc Sample.key32 Sample.address recipient amount
                   text (0%N, 0%N)))
             None] ++ rest)%list
       /\ forall signature,
            Solflare.signMessage Sample.solflare_wallet
              (SignDoc.encode
                 (Spec.direct_sign_doc Sample.key32 Sample.address recipient amount
                    text (0%N, 0%N)))
            = Return signature ->
            rest = [HttpPost Nolus.CONFIG.rpc
                      [("Content-Type", "application/json")]
                      (Spec.broadcast_body
                         (Date_now (Solflare.node (Sample.solflare Sample.fresh_node)))
                         (Spec.direct_tx Sample.key32 Sample.address recipient amount
                            text (0%N, 0%N) signature))].
Proof.
  split.
  - apply (proj1 unknown_account_defaults Sample.fresh_node Sample.address);
      reflexivity.
  - apply (proj1 (proj2 (proj2 unknown_account_defaults))
             (Sample.solflare Sample.fresh_node) Sample.solflare_wallet
             Sample.key32 Sample.address None None None
             (sample_solflare_key Sample.fresh_node) sample_nolus_address);
      reflexivity.
Defined.

(** ** Defaults and constants *)

(** C9: a run of [sendTransaction] that has the key and the account
    asks for the signature of, and when the wallet signs posts, a
    transfer whose recipient is the [toAddress] argument when it is
    given, else the sender's own address, and whose amount is the amount
    argument when it is given, else 1000000; whatever the arguments,
    the fee is 500 unls and the gas limit 200000 in the Solflare and
    Phantom scripts, 5000 untrn and 200000 in the MetaMask script.  No
    other document is signed and no other transaction posted. *)
Theorem send_defaults :
  (forall w wallet publicKey address reply toAddress amountStr memo,
     Spec.solflare_key w wallet publicKey ->
     Spec.nolus_address publicKey = Return address ->
     StargateClient_connect (Solflare.node w) Nolus.CONFIG.rpc = Return tt ->
     getAccount (Solflare.node w) address = Return reply ->
     exists out m rest,
       m = SignDoc.encode
               {| SignDoc.bodyBytes :=
                      TxBody.encode
                        (Spec.transfer "unls" address
                           (Spec.given_or toAddress address)
                           (Spec.given_or amountStr "1000000")
                           (Spec.given_or memo "solflare-ed25519-test"));
                    SignDoc.authInfoBytes :=
                      AuthInfo.encode
                        (Spec.signer (Spec.ed25519_key publicKey)
                           SignMode.SIGN_MODE_DIRECT
                           (Spec.sequence (Spec.fetched reply)) "unls" "500" 200000);
                    SignDoc.chainId := "pirin-1";
                    SignDoc.accountNumber := Spec.account_number (Spec.fetched reply) |}
       /\ run (Solflare.sendTransaction w toAddress amountStr memo)
          = (out,
             [WalletConnect; StargateConnect Nolus.CONFIG.rpc; GetAccount address;
              WalletSignMessage m None] ++ rest)%list
       /\ forall signature,
            Solflare.signMessage wallet m = Return signature ->
            rest
            = [HttpPost Nolus.CONFIG.rpc [("Content-Type", "application/json")]
                 (Spec.broadcast_body (Date_now (Solflare.node w))
                    (TxRaw.encode
                       {| TxRaw.bodyBytes :=
                            TxBody.encode
                              (Spec.transfer "unls" address
                                 (Spec.given_or toAddress address)
                                 (Spec.given_or amountStr "1000000")
                                 (Spec.given_or memo "solflare-ed25519-test"));
                          TxRaw.authInfoBytes :=
                            AuthInfo.encode
                              (Spec.signer (Spec.ed25519_key publicKey)
                                 SignMode.SIGN_MODE_DIRECT
                                 (Spec.sequence (Spec.fetched reply))
                                 "unls" "500" 200000);
                          TxRaw.signatures := [signature] |}))])
  /\ (forall w wallet publicKey address reply toAddress amountStr memo,
        Spec.phantom_key w wallet publicKey ->
        Spec.nolus_address publicKey = Return address ->
        StargateClient_connect (Phantom.node w) Nolus.CONFIG.rpc = Return tt ->
        getAccount (Phantom.node w) address = Return reply ->
        exists out m rest,
          m = SignDoc.encode
                  {| SignDoc.bodyBytes :=
                         TxBody.encode
                           (Spec.transfer "unls" address
                              (Spec.given_or toAddress address)
                              (Spec.given_or amountStr "1000000")
                              (Spec.given_or memo "phantom-ed25519-test"));
                       SignDoc.authInfoBytes :=
                         AuthInfo.encode
                           (Spec.signer (Spec.ed25519_key publicKey)
                              SignMode.SIGN_MODE_DIRECT
                              (Spec.sequence (Spec.fetched reply)) "unls" "500" 200000);
                       SignDoc.chainId := "pirin-1";
                       SignDoc.accountNumber := Spec.account_number (Spec.fetched reply) |}
          /\ run (Phantom.sendTransaction w toAddress amountStr memo)
             = (out,
                [WalletConnect; StargateConnect Nolus.CONFIG.rpc; GetAccount address;
                 WalletSignMessage m (Some "utf8")] ++ rest)%list
          /\ forall signature,
               Phantom.signMessage wallet m (Some "utf8") = Return signature ->
               rest
               = [HttpPost Nolus.CONFIG.rpc [("Content-Type", "application/json")]
                    (Spec.broadcast_body (Date_now (Phantom.node w))
                       (TxRaw.encode
                          {| TxRaw.bodyBytes :=
                               TxBody.encode
                                 (Spec.transfer "unls" address
                                    (Spec.given_or toAddress address)
                                    (Spec.given_or amountStr "1000000")
                                    (Spec.given_or memo "phantom-ed25519-test"));
                             TxRaw.authInfoBytes :=
                               AuthInfo.encode
                                 (Spec.signer (Spec.ed25519_key publicKey)
                                    SignMode.SIGN_MODE_DIRECT
                                    (Spec.sequence (Spec.fetched reply))
                                    "unls" "500" 200000);
                             TxRaw.signatures := [signature] |}))])
  /\ (forall w wallet publicKey address reply toAddress amountStr memo,
        Spec.provider_key w wallet publicKey ->
        Spec.nolus_address publicKey = Return address ->
        StargateClient_connect (PhantomProvider.node w) Nolus.CONFIG.rpc = Return tt ->
        getAccount (PhantomProvider.node w) address = Return reply ->
        exists out m rest,
          m = Utf8.TextEncoder_encode
                  (Utf8.Buffer_toString
                     (SignDoc.encode
                        {| SignDoc.bodyBytes :=
                               TxBody.encode
                                 (Spec.transfer "unls" address
                                    (Spec.given_or toAddress address)
                                    (Spec.given_or amountStr "1000000")
                                    (Spec.given_or memo "phantom-ed25519-test"));
                             SignDoc.authInfoBytes :=
                               AuthInfo.encode
                                 (Spec.signer (Spec.ed25519_key publicKey)
                                    SignMode.SIGN_MODE_DIRECT
                                    (Spec.sequence (Spec.fetched reply)) "unls" "500" 200000);
                             SignDoc.chainId := "pirin-1";
                             SignDoc.accountNumber := Spec.account_number (Spec.fetched reply) |}))
          /\ run (PhantomProvider.sendTransaction w toAddress amountStr memo)
             = (out,
                [WalletConnect; StargateConnect Nolus.CONFIG.rpc; GetAccount address;
                 WalletSignMessage m None] ++ rest)%list
          /\ forall signature,
               PhantomProvider.signMessage wallet m = Return signature ->
               rest
               = [HttpPost Nolus.CONFIG.rpc [("Content-Type", "application/json")]
                    (Spec.broadcast_body (Date_now (PhantomProvider.node w))
                       (TxRaw.encode
                          {| TxRaw.bodyBytes :=
                               TxBody.encode
                                 (Spec.transfer "unls" address
                                    (Spec.given_or toAddress address)
                                    (Spec.given_or amountStr "1000000")
                                    (Spec.given_or memo "phantom-ed25519-test"));
                             TxRaw.authInfoBytes :=
                               AuthInfo.encode
                                 (Spec.signer (Spec.ed25519_key publicKey)
                                    SignMode.SIGN_MODE_DIRECT
                                    (Spec.sequence (Spec.fetched reply))
                                    "unls" "500" 200000);
                             TxRaw.signatures := [signature] |}))])
  /\ (forall w provider eth compressed address reply toAddress amount memo,
        Spec.metamask_key w provider eth compressed ->
        Spec.neutron_address compressed = Return address ->
        StargateClient_connect (MetaMask.node w) MetaMask.CONFIG.rpc = Return tt ->
        getAccount (MetaMask.node w) address = Return reply ->
        exists out payload rest,
          payload
          = Spec.json_payload
              (Json.Obj
                 [("account_number",
                   Json.Str
                     (JsNumber.decimal (Spec.account_number (Spec.fetched reply))));
                  ("chain_id", Json.Str "pion-1");
                  ("fee",
                   Json.Obj
                     [("amount", Json.Arr [Spec.json_coin "5000" "untrn"]);
                      ("gas", Json.Str "200000")]);
                  ("memo",
                   Json.Str (Spec.given_or memo "Neutron Network transaction"));
                  ("msgs",
                   Json.Arr
                     [Json.Obj
                        [("type", Json.Str "cosmos-sdk/MsgSend");
                         ("value",
                          Json.Obj
                            [("amount",
                              Json.Arr
                                [Spec.json_coin
                                   (Spec.given_or amount "1000000") "untrn"]);
                             ("from_address", Json.Str address);
                             ("to_address",
                              Json.Str (Spec.given_or toAddress address))])]]);
                  ("sequence",
                   Json.Str
                     (JsNumber.decimal (Spec.sequence (Spec.fetched reply))))])
          /\ run (MetaMask.sendTransaction w toAddress amount memo)
             = (out,
                Spec.key_requests eth
                  ++ [StargateConnect MetaMask.CONFIG.rpc; GetAccount address;
                      EthereumRequest "personal_sign" [Some payload; eth]]
                  ++ rest)%list
          /\ forall sigResult sig,
               MetaMask.personal_sign provider payload eth = Return sigResult ->
               Hex.fromHex (string_slice_neg 2 2 sigResult) = Return sig ->
               rest
               = [HttpPost MetaMask.CONFIG.rpc
                    [("Content-Type", "application/json");
                     ("Accept", "application/json")]
                    (Spec.broadcast_body (Date_now (MetaMask.node w))
                       (TxRaw.encode
                          {| TxRaw.bodyBytes :=
                               TxBody.encode
                                 (Spec.transfer "untrn" address
                                    (Spec.given_or toAddress address)
                                    (Spec.given_or amount "1000000")
                                    (Spec.given_or memo
                                       "Neutron Network transaction"));
                             TxRaw.authInfoBytes :=
                               AuthInfo.encode
                                 (Spec.signer (Spec.secp256k1_key compressed)
                                    SignMode.SIGN_MODE_EIP_191
                                    (Spec.sequence (Spec.fetched reply))
                                    "untrn" "5000" 200000);
                             TxRaw.signatures := [sig] |}))])
  /\ (forall w toAddress amountStr memo out tr,
     run (Solflare.sendTransaction w toAddress amountStr memo) = (out, tr) ->
     (forall m d,
        In (WalletSignMessage m d) tr ->
        exists publicKey address text state,
          Spec.nolus_address publicKey = Return address
          /\ m = SignDoc.encode
                   {| SignDoc.bodyBytes :=
                        TxBody.encode
                          (Spec.transfer "unls" address
                             (Spec.given_or toAddress address)
                             (Spec.given_or amountStr "1000000") text);
                      SignDoc.authInfoBytes :=
                        AuthInfo.encode
                          (Spec.signer (Spec.ed25519_key publicKey)
                             SignMode.SIGN_MODE_DIRECT (Spec.sequence state)
                             "unls" "500" 200000);
                      SignDoc.chainId := "pirin-1";
                      SignDoc.accountNumber := Spec.account_number state |})
     /\ (forall url headers body,
           In (HttpPost url headers body) tr ->
           exists publicKey address text state signature,
             Spec.nolus_address publicKey = Return address
             /\ body = Spec.broadcast_body (Date_now (Solflare.node w))
                         (TxRaw.encode
                            {| TxRaw.bodyBytes :=
                                 TxBody.encode
                                   (Spec.transfer "unls" address
                                      (Spec.given_or toAddress address)
                                      (Spec.given_or amountStr "1000000") text);
                               TxRaw.authInfoBytes :=
                                 AuthInfo.encode
                                   (Spec.signer (Spec.ed25519_key publicKey)
                                      SignMode.SIGN_MODE_DIRECT (Spec.sequence state)
                                      "unls" "500" 200000);
                               TxRaw.signatures := [signature] |})))
  /\ (forall w toAddress amountStr memo out tr,
        run (Phantom.sendTransaction w toAddress amountStr memo) = (out, tr) ->
        (forall m d,
           In (WalletSignMessage m d) tr ->
           exists publicKey address text state,
             Spec.nolus_address publicKey = Return address
             /\ m = SignDoc.encode
                      {| SignDoc.bodyBytes :=
                           TxBody.encode
                             (Spec.transfer "unls" address
                                (Spec.given_or toAddress address)
                                (Spec.given_or amountStr "1000000") text);
                         SignDoc.authInfoBytes :=
                           AuthInfo.encode
                             (Spec.signer (Spec.ed25519_key publicKey)
                                SignMode.SIGN_MODE_DIRECT (Spec.sequence state)
                                "unls" "500" 200000);
                         SignDoc.chainId := "pirin-1";
                         SignDoc.accountNumber := Spec.account_number state |})
        /\ (forall url headers body,
              In (HttpPost url headers body) tr ->
              exists publicKey address text state signature,
                Spec.nolus_address publicKey = Return address
                /\ body = Spec.broadcast_body (Date_now (Phantom.node w))
                            (TxRaw.encode
                               {| TxRaw.bodyBytes :=
                                    TxBody.encode
                                      (Spec.transfer "unls" address
                                         (Spec.given_or toAddress address)
                                         (Spec.given_or amountStr "1000000") text);
                                  TxRaw.authInfoBytes :=
                                    AuthInfo.encode
                                      (Spec.signer (Spec.ed25519_key publicKey)
                                         SignMode.SIGN_MODE_DIRECT
                                         (Spec.sequence state) "unls" "500" 200000);
                                  TxRaw.signatures := [signature] |})))
  /\ (forall w toAddress amountStr memo out tr,
        run (PhantomProvider.sendTransaction w toAddress amountStr memo) = (out, tr) ->
        (forall m d,
           In (WalletSignMessage m d) tr ->
           exists publicKey address text state,
             Spec.nolus_address publicKey = Return address
             /\ m = Utf8.TextEncoder_encode
                      (Utf8.Buffer_toString
                         (SignDoc.encode
                            {| SignDoc.bodyBytes :=
                                 TxBody.encode
                                   (Spec.transfer "unls" address
                                      (Spec.given_or toAddress address)
                                      (Spec.given_or amountStr "1000000") text);
                               SignDoc.authInfoBytes :=
                                 AuthInfo.encode
                                   (Spec.signer (Spec.ed25519_key publicKey)
                                      SignMode.SIGN_MODE_DIRECT (Spec.sequence state)
                                      "unls" "500" 200000);
                               SignDoc.chainId := "pirin-1";
                               SignDoc.accountNumber :=
                                 Spec.account_number state |})))
        /\ (forall url headers body,
              In (HttpPost url headers body) tr ->
              exists publicKey address text state signature,
                Spec.nolus_address publicKey = Return address
                /\ body = Spec.broadcast_body (Date_now (PhantomProvider.node w))
                            (TxRaw.encode
                               {| TxRaw.bodyBytes :=
                                    TxBody.encode
                                      (Spec.transfer "unls" address
                                         (Spec.given_or toAddress address)
                                         (Spec.given_or amountStr "1000000") text);
                                  TxRaw.authInfoBytes :=
                                    AuthInfo.encode
                                      (Spec.signer (Spec.ed25519_key publicKey)
                                         SignMode.SIGN_MODE_DIRECT
                                         (Spec.sequence state) "unls" "500" 200000);
                                  TxRaw.signatures := [signature] |})))
  /\ (forall w toAddress amount memo out tr,
        run (MetaMask.sendTransaction w toAddress amount memo) = (out, tr) ->
        (forall payload eth,
           In (EthereumRequest "personal_sign" [Some payload; eth]) tr ->
           payload <> MetaMask.hexlify (toUtf8Bytes Spec.key_message) ->
           exists compressed address text state,
             Spec.neutron_address compressed = Return address
             /\ payload
                = Spec.json_payload
                    (Json.Obj
                       [("account_number",
                         Json.Str (JsNumber.decimal (Spec.account_number state)));
                        ("chain_id", Json.Str "pion-1");
                        ("fee",
                         Json.Obj
                           [("amount", Json.Arr [Spec.json_coin "5000" "untrn"]);
                            ("gas", Json.Str "200000")]);
                        ("memo", Json.Str text);
                        ("msgs",
                         Json.Arr
                           [Json.Obj
                              [("type", Json.Str "cosmos-sdk/MsgSend");
                               ("value",
                                Json.Obj
                                  [("amount",
                                    Json.Arr
                                      [Spec.json_coin
                                         (Spec.given_or amount "1000000") "untrn"]);
                                   ("from_address", Json.Str address);
                                   ("to_address",
                                    Json.Str (Spec.given_or toAddress address))])]]);
                        ("sequence",
                         Json.Str (JsNumber.decimal (Spec.sequence state)))]))
        /\ (forall url headers body,
              In (HttpPost url headers body) tr ->
              exists compressed address text state signature,
                Spec.neutron_address compressed = Return address
                /\ body = Spec.broadcast_body (Date_now (MetaMask.node w))
                            (TxRaw.encode
                               {| TxRaw.bodyBytes :=
                                    TxBody.encode
                                      (Spec.transfer "untrn" address
                                         (Spec.given_or toAddress address)
                                         (Spec.given_or amount "1000000") text);
                                  TxRaw.authInfoBytes :=
                                    AuthInfo.encode
                                      (Spec.signer (Spec.secp256k1_key compressed)
                                         SignMode.SIGN_MODE_EIP_191
                                         (Spec.sequence state) "untrn" "5000" 200000);
                                  TxRaw.signatures := [signature] |})))
  /\ (forall default, Spec.given_or None default = default)
  /\ (forall publicKey mode sequence denom fee gas,
        AuthInfo.fee (Spec.signer publicKey mode sequence denom fee gas)
        = Some {| Fee.amount := [{| Coin.denom := denom; Coin.amount := fee |}];
                  Fee.gasLimit := gas |}).
Proof.
  split; [exact SolflareSends.solflare_sends_answered|].
  split; [exact PhantomSends.phantom_sends_answered|].
  split; [exact ProviderSends.provider_sends_answered|].
  split; [exact MetaMaskSends.metamask_sends_answered|].
  split; [|split; [|split; [|split; [|split]]]].
  - intros w toAddress amountStr memo out tr Hrun. split.
    + intros m d Hin.
      destruct (SolflareFacts.solflare_signs _ _ _ _ _ _ _ _ Hrun Hin)
        as (_ & publicKey & address & reply & _ & _ & Ha & _ & _ & _ & Hm).
      rewrite !or_default_given_or in Hm.
      exists publicKey, address. eexists. exists (Spec.fetched reply).
      split; [exact Ha|exact Hm].
    + intros url headers body Hin.
      destruct (SolflareFacts.solflare_broadcasts _ _ _ _ _ _ _ _ _ Hrun Hin)
        as (_ & publicKey & address & reply & signature
            & _ & Ha & _ & _ & _ & _ & _ & Hbody).
      rewrite !or_default_given_or in Hbody.
      exists publicKey, address. eexists. exists (Spec.fetched reply), signature.
      split; [exact Ha|exact Hbody].
  - intros w toAddress amountStr memo out tr Hrun. split.
    + intros m d Hin.
      destruct (PhantomFacts.phantom_signs _ _ _ _ _ _ _ _ Hrun Hin)
        as (_ & publicKey & address & reply & _ & _ & Ha & _ & _ & _ & Hm).
      rewrite !or_default_given_or in Hm.
      exists publicKey, address. eexists. exists (Spec.fetched reply).
      split; [exact Ha|exact Hm].
    + intros url headers body Hin.
      destruct (PhantomFacts.phantom_broadcasts _ _ _ _ _ _ _ _ _ Hrun Hin)
        as (_ & publicKey & address & reply & signature
            & _ & Ha & _ & _ & _ & _ & _ & Hbody).
      rewrite !or_default_given_or in Hbody.
      exists publicKey, address. eexists. exists (Spec.fetched reply), signature.
      split; [exact Ha|exact Hbody].
  - intros w toAddress amountStr memo out tr Hrun. split.
    + intros m d Hin.
      destruct (PhantomProviderFacts.provider_signs _ _ _ _ _ _ _ _ Hrun Hin)
        as (_ & publicKey & address & reply & _ & _ & Ha & _ & _ & _ & Hm).
      rewrite !or_default_given_or in Hm.
      exists publicKey, address. eexists. exists (Spec.fetched reply).
      split; [exact Ha|exact Hm].
    + intros url headers body Hin.
      destruct (PhantomProviderFacts.provider_broadcasts _ _ _ _ _ _ _ _ _ Hrun Hin)
        as (_ & publicKey & address & reply & signature
            & _ & Ha & _ & _ & _ & _ & _ & Hbody).
      rewrite !or_default_given_or in Hbody.
      exists publicKey, address. eexists. exists (Spec.fetched reply), signature.
      split; [exact Ha|exact Hbody].
  - intros w toAddress amount memo out tr Hrun. split.
    + intros payload eth Hin Hother.
      destruct (MetaMaskFacts.metamask_signs _ _ _ _ _ _ _ _ Hrun Hin)
        as [Hkey|(_ & compressed & address & reply & _ & _ & Ha & _ & _ & Hp)];
        [contradiction|].
      rewrite !or_default_given_or in Hp.
      exists compressed, address. eexists. exists (Spec.fetched reply).
      split; [exact Ha|exact Hp].
    + intros url headers body Hin.
      destruct (MetaMaskFacts.metamask_broadcasts _ _ _ _ _ _ _ _ _ Hrun Hin)
        as (_ & _ & compressed & address & reply & _ & signature
            & _ & Ha & _ & _ & _ & _ & _ & _ & Hbody).
      rewrite !or_default_given_or in Hbody.
      exists compressed, address. eexists. exists (Spec.fetched reply), signature.
      split; [exact Ha|exact Hbody].
  - reflexivity.
  - reflexivity.
Qed.

(** C9 in the sample worlds, with every argument omitted: each script
    sends 1000000 to the sender's own address, for the fixed fee. *)
Lemma send_defaults_sample :
  (exists out,
       run (Solflare.sendTransaction (Sample.solflare Sample.fresh_node) None None None)
       = (out,
          [WalletConnect; StargateConnect "https://rpc.nolus.network";
           GetAccount Sample.address;
           WalletSignMessage
             (SignDoc.encode
                {| SignDoc.bodyBytes :=
                       TxBody.encode
                         (Spec.transfer "unls" Sample.address Sample.address "1000000"
                            "solflare-ed25519-test");
                     SignDoc.authInfoBytes :=
                       AuthInfo.encode
                         (Spec.signer (Spec.ed25519_key Sample.key32)
                            SignMode.SIGN_MODE_DIRECT 0 "unls" "500" 200000);
                     SignDoc.chainId := "pirin-1";
                     SignDoc.accountNumber := 0 |})
             None;
           HttpPost "https://rpc.nolus.network" [("Content-Type", "application/json")]
             (Spec.broadcast_body 1700000000000
                (TxRaw.encode
                   {| TxRaw.bodyBytes :=
                        TxBody.encode
                          (Spec.transfer "unls" Sample.address Sample.address
                             "1000000" "solflare-ed25519-test");
                      TxRaw.authInfoBytes :=
                        AuthInfo.encode
                          (Spec.signer (Spec.ed25519_key Sample.key32)
                             SignMode.SIGN_MODE_DIRECT 0 "unls" "500" 200000);
                      TxRaw.signatures := [Sample.signature64] |}))]))
  /\ (exists out,
          run (Phantom.sendTransaction (Sample.phantom Sample.fresh_node) None None None)
          = (out,
             [WalletConnect; StargateConnect "https://rpc.nolus.network";
              GetAccount Sample.address;
              WalletSignMessage
                (SignDoc.encode
                   {| SignDoc.bodyBytes :=
                          TxBody.encode
                            (Spec.transfer "unls" Sample.address Sample.address "1000000"
                               "phantom-ed25519-test");
                        SignDoc.authInfoBytes :=
                          AuthInfo.encode
                            (Spec.signer (Spec.ed25519_key Sample.key32)
                               SignMode.SIGN_MODE_DIRECT 0 "unls" "500" 200000);
                        SignDoc.chainId := "pirin-1";
                        SignDoc.accountNumber := 0 |})
                (Some "utf8");
              HttpPost "https://rpc.nolus.network" [("Content-Type", "application/json")]
                (Spec.broadcast_body 1700000000000
                   (TxRaw.encode
                      {| TxRaw.bodyBytes :=
                           TxBody.encode
                             (Spec.transfer "unls" Sample.address Sample.address
                                "1000000" "phantom-ed25519-test");
                         TxRaw.authInfoBytes :=
                           AuthInfo.encode
                             (Spec.signer (Spec.ed25519_key Sample.key32)
                                SignMode.SIGN_MODE_DIRECT 0 "unls" "500" 200000);
                         TxRaw.signatures := [Sample.signature64] |}))]))
  /\ (exists out,
          run (PhantomProvider.sendTransaction (Sample.phantom_provider Sample.fresh_node) None None None)
          = (out,
             [WalletConnect; StargateConnect "https://rpc.nolus.network";
              GetAccount Sample.address;
              WalletSignMessage
                (Utf8.TextEncoder_encode
                 (Utf8.Buffer_toString
                    (SignDoc.encode
                       {| SignDoc.bodyBytes :=
                              TxBody.encode
                                (Spec.transfer "unls" Sample.address Sample.address "1000000"
                                   "phantom-ed25519-test");
                            SignDoc.authInfoBytes :=
                              AuthInfo.encode
                                (Spec.signer (Spec.ed25519_key Sample.key32)
                                   SignMode.SIGN_MODE_DIRECT 0 "unls" "500" 200000);
                            SignDoc.chainId := "pirin-1";
                            SignDoc.accountNumber := 0 |})))
                None;
              HttpPost "https://rpc.nolus.network" [("Content-Type", "application/json")]
                (Spec.broadcast_body 1700000000000
                   (TxRaw.encode
                      {| TxRaw.bodyBytes :=
                           TxBody.encode
                             (Spec.transfer "unls" Sample.address Sample.address
                                "1000000" "phantom-ed25519-test");
                         TxRaw.authInfoBytes :=
                           AuthInfo.encode
                             (Spec.signer (Spec.ed25519_key Sample.key32)
                                SignMode.SIGN_MODE_DIRECT 0 "unls" "500" 200000);
                         TxRaw.signatures := [Sample.signature64] |}))]))
  /\ (exists out,
          run (MetaMask.sendTransaction (Sample.metamask Sample.fresh_node)
                 None None None)
          = (out,
             Spec.key_requests (Some Sample.eth_address)
               ++ [StargateConnect "https://pion-rpc.nolus.network";
                   GetAccount Sample.neutron_address;
                   EthereumRequest "personal_sign"
                     [Some (Spec.json_payload
                              (Json.Obj
                                 [("account_number", Json.Str "0");
                                  ("chain_id", Json.Str "pion-1");
                                  ("fee",
                                   Json.Obj
                                     [("amount",
                                       Json.Arr [Spec.json_coin "5000" "untrn"]);
                                      ("gas", Json.Str "200000")]);
                                  ("memo", Json.Str "Neutron Network transaction");
                                  ("msgs",
                                   Json.Arr
                                     [Json.Obj
                                        [("type", Json.Str "cosmos-sdk/MsgSend");
                                         ("value",
                                          Json.Obj
                                            [("amount",
                                              Json.Arr
                                                [Spec.json_coin "1000000" "untrn"]);
                                             ("from_address",
                                              Json.Str Sample.neutron_address);
                                             ("to_address",
                                              Json.Str Sample.neutron_address)])]]);
                                  ("sequence", Json.Str "0")]));
                      Some Sample.eth_address];
                   HttpPost "https://pion-rpc.nolus.network"
                     [("Content-Type", "application/json");
                      ("Accept", "application/json")]
                     (Spec.broadcast_body 1700000000000
                        (TxRaw.encode
                           {| TxRaw.bodyBytes :=
                                TxBody.encode
                                  (Spec.transfer "untrn" Sample.neutron_address
                                     Sample.neutron_address "1000000"
                                     "Neutron Network transaction");
                              TxRaw.authInfoBytes :=
                                AuthInfo.encode
                                  (Spec.signer (Spec.secp256k1_key Sample.compressed)
                                     SignMode.SIGN_MODE_EIP_191 0 "untrn" "5000"
                                     200000);
                              TxRaw.signatures := [Sample.signature64] |}))])%list).
Proof.
  split; [|split; [|split]].
  - destruct (proj1 send_defaults
                (Sample.solflare Sample.fresh_node) Sample.solflare_wallet Sample.key32
                Sample.address None None None None
                (sample_solflare_key Sample.fresh_node) sample_nolus_address
                eq_refl eq_refl)
      as (out & m & rest & -> & Hrun & Hrest).
    exists out. rewrite Hrun, (Hrest Sample.signature64 eq_refl). reflexivity.
  - destruct (proj1 (proj2 send_defaults)
                (Sample.phantom Sample.fresh_node) Sample.phantom_wallet Sample.key32
                Sample.address None None None None
                (sample_phantom_key Sample.fresh_node) sample_nolus_address
                eq_refl eq_refl)
      as (out & m & rest & -> & Hrun & Hrest).
    exists out. rewrite Hrun, (Hrest Sample.signature64 eq_refl). reflexivity.
  - destruct (proj1 (proj2 (proj2 send_defaults))
                (Sample.phantom_provider Sample.fresh_node) Sample.provider Sample.key32
                Sample.address None None None None
                (sample_provider_key Sample.fresh_node) sample_nolus_address
                eq_refl eq_refl)
      as (out & m & rest & -> & Hrun & Hrest).
    exists out. rewrite Hrun, (Hrest Sample.signature64 eq_refl). reflexivity.
  - destruct (proj1 (proj2 (proj2 (proj2 send_defaults)))
                (Sample.metamask Sample.fresh_node) Sample.ethereum
                (Some Sample.eth_address) Sample.compressed Sample.neutron_address
                None None None None (sample_metamask_key Sample.fresh_node)
                sample_neutron_address eq_refl eq_refl)
      as (out & payload & rest & -> & Hrun & Hrest).
    exists out. rewrite Hrun.
    rewrite (Hrest Sample.signature65_hex Sample.signature64
               eq_refl sample_signature_stripped).
    reflexivity.
Defined.

(* ================================================================== *)
(** * More of the scripts *)

(** ** Computations only add to the trace *)

Lemma appends_ret {A} (a : A) : appends (ret a).
Proof. intros trace. unfold run, ret. cbn. rewrite app_nil_r. reflexivity. Qed.

Lemma appends_throw {A} (e : thrown) : appends (@throw A e).
Proof. intros trace. unfold run, throw. cbn. rewrite app_nil_r. reflexivity. Qed.

Lemma appends_call {A} (c : completion A) : appends (call c).
Proof. intros trace. unfold run, call. cbn. rewrite app_nil_r. reflexivity. Qed.

Lemma appends_await {A} (r : Request) (answer : completion A) :
  appends (await r answer).
Proof. intros trace. reflexivity. Qed.

Lemma appends_bind {A B} (m : Async A) (k : A -> Async B) :
  appends m -> (forall a, appends (k a)) -> appends (bind m k).
Proof.
  unfold appends, run, bind. intros Hm Hk trace. rewrite (Hm trace).
  destruct (m []) as [[a|e] t]; cbn [fst snd]; [|reflexivity].
  rewrite (Hk a (trace ++ t)%list), (Hk a t). cbn [fst snd].
  rewrite app_assoc. reflexivity.
Qed.

Lemma appends_try_catch {A} (body : Async A) (handler : thrown -> Async A) :
  appends body -> (forall e, appends (handler e)) -> appends (try_catch body handler).
Proof.
  unfold appends, run, try_catch. intros Hm Hk trace. rewrite (Hm trace).
  destruct (body []) as [[a|e] t]; cbn [fst snd]; [reflexivity|].
  rewrite (Hk e (trace ++ t)%list), (Hk e t). cbn [fst snd].
  rewrite app_assoc. reflexivity.
Qed.

Lemma appends_detached {A} (m : Async A) : appends m -> appends (detached m).
Proof.
  unfold appends, run, detached. intros Hm trace. rewrite (Hm trace). reflexivity.
Qed.

(** The run of two computations in sequence, from the run of each. *)
Lemma run_bind {A B} (m : Async A) (k : A -> Async B) :
  (forall a, appends (k a)) ->
  run (bind m k)
  = match run m with
    | (Return a, trace) => (fst (run (k a)), (trace ++ snd (run (k a)))%list)
    | (Throw e, trace) => (Throw e, trace)
    end.
Proof.
  unfold appends, run, bind. intros Hk.
  destruct (m []) as [[a|e] t]; [apply Hk|reflexivity].
Qed.

Lemma run_rethrow {A} (body : Async A) :
  run (try_catch body (fun error => throw error)) = run body.
Proof.
  unfold run, try_catch, throw. destruct (body []) as [[a|e] t]; reflexivity.
Qed.

Create HintDb appends discriminated.

Ltac appends :=
  repeat first
    [ solve [auto 2 with appends nocore]
    | apply appends_ret | apply appends_throw | apply appends_call
    | apply appends_await
    | apply appends_detached
    | apply appends_bind; [|intros ?]
    | apply appends_try_catch; [|intros ?]
    | match goal with
      | |- appends (match ?x with _ => _ end) => destruct x
      | |- appends (if ?x then _ else _) => destruct x
      | |- appends (let _ := _ in _) => cbv zeta
      end
    | progress cbv beta zeta ].

Lemma appends_nolus_fetchAccountInfo node address :
  appends (Nolus.fetchAccountInfo node address).
Proof. unfold Nolus.fetchAccountInfo. appends. Qed.
#[global] Hint Resolve appends_nolus_fetchAccountInfo : appends.

Lemma appends_nolus_broadcastTransaction node txBytes :
  appends (Nolus.broadcastTransaction node txBytes).
Proof. unfold Nolus.broadcastTransaction. appends. Qed.
#[global] Hint Resolve appends_nolus_broadcastTransaction : appends.

Lemma appends_report result : appends (Nolus.report result).
Proof. unfold Nolus.report. appends. Qed.
#[global] Hint Resolve appends_report : appends.

Lemma appends_solflare_getAddress w : appends (Solflare.getAddress w).
Proof. unfold Solflare.getAddress. appends. Qed.
#[global] Hint Resolve appends_solflare_getAddress : appends.

Lemma appends_solflare_sendTransaction w toAddress amountStr memo :
  appends (Solflare.sendTransaction w toAddress amountStr memo).
Proof.
  unfold Solflare.sendTransaction. appends;
    auto using appends_solflare_getAddress, appends_nolus_fetchAccountInfo,
      appends_nolus_broadcastTransaction, appends_report.
Qed.
#[global] Hint Resolve appends_solflare_sendTransaction : appends.

Lemma appends_phantom_getAddress w : appends (Phantom.getAddress w).
Proof. unfold Phantom.getAddress. appends. Qed.
#[global] Hint Resolve appends_phantom_getAddress : appends.

Lemma appends_phantom_sendTransaction w toAddress amountStr memo :
  appends (Phantom.sendTransaction w toAddress amountStr memo).
Proof.
  unfold Phantom.sendTransaction. appends;
    auto using appends_phantom_getAddress, appends_nolus_fetchAccountInfo,
      appends_nolus_broadcastTransaction, appends_report.
Qed.
#[global] Hint Resolve appends_phantom_sendTransaction : appends.

Lemma appends_provider_getAddress w : appends (PhantomProvider.getAddress w).
Proof. unfold PhantomProvider.getAddress. appends. Qed.
#[global] Hint Resolve appends_provider_getAddress : appends.

Lemma appends_provider_sendTransaction w toAddress amountStr memo :
  appends (PhantomProvider.sendTransaction w toAddress amountStr memo).
Proof.
  unfold PhantomProvider.sendTransaction. appends;
    auto using appends_provider_getAddress, appends_nolus_fetchAccountInfo,
      appends_nolus_broadcastTransaction, appends_report.
Qed.
#[global] Hint Resolve appends_provider_sendTransaction : appends.

Lemma appends_request {A} w method params (answer : MetaMask.Ethereum -> completion A) :
  appends (MetaMask.request w method params answer).
Proof. unfold MetaMask.request. appends. Qed.
#[global] Hint Resolve appends_request : appends.

Lemma appends_metamask_getAddress w : appends (MetaMask.getAddress w).
Proof. unfold MetaMask.getAddress. appends; apply appends_request. Qed.
#[global] Hint Resolve appends_metamask_getAddress : appends.

Lemma appends_metamask_fetchAccountInfo w address :
  appends (MetaMask.fetchAccountInfo w address).
Proof. unfold MetaMask.fetchAccountInfo. appends. Qed.
#[global] Hint Resolve appends_metamask_fetchAccountInfo : appends.

Lemma appends_metamask_broadcastTransaction w txBytes :
  appends (MetaMask.broadcastTransaction w txBytes).
Proof. unfold MetaMask.broadcastTransaction. appends. Qed.
#[global] Hint Resolve appends_metamask_broadcastTransaction : appends.

Lemma appends_metamask_sendTransaction w toAddress amount memo :
  appends (MetaMask.sendTransaction w toAddress amount memo).
Proof.
  unfold MetaMask.sendTransaction. appends;
    auto using appends_metamask_getAddress, appends_metamask_fetchAccountInfo,
      appends_metamask_broadcastTransaction, appends_request.
Qed.
#[global] Hint Resolve appends_metamask_sendTransaction : appends.

Lemma appends_checkTestnet w : appends (MetaMask.checkTestnet w).
Proof. unfold MetaMask.checkTestnet. appends. Qed.
#[global] Hint Resolve appends_checkTestnet : appends.

Lemma appends_getAccountInfo w : appends (MetaMask.getAccountInfo w).
Proof.
  unfold MetaMask.getAccountInfo. appends;
    auto using appends_metamask_getAddress, appends_metamask_fetchAccountInfo,
      appends_request.
Qed.
#[global] Hint Resolve appends_getAccountInfo : appends.
(** ** When the wallet is missing *)

Ltac goes_nowhere :=
  autounfold with script; cbn beta iota zeta;
  repeat match goal with
         | E : ?x = _ |- context [match ?x with _ => _ end] => rewrite E
         | E : ?x = _ |- context [match negb ?x with _ => _ end] => rewrite E
         end;
  cbn beta iota zeta; cbn [negb].

(** Without the wallet that its own check looks for, [sendTransaction]
    sends no request at all.  The Solflare script and the second
    Phantom script return the failure object with their message, the
    first Phantom script one that begins with its connection message,
    and the MetaMask script throws.  With the wallet, the first request
    is the connection. *)
Theorem missing_wallet_sends_nothing :
  (forall w toAddress amountStr memo,
     Solflare.checkSolflareWallet w = false ->
     run (Solflare.sendTransaction w toAddress amountStr memo)
     = (Return
          (Nolus.Failed
             "Error: Solflare wallet not found! Install from https://solflare.com/"),
        []))
  /\ (forall w toAddress amountStr memo,
        PhantomProvider.checkPhantomWallet w = false ->
        run (PhantomProvider.sendTransaction w toAddress amountStr memo)
        = (Return
             (Nolus.Failed
                "Error: Phantom wallet not found! Install from https://phantom.app/"),
           []))
  /\ (forall w toAddress amountStr memo,
        Phantom.phantom w = None ->
        exists reason,
          run (Phantom.sendTransaction w toAddress amountStr memo)
          = (Return (Nolus.Failed ("Error: Failed to connect to Phantom: " ++ reason)),
             []))
  /\ (forall w toAddress amount memo,
        MetaMask.ethereum w = None ->
        exists e,
          run (MetaMask.sendTransaction w toAddress amount memo) = (Throw e, []))
  /\ (forall w toAddress amountStr memo,
        Solflare.checkSolflareWallet w = true ->
        exists rest,
          snd (run (Solflare.sendTransaction w toAddress amountStr memo))
          = WalletConnect :: rest)
  /\ (forall w toAddress amountStr memo,
        PhantomProvider.checkPhantomWallet w = true ->
        exists rest,
          snd (run (PhantomProvider.sendTransaction w toAddress amountStr memo))
          = WalletConnect :: rest).
Proof.
  split; [|split; [|split; [|split; [|split]]]].
  - intros w toAddress amountStr memo Hcheck.
    unfold Solflare.checkSolflareWallet in Hcheck.
    destruct (Solflare.solflare w) as [wallet|] eqn:Hw; goes_nowhere;
      vm_compute; reflexivity.
  - intros w toAddress amountStr memo Hcheck.
    unfold PhantomProvider.checkPhantomWallet in Hcheck.
    destruct (PhantomProvider.getPhantom w) as [provider|] eqn:Hw; goes_nowhere;
      vm_compute; reflexivity.
  - intros w toAddress amountStr memo Hw. eexists. goes_nowhere.
    vm_compute. reflexivity.
  - intros w toAddress amount memo Hw. eexists. goes_nowhere. reflexivity.
  - intros w toAddress amountStr memo Hcheck.
    unfold Solflare.checkSolflareWallet in Hcheck.
    destruct (Solflare.solflare w) as [wallet|] eqn:Hw; [|discriminate Hcheck].
    destruct (run (Solflare.sendTransaction w toAddress amountStr memo))
      as [out tr] eqn:H.
    autounfold with script in H. known_in H. execute H; cbn [snd app]; eauto.
  - intros w toAddress amountStr memo Hcheck.
    unfold PhantomProvider.checkPhantomWallet in Hcheck.
    destruct (PhantomProvider.getPhantom w) as [provider|] eqn:Hw;
      [|discriminate Hcheck].
    destruct (run (PhantomProvider.sendTransaction w toAddress amountStr memo))
      as [out tr] eqn:H.
    autounfold with script in H. known_in H. execute H; cbn [snd app]; eauto.
Qed.
(** ** When a step fails *)

Lemma String_Error (reason : string) :
  String_ (Error ("Failed to connect to Solflare: " ++ reason))
  = "Error: Failed to connect to Solflare: " ++ reason
  /\ String_ (Error ("Failed to connect to Phantom: " ++ reason))
     = "Error: Failed to connect to Phantom: " ++ reason
  /\ String_ (Error ("Broadcast failed: " ++ reason))
     = "Error: Broadcast failed: " ++ reason.
Proof.
  with_strategy transparent [String_ String.append] (repeat split; reflexivity).
Qed.

Ltac run_known w H :=
  match goal with
  | |- context [run ?m] =>
      destruct (run m) as [?out ?tr] eqn:H;
      autounfold with script in H; known_in H; execute H
  end.

(** A connection that the wallet rejects, or that yields no public key,
    ends the run after that one request: the result is the failure
    object, whose error is the script's connection message followed by
    the text of what was thrown.  In the MetaMask script a rejected
    account request, or a rejected signature of the key message, is
    rethrown as it is, and the node is not contacted. *)
Theorem rejected_connection_reported :
  (forall w wallet toAddress amountStr memo e,
     Solflare.solflare w = Some wallet ->
     Solflare.isSolflare wallet = true ->
     Solflare.connect wallet = Throw e ->
     run (Solflare.sendTransaction w toAddress amountStr memo)
     = (Return (Nolus.Failed ("Error: Failed to connect to Solflare: " ++ String_ e)),
        [WalletConnect]))
  /\ (forall w wallet toAddress amountStr memo connected,
        Solflare.solflare w = Some wallet ->
        Solflare.isSolflare wallet = true ->
        Solflare.connect wallet = Return connected ->
        connected = false \/ Solflare.publicKey wallet = None ->
        run (Solflare.sendTransaction w toAddress amountStr memo)
        = (Return
             (Nolus.Failed
                "Error: Failed to connect to Solflare: Error: Connection failed—user rejected or no publicKey available."),
           [WalletConnect]))
  /\ (forall w wallet toAddress amountStr memo e,
        Phantom.phantom w = Some wallet ->
        Phantom.connect wallet = Throw e ->
        run (Phantom.sendTransaction w toAddress amountStr memo)
        = (Return (Nolus.Failed ("Error: Failed to connect to Phantom: " ++ String_ e)),
           [WalletConnect]))
  /\ (forall w wallet toAddress amountStr memo,
        Phantom.phantom w = Some wallet ->
        Phantom.connect wallet = Return None ->
        run (Phantom.sendTransaction w toAddress amountStr memo)
        = (Return
             (Nolus.Failed
                "Error: Failed to connect to Phantom: Error: Connection failed—user rejected or no publicKey available."),
           [WalletConnect]))
  /\ (forall w provider toAddress amountStr memo e,
        PhantomProvider.getPhantom w = Some provider ->
        PhantomProvider.isPhantom provider = true ->
        PhantomProvider.connect provider = Throw e ->
        run (PhantomProvider.sendTransaction w toAddress amountStr memo)
        = (Return (Nolus.Failed ("Error: Failed to connect to Phantom: " ++ String_ e)),
           [WalletConnect]))
  /\ (forall w provider toAddress amountStr memo,
        PhantomProvider.getPhantom w = Some provider ->
        PhantomProvider.isPhantom provider = true ->
        PhantomProvider.connect provider = Return None ->
        run (PhantomProvider.sendTransaction w toAddress amountStr memo)
        = (Return
             (Nolus.Failed
                "Error: Failed to connect to Phantom: Error: Connection failed—user rejected or no publicKey available."),
           [WalletConnect]))
  /\ (forall w provider toAddress amount memo e,
        MetaMask.ethereum w = Some provider ->
        MetaMask.eth_requestAccounts provider = Throw e ->
        run (MetaMask.sendTransaction w toAddress amount memo)
        = (Throw e, [EthereumRequest "eth_requestAccounts" []]))
  /\ (forall w provider toAddress amount memo accounts e,
        MetaMask.ethereum w = Some provider ->
        MetaMask.eth_requestAccounts provider = Return tt ->
        MetaMask.eth_accounts provider = Return accounts ->
        MetaMask.personal_sign provider
          (MetaMask.hexlify (toUtf8Bytes Spec.key_message)) (nth_error accounts 0)
        = Throw e ->
        run (MetaMask.sendTransaction w toAddress amount memo)
        = (Throw e, Spec.key_requests (nth_error accounts 0))).
Proof.
  split; [|split; [|split; [|split; [|split; [|split; [|split]]]]]].
  - intros w wallet toAddress amountStr memo e Hw Hflag Hconnect.
    goes_nowhere. rewrite (proj1 (String_Error _)). reflexivity.
  - intros w wallet toAddress amountStr memo connected Hw Hflag Hconnect Hno.
    goes_nowhere.
    destruct Hno as [->|Hkey]; [|rewrite Hkey; destruct connected];
      vm_compute; reflexivity.
  - intros w wallet toAddress amountStr memo e Hw Hconnect.
    goes_nowhere. rewrite (proj1 (proj2 (String_Error _))). reflexivity.
  - intros w wallet toAddress amountStr memo Hw Hconnect.
    goes_nowhere. vm_compute. reflexivity.
  - intros w provider toAddress amountStr memo e Hw Hflag Hconnect.
    goes_nowhere. rewrite (proj1 (proj2 (String_Error _))). reflexivity.
  - intros w provider toAddress amountStr memo Hw Hflag Hconnect.
    goes_nowhere. vm_compute. reflexivity.
  - intros w provider toAddress amount memo e Hw Hrequest.
    goes_nowhere. reflexivity.
  - intros w provider toAddress amount memo accounts e Hw Hrequest Haccounts Hsign.
    unfold Spec.key_message in Hsign. goes_nowhere. reflexivity.
Qed.

(** The answer that the run got from the world, against the one that is
    assumed of it. *)
Ltac same_answer f Hknown :=
  try match goal with
      | E : ?l = _ |- _ =>
          lazymatch l with context [f] => idtac end;
          tryif constr_eq E Hknown then fail
          else (let Hs := fresh "Hsame" in
                pose proof (eq_trans (eq_sym E) Hknown) as Hs;
                first [discriminate Hs | idtac])
      end.

(** The account lookup fails, at the connection to the node or at the
    query: the run ends there with what was thrown (as the error of the
    failure object in the ed25519 scripts, rethrown in the MetaMask
    script), and the wallet is asked for no signature. *)
Theorem failed_lookup_stops_send :
  (forall w toAddress amountStr memo out tr e,
     run (Solflare.sendTransaction w toAddress amountStr memo) = (out, tr) ->
     In (StargateConnect Nolus.CONFIG.rpc) tr ->
     StargateClient_connect (Solflare.node w) Nolus.CONFIG.rpc = Throw e ->
     out = Return (Nolus.Failed (String_ e))
     /\ tr = [WalletConnect; StargateConnect Nolus.CONFIG.rpc])
  /\ (forall w toAddress amountStr memo out tr address e,
        run (Solflare.sendTransaction w toAddress amountStr memo) = (out, tr) ->
        In (GetAccount address) tr ->
        getAccount (Solflare.node w) address = Throw e ->
        out = Return (Nolus.Failed (String_ e))
        /\ tr = [WalletConnect; StargateConnect Nolus.CONFIG.rpc; GetAccount address])
  /\ (forall w toAddress amountStr memo out tr e,
        run (Phantom.sendTransaction w toAddress amountStr memo) = (out, tr) ->
        In (StargateConnect Nolus.CONFIG.rpc) tr ->
        StargateClient_connect (Phantom.node w) Nolus.CONFIG.rpc = Throw e ->
        out = Return (Nolus.Failed (String_ e))
        /\ tr = [WalletConnect; StargateConnect Nolus.CONFIG.rpc])
  /\ (forall w toAddress amountStr memo out tr address e,
        run (Phantom.sendTransaction w toAddress amountStr memo) = (out, tr) ->
        In (GetAccount address) tr ->
        getAccount (Phantom.node w) address = Throw e ->
        out = Return (Nolus.Failed (String_ e))
        /\ tr = [WalletConnect; StargateConnect Nolus.CONFIG.rpc; GetAccount address])
  /\ (forall w toAddress amountStr memo out tr e,
        run (PhantomProvider.sendTransaction w toAddress amountStr memo) = (out, tr) ->
        In (StargateConnect Nolus.CONFIG.rpc) tr ->
        StargateClient_connect (PhantomProvider.node w) Nolus.CONFIG.rpc = Throw e ->
        out = Return (Nolus.Failed (String_ e))
        /\ tr = [WalletConnect; StargateConnect Nolus.CONFIG.rpc])
  /\ (forall w toAddress amountStr memo out tr address e,
        run (PhantomProvider.sendTransaction w toAddress amountStr memo) = (out, tr) ->
        In (GetAccount address) tr ->
        getAccount (PhantomProvider.node w) address = Throw e ->
        out = Return (Nolus.Failed (String_ e))
        /\ tr = [WalletConnect; StargateConnect Nolus.CONFIG.rpc; GetAccount address])
  /\ (forall w toAddress amount memo out tr e,
        run (MetaMask.sendTransaction w toAddress amount memo) = (out, tr) ->
        In (StargateConnect MetaMask.CONFIG.rpc) tr ->
        StargateClient_connect (MetaMask.node w) MetaMask.CONFIG.rpc = Throw e ->
        out = Throw e
        /\ exists eth,
             tr = (Spec.key_requests eth ++ [StargateConnect MetaMask.CONFIG.rpc])%list)
  /\ (forall w toAddress amount memo out tr address e,
        run (MetaMask.sendTransaction w toAddress amount memo) = (out, tr) ->
        In (GetAccount address) tr ->
        getAccount (MetaMask.node w) address = Throw e ->
        out = Throw e
        /\ exists eth,
             tr = (Spec.key_requests eth
                     ++ [StargateConnect MetaMask.CONFIG.rpc; GetAccount address])%list).
Proof.
  split; [|split; [|split; [|split; [|split; [|split; [|split]]]]]].
  - intros w toAddress amountStr memo out tr e H Hin Hfail.
    autounfold with script in H. known_in H. execute H; in_trace Hin.
    all: try discriminate.
    all: auto.
  - intros w toAddress amountStr memo out tr address e H Hin Hfail.
    execute H; in_trace Hin.
    all: same_answer getAccount Hfail.
    all: injection Hsame as <-; auto.
  - intros w toAddress amountStr memo out tr e H Hin Hfail.
    autounfold with script in H. known_in H. execute H; in_trace Hin.
    all: try discriminate.
    all: auto.
  - intros w toAddress amountStr memo out tr address e H Hin Hfail.
    execute H; in_trace Hin.
    all: same_answer getAccount Hfail.
    all: injection Hsame as <-; auto.
  - intros w toAddress amountStr memo out tr e H Hin Hfail.
    autounfold with script in H. known_in H. execute H; in_trace Hin.
    all: try discriminate.
    all: auto.
  - intros w toAddress amountStr memo out tr address e H Hin Hfail.
    execute H; in_trace Hin.
    all: same_answer getAccount Hfail.
    all: injection Hsame as <-; auto.
  - intros w toAddress amount memo out tr e H Hin Hfail.
    autounfold with script in H. known_in H. execute H; in_trace Hin.
    all: try discriminate.
    all: split; [reflexivity|eexists; reflexivity].
  - intros w toAddress amount memo out tr address e H Hin Hfail.
    execute H; in_trace Hin.
    all: same_answer getAccount Hfail.
    all: injection Hsame as <-; split; [reflexivity|eexists; reflexivity].
Qed.

(** The wallet declines to sign: nothing is broadcast.  The run ends
    with the signature request, and what the wallet threw is the error
    of the failure object (ed25519 scripts) or is rethrown (MetaMask
    script); the same holds in the MetaMask script when the signature
    that comes back is no hexadecimal text. *)
Theorem unsigned_is_not_broadcast :
  (forall w wallet toAddress amountStr memo out tr m d e,
     run (Solflare.sendTransaction w toAddress amountStr memo) = (out, tr) ->
     Solflare.solflare w = Some wallet ->
     In (WalletSignMessage m d) tr ->
     Solflare.signMessage wallet m = Throw e ->
     out = Return (Nolus.Failed (String_ e))
     /\ exists address,
          tr = [WalletConnect; StargateConnect Nolus.CONFIG.rpc; GetAccount address;
                WalletSignMessage m d])
  /\ (forall w wallet toAddress amountStr memo out tr m d e,
        run (Phantom.sendTransaction w toAddress amountStr memo) = (out, tr) ->
        Phantom.phantom w = Some wallet ->
        In (WalletSignMessage m d) tr ->
        Phantom.signMessage wallet m d = Throw e ->
        out = Return (Nolus.Failed (String_ e))
        /\ exists address,
             tr = [WalletConnect; StargateConnect Nolus.CONFIG.rpc; GetAccount address;
                   WalletSignMessage m d])
  /\ (forall w wallet toAddress amountStr memo out tr m d e,
        run (PhantomProvider.sendTransaction w toAddress amountStr memo) = (out, tr) ->
        PhantomProvider.getPhantom w = Some wallet ->
        In (WalletSignMessage m d) tr ->
        PhantomProvider.signMessage wallet m = Throw e ->
        out = Return (Nolus.Failed (String_ e))
        /\ exists address,
             tr = [WalletConnect; StargateConnect Nolus.CONFIG.rpc; GetAccount address;
                   WalletSignMessage m d])
  /\ (forall w provider toAddress amount memo out tr payload eth e,
        run (MetaMask.sendTransaction w toAddress amount memo) = (out, tr) ->
        MetaMask.ethereum w = Some provider ->
        In (EthereumRequest "personal_sign" [Some payload; eth]) tr ->
        payload <> MetaMask.hexlify (toUtf8Bytes Spec.key_message) ->
        MetaMask.personal_sign provider payload eth = Throw e ->
        out = Throw e
        /\ exists address,
             tr = (Spec.key_requests eth
                     ++ [StargateConnect MetaMask.CONFIG.rpc; GetAccount address;
                         EthereumRequest "personal_sign" [Some payload; eth]])%list)
  /\ (forall w provider toAddress amount memo out tr payload eth sigResult e,
        run (MetaMask.sendTransaction w toAddress amount memo) = (out, tr) ->
        MetaMask.ethereum w = Some provider ->
        In (EthereumRequest "personal_sign" [Some payload; eth]) tr ->
        payload <> MetaMask.hexlify (toUtf8Bytes Spec.key_message) ->
        MetaMask.personal_sign provider payload eth = Return sigResult ->
        Hex.fromHex (string_slice_neg 2 2 sigResult) = Throw e ->
        out = Throw e /\ filter Spec.is_post tr = []).
Proof.
  split; [|split; [|split; [|split]]].
  - intros w wallet toAddress amountStr memo out tr m d e H Hw Hin Hfail.
    autounfold with script in H. known_in H. execute H; in_trace Hin.
    all: same_answer Solflare.signMessage Hfail.
    all: injection Hsame as <-; split; [reflexivity|eexists; reflexivity].
  - intros w wallet toAddress amountStr memo out tr m d e H Hw Hin Hfail.
    autounfold with script in H. known_in H. execute H; in_trace Hin.
    all: same_answer Phantom.signMessage Hfail.
    all: injection Hsame as <-; split; [reflexivity|eexists; reflexivity].
  - intros w wallet toAddress amountStr memo out tr m d e H Hw Hin Hfail.
    autounfold with script in H. known_in H. execute H; in_trace Hin.
    all: same_answer PhantomProvider.signMessage Hfail.
    all: injection Hsame as <-; split; [reflexivity|eexists; reflexivity].
  - intros w provider toAddress amount memo out tr payload eth e H Hw Hin Hother Hfail.
    unfold Spec.key_message in Hother.
    autounfold with script in H. known_in H. execute H; in_trace Hin.
    all: try contradiction.
    all: same_answer MetaMask.personal_sign Hfail.
    all: injection Hsame as <-; split; [reflexivity|eexists; reflexivity].
  - intros w provider toAddress amount memo out tr payload eth sigResult e
      H Hw Hin Hother Hsig Hfail.
    unfold Spec.key_message in Hother.
    autounfold with script in H. known_in H. execute H; in_trace Hin.
    all: try contradiction.
    all: same_answer MetaMask.personal_sign Hsig.
    all: injection Hsame as <-.
    all: same_answer Hex.fromHex Hfail.
    all: injection Hsame as <-; split; reflexivity.
Qed.

(** The node answers the broadcast with a JSON-RPC error, or the POST
    itself fails: whatever [result] the answer holds, the run does not
    succeed.  The ed25519 scripts return the failure object, whose error
    is the broadcast message followed by the error's message (the text
    undefined when it has none), the MetaMask script throws an error
    with its own message; a POST that fails surfaces with what it
    threw. *)
Theorem rpc_error_reported :
  (forall w toAddress amountStr memo out tr url headers body response problem,
     run (Solflare.sendTransaction w toAddress amountStr memo) = (out, tr) ->
     In (HttpPost url headers body) tr ->
     fetch (Solflare.node w) url headers body = Return response ->
     error response = Some problem ->
     out = Return (Nolus.Failed
                     ("Error: Broadcast failed: " ++ template (message problem))))
  /\ (forall w toAddress amountStr memo out tr url headers body e,
        run (Solflare.sendTransaction w toAddress amountStr memo) = (out, tr) ->
        In (HttpPost url headers body) tr ->
        fetch (Solflare.node w) url headers body = Throw e ->
        out = Return (Nolus.Failed (String_ e)))
  /\ (forall w toAddress amountStr memo out tr url headers body response problem,
        run (Phantom.sendTransaction w toAddress amountStr memo) = (out, tr) ->
        In (HttpPost url headers body) tr ->
        fetch (Phantom.node w) url headers body = Return response ->
        error response = Some problem ->
        out = Return (Nolus.Failed
                        ("Error: Broadcast failed: " ++ template (message problem))))
  /\ (forall w toAddress amountStr memo out tr url headers body e,
        run (Phantom.sendTransaction w toAddress amountStr memo) = (out, tr) ->
        In (HttpPost url headers body) tr ->
        fetch (Phantom.node w) url headers body = Throw e ->
        out = Return (Nolus.Failed (String_ e)))
  /\ (forall w toAddress amountStr memo out tr url headers body response problem,
        run (PhantomProvider.sendTransaction w toAddress amountStr memo) = (out, tr) ->
        In (HttpPost url headers body) tr ->
        fetch (PhantomProvider.node w) url headers body = Return response ->
        error response = Some problem ->
        out = Return (Nolus.Failed
                        ("Error: Broadcast failed: " ++ template (message problem))))
  /\ (forall w toAddress amountStr memo out tr url headers body e,
        run (PhantomProvider.sendTransaction w toAddress amountStr memo) = (out, tr) ->
        In (HttpPost url headers body) tr ->
        fetch (PhantomProvider.node w) url headers body = Throw e ->
        out = Return (Nolus.Failed (String_ e)))
  /\ (forall w toAddress amount memo out tr url headers body response problem,
        run (MetaMask.sendTransaction w toAddress amount memo) = (out, tr) ->
        In (HttpPost url headers body) tr ->
        fetch (MetaMask.node w) url headers body = Return response ->
        error response = Some problem ->
        out = Throw (Error ("Neutron RPC Error: " ++ template (message problem))))
  /\ (forall w toAddress amount memo out tr url headers body e,
        run (MetaMask.sendTransaction w toAddress amount memo) = (out, tr) ->
        In (HttpPost url headers body) tr ->
        fetch (MetaMask.node w) url headers body = Throw e ->
        out = Throw e).
Proof.
  split; [|split; [|split; [|split; [|split; [|split; [|split]]]]]].
  - intros w toAddress amountStr memo out tr url headers body response problem
      H Hin Hfetch Hproblem.
    execute H; in_trace Hin.
    all: same_answer fetch Hfetch.
    all: apply Return_inj in Hsame; subst response.
    all: try congruence.
    all: match goal with
         | E : error _ = Some _ |- _ =>
             pose proof (eq_trans (eq_sym E) Hproblem) as Hp; injection Hp as <-
         end.
    all: rewrite (proj2 (proj2 (String_Error _))); reflexivity.
  - intros w toAddress amountStr memo out tr url headers body e H Hin Hfetch.
    execute H; in_trace Hin.
    all: same_answer fetch Hfetch.
    all: injection Hsame as <-; reflexivity.
  - intros w toAddress amountStr memo out tr url headers body response problem
      H Hin Hfetch Hproblem.
    execute H; in_trace Hin.
    all: same_answer fetch Hfetch.
    all: apply Return_inj in Hsame; subst response.
    all: try congruence.
    all: match goal with
         | E : error _ = Some _ |- _ =>
             pose proof (eq_trans (eq_sym E) Hproblem) as Hp; injection Hp as <-
         end.
    all: rewrite (proj2 (proj2 (String_Error _))); reflexivity.
  - intros w toAddress amountStr memo out tr url headers body e H Hin Hfetch.
    execute H; in_trace Hin.
    all: same_answer fetch Hfetch.
    all: injection Hsame as <-; reflexivity.
  - intros w toAddress amountStr memo out tr url headers body response problem
      H Hin Hfetch Hproblem.
    execute H; in_trace Hin.
    all: same_answer fetch Hfetch.
    all: apply Return_inj in Hsame; subst response.
    all: try congruence.
    all: match goal with
         | E : error _ = Some _ |- _ =>
             pose proof (eq_trans (eq_sym E) Hproblem) as Hp; injection Hp as <-
         end.
    all: rewrite (proj2 (proj2 (String_Error _))); reflexivity.
  - intros w toAddress amountStr memo out tr url headers body e H Hin Hfetch.
    execute H; in_trace Hin.
    all: same_answer fetch Hfetch.
    all: injection Hsame as <-; reflexivity.
  - intros w toAddress amount memo out tr url headers body response problem
      H Hin Hfetch Hproblem.
    execute H; in_trace Hin.
    all: same_answer fetch Hfetch.
    all: apply Return_inj in Hsame; subst response.
    all: try congruence.
    all: match goal with
         | E : error _ = Some _ |- _ =>
             pose proof (eq_trans (eq_sym E) Hproblem) as Hp; injection Hp as <-
         end.
    all: reflexivity.
  - intros w toAddress amount memo out tr url headers body e H Hin Hfetch.
    execute H; in_trace Hin.
    all: same_answer fetch Hfetch.
    all: injection Hsame as <-; reflexivity.
Qed.

(** ** The order of the requests *)

(** Every run of [sendTransaction] sends its requests in one order, each
    at most once: the trace is a beginning of the sequence connection,
    node connection, account query, signature request, POST (in the
    MetaMask script the three requests that lead to the key come in
    place of the connection).  The node is contacted only when the
    wallet has given its key; from there on the run sends the next
    request when the last one was answered, and ends where a request
    throws (in the MetaMask script, also where the signature is not
    hex). *)
Theorem requests_in_order :
  (forall w toAddress amountStr memo,
     exists address m body rest,
       [WalletConnect; StargateConnect Nolus.CONFIG.rpc; GetAccount address;
        WalletSignMessage m None;
        HttpPost Nolus.CONFIG.rpc [("Content-Type", "application/json")] body]
       = (snd (run (Solflare.sendTransaction w toAddress amountStr memo)) ++ rest)%list)
  /\ (forall w toAddress amountStr memo,
        exists address m body rest,
          [WalletConnect; StargateConnect Nolus.CONFIG.rpc; GetAccount address;
           WalletSignMessage m (Some "utf8");
           HttpPost Nolus.CONFIG.rpc [("Content-Type", "application/json")] body]
          = (snd (run (Phantom.sendTransaction w toAddress amountStr memo))
               ++ rest)%list)
  /\ (forall w toAddress amountStr memo,
        exists address m body rest,
          [WalletConnect; StargateConnect Nolus.CONFIG.rpc; GetAccount address;
           WalletSignMessage m None;
           HttpPost Nolus.CONFIG.rpc [("Content-Type", "application/json")] body]
          = (snd (run (PhantomProvider.sendTransaction w toAddress amountStr memo))
               ++ rest)%list)
  /\ (forall w toAddress amount memo,
        exists eth address payload body rest,
          [EthereumRequest "eth_requestAccounts" [];
           EthereumRequest "eth_accounts" [];
           EthereumRequest "personal_sign"
             [Some (MetaMask.hexlify (toUtf8Bytes Spec.key_message)); eth];
           StargateConnect MetaMask.CONFIG.rpc; GetAccount address;
           EthereumRequest "personal_sign" [Some payload; eth];
           HttpPost MetaMask.CONFIG.rpc
             [("Content-Type", "application/json"); ("Accept", "application/json")]
             body]
          = (snd (run (MetaMask.sendTransaction w toAddress amount memo))
               ++ rest)%list)
  /\ (forall w toAddress amountStr memo out tr url,
        run (Solflare.sendTransaction w toAddress amountStr memo) = (out, tr) ->
        In (StargateConnect url) tr ->
        exists wallet publicKey address,
          Spec.solflare_key w wallet publicKey
          /\ Spec.nolus_address publicKey = Return address)
  /\ (forall w toAddress amountStr memo out tr url,
        run (Phantom.sendTransaction w toAddress amountStr memo) = (out, tr) ->
        In (StargateConnect url) tr ->
        exists wallet publicKey address,
          Spec.phantom_key w wallet publicKey
          /\ Spec.nolus_address publicKey = Return address)
  /\ (forall w toAddress amountStr memo out tr url,
        run (PhantomProvider.sendTransaction w toAddress amountStr memo) = (out, tr) ->
        In (StargateConnect url) tr ->
        exists wallet publicKey address,
          Spec.provider_key w wallet publicKey
          /\ Spec.nolus_address publicKey = Return address)
  /\ (forall w toAddress amount memo out tr url,
        run (MetaMask.sendTransaction w toAddress amount memo) = (out, tr) ->
        In (StargateConnect url) tr ->
        exists provider eth compressed address,
          Spec.metamask_key w provider eth compressed
          /\ Spec.neutron_address compressed = Return address)
  /\ (forall w wallet publicKey address toAddress amountStr memo,
        Spec.solflare_key w wallet publicKey ->
        Spec.nolus_address publicKey = Return address ->
        exists out rest1,
          run (Solflare.sendTransaction w toAddress amountStr memo)
          = (out, [WalletConnect; StargateConnect Nolus.CONFIG.rpc] ++ rest1)%list
          /\ (forall e,
                StargateClient_connect (Solflare.node w) Nolus.CONFIG.rpc =
                  Throw e ->
                rest1 = [])
          /\ (StargateClient_connect (Solflare.node w)
                Nolus.CONFIG.rpc = Return tt ->
              exists rest2,
                rest1 = GetAccount address :: rest2
                /\ (forall e,
                      getAccount (Solflare.node w) address = Throw e ->
                      rest2 = [])
                /\ forall reply,
                     getAccount (Solflare.node w) address = Return reply ->
                     exists rest3,
                       rest2
                       = WalletSignMessage
                           (SignDoc.encode
                              (Spec.direct_sign_doc publicKey address
                                 (Spec.given_or toAddress address)
                                 (Spec.given_or amountStr "1000000")
                                 (Spec.given_or memo "solflare-ed25519-test")
                                 (Spec.fetched reply)))
                           None :: rest3
                       /\ (forall e,
                             Solflare.signMessage wallet
                               (SignDoc.encode
                                  (Spec.direct_sign_doc publicKey address
                                     (Spec.given_or toAddress address)
                                     (Spec.given_or amountStr "1000000")
                                     (Spec.given_or memo "solflare-ed25519-test")
                                     (Spec.fetched reply)))
                             = Throw e ->
                             rest3 = [])
                       /\ forall signature,
                            Solflare.signMessage wallet
                              (SignDoc.encode
                                 (Spec.direct_sign_doc publicKey address
                                    (Spec.given_or toAddress address)
                                    (Spec.given_or amountStr "1000000")
                                    (Spec.given_or memo "solflare-ed25519-test")
                                    (Spec.fetched reply)))
                            = Return signature ->
                            rest3
                            = [HttpPost Nolus.CONFIG.rpc
                                 [("Content-Type", "application/json")]
                                 (Spec.broadcast_body (Date_now (Solflare.node w))
                                    (Spec.direct_tx publicKey address
                                       (Spec.given_or toAddress address)
                                       (Spec.given_or amountStr "1000000")
                                       (Spec.given_or memo "solflare-ed25519-test")
                                       (Spec.fetched reply) signature))]))
  /\ (forall w wallet publicKey address toAddress amountStr memo,
        Spec.phantom_key w wallet publicKey ->
        Spec.nolus_address publicKey = Return address ->
        exists out rest1,
          run (Phantom.sendTransaction w toAddress amountStr memo)
          = (out, [WalletConnect; StargateConnect Nolus.CONFIG.rpc] ++ rest1)%list
          /\ (forall e,
                StargateClient_connect (Phantom.node w) Nolus.CONFIG.rpc =
                  Throw e ->
                rest1 = [])
          /\ (StargateClient_connect (Phantom.node w)
                Nolus.CONFIG.rpc = Return tt ->
              exists rest2,
                rest1 = GetAccount address :: rest2
                /\ (forall e,
                      getAccount (Phantom.node w) address = Throw e ->
                      rest2 = [])
                /\ forall reply,
                     getAccount (Phantom.node w) address = Return reply ->
                     exists rest3,
                       rest2
                       = WalletSignMessage
                           (SignDoc.encode
                              (Spec.direct_sign_doc publicKey address
                                 (Spec.given_or toAddress address)
                                 (Spec.given_or amountStr "1000000")
                                 (Spec.given_or memo "phantom-ed25519-test")
                                 (Spec.fetched reply)))
                           (Some "utf8") :: rest3
                       /\ (forall e,
                             Phantom.signMessage wallet
                               (SignDoc.encode
                                  (Spec.direct_sign_doc publicKey address
                                     (Spec.given_or toAddress address)
                                     (Spec.given_or amountStr "1000000")
                                     (Spec.given_or memo "phantom-ed25519-test")
                                     (Spec.fetched reply)))
                               (Some "utf8")
                             = Throw e ->
                             rest3 = [])
                       /\ forall signature,
                            Phantom.signMessage wallet
                              (SignDoc.encode
                                 (Spec.direct_sign_doc publicKey address
                                    (Spec.given_or toAddress address)
                                    (Spec.given_or amountStr "1000000")
                                    (Spec.given_or memo "phantom-ed25519-test")
                                    (Spec.fetched reply)))
                              (Some "utf8")
                            = Return signature ->
                            rest3
                            = [HttpPost Nolus.CONFIG.rpc
                                 [("Content-Type", "application/json")]
                                 (Spec.broadcast_body (Date_now (Phantom.node w))
                                    (Spec.direct_tx publicKey address
                                       (Spec.given_or toAddress address)
                                       (Spec.given_or amountStr "1000000")
                                       (Spec.given_or memo "phantom-ed25519-test")
                                       (Spec.fetched reply) signature))]))
  /\ (forall w wallet publicKey address toAddress amountStr memo,
        Spec.provider_key w wallet publicKey ->
        Spec.nolus_address publicKey = Return address ->
        exists out rest1,
          run (PhantomProvider.sendTransaction w toAddress amountStr memo)
          = (out, [WalletConnect; StargateConnect Nolus.CONFIG.rpc] ++ rest1)%list
          /\ (forall e,
                StargateClient_connect (PhantomProvider.node w)
                  Nolus.CONFIG.rpc = Throw e ->
                rest1 = [])
          /\ (StargateClient_connect (PhantomProvider.node w)
                Nolus.CONFIG.rpc = Return tt ->
              exists rest2,
                rest1 = GetAccount address :: rest2
                /\ (forall e,
                      getAccount (PhantomProvider.node w) address = Throw e ->
                      rest2 = [])
                /\ forall reply,
                     getAccount (PhantomProvider.node w) address = Return reply ->
                     exists rest3,
                       rest2
                       = WalletSignMessage
                           (Utf8.TextEncoder_encode
                              (Utf8.Buffer_toString
                                 (SignDoc.encode
                                    (Spec.direct_sign_doc publicKey address
                                       (Spec.given_or toAddress address)
                                       (Spec.given_or amountStr "1000000")
                                       (Spec.given_or memo "phantom-ed25519-test")
                                       (Spec.fetched reply)))))
                           None :: rest3
                       /\ (forall e,
                             PhantomProvider.signMessage wallet
                               (Utf8.TextEncoder_encode
                                  (Utf8.Buffer_toString
                                     (SignDoc.encode
                                        (Spec.direct_sign_doc publicKey address
                                           (Spec.given_or toAddress address)
                                           (Spec.given_or amountStr "1000000")
                                           (Spec.given_or memo "phantom-ed25519-test")
                                           (Spec.fetched reply)))))
                             = Throw e ->
                             rest3 = [])
                       /\ forall signature,
                            PhantomProvider.signMessage wallet
                              (Utf8.TextEncoder_encode
                                 (Utf8.Buffer_toString
                                    (SignDoc.encode
                                       (Spec.direct_sign_doc publicKey address
                                          (Spec.given_or toAddress address)
                                          (Spec.given_or amountStr "1000000")
                                          (Spec.given_or memo "phantom-ed25519-test")
                                          (Spec.fetched reply)))))
                            = Return signature ->
                            rest3
                            = [HttpPost Nolus.CONFIG.rpc
                                 [("Content-Type", "application/json")]
                                 (Spec.broadcast_body (Date_now (PhantomProvider.node w))
                                    (Spec.direct_tx publicKey address
                                       (Spec.given_or toAddress address)
                                       (Spec.given_or amountStr "1000000")
                                       (Spec.given_or memo "phantom-ed25519-test")
                                       (Spec.fetched reply) signature))]))
  /\ (forall w provider eth compressed address toAddress amount memo,
        Spec.metamask_key w provider eth compressed ->
        Spec.neutron_address compressed = Return address ->
        exists out rest1,
          run (MetaMask.sendTransaction w toAddress amount memo)
          = (out, Spec.key_requests eth ++ [StargateConnect MetaMask.CONFIG.rpc] ++ rest1)%list
          /\ (forall e,
                StargateClient_connect (MetaMask.node w) MetaMask.CONFIG.rpc =
                  Throw e ->
                rest1 = [])
          /\ (StargateClient_connect (MetaMask.node w)
                MetaMask.CONFIG.rpc = Return tt ->
              exists rest2,
                rest1 = GetAccount address :: rest2
                /\ (forall e,
                      getAccount (MetaMask.node w) address = Throw e ->
                      rest2 = [])
                /\ forall reply,
                     getAccount (MetaMask.node w) address = Return reply ->
                     exists rest3,
                       rest2
                       = EthereumRequest "personal_sign"
                           [Some (Spec.json_payload
                                    (Spec.json_sign_doc (Spec.fetched reply) address
                                       (Spec.given_or toAddress address)
                                       (Spec.given_or amount "1000000")
                                       (Spec.given_or memo "Neutron Network transaction")));
                            eth] :: rest3
                       /\ (forall e,
                             MetaMask.personal_sign provider
                               (Spec.json_payload
                                  (Spec.json_sign_doc (Spec.fetched reply) address
                                     (Spec.given_or toAddress address)
                                     (Spec.given_or amount "1000000")
                                     (Spec.given_or memo "Neutron Network transaction")))
                               eth
                             = Throw e ->
                             rest3 = [])
                       /\ forall sigResult,
                            MetaMask.personal_sign provider
                              (Spec.json_payload
                                 (Spec.json_sign_doc (Spec.fetched reply) address
                                    (Spec.given_or toAddress address)
                                    (Spec.given_or amount "1000000")
                                    (Spec.given_or memo "Neutron Network transaction")))
                              eth
                            = Return sigResult ->
                            (forall e,
                               Hex.fromHex (string_slice_neg 2 2 sigResult) = Throw e ->
                               rest3 = [])
                            /\ forall sig,
                                 Hex.fromHex (string_slice_neg 2 2 sigResult) = Return sig ->
                                 rest3
                                 = [HttpPost MetaMask.CONFIG.rpc
                                      [("Content-Type", "application/json");
                                       ("Accept", "application/json")]
                                      (Spec.broadcast_body (Date_now (MetaMask.node w))
                                         (Spec.eip191_tx compressed address
                                            (Spec.given_or toAddress address)
                                            (Spec.given_or amount "1000000")
                                            (Spec.given_or memo "Neutron Network transaction")
                                            (Spec.fetched reply) sig))])).
Proof.
  split; [|split; [|split; [|split; [|split; [|split; [|split; [|split;
    [|split; [|split; [|split]]]]]]]]]].
  5: exact SolflareSends.solflare_contacts_node.
  5: exact PhantomSends.phantom_contacts_node.
  5: exact ProviderSends.provider_contacts_node.
  5: exact MetaMaskSends.metamask_contacts_node.
  5: exact SolflareSends.solflare_sends.
  5: exact PhantomSends.phantom_sends.
  5: exact ProviderSends.provider_sends.
  5: exact MetaMaskSends.metamask_sends.
  - intros w toAddress amountStr memo.
    destruct (run (Solflare.sendTransaction w toAddress amountStr memo))
      as [out tr] eqn:H.
    execute H; cbn [snd app]; do 4 eexists; reflexivity.
  - intros w toAddress amountStr memo.
    destruct (run (Phantom.sendTransaction w toAddress amountStr memo))
      as [out tr] eqn:H.
    execute H; cbn [snd app]; do 4 eexists; reflexivity.
  - intros w toAddress amountStr memo.
    destruct (run (PhantomProvider.sendTransaction w toAddress amountStr memo))
      as [out tr] eqn:H.
    execute H; cbn [snd app]; do 4 eexists; reflexivity.
  - intros w toAddress amount memo.
    destruct (run (MetaMask.sendTransaction w toAddress amount memo))
      as [out tr] eqn:H.
    unfold Spec.key_message.
    execute H; cbn [snd app]; do 5 eexists; reflexivity.
  Unshelve.
  all: first [exact ""|exact []|exact None].
Qed.

(** ** What is broadcast is what was signed *)

(** The transaction of every POST carries the body and the auth info of
    the sign document that the wallet was asked to sign in the same run,
    and as its one signature what the wallet answered to that request.
    (In the second Phantom script the wallet saw those bytes decoded and
    encoded again.)  In the MetaMask script the transaction is built
    from the sender, recipient, amount, memo and sequence of the JSON
    document that was signed. *)
Theorem broadcast_is_what_was_signed :
  (forall w toAddress amountStr memo out tr url headers body,
     run (Solflare.sendTransaction w toAddress amountStr memo) = (out, tr) ->
     In (HttpPost url headers body) tr ->
     exists wallet doc signature,
       Solflare.solflare w = Some wallet
       /\ In (WalletSignMessage (SignDoc.encode doc) None) tr
       /\ Solflare.signMessage wallet (SignDoc.encode doc) = Return signature
       /\ body = Spec.broadcast_body (Date_now (Solflare.node w))
                   (TxRaw.encode
                      {| TxRaw.bodyBytes := SignDoc.bodyBytes doc;
                         TxRaw.authInfoBytes := SignDoc.authInfoBytes doc;
                         TxRaw.signatures := [signature] |}))
  /\ (forall w toAddress amountStr memo out tr url headers body,
        run (Phantom.sendTransaction w toAddress amountStr memo) = (out, tr) ->
        In (HttpPost url headers body) tr ->
        exists wallet doc signature,
          Phantom.phantom w = Some wallet
          /\ In (WalletSignMessage (SignDoc.encode doc) (Some "utf8")) tr
          /\ Phantom.signMessage wallet (SignDoc.encode doc) (Some "utf8")
             = Return signature
          /\ body = Spec.broadcast_body (Date_now (Phantom.node w))
                      (TxRaw.encode
                         {| TxRaw.bodyBytes := SignDoc.bodyBytes doc;
                            TxRaw.authInfoBytes := SignDoc.authInfoBytes doc;
                            TxRaw.signatures := [signature] |}))
  /\ (forall w toAddress amountStr memo out tr url headers body,
        run (PhantomProvider.sendTransaction w toAddress amountStr memo) = (out, tr) ->
        In (HttpPost url headers body) tr ->
        exists provider doc signature,
          PhantomProvider.getPhantom w = Some provider
          /\ In (WalletSignMessage
                   (Utf8.TextEncoder_encode
                      (Utf8.Buffer_toString (SignDoc.encode doc))) None) tr
          /\ PhantomProvider.signMessage provider
               (Utf8.TextEncoder_encode (Utf8.Buffer_toString (SignDoc.encode doc)))
             = Return signature
          /\ body = Spec.broadcast_body (Date_now (PhantomProvider.node w))
                      (TxRaw.encode
                         {| TxRaw.bodyBytes := SignDoc.bodyBytes doc;
                            TxRaw.authInfoBytes := SignDoc.authInfoBytes doc;
                            TxRaw.signatures := [signature] |}))
  /\ (forall w toAddress amount memo out tr url headers body,
        run (MetaMask.sendTransaction w toAddress amount memo) = (out, tr) ->
        In (HttpPost url headers body) tr ->
        exists provider eth compressed state sender recipient sent text
               sigResult signature,
          MetaMask.ethereum w = Some provider
          /\ In (EthereumRequest "personal_sign"
                   [Some (Spec.json_payload
                            (Spec.json_sign_doc state sender recipient sent text));
                    eth]) tr
          /\ MetaMask.personal_sign provider
               (Spec.json_payload
                  (Spec.json_sign_doc state sender recipient sent text)) eth
             = Return sigResult
          /\ Hex.fromHex (string_slice_neg 2 2 sigResult) = Return signature
          /\ body = Spec.broadcast_body (Date_now (MetaMask.node w))
                      (Spec.eip191_tx compressed sender recipient sent text state
                         signature)).
Proof.
  split; [|split; [|split]].
  - intros w toAddress amountStr memo out tr url headers body Hrun Hin.
    destruct (SolflareFacts.solflare_broadcasts _ _ _ _ _ _ _ _ _ Hrun Hin)
      as (wallet & publicKey & address & reply & signature
          & Hkey & _ & _ & Hsign & Htr & _ & _ & Hbody).
    exists wallet. eexists. exists signature.
    split; [apply Hkey|]. split; [|split; [exact Hsign|exact Hbody]].
    rewrite Htr. cbn [In]. auto.
  - intros w toAddress amountStr memo out tr url headers body Hrun Hin.
    destruct (PhantomFacts.phantom_broadcasts _ _ _ _ _ _ _ _ _ Hrun Hin)
      as (wallet & publicKey & address & reply & signature
          & Hkey & _ & _ & Hsign & Htr & _ & _ & Hbody).
    exists wallet. eexists. exists signature.
    split; [apply Hkey|]. split; [|split; [exact Hsign|exact Hbody]].
    rewrite Htr. cbn [In]. auto.
  - intros w toAddress amountStr memo out tr url headers body Hrun Hin.
    destruct (PhantomProviderFacts.provider_broadcasts _ _ _ _ _ _ _ _ _ Hrun Hin)
      as (wallet & publicKey & address & reply & signature
          & Hkey & _ & _ & Hsign & Htr & _ & _ & Hbody).
    exists wallet. eexists. exists signature.
    split; [apply Hkey|]. split; [|split; [exact Hsign|exact Hbody]].
    rewrite Htr. cbn [In]. auto.
  - intros w toAddress amount memo out tr url headers body Hrun Hin.
    destruct (MetaMaskFacts.metamask_broadcasts _ _ _ _ _ _ _ _ _ Hrun Hin)
      as (provider & eth & compressed & address & reply & sigResult & signature
          & Hkey & _ & _ & Hsign & Hhex & Htr & _ & _ & Hbody).
    exists provider, eth, compressed, (Spec.fetched reply), address.
    do 3 eexists. exists sigResult, signature.
    split; [apply Hkey|].
    split; [|split; [exact Hsign|split; [exact Hhex|exact Hbody]]].
    rewrite Htr. apply in_or_app. right. cbn [In]. auto.
Qed.

(** ** [connect] of the wallet scripts *)

Lemma appends_solflare_testTransaction w : appends (Solflare.testTransaction w).
Proof. apply appends_solflare_sendTransaction. Qed.
#[global] Hint Resolve appends_solflare_testTransaction : appends.

Lemma appends_phantom_testTransaction w : appends (Phantom.testTransaction w).
Proof. apply appends_phantom_sendTransaction. Qed.
#[global] Hint Resolve appends_phantom_testTransaction : appends.

Lemma appends_provider_testTransaction w : appends (PhantomProvider.testTransaction w).
Proof. apply appends_provider_sendTransaction. Qed.
#[global] Hint Resolve appends_provider_testTransaction : appends.

Ltac run_connect H :=
  autounfold with script in H; unfold detached in H; known_in H; execute H;
  rewrite ?appends_solflare_testTransaction, ?appends_phantom_testTransaction,
    ?appends_provider_testTransaction;
  cbn [fst snd].


(** ** The helpers and the front end of the MetaMask script *)

Lemma getAccountInfo_key_signature :
  forall w out tr,
    run (MetaMask.getAccountInfo w) = (out, tr) ->
    forall payload eth,
      In (EthereumRequest "personal_sign" [Some payload; eth]) tr ->
      payload = MetaMask.hexlify (toUtf8Bytes Spec.key_message).
Proof.
  intros w out tr H. unfold Spec.key_message. execute H.
  all: intros payload eth Hin; in_trace Hin; reflexivity.
Qed.


(** The wrappers send what [sendTransaction] sends and rethrow what it
    throws. *)
Lemma sendTransactionFn_run w toAddress amount memo :
  run (Main.sendTransactionFn w toAddress amount memo)
  = (Spec.front_end (fst (run (MetaMask.sendTransaction w toAddress amount memo))),
     snd (run (MetaMask.sendTransaction w toAddress amount memo))).
Proof.
  unfold Main.sendTransactionFn. rewrite run_rethrow.
  unfold run, bind.
  destruct (MetaMask.sendTransaction w toAddress amount memo [])
    as [[[h res|err res]|e] t]; reflexivity.
Qed.

Lemma testTransaction_run w :
  run (Main.testTransaction w)
  = run (MetaMask.sendTransaction w None (Some "1000000")
           (Some "Test transaction from MetaMask")).
Proof.
  unfold Main.testTransaction. rewrite run_rethrow.
  unfold run, bind.
  destruct (MetaMask.sendTransaction w None (Some "1000000")
              (Some "Test transaction from MetaMask") [])
    as [[[h res|err res]|e] t]; reflexivity.
Qed.

Lemma sendToAddress_run w recipientAddress amount memo :
  run (Main.sendToAddress w recipientAddress amount memo)
  = run (MetaMask.sendTransaction w (Some recipientAddress) (Some amount) memo).
Proof.
  unfold Main.sendToAddress. rewrite run_rethrow.
  unfold run, bind.
  destruct (MetaMask.sendTransaction w (Some recipientAddress) (Some amount) memo [])
    as [[r|e] t]; reflexivity.
Qed.

(** The front end reports what the node made of the broadcast.
    [sendTransactionFn] returns [{ success: true, hash, explorerUrl }],
    with the hash also as the explorer URL, exactly when the node
    accepted the transaction with code 0, and [{ success: false, error }]
    with the log of the node exactly when the node answered with another
    code; it sends no request twice.  With the key, the account, a
    signature and the node's acceptance it returns the hash.
    [sendToAddress] asks for the signature of a transfer to the
    recipient it is given, or to the sender when that is the empty
    text. *)
Theorem front_end_wrappers :
  (forall w toAddress amount memo out tr,
     run (Main.sendTransactionFn w toAddress amount memo) = (out, tr) ->
     (forall h u,
        out = Return (Main.FnSent h u) <->
        exists headers body res,
          In (HttpPost MetaMask.CONFIG.rpc headers body) tr
          /\ Spec.accepted (MetaMask.node w) MetaMask.CONFIG.rpc headers body res
          /\ h = hash res
          /\ u = hash res)
     /\ (forall err,
           out = Return (Main.FnFailed err) <->
           exists headers body res,
             In (HttpPost MetaMask.CONFIG.rpc headers body) tr
             /\ fetch (MetaMask.node w) MetaMask.CONFIG.rpc headers body
                = Return {| result := Some res; error := None |}
             /\ code res <> Some 0
             /\ err = log res)
     /\ Spec.no_retry tr)
  /\ (forall w provider eth compressed address reply sigResult sig res
             toAddress amount memo,
        Spec.metamask_key w provider eth compressed ->
        Spec.neutron_address compressed = Return address ->
        StargateClient_connect (MetaMask.node w) MetaMask.CONFIG.rpc = Return tt ->
        getAccount (MetaMask.node w) address = Return reply ->
        MetaMask.personal_sign provider
          (Spec.json_payload
             (Spec.json_sign_doc (Spec.fetched reply) address
                (Spec.given_or toAddress address)
                (Spec.given_or amount "1000000")
                (Spec.given_or memo "Neutron Network transaction")))
          eth
        = Return sigResult ->
        Hex.fromHex (string_slice_neg 2 2 sigResult) = Return sig ->
        Spec.accepted (MetaMask.node w) MetaMask.CONFIG.rpc
          [("Content-Type", "application/json"); ("Accept", "application/json")]
          (Spec.broadcast_body (Date_now (MetaMask.node w))
             (Spec.eip191_tx compressed address
                (Spec.given_or toAddress address)
                (Spec.given_or amount "1000000")
                (Spec.given_or memo "Neutron Network transaction")
                (Spec.fetched reply) sig))
          res ->
        run (Main.sendTransactionFn w toAddress amount memo)
        = (Return (Main.FnSent (hash res) (hash res)),
           Spec.key_requests eth
             ++ [StargateConnect MetaMask.CONFIG.rpc; GetAccount address;
                 EthereumRequest "personal_sign"
                   [Some (Spec.json_payload
                            (Spec.json_sign_doc (Spec.fetched reply) address
                               (Spec.given_or toAddress address)
                               (Spec.given_or amount "1000000")
                               (Spec.given_or memo "Neutron Network transaction")));
                    eth];
                 HttpPost MetaMask.CONFIG.rpc
                   [("Content-Type", "application/json");
                    ("Accept", "application/json")]
                   (Spec.broadcast_body (Date_now (MetaMask.node w))
                      (Spec.eip191_tx compressed address
                         (Spec.given_or toAddress address)
                         (Spec.given_or amount "1000000")
                         (Spec.given_or memo "Neutron Network transaction")
                         (Spec.fetched reply) sig))])%list)
  /\ (forall w provider eth compressed address reply recipientAddress amount memo,
        Spec.metamask_key w provider eth compressed ->
        Spec.neutron_address compressed = Return address ->
        StargateClient_connect (MetaMask.node w) MetaMask.CONFIG.rpc = Return tt ->
        getAccount (MetaMask.node w) address = Return reply ->
        exists out recipient rest,
          recipient = match recipientAddress with
                      | "" => address
                      | _ => recipientAddress
                      end
          /\ run (Main.sendToAddress w recipientAddress amount memo)
             = (out,
                Spec.key_requests eth
                  ++ [StargateConnect MetaMask.CONFIG.rpc; GetAccount address;
                      EthereumRequest "personal_sign"
                        [Some (Spec.json_payload
                                 (Spec.json_sign_doc (Spec.fetched reply) address
                                    recipient
                                    (Spec.given_or (Some amount) "1000000")
                                    (Spec.given_or memo
                                       "Neutron Network transaction")));
                         eth]]
                  ++ rest)%list).
Proof.
  split; [|split].
  - intros w toAddress amount memo out tr H.
    rewrite sendTransactionFn_run in H.
    destruct (run (MetaMask.sendTransaction w toAddress amount memo))
      as [o t] eqn:Hr.
    cbn [fst snd] in H. injection H as <- <-.
    destruct (MetaMaskFacts.metamask_outcome _ _ _ _ _ _ Hr) as [Hsent Hno].
    pose proof (MetaMaskFacts.metamask_rejected _ _ _ _ _ _ Hr) as Hrej.
    split; [|split; [|exact Hno]].
    + intros h u. split.
      * intros Ho. destruct o as [[h0 res0|err0 res0]|e0];
          cbn [Spec.front_end] in Ho; try discriminate Ho.
        injection Ho as <- <-.
        destruct (proj1 (Hsent h0 res0) eq_refl)
          as (headers & body & Hin & Hacc & Hh).
        exists headers, body, res0. auto.
      * intros (headers & body & res & Hin & Hacc & -> & ->).
        rewrite (proj2 (Hsent (hash res) res)
                   (ex_intro _ headers (ex_intro _ body
                      (conj Hin (conj Hacc eq_refl))))).
        reflexivity.
    + intros err. split.
      * intros Ho. destruct o as [[h0 res0|err0 res0]|e0];
          cbn [Spec.front_end] in Ho; try discriminate Ho.
        injection Ho as <-.
        destruct (proj1 (Hrej err0 res0) eq_refl)
          as (headers & body & Hin & Hfetch & Hcode & Herr).
        exists headers, body, res0. auto.
      * intros (headers & body & res & Hin & Hfetch & Hcode & ->).
        rewrite (proj2 (Hrej (log res) res)
                   (ex_intro _ headers (ex_intro _ body
                      (conj Hin (conj Hfetch (conj Hcode eq_refl)))))).
        reflexivity.
  - intros w provider eth compressed address reply sigResult sig res
      toAddress amount memo Hkey Haddress Hclient Hreply Hsig Hhex Hacc.
    destruct (MetaMaskSends.metamask_sends_answered w provider eth compressed
                address reply toAddress amount memo Hkey Haddress Hclient Hreply)
      as (out & payload & rest & -> & Hrun & Hrest).
    rewrite (Hrest sigResult sig Hsig Hhex) in Hrun.
    destruct (MetaMaskFacts.metamask_outcome _ _ _ _ _ _ Hrun) as [Hsent _].
    rewrite sendTransactionFn_run, Hrun. cbn [fst snd].
    rewrite (proj2 (Hsent (hash res) res)
               (ex_intro _ _ (ex_intro _ _
                  (conj (in_or_app _ _ _ (or_intror (In_last _ [_; _; _])))
                     (conj Hacc eq_refl))))).
    reflexivity.
  - intros w provider eth compressed address reply recipientAddress amount memo
      Hkey Haddress Hclient Hreply.
    destruct (MetaMaskSends.metamask_sends_answered w provider eth compressed
                address reply (Some recipientAddress) (Some amount) memo
                Hkey Haddress Hclient Hreply)
      as (out & payload & rest & -> & Hrun & _).
    exists out. eexists. exists rest.
    split; [reflexivity|]. rewrite sendToAddress_run.
    destruct recipientAddress; exact Hrun.
Qed.

Lemma metamask_returns_after_post w toAddress amount memo r tr :
  run (MetaMask.sendTransaction w toAddress amount memo) = (Return r, tr) ->
  List.length (filter Spec.asks_signature tr) = 2%nat
  /\ List.length (filter Spec.is_post tr) = 1%nat.
Proof.
  intros H. execute H; try discriminate Hout.
  all: cbn [filter Spec.asks_signature Spec.is_post List.length String.eqb
            Ascii.eqb Bool.eqb app]; split; reflexivity.
Qed.

Lemma getAccountInfo_returns_after_lookup w info tr :
  run (MetaMask.getAccountInfo w) = (Return info, tr) ->
  List.length (filter Spec.asks_signature tr) = 1%nat
  /\ List.length (filter Spec.is_post tr) = 0%nat.
Proof.
  intros H. execute H; try discriminate Hout.
  all: cbn [filter Spec.asks_signature Spec.is_post List.length String.eqb
            Ascii.eqb Bool.eqb app]; split; reflexivity.
Qed.

(** [connect] of the front end begins with the status POST, whatever
    the wallet.  When it returns the account, it has run [getAccountInfo]
    and then a [sendTransaction] of 1 untrn with the memo test to one
    fixed address: the user was asked for three signatures, two POSTs
    went out, and the one transaction that was signed is that transfer.
    It returns the account as soon as that [sendTransaction] returns,
    also when the node rejected the transaction. *)
Theorem front_end_connect_sends_a_transaction :
  forall w out tr,
    run (Main.connect w) = (out, tr) ->
    (exists rest,
       tr = HttpPost MetaMask.CONFIG.rpc [("Content-Type", "application/json")]
              Spec.abci_info_body :: rest)
    /\ (forall info,
          out = Return info ->
          exists sent,
            fst (run (MetaMask.getAccountInfo w)) = Return info
            /\ fst (run (MetaMask.sendTransaction w
                           (Some "nolus1nlfjlsfrvlruxylh22teyp80mtc72wgx2c3u9r")
                           (Some "1") (Some "test")))
               = Return sent
            /\ tr = (HttpPost MetaMask.CONFIG.rpc
                       [("Content-Type", "application/json")] Spec.abci_info_body
                       :: snd (run (MetaMask.getAccountInfo w))
                       ++ snd (run (MetaMask.sendTransaction w
                                      (Some "nolus1nlfjlsfrvlruxylh22teyp80mtc72wgx2c3u9r")
                                      (Some "1") (Some "test"))))%list
            /\ List.length (filter Spec.asks_signature tr) = 3%nat
            /\ List.length (filter Spec.is_post tr) = 2%nat
            /\ forall payload eth,
                 In (EthereumRequest "personal_sign" [Some payload; eth]) tr ->
                 payload <> MetaMask.hexlify (toUtf8Bytes Spec.key_message) ->
                 exists compressed address state,
                   Spec.neutron_address compressed = Return address
                   /\ payload
                      = Spec.json_payload
                          (Spec.json_sign_doc state address
                             "nolus1nlfjlsfrvlruxylh22teyp80mtc72wgx2c3u9r" "1"
                             "test"))
    /\ (forall response info sent,
          fetch (MetaMask.node w) MetaMask.CONFIG.rpc
            [("Content-Type", "application/json")] Spec.abci_info_body
          = Return response ->
          fst (run (MetaMask.getAccountInfo w)) = Return info ->
          fst (run (MetaMask.sendTransaction w
                      (Some "nolus1nlfjlsfrvlruxylh22teyp80mtc72wgx2c3u9r")
                      (Some "1") (Some "test")))
          = Return sent ->
          out = Return info).
Proof.
  intros w out tr H. unfold Main.connect in H.
  rewrite run_rethrow in H.
  rewrite run_bind in H
    by (intros; appends).
  destruct (run (MetaMask.checkTestnet w)) as [status t] eqn:Hstatus.
  pose proof (MetaMaskFacts.checkTestnet_request w _ _ Hstatus) as ->.
  assert (Hfetch : status
                   = fetch (MetaMask.node w) MetaMask.CONFIG.rpc
                       [("Content-Type", "application/json")] Spec.abci_info_body).
  { execute Hstatus; symmetry; assumption. }
  clear Hstatus.
  destruct status as [response|e].
  - rewrite run_bind in H
      by (intros; appends).
    destruct (run (MetaMask.getAccountInfo w)) as [[info|e] t1] eqn:Hinfo.
    + rewrite run_bind in H by (intros; apply appends_ret).
      destruct (run (MetaMask.sendTransaction w
                       (Some "nolus1nlfjlsfrvlruxylh22teyp80mtc72wgx2c3u9r")
                       (Some "1") (Some "test"))) as [[sent|e] t2] eqn:Hsent.
      * unfold run at 1 2 in H. unfold ret in H. cbn [fst snd] in H.
        rewrite app_nil_r in H. injection H as <- <-.
        destruct (metamask_returns_after_post _ _ _ _ _ _ Hsent) as [Hs2 Hp2].
        destruct (getAccountInfo_returns_after_lookup _ _ _ Hinfo) as [Hs1 Hp1].
        split; [eexists; reflexivity|]. split.
        -- intros info' Ho. apply Return_inj in Ho. subst info'.
           exists sent. cbn [fst snd app].
           split; [reflexivity|]. split; [reflexivity|]. split; [reflexivity|].
           split; [|split].
           ++ cbn [filter Spec.asks_signature].
              rewrite filter_app, length_app, Hs1, Hs2. reflexivity.
           ++ cbn [filter Spec.is_post List.length].
              rewrite filter_app, length_app, Hp1, Hp2. reflexivity.
           ++ intros payload eth Hin Hother.
              destruct Hin as [Hin|Hin]; [discriminate Hin|].
              apply in_app_or in Hin. destruct Hin as [Hin|Hin].
              ** elim Hother.
                 exact (getAccountInfo_key_signature _ _ _ Hinfo _ _ Hin).
              ** destruct (MetaMaskFacts.metamask_signs _ _ _ _ _ _ _ _ Hsent Hin)
                   as [Hkey|(_ & compressed & address & reply & _
                             & _ & Ha & _ & _ & Hp)];
                   [contradiction|].
                 rewrite !or_default_given in Hp. eauto.
        -- intros response' info' sent' _ Hi _. cbn [fst] in Hi. exact Hi.
      * cbn [fst snd] in H. injection H as <- <-.
        split; [eexists; reflexivity|]. split; [discriminate|].
        intros response' info' sent' _ _ Hs. discriminate Hs.
    + cbn [fst snd] in H. injection H as <- <-.
      split; [eexists; reflexivity|]. split; [discriminate|].
      intros response' info' sent' _ Hi _. discriminate Hi.
  - injection H as <- <-.
    split; [eexists; reflexivity|]. split; [discriminate|].
    intros response' info' sent' Hf _ _. rewrite Hf in Hfetch. discriminate Hfetch.
Qed.

(** ** The test transactions *)

(** [testTransaction] is a send to the sender's own address: of 1 unls
    with the script's test memo in the wallet scripts, of 1000000 untrn
    in the front end of the MetaMask script.  With the key and the
    account it asks for the signature of that transfer and, when the
    wallet signs, posts it; it asks for no other signature. *)
Theorem test_transaction_is_self_send :
  (forall w wallet publicKey address reply,
     Spec.solflare_key w wallet publicKey ->
     Spec.nolus_address publicKey = Return address ->
     StargateClient_connect (Solflare.node w) Nolus.CONFIG.rpc = Return tt ->
     getAccount (Solflare.node w) address = Return reply ->
     exists out m rest,
       m = SignDoc.encode
               (Spec.direct_sign_doc publicKey address address "1"
                     "Solflare ED25519 test" (Spec.fetched reply))
       /\ run (Solflare.testTransaction w)
          = (out,
             [WalletConnect; StargateConnect Nolus.CONFIG.rpc; GetAccount address;
              WalletSignMessage m None] ++ rest)%list
       /\ forall signature,
            Solflare.signMessage wallet m = Return signature ->
            rest = [HttpPost Nolus.CONFIG.rpc [("Content-Type", "application/json")]
                      (Spec.broadcast_body (Date_now (Solflare.node w))
                         (Spec.direct_tx publicKey address address "1"
                            "Solflare ED25519 test" (Spec.fetched reply) signature))])
  /\ (forall w wallet publicKey address reply,
        Spec.phantom_key w wallet publicKey ->
        Spec.nolus_address publicKey = Return address ->
        StargateClient_connect (Phantom.node w) Nolus.CONFIG.rpc = Return tt ->
        getAccount (Phantom.node w) address = Return reply ->
        exists out m rest,
          m = SignDoc.encode
                  (Spec.direct_sign_doc publicKey address address "1"
                        "Phantom ED25519 test" (Spec.fetched reply))
          /\ run (Phantom.testTransaction w)
             = (out,
                [WalletConnect; StargateConnect Nolus.CONFIG.rpc; GetAccount address;
                 WalletSignMessage m (Some "utf8")] ++ rest)%list
          /\ forall signature,
               Phantom.signMessage wallet m (Some "utf8") = Return signature ->
               rest = [HttpPost Nolus.CONFIG.rpc [("Content-Type", "application/json")]
                         (Spec.broadcast_body (Date_now (Phantom.node w))
                            (Spec.direct_tx publicKey address address "1"
                               "Phantom ED25519 test" (Spec.fetched reply) signature))])
  /\ (forall w wallet publicKey address reply,
        Spec.provider_key w wallet publicKey ->
        Spec.nolus_address publicKey = Return address ->
        StargateClient_connect (PhantomProvider.node w) Nolus.CONFIG.rpc = Return tt ->
        getAccount (PhantomProvider.node w) address = Return reply ->
        exists out m rest,
          m = Utf8.TextEncoder_encode
                  (Utf8.Buffer_toString
                     (SignDoc.encode
                        (Spec.direct_sign_doc publicKey address address "1"
                        "Phantom ED25519 test" (Spec.fetched reply))))
          /\ run (PhantomProvider.testTransaction w)
             = (out,
                [WalletConnect; StargateConnect Nolus.CONFIG.rpc; GetAccount address;
                 WalletSignMessage m None] ++ rest)%list
          /\ forall signature,
               PhantomProvider.signMessage wallet m = Return signature ->
               rest = [HttpPost Nolus.CONFIG.rpc [("Content-Type", "application/json")]
                         (Spec.broadcast_body (Date_now (PhantomProvider.node w))
                            (Spec.direct_tx publicKey address address "1"
                               "Phantom ED25519 test" (Spec.fetched reply) signature))])
  /\ (forall w provider eth compressed address reply,
        Spec.metamask_key w provider eth compressed ->
        Spec.neutron_address compressed = Return address ->
        StargateClient_connect (MetaMask.node w) MetaMask.CONFIG.rpc = Return tt ->
        getAccount (MetaMask.node w) address = Return reply ->
        exists out payload rest,
          payload = Spec.json_payload
                      (Spec.json_sign_doc (Spec.fetched reply) address address
                         "1000000" "Test transaction from MetaMask")
          /\ run (Main.testTransaction w)
             = (out,
                Spec.key_requests eth
                  ++ [StargateConnect MetaMask.CONFIG.rpc; GetAccount address;
                      EthereumRequest "personal_sign" [Some payload; eth]]
                  ++ rest)%list
          /\ forall sigResult sig,
               MetaMask.personal_sign provider payload eth = Return sigResult ->
               Hex.fromHex (string_slice_neg 2 2 sigResult) = Return sig ->
               rest = [HttpPost MetaMask.CONFIG.rpc
                         [("Content-Type", "application/json");
                          ("Accept", "application/json")]
                         (Spec.broadcast_body (Date_now (MetaMask.node w))
                            (Spec.eip191_tx compressed address address "1000000"
                               "Test transaction from MetaMask"
                               (Spec.fetched reply) sig))])
  /\ (forall w out tr m d,
     run (Solflare.testTransaction w) = (out, tr) ->
     In (WalletSignMessage m d) tr ->
     exists publicKey address state,
       Spec.nolus_address publicKey = Return address
       /\ m = SignDoc.encode
                (Spec.direct_sign_doc publicKey address address "1"
                   "Solflare ED25519 test" state))
  /\ (forall w out tr m d,
        run (Phantom.testTransaction w) = (out, tr) ->
        In (WalletSignMessage m d) tr ->
        exists publicKey address state,
          Spec.nolus_address publicKey = Return address
          /\ m = SignDoc.encode
                   (Spec.direct_sign_doc publicKey address address "1"
                      "Phantom ED25519 test" state))
  /\ (forall w out tr m d,
        run (PhantomProvider.testTransaction w) = (out, tr) ->
        In (WalletSignMessage m d) tr ->
        exists publicKey address state,
          Spec.nolus_address publicKey = Return address
          /\ m = Utf8.TextEncoder_encode
                   (Utf8.Buffer_toString
                      (SignDoc.encode
                         (Spec.direct_sign_doc publicKey address address "1"
                            "Phantom ED25519 test" state))))
  /\ (forall w out tr payload eth,
        run (Main.testTransaction w) = (out, tr) ->
        In (EthereumRequest "personal_sign" [Some payload; eth]) tr ->
        payload <> MetaMask.hexlify (toUtf8Bytes Spec.key_message) ->
        exists compressed address state,
          Spec.neutron_address compressed = Return address
          /\ payload = Spec.json_payload
                         (Spec.json_sign_doc state address address "1000000"
                            "Test transaction from MetaMask")).
Proof.
  split.
  { intros w wallet publicKey address reply.
    exact (SolflareSends.solflare_sends_answered w wallet publicKey address reply
             None (Some "1") (Some "Solflare ED25519 test")). }
  split.
  { intros w wallet publicKey address reply.
    exact (PhantomSends.phantom_sends_answered w wallet publicKey address reply
             None (Some "1") (Some "Phantom ED25519 test")). }
  split.
  { intros w wallet publicKey address reply.
    exact (ProviderSends.provider_sends_answered w wallet publicKey address reply
             None (Some "1") (Some "Phantom ED25519 test")). }
  split.
  { intros w provider eth compressed address reply. rewrite testTransaction_run.
    exact (MetaMaskSends.metamask_sends_answered w provider eth compressed address
             reply None (Some "1000000") (Some "Test transaction from MetaMask")). }
  split; [|split; [|split]].
  - intros w out tr m d Hrun Hin.
    destruct (SolflareFacts.solflare_signs _ _ _ _ _ _ _ _ Hrun Hin)
      as (_ & publicKey & address & reply & _ & _ & Ha & _ & _ & _ & Hm).
    rewrite or_default_omitted, !or_default_given in Hm. eauto.
  - intros w out tr m d Hrun Hin.
    destruct (PhantomFacts.phantom_signs _ _ _ _ _ _ _ _ Hrun Hin)
      as (_ & publicKey & address & reply & _ & _ & Ha & _ & _ & _ & Hm).
    rewrite or_default_omitted, !or_default_given in Hm. eauto.
  - intros w out tr m d Hrun Hin.
    destruct (PhantomProviderFacts.provider_signs _ _ _ _ _ _ _ _ Hrun Hin)
      as (_ & publicKey & address & reply & _ & _ & Ha & _ & _ & _ & Hm).
    rewrite or_default_omitted, !or_default_given in Hm. eauto.
  - intros w out tr payload eth Hrun Hin Hother.
    rewrite testTransaction_run in Hrun. rename Hrun into Hsame.
    destruct (MetaMaskFacts.metamask_signs _ _ _ _ _ _ _ _ Hsame Hin)
      as [Hkey|(_ & compressed & address & reply & _ & _ & Ha & _ & _ & Hp)];
      [contradiction|].
    rewrite or_default_omitted, !or_default_given in Hp. eauto.
Qed.

(** ** The JSON document of the MetaMask script *)

Lemma json_sign_doc_keys_sorted state sender recipient amount memo :
  Spec.keys_sorted (Spec.json_sign_doc state sender recipient amount memo) = true.
Proof. reflexivity. Qed.

(** The member names of the JSON document that is signed ascend in
    every object of it, whatever the arguments and the account: this is
    the order in which the chain writes the document that it verifies
    the signature against.  A run that has the key and the account asks
    for the signature of such a document, and no run asks for the
    signature of another one. *)
Theorem signed_json_has_sorted_keys :
  (forall w provider eth compressed address reply toAddress amount memo,
     Spec.metamask_key w provider eth compressed ->
     Spec.neutron_address compressed = Return address ->
     StargateClient_connect (MetaMask.node w) MetaMask.CONFIG.rpc = Return tt ->
     getAccount (MetaMask.node w) address = Return reply ->
     exists out doc rest,
       run (MetaMask.sendTransaction w toAddress amount memo)
       = (out,
          Spec.key_requests eth
            ++ [StargateConnect MetaMask.CONFIG.rpc; GetAccount address;
                EthereumRequest "personal_sign"
                  [Some ("0x" ++ Hex.toHex (toUtf8Bytes (Json.stringify doc 4)))%string;
                   eth]]
            ++ rest)%list
       /\ doc = Json.Obj
                  [("account_number",
                    Json.Str
                      (JsNumber.decimal (Spec.account_number (Spec.fetched reply))));
                   ("chain_id", Json.Str "pion-1");
                   ("fee",
                    Json.Obj
                      [("amount",
                        Json.Arr
                          [Json.Obj [("amount", Json.Str "5000");
                                     ("denom", Json.Str "untrn")]]);
                       ("gas", Json.Str "200000")]);
                   ("memo",
                    Json.Str (Spec.given_or memo "Neutron Network transaction"));
                   ("msgs",
                    Json.Arr
                      [Json.Obj
                         [("type", Json.Str "cosmos-sdk/MsgSend");
                          ("value",
                           Json.Obj
                             [("amount",
                               Json.Arr
                                 [Json.Obj
                                    [("amount",
                                      Json.Str (Spec.given_or amount "1000000"));
                                     ("denom", Json.Str "untrn")]]);
                              ("from_address", Json.Str address);
                              ("to_address",
                               Json.Str (Spec.given_or toAddress address))])]]);
                   ("sequence",
                    Json.Str
                      (JsNumber.decimal (Spec.sequence (Spec.fetched reply))))]
       /\ Spec.keys_sorted doc = true)
  /\ (forall w toAddress amount memo out tr payload eth,
        run (MetaMask.sendTransaction w toAddress amount memo) = (out, tr) ->
        In (EthereumRequest "personal_sign" [Some payload; eth]) tr ->
        payload <> MetaMask.hexlify (toUtf8Bytes Spec.key_message) ->
        exists doc,
          payload = "0x" ++ Hex.toHex (toUtf8Bytes (Json.stringify doc 4))
          /\ Spec.keys_sorted doc = true).
Proof.
  split.
  - intros w provider eth compressed address reply toAddress amount memo
      Hkey Haddress Hclient Hreply.
    destruct (MetaMaskSends.metamask_sends_answered w provider eth compressed
                address reply toAddress amount memo Hkey Haddress Hclient Hreply)
      as (out & payload & rest & -> & Hrun & _).
    exists out. eexists. exists rest.
    split; [exact Hrun|]. split; reflexivity.
  - intros w toAddress amount memo out tr payload eth Hrun Hin Hother.
    destruct (MetaMaskFacts.metamask_signs _ _ _ _ _ _ _ _ Hrun Hin)
      as [Hkey|(_ & _ & address & reply & _ & _ & _ & _ & _ & Hp)];
      [contradiction|].
    eexists. split; [exact Hp|apply json_sign_doc_keys_sorted].
Qed.

(** ** Key compression *)

(** The compression of [getAddress] on an uncompressed key, one byte
    followed by the 32 bytes of x and by y: the result is 02 or 03 by
    the parity of the last byte of y, then x.  A key that is cut short
    is padded with zeros. *)
Theorem compress_keeps_x_and_parity :
  (forall head x y,
     List.length x = 32%nat ->
     MetaMask.compress (head :: x ++ y)%list
     = (if Z.even (byte_to_Z (last y x00)) then x02 else x03) :: x)
  /\ (forall head x,
        (List.length x <= 32)%nat ->
        MetaMask.compress (head :: x)
        = (x02 :: x ++ repeat x00 (32 - List.length x))%list).
Proof.
  split.
  - intros head x y Hx.
    with_strategy transparent [MetaMask.compress] unfold MetaMask.compress.
    cbv zeta. unfold slice, slice_from.
    change (skipn 33 (head :: x ++ y)%list) with (skipn 32 (x ++ y)%list).
    change (skipn 1 (head :: x ++ y)%list) with (x ++ y)%list.
    change (33 - 1)%nat with 32%nat.
    rewrite <- Hx, firstn_app, Nat.sub_diag, firstn_all, skipn_app, skipn_all,
      Nat.sub_diag.
    cbn [firstn skipn app]. rewrite !app_nil_r, Nat.sub_diag. cbn [repeat].
    rewrite app_nil_r, Zeven_mod. reflexivity.
  - intros head x Hx.
    with_strategy transparent [MetaMask.compress] unfold MetaMask.compress.
    cbv zeta. unfold slice, slice_from.
    change (skipn 33 (head :: x)) with (skipn 32 x).
    change (skipn 1 (head :: x)) with x.
    change (33 - 1)%nat with 32%nat.
    rewrite (skipn_all2 x) by lia. rewrite firstn_all2 by lia.
    reflexivity.
Qed.

(** ** The shape of an address *)

Module AddressShape.
Import Bech32 Bech32Facts.

(** [drain] with fuel enough leaves fewer than 5 bits and loses none. *)
Lemma drain_exact (fuel : nat) (value bits : Z) :
  0 <= bits <= Z.of_nat fuel ->
  let out := fst (drain fuel 5 31 value bits) in
  let bits' := snd (drain fuel 5 31 value bits) in
  0 <= bits' < 5 /\ 5 * Z.of_nat (List.length out) + bits' = bits.
Proof.
  revert bits. induction fuel as [|fuel IH]; intros bits Hbits; cbn [drain].
  - cbn. lia.
  - destruct (bits >=? 5) eqn:Hge.
    + apply Z.geb_le in Hge.
      specialize (IH (bits - 5) ltac:(lia)). cbv zeta in IH.
      destruct (drain fuel 5 31 value (bits - 5)) as [out bits'].
      cbn [fst snd List.length] in *. lia.
    + cbn. destruct (Z.geb_spec bits 5); [discriminate|lia].
Qed.

Lemma convert_loop_exact (data : list Z) (value bits : Z) :
  0 <= bits ->
  let '(out, _, bits') := convert_loop data 8 5 31 value bits in
  0 <= bits' < 5 + bits
  /\ (data <> [] -> bits' < 5)
  /\ 5 * Z.of_nat (List.length out) + bits' = bits + 8 * Z.of_nat (List.length data).
Proof.
  revert value bits. induction data as [|d data IH]; intros value bits Hbits;
    cbn [convert_loop].
  - cbn [List.length]. split; [lia|]. split; [congruence|lia].
  - pose proof (drain_exact (Z.to_nat (bits + 8))
                  (Z.lor (int32 (Z.shiftl value 8)) d) (bits + 8) ltac:(lia)) as Hd.
    cbv zeta in Hd.
    destruct (drain _ 5 31 _ (bits + 8)) as [out bits1]. cbn [fst snd] in Hd.
    destruct Hd as (Hrange & Hsum).
    specialize (IH (Z.lor (int32 (Z.shiftl value 8)) d) bits1 ltac:(lia)).
    destruct (convert_loop data 8 5 31 _ bits1) as [[more value'] bits'].
    destruct IH as (Hrange' & Hlt & Hsum').
    rewrite length_app, Nat2Z.inj_add. cbn [List.length].
    destruct data as [|d' data].
    + cbn [convert_loop] in *. cbn [List.length] in *.
      split; [lia|]. split; [intros _; lia|lia].
    + specialize (Hlt ltac:(discriminate)).
      split; [lia|]. split; [intros _; lia|lia].
Qed.

(** Twenty bytes are thirty-two words. *)
Lemma toWords_20 (data : bytes) :
  List.length data = 20%nat -> List.length (toWords data) = 32%nat.
Proof.
  intros Hlen.
  with_strategy transparent [toWords] unfold toWords. unfold convert_pad.
  change (Z.shiftl 1 5 - 1) with 31.
  pose proof (convert_loop_exact (map byte_to_Z data) 0 0 ltac:(lia)) as H.
  destruct (convert_loop (map byte_to_Z data) 8 5 31 0 0) as [[out value] bits].
  rewrite length_map, Hlen in H. destruct H as (Hrange & Hlt & Hsum).
  assert (bits < 5) as Hb.
  { apply Hlt. destruct data; [discriminate Hlen|discriminate]. }
  assert (bits = 0) as -> by lia.
  cbn [Z.gtb Z.compare]. lia.
Qed.

Lemma charAt_length (x : Z) : word5 x -> String.length (charAt x) = 1%nat.
Proof.
  intros Hx.
  pose proof (below_forallb
    (fun x => (String.length (charAt x) =? 1)%nat) 32 eq_refl x Hx) as H.
  apply Nat.eqb_eq in H. exact H.
Qed.

Lemma encode_words_tail (words : list Z) :
  Forall word5 words ->
  forall chk result out,
    encode_words words chk result = Return out ->
    exists tail,
      snd out = result ++ tail /\ String.length tail = List.length words.
Proof.
  induction 1 as [|x words Hx _ IH]; intros chk result out; cbn [encode_words].
  - intros Hout. apply Return_inj in Hout. subst out. cbn [snd List.length].
    exists "". rewrite append_empty_r. auto.
  - destruct (negb (Z.shiftr (int32 x) 5 =? 0)); [discriminate|].
    intros Hout. destruct (IH _ _ _ Hout) as (tail & Hs & Hl).
    exists (charAt x ++ tail). rewrite Hs, append_assoc. split; [reflexivity|].
    rewrite JsNumberFacts.length_append, (charAt_length x Hx), Hl. reflexivity.
Qed.

Lemma checksum_chars_length (chk : Z) : String.length (checksum_chars chk) = 6%nat.
Proof.
  unfold checksum_chars. cbn [fold_left].
  rewrite !JsNumberFacts.length_append, !(charAt_length _ (land_31 _)).
  reflexivity.
Qed.

(** An address of twenty bytes: the prefix, the separator 1, and 38
    characters (32 of data, 6 of checksum). *)
Lemma encode_hash_shape (prefix : string) (data : bytes) (address : string) :
  prefix = "nolus" \/ prefix = "neutron" ->
  List.length data = 20%nat ->
  encode prefix (toWords data) = Return address ->
  exists tail, address = prefix ++ "1" ++ tail /\ String.length tail = 38%nat.
Proof.
  intros Hprefix Hlen.
  destruct (toWords_spec data) as (Hwords & _).
  pose proof (toWords_20 data Hlen) as Hcount.
  with_strategy transparent [encode] unfold encode.
  destruct (_ >? 90); [discriminate|]. cbv zeta.
  assert (toLowerCase prefix = prefix) as ->
    by (destruct Hprefix; subst; reflexivity).
  destruct (prefixChk prefix) as [chk|message]; [|discriminate].
  destruct (encode_words (toWords data) chk (prefix ++ "1")) as [[chk' result]|e]
    eqn:Hwordsrun; [|discriminate].
  cbn [cbind]. intros Haddress. apply Return_inj in Haddress. subst address.
  destruct (encode_words_tail _ Hwords _ _ _ Hwordsrun) as (tail & Hs & Hl).
  cbn [snd] in Hs. subst result.
  exists (tail ++ checksum_chars
                    (Z.lxor (fold_left (fun c _ => polymodStep c) (seq 0 6) chk') 1)).
  rewrite !append_assoc. split; [reflexivity|].
  rewrite JsNumberFacts.length_append, Hl, Hcount, checksum_chars_length.
  reflexivity.
Qed.

End AddressShape.

(** Every address that [getAddress] returns is the prefix of the chain,
    the separator 1 and 38 more characters: 44 characters that begin
    with nolus1 in the wallet scripts, 46 that begin with neutron1 in
    the MetaMask script. *)
Theorem address_has_fixed_shape :
  (forall w a tr,
     run (Solflare.getAddress w) = (Return a, tr) ->
     exists tail,
       Nolus.bech32Addr a = "nolus1" ++ tail /\ String.length tail = 38%nat)
  /\ (forall w a tr,
        run (Phantom.getAddress w) = (Return a, tr) ->
        exists tail,
          Nolus.bech32Addr a = "nolus1" ++ tail /\ String.length tail = 38%nat)
  /\ (forall w a tr,
        run (PhantomProvider.getAddress w) = (Return a, tr) ->
        exists tail,
          Nolus.bech32Addr a = "nolus1" ++ tail /\ String.length tail = 38%nat)
  /\ (forall w a tr,
        run (MetaMask.getAddress w) = (Return a, tr) ->
        exists tail,
          MetaMask.bech32Addr a = "neutron1" ++ tail
          /\ String.length tail = 38%nat).
Proof.
  split; [|split; [|split]].
  - intros w a tr Hrun.
    destruct (SolflareFacts.solflare_getAddress_returns _ _ _ Hrun)
      as (_ & _ & Haddress & _).
    exact (AddressShape.encode_hash_shape "nolus" _ _ (or_introl eq_refl)
             (sha256_first20 _) Haddress).
  - intros w a tr Hrun.
    destruct (PhantomFacts.phantom_getAddress_returns _ _ _ Hrun)
      as (_ & _ & Haddress & _).
    exact (AddressShape.encode_hash_shape "nolus" _ _ (or_introl eq_refl)
             (sha256_first20 _) Haddress).
  - intros w a tr Hrun.
    destruct (PhantomProviderFacts.provider_getAddress_returns _ _ _ Hrun)
      as (_ & _ & Haddress & _).
    exact (AddressShape.encode_hash_shape "nolus" _ _ (or_introl eq_refl)
             (sha256_first20 _) Haddress).
  - intros w a tr Hrun.
    destruct (MetaMaskFacts.metamask_getAddress_returns _ _ _ Hrun)
      as (provider & compressed & _ & _ & Haddress & _).
    exact (AddressShape.encode_hash_shape "neutron" _ _ (or_intror eq_refl)
             (ripemd160_length _) Haddress).
Qed.

(** ** [uscrtToScrt] on other texts *)

Module ParseIntFacts.
Import JsNumber JsNumberFacts.

Lemma not_digit_value (c : ascii) : is_digit c = false -> digit_value 10 c = None.
Proof.
  destruct c as [[] [] [] [] [] [] [] []]; intros H;
    first [discriminate H | reflexivity].
Qed.

Lemma digit_has_value (c : ascii) :
  is_digit c = true -> exists d, digit_value 10 c = Some d.
Proof. intros H. by_digit c H; eexists; reflexivity. Qed.

(** The digits that lead a text are all that [digits_value] reads. *)
Lemma digits_value_stops (s : string) (c : ascii) (rest : string) (acc : option Z) :
  all_digits s = true -> is_digit c = false ->
  digits_value 10 (s ++ String c rest) acc = digits_value 10 s acc.
Proof.
  intros Hs Hc. revert acc.
  induction s as [|c0 s IH]; intros acc; cbn [String.append digits_value].
  - rewrite (not_digit_value c Hc). reflexivity.
  - cbn [all_digits] in Hs. apply andb_true_iff in Hs. destruct Hs as [Hc0 Hs].
    destruct (digit_has_value c0 Hc0) as [d ->]. apply IH. assumption.
Qed.

Lemma no_hex_prefix_before (c0 : ascii) (s : string) (c : ascii) (rest : string) :
  is_digit c0 = true -> all_digits s = true ->
  c <> "x"%char -> c <> "X"%char ->
  drop_prefix "0x" (String c0 (s ++ String c rest)) = None
  /\ drop_prefix "0X" (String c0 (s ++ String c rest)) = None.
Proof.
  intros Hc0 Hs Hx HX. unfold drop_prefix.
  assert (String.prefix "0x" (String c0 (s ++ String c rest)) = false
          /\ String.prefix "0X" (String c0 (s ++ String c rest)) = false)
    as [-> ->]; [|auto].
  cbn [String.prefix].
  destruct (ascii_dec "0" c0) as [_|_]; [|auto].
  destruct s as [|c1 s]; cbn [String.append String.prefix].
  - destruct (ascii_dec "x" c); [congruence|].
    destruct (ascii_dec "X" c); [congruence|]. auto.
  - cbn [all_digits] in Hs. apply andb_true_iff in Hs. destruct Hs as [Hc1 _].
    destruct (digit_not_x c1 Hc1) as [Hx1 HX1].
    destruct (ascii_dec "x" c1); [congruence|].
    destruct (ascii_dec "X" c1); [congruence|]. auto.
Qed.

Lemma parseInt_leading_digits (s : string) (c : ascii) (rest : string) (v : Z) :
  s <> "" -> all_digits s = true -> digits_value 10 s None = Some v ->
  is_digit c = false -> c <> "x"%char -> c <> "X"%char ->
  parseInt (s ++ String c rest) = round (v # 1).
Proof.
  intros Hne Hall Hv Hc Hx HX. destruct s as [|c0 s]; [congruence|].
  cbn [all_digits] in Hall. apply andb_true_iff in Hall. destruct Hall as [Hc0 Hs].
  cbn [String.append].
  destruct (digit_head c0 (s ++ String c rest) Hc0) as (Hws & Hminus & Hplus).
  destruct (no_hex_prefix_before c0 s c rest Hc0 Hs Hx HX) as [Hh HH].
  unfold parseInt. cbn [String.length trim_start].
  rewrite Hws, Hminus, Hplus, Hh, HH.
  change (String c0 (s ++ String c rest)) with (String c0 s ++ String c rest).
  rewrite digits_value_stops, Hv; [reflexivity| |assumption].
  cbn [all_digits]. rewrite Hc0, Hs. reflexivity.
Qed.

Lemma parseInt_letter (c : ascii) (rest : string) :
  (65 <= Z_of_char c <= 90 \/ 97 <= Z_of_char c <= 122) ->
  parseInt (String c rest) = NaN.
Proof.
  destruct c as [[] [] [] [] [] [] [] []]; intros H;
    first [ reflexivity
          | exfalso; vm_compute in H; destruct H as [[H1 H2]|[H1 H2]];
            first [apply H1; reflexivity|apply H2; reflexivity] ].
Qed.

End ParseIntFacts.

(** [uscrtToScrt] reads the digits that lead its argument and nothing
    after them: a text of digits followed by anything that is no digit
    (a decimal point, a unit, an exponent) gives the same number as the
    digits alone, namely their value, as a double, divided by
    1,000,000.  A text that begins with a letter, and the empty text,
    give NaN; nothing is thrown. *)
Theorem uscrtToScrt_reads_leading_digits :
  (forall s v,
     s <> "" -> all_digits s = true ->
     JsNumber.digits_value 10 s None = Some v ->
     Main.uscrtToScrt s
     = JsNumber.div (JsNumber.round (v # 1)) (JsNumber.ofZ 1000000)
     /\ forall c rest,
          is_digit c = false -> c <> "x"%char -> c <> "X"%char ->
          Main.uscrtToScrt (s ++ String c rest) = Main.uscrtToScrt s)
  /\ (forall c rest,
        65 <= Z_of_char c <= 90 \/ 97 <= Z_of_char c <= 122 ->
        Main.uscrtToScrt (String c rest) = JsNumber.NaN)
  /\ Main.uscrtToScrt "" = JsNumber.NaN.
Proof.
  split; [|split].
  - intros s v Hne Hall Hv. unfold Main.uscrtToScrt.
    rewrite (JsNumberFacts.parseInt_digits s v Hne Hall Hv).
    split; [reflexivity|].
    intros c rest Hc Hx HX.
    rewrite (ParseIntFacts.parseInt_leading_digits s c rest v); auto.
  - intros c rest Hc. unfold Main.uscrtToScrt.
    rewrite (ParseIntFacts.parseInt_letter c rest Hc). reflexivity.
  - vm_compute. reflexivity.
Qed.

Lemma uscrtToScrt_reads_leading_digits_sample :
  Main.uscrtToScrt "1500000" = JsNumber.div (JsNumber.ofZ 1500000) (JsNumber.ofZ 1000000)
  /\ Main.uscrtToScrt "1500000.75 uscrt" = Main.uscrtToScrt "1500000"
  /\ Main.uscrtToScrt "scrt" = JsNumber.NaN.
Proof.
  assert (Hdigits : "1500000" <> "" /\ all_digits "1500000" = true
                    /\ JsNumber.digits_value 10 "1500000" None = Some 1500000).
  { split; [discriminate|split; reflexivity]. }
  destruct Hdigits as (Hne & Hall & Hv).
  destruct (proj1 uscrtToScrt_reads_leading_digits "1500000" 1500000 Hne Hall Hv)
    as [Hvalue Hstop].
  split; [|split].
  - rewrite Hvalue. vm_compute. reflexivity.
  - apply (Hstop "."%char "75 uscrt"); [reflexivity|discriminate|discriminate].
  - apply (proj1 (proj2 uscrtToScrt_reads_leading_digits) "s"%char "crt").
    right. vm_compute. split; discriminate.
Defined.

(** ** The sample worlds, again *)

Lemma requests_in_order_sample :
  (exists out,
     run (Solflare.sendTransaction (Sample.solflare Sample.unreachable_node)
            None None None)
     = (out, [WalletConnect; StargateConnect "https://rpc.nolus.network"]))
  /\ (exists out,
        run (Solflare.sendTransaction
               {| Solflare.solflare := Some Sample.unsigning_wallet;
                  Solflare.node := Sample.node |}
               None None None)
        = (out,
           [WalletConnect; StargateConnect "https://rpc.nolus.network";
            GetAccount Sample.address;
            WalletSignMessage
              (SignDoc.encode
                 (Spec.direct_sign_doc Sample.key32 Sample.address Sample.address
                    "1000000" "solflare-ed25519-test" (7%N, 3%N)))
              None]))
  /\ (exists out,
        run (MetaMask.sendTransaction (Sample.metamask Sample.node) None None None)
        = (out,
           [EthereumRequest "eth_requestAccounts" [];
            EthereumRequest "eth_accounts" [];
            EthereumRequest "personal_sign"
              [Some (MetaMask.hexlify (toUtf8Bytes "Generate Cosmos pubkey"));
               Some Sample.eth_address];
            StargateConnect "https://pion-rpc.nolus.network";
            GetAccount Sample.neutron_address;
            EthereumRequest "personal_sign"
              [Some (Spec.json_payload
                       (Spec.json_sign_doc (7%N, 3%N) Sample.neutron_address
                          Sample.neutron_address "1000000"
                          "Neutron Network transaction"));
               Some Sample.eth_address];
            HttpPost "https://pion-rpc.nolus.network"
              [("Content-Type", "application/json"); ("Accept", "application/json")]
              (Spec.broadcast_body 1700000000000
                 (Spec.eip191_tx Sample.compressed Sample.neutron_address
                    Sample.neutron_address "1000000" "Neutron Network transaction"
                    (7%N, 3%N) Sample.signature64))])).
Proof.
  split; [|split].
  - destruct (proj1 (proj2 (proj2 (proj2 (proj2 (proj2 (proj2 (proj2 (proj2
                requests_in_order))))))))
                (Sample.solflare Sample.unreachable_node) Sample.solflare_wallet
                Sample.key32 Sample.address None None None
                (sample_solflare_key Sample.unreachable_node)
                sample_nolus_address)
      as (out & rest1 & Hrun & Hstop & _).
    exists out. rewrite Hrun, (Hstop (TypeError "Failed to fetch") eq_refl).
    reflexivity.
  - destruct (proj1 (proj2 (proj2 (proj2 (proj2 (proj2 (proj2 (proj2 (proj2
                requests_in_order))))))))
                {| Solflare.solflare := Some Sample.unsigning_wallet;
                   Solflare.node := Sample.node |}
                Sample.unsigning_wallet
                Sample.key32 Sample.address None None None
                sample_unsigning_key sample_nolus_address)
      as (out & rest1 & Hrun & _ & Hgo).
    destruct (Hgo eq_refl) as (rest2 & -> & _ & Hgo2).
    destruct (Hgo2 (Some {| Account.accountNumber := 7; Account.sequence := 3 |})
                eq_refl) as (rest3 & -> & Hstop & _).
    exists out. rewrite Hrun, (Hstop Sample.rejection eq_refl). reflexivity.
  - destruct (proj2 (proj2 (proj2 (proj2 (proj2 (proj2 (proj2 (proj2 (proj2
                (proj2 (proj2 requests_in_order))))))))))
                (Sample.metamask Sample.node) Sample.ethereum
                (Some Sample.eth_address) Sample.compressed Sample.neutron_address
                None None None (sample_metamask_key Sample.node)
                sample_neutron_address)
      as (out & rest1 & Hrun & _ & Hgo).
    destruct (Hgo eq_refl) as (rest2 & -> & _ & Hgo2).
    destruct (Hgo2 (Some {| Account.accountNumber := 7; Account.sequence := 3 |})
                eq_refl) as (rest3 & -> & _ & Hgo3).
    destruct (Hgo3 Sample.signature65_hex eq_refl) as (_ & Hgo4).
    exists out. rewrite Hrun, (Hgo4 Sample.signature64 sample_signature_stripped).
    reflexivity.
Defined.

Lemma missing_wallet_sends_nothing_sample :
  run (Solflare.sendTransaction Sample.no_solflare None None None)
  = (Return
       (Nolus.Failed
          "Error: Solflare wallet not found! Install from https://solflare.com/"),
     []).
Proof.
  apply (proj1 missing_wallet_sends_nothing Sample.no_solflare None None None).
  reflexivity.
Defined.

Lemma rejected_connection_reported_sample :
  run (Solflare.sendTransaction
         {| Solflare.solflare := Some Sample.refusing_wallet;
            Solflare.node := Sample.node |} None None None)
  = (Return
       (Nolus.Failed
          ("Error: Failed to connect to Solflare: " ++ String_ Sample.rejection)),
     [WalletConnect])
  /\ String_ Sample.rejection = "Error: User rejected the request.".
Proof.
  split; [|vm_compute; reflexivity].
  apply (proj1 rejected_connection_reported
           {| Solflare.solflare := Some Sample.refusing_wallet;
              Solflare.node := Sample.node |}
           Sample.refusing_wallet None None None Sample.rejection);
    reflexivity.
Defined.

Lemma failed_lookup_stops_send_sample :
  fst (run (Solflare.sendTransaction (Sample.solflare Sample.unreachable_node)
              None None None))
  = Return (Nolus.Failed (String_ (TypeError "Failed to fetch")))
  /\ snd (run (Solflare.sendTransaction (Sample.solflare Sample.unreachable_node)
                 None None None))
     = [WalletConnect; StargateConnect Nolus.CONFIG.rpc].
Proof.
  apply (proj1 failed_lookup_stops_send (Sample.solflare Sample.unreachable_node)
           None None None _ _ (TypeError "Failed to fetch") (surjective_pairing _)).
  - vm_compute. auto.
  - reflexivity.
Defined.

Lemma unsigned_is_not_broadcast_sample :
  fst (run (Solflare.sendTransaction
              {| Solflare.solflare := Some Sample.unsigning_wallet;
                 Solflare.node := Sample.node |} None None None))
  = Return (Nolus.Failed (String_ Sample.rejection))
  /\ exists address,
       snd (run (Solflare.sendTransaction
                   {| Solflare.solflare := Some Sample.unsigning_wallet;
                      Solflare.node := Sample.node |} None None None))
       = [WalletConnect; StargateConnect Nolus.CONFIG.rpc; GetAccount address;
          WalletSignMessage
            (SignDoc.encode
               (Spec.direct_sign_doc Sample.key32 Sample.address Sample.address
                  "1000000" "solflare-ed25519-test" (7%N, 3%N)))
            None].
Proof.
  apply (proj1 unsigned_is_not_broadcast
           {| Solflare.solflare := Some Sample.unsigning_wallet;
              Solflare.node := Sample.node |}
           Sample.unsigning_wallet None None None _ _ _ None Sample.rejection
           (surjective_pairing _) eq_refl).
  - vm_compute. auto.
  - reflexivity.
Defined.

Lemma rpc_error_reported_sample :
  fst (run (Solflare.sendTransaction (Sample.solflare Sample.erring_node)
              None None None))
  = Return (Nolus.Failed "Error: Broadcast failed: tx already exists in cache").
Proof.
  assert (Hin : In (HttpPost Nolus.CONFIG.rpc [("Content-Type", "application/json")]
                      (Spec.broadcast_body 1700000000000
                         (Spec.direct_tx Sample.key32 Sample.address Sample.address
                            "1000000" "solflare-ed25519-test" (0%N, 0%N)
                            Sample.signature64)))
                   (snd (run (Solflare.sendTransaction
                                (Sample.solflare Sample.erring_node)
                                None None None)))).
  { vm_compute. auto 6. }
  exact (proj1 rpc_error_reported (Sample.solflare Sample.erring_node)
           None None None _ _ _ _ _ _ {| message := Some "tx already exists in cache" |}
           (surjective_pairing _) Hin eq_refl eq_refl).
Defined.

Lemma broadcast_is_what_was_signed_sample :
  exists wallet doc signature,
    Solflare.solflare (Sample.solflare Sample.node) = Some wallet
    /\ In (WalletSignMessage (SignDoc.encode doc) None)
         [WalletConnect; StargateConnect "https://rpc.nolus.network";
          GetAccount Sample.address;
          WalletSignMessage
            (SignDoc.encode
               (Spec.direct_sign_doc Sample.key32 Sample.address Sample.address "1"
                  "Solflare ED25519 test" (7%N, 3%N)))
            None;
          HttpPost "https://rpc.nolus.network" [("Content-Type", "application/json")]
            (Spec.broadcast_body 1700000000000
               (Spec.direct_tx Sample.key32 Sample.address Sample.address "1"
                  "Solflare ED25519 test" (7%N, 3%N) Sample.signature64))]
    /\ Solflare.signMessage wallet (SignDoc.encode doc) = Return signature
    /\ Spec.broadcast_body 1700000000000
         (Spec.direct_tx Sample.key32 Sample.address Sample.address "1"
            "Solflare ED25519 test" (7%N, 3%N) Sample.signature64)
       = Spec.broadcast_body (Date_now (Solflare.node (Sample.solflare Sample.node)))
           (TxRaw.encode
              {| TxRaw.bodyBytes := SignDoc.bodyBytes doc;
                 TxRaw.authInfoBytes := SignDoc.authInfoBytes doc;
                 TxRaw.signatures := [signature] |}).
Proof.
  apply (proj1 broadcast_is_what_was_signed (Sample.solflare Sample.node)
           None (Some "1") (Some "Solflare ED25519 test") _ _
           "https://rpc.nolus.network" [("Content-Type", "application/json")] _
           sample_solflare_run).
  cbn [In]. auto 6.
Defined.

Lemma test_transaction_is_self_send_sample :
  (exists out,
       run (Solflare.testTransaction (Sample.solflare Sample.node))
       = (out,
          [WalletConnect; StargateConnect "https://rpc.nolus.network";
           GetAccount Sample.address;
           WalletSignMessage
             (SignDoc.encode
                 (Spec.direct_sign_doc Sample.key32 Sample.address Sample.address
                    "1" "Solflare ED25519 test" (7%N, 3%N)))
             None;
           HttpPost "https://rpc.nolus.network" [("Content-Type", "application/json")]
             (Spec.broadcast_body 1700000000000
                (Spec.direct_tx Sample.key32 Sample.address Sample.address
                   "1" "Solflare ED25519 test" (7%N, 3%N) Sample.signature64))]))
  /\ (exists out,
          run (Phantom.testTransaction (Sample.phantom Sample.node))
          = (out,
             [WalletConnect; StargateConnect "https://rpc.nolus.network";
              GetAccount Sample.address;
              WalletSignMessage
                (SignDoc.encode
                    (Spec.direct_sign_doc Sample.key32 Sample.address Sample.address
                       "1" "Phantom ED25519 test" (7%N, 3%N)))
                (Some "utf8");
              HttpPost "https://rpc.nolus.network" [("Content-Type", "application/json")]
                (Spec.broadcast_body 1700000000000
                   (Spec.direct_tx Sample.key32 Sample.address Sample.address
                      "1" "Phantom ED25519 test" (7%N, 3%N) Sample.signature64))]))
  /\ (exists out,
          run (PhantomProvider.testTransaction (Sample.phantom_provider Sample.node))
          = (out,
             [WalletConnect; StargateConnect "https://rpc.nolus.network";
              GetAccount Sample.address;
              WalletSignMessage
                (Utf8.TextEncoder_encode
                 (Utf8.Buffer_toString
                    (SignDoc.encode
                       (Spec.direct_sign_doc Sample.key32 Sample.address Sample.address
                       "1" "Phantom ED25519 test" (7%N, 3%N)))))
                None;
              HttpPost "https://rpc.nolus.network" [("Content-Type", "application/json")]
                (Spec.broadcast_body 1700000000000
                   (Spec.direct_tx Sample.key32 Sample.address Sample.address
                      "1" "Phantom ED25519 test" (7%N, 3%N) Sample.signature64))]))
  /\ (exists out,
          run (Main.testTransaction (Sample.metamask Sample.node))
          = (out,
             Spec.key_requests (Some Sample.eth_address)
               ++ [StargateConnect "https://pion-rpc.nolus.network";
                   GetAccount Sample.neutron_address;
                   EthereumRequest "personal_sign"
                     [Some (Spec.json_payload
                              (Spec.json_sign_doc (7%N, 3%N) Sample.neutron_address
                                 Sample.neutron_address "1000000"
                                 "Test transaction from MetaMask"));
                      Some Sample.eth_address];
                   HttpPost "https://pion-rpc.nolus.network"
                     [("Content-Type", "application/json");
                      ("Accept", "application/json")]
                     (Spec.broadcast_body 1700000000000
                        (Spec.eip191_tx Sample.compressed Sample.neutron_address
                           Sample.neutron_address "1000000"
                           "Test transaction from MetaMask" (7%N, 3%N)
                           Sample.signature64))])%list).
Proof.
  split; [|split; [|split]].
  - destruct (proj1 test_transaction_is_self_send
                (Sample.solflare Sample.node) Sample.solflare_wallet Sample.key32
                Sample.address
                (Some {| Account.accountNumber := 7; Account.sequence := 3 |})
                (sample_solflare_key Sample.node) sample_nolus_address eq_refl eq_refl)
      as (out & m & rest & -> & Hrun & Hrest).
    exists out. rewrite Hrun, (Hrest Sample.signature64 eq_refl). reflexivity.
  - destruct (proj1 (proj2 test_transaction_is_self_send)
                (Sample.phantom Sample.node) Sample.phantom_wallet Sample.key32
                Sample.address
                (Some {| Account.accountNumber := 7; Account.sequence := 3 |})
                (sample_phantom_key Sample.node) sample_nolus_address eq_refl eq_refl)
      as (out & m & rest & -> & Hrun & Hrest).
    exists out. rewrite Hrun, (Hrest Sample.signature64 eq_refl). reflexivity.
  - destruct (proj1 (proj2 (proj2 test_transaction_is_self_send))
                (Sample.phantom_provider Sample.node) Sample.provider Sample.key32
                Sample.address
                (Some {| Account.accountNumber := 7; Account.sequence := 3 |})
                (sample_provider_key Sample.node) sample_nolus_address eq_refl eq_refl)
      as (out & m & rest & -> & Hrun & Hrest).
    exists out. rewrite Hrun, (Hrest Sample.signature64 eq_refl). reflexivity.
  - destruct (proj1 (proj2 (proj2 (proj2 test_transaction_is_self_send)))
                (Sample.metamask Sample.node) Sample.ethereum
                (Some Sample.eth_address) Sample.compressed Sample.neutron_address
                (Some {| Account.accountNumber := 7; Account.sequence := 3 |})
                (sample_metamask_key Sample.node) sample_neutron_address
                eq_refl eq_refl)
      as (out & payload & rest & -> & Hrun & Hrest).
    exists out. rewrite Hrun.
    rewrite (Hrest Sample.signature65_hex Sample.signature64
               eq_refl sample_signature_stripped).
    reflexivity.
Defined.



Lemma front_end_wrappers_sample :
  run (Main.sendTransactionFn (Sample.metamask Sample.node) None None None)
  = (Return (Main.FnSent (Some "5F3A") (Some "5F3A")),
     [EthereumRequest "eth_requestAccounts" [];
      EthereumRequest "eth_accounts" [];
      EthereumRequest "personal_sign"
        [Some (MetaMask.hexlify (toUtf8Bytes "Generate Cosmos pubkey"));
         Some Sample.eth_address];
      StargateConnect "https://pion-rpc.nolus.network";
      GetAccount Sample.neutron_address;
      EthereumRequest "personal_sign"
        [Some (Spec.json_payload
                 (Spec.json_sign_doc (7%N, 3%N) Sample.neutron_address
                    Sample.neutron_address "1000000"
                    "Neutron Network transaction"));
         Some Sample.eth_address];
      HttpPost "https://pion-rpc.nolus.network"
        [("Content-Type", "application/json"); ("Accept", "application/json")]
        (Spec.broadcast_body 1700000000000
           (Spec.eip191_tx Sample.compressed Sample.neutron_address
              Sample.neutron_address "1000000" "Neutron Network transaction"
              (7%N, 3%N) Sample.signature64))]).
Proof.
  exact (proj1 (proj2 front_end_wrappers)
           (Sample.metamask Sample.node) Sample.ethereum
           (Some Sample.eth_address) Sample.compressed Sample.neutron_address
           (Some {| Account.accountNumber := 7; Account.sequence := 3 |})
           Sample.signature65_hex Sample.signature64 Sample.ok_result
           None None None (sample_metamask_key Sample.node)
           sample_neutron_address eq_refl eq_refl eq_refl
           sample_signature_stripped (conj eq_refl eq_refl)).
Defined.

Lemma front_end_connect_sends_a_transaction_sample :
  fst (run (Main.connect (Sample.metamask Sample.rejecting_node)))
  = Return (Sample.neutron_address, 0%N, 0%N)
  /\ fst (run (MetaMask.sendTransaction (Sample.metamask Sample.rejecting_node)
                 (Some "nolus1nlfjlsfrvlruxylh22teyp80mtc72wgx2c3u9r")
                 (Some "1") (Some "test")))
     = Return (MetaMask.Rejected (Some "insufficient funds")
                 {| code := Some 5; txhash := None; hash := None;
                    log := Some "insufficient funds"; info := None |}).
Proof.
  assert (Hsent : fst (run (MetaMask.sendTransaction
                              (Sample.metamask Sample.rejecting_node)
                              (Some "nolus1nlfjlsfrvlruxylh22teyp80mtc72wgx2c3u9r")
                              (Some "1") (Some "test")))
                  = Return (MetaMask.Rejected (Some "insufficient funds")
                              {| code := Some 5; txhash := None; hash := None;
                                 log := Some "insufficient funds"; info := None |}))
    by (vm_compute; reflexivity).
  split; [|exact Hsent].
  refine (proj2 (proj2 (front_end_connect_sends_a_transaction
                          (Sample.metamask Sample.rejecting_node) _ _
                          (surjective_pairing _)))
            _ (Sample.neutron_address, 0%N, 0%N) _ eq_refl _ Hsent).
  vm_compute. reflexivity.
Defined.

Lemma signed_json_has_sorted_keys_sample :
  exists out doc rest,
    run (MetaMask.sendTransaction (Sample.metamask Sample.node) None None None)
    = (out,
       [EthereumRequest "eth_requestAccounts" [];
        EthereumRequest "eth_accounts" [];
        EthereumRequest "personal_sign"
          [Some (MetaMask.hexlify (toUtf8Bytes "Generate Cosmos pubkey"));
           Some Sample.eth_address];
        StargateConnect "https://pion-rpc.nolus.network";
        GetAccount Sample.neutron_address;
        EthereumRequest "personal_sign"
          [Some ("0x" ++ Hex.toHex (toUtf8Bytes (Json.stringify doc 4)))%string;
           Some Sample.eth_address]] ++ rest)%list
    /\ doc = Spec.json_sign_doc (7%N, 3%N) Sample.neutron_address
               Sample.neutron_address "1000000" "Neutron Network transaction"
    /\ Spec.keys_sorted doc = true.
Proof.
  destruct (proj1 signed_json_has_sorted_keys
              (Sample.metamask Sample.node) Sample.ethereum
              (Some Sample.eth_address) Sample.compressed Sample.neutron_address
              (Some {| Account.accountNumber := 7; Account.sequence := 3 |})
              None None None (sample_metamask_key Sample.node)
              sample_neutron_address eq_refl eq_refl)
    as (out & doc & rest & Hrun & -> & Hsorted).
  exists out. eexists. exists rest.
  split; [exact Hrun|]. split; [reflexivity|exact Hsorted].
Defined.

Lemma compress_keeps_x_and_parity_sample :
  MetaMask.compress (x04 :: Sample.key_x ++ Sample.key_y)%list = x02 :: Sample.key_x.
Proof.
  exact (proj1 compress_keeps_x_and_parity x04 Sample.key_x Sample.key_y eq_refl).
Defined.

Lemma address_has_fixed_shape_sample :
  exists a tail,
    run (Solflare.getAddress (Sample.solflare Sample.node))
    = (Return a, [WalletConnect])
    /\ Nolus.bech32Addr a = "nolus1" ++ tail
    /\ String.length tail = 38%nat.
Proof.
  destruct (SolflareFacts.solflare_getAddress_connected
              (Sample.solflare Sample.node) Sample.solflare_wallet Sample.key32
              (sample_solflare_key Sample.node)) as (a & Hrun & _).
  destruct (proj1 address_has_fixed_shape _ _ _ Hrun) as (tail & Hshape).
  exists a, tail. split; [exact Hrun|exact Hshape].
Defined.

(** ** The chunk names of [vite.config.ts] *)

Module ViteFacts.
Import ViteConfig.

Lemma prefix_here (p t : string) : String.prefix p (p ++ t) = true.
Proof.
  induction p as [|c p IH]; cbn [String.append String.prefix].
  - destruct t; reflexivity.
  - destruct (ascii_dec c c) as [_|Hne]; [exact IH|congruence].
Qed.

(** A test for a prefix looks no further than the length of the prefix. *)
Lemma prefix_long (p x y : string) :
  (String.length p <= String.length x)%nat ->
  String.prefix p (x ++ y) = String.prefix p x.
Proof.
  revert x. induction p as [|c p IH]; intros x Hlen.
  - destruct x, y; reflexivity.
  - destruct x as [|d x]; [cbn in Hlen; lia|].
    cbn [String.append String.prefix].
    destruct (ascii_dec c d); [|reflexivity].
    apply IH. cbn [String.length] in Hlen. lia.
Qed.

Lemma includes_here (sub a t : string) : includes sub (a ++ sub ++ t) = true.
Proof.
  induction a as [|c a IH]; cbn [String.append].
  - destruct (sub ++ t) eqn:E; cbn [includes]; rewrite <- E, prefix_here; reflexivity.
  - cbn [includes]. rewrite IH. apply orb_true_r.
Qed.

Lemma includes_tail (sub : string) (c : ascii) (s : string) :
  includes sub (String c s) = false ->
  String.prefix sub (String c s) = false /\ includes sub s = false.
Proof. cbn [includes]. intros H. apply orb_false_iff in H. exact H. Qed.

Lemma includes_suffix (sub a1 a2 : string) :
  includes sub (a1 ++ a2) = false -> includes sub a2 = false.
Proof.
  induction a1 as [|c a1 IH]; cbn [String.append]; [auto|].
  intros H. apply includes_tail in H. apply IH, H.
Qed.

Lemma clear_of_tail (separator : string) (c : ascii) (a t : string) :
  clear_of separator (String c a) t -> clear_of separator a t.
Proof.
  intros H a1 c' a2 E. apply (H (String c a1) c' a2).
  cbn [String.append]. rewrite E. reflexivity.
Qed.

Lemma split_loop_skip (separator u t : string) (piece : string) :
  split_loop separator (u ++ t) (String.length u) piece
  = match t with
    | "" => [piece]
    | _ => split_loop separator t 0 piece
    end.
Proof.
  induction u as [|c u IH]; cbn [String.append String.length].
  - destruct t; reflexivity.
  - cbn [split_loop]. exact IH.
Qed.

Lemma split_loop_skip' (separator u t : string) (piece : string) :
  split_loop separator (u ++ t) (String.length u) piece
  = split_loop separator t 0 piece.
Proof. rewrite split_loop_skip. destruct t; reflexivity. Qed.

(** The first piece ends where the separator first occurs. *)
Lemma split_loop_first (c0 : ascii) (s0 a t piece : string) :
  clear_of (String c0 s0) a t ->
  split_loop (String c0 s0) (a ++ String c0 s0 ++ t) 0 piece
  = (piece ++ a) :: split_loop (String c0 s0) t 0 "".
Proof.
  revert piece. induction a as [|c a IH]; intros piece Hclear.
  - change ("" ++ String c0 s0 ++ t) with (String c0 (s0 ++ t)).
    cbn [split_loop].
    change (String c0 (s0 ++ t)) with (String c0 s0 ++ t).
    rewrite prefix_here. cbn [String.length Nat.sub].
    rewrite Nat.sub_0_r, split_loop_skip', append_empty_r. reflexivity.
  - pose proof (Hclear "" c a eq_refl) as Hhere.
    change (String c a ++ String c0 s0 ++ t)
      with (String c (a ++ String c0 s0 ++ t)) in Hhere |- *.
    cbn [split_loop]. rewrite Hhere.
    rewrite (IH _ (clear_of_tail _ _ _ _ Hclear)).
    rewrite append_assoc. reflexivity.
Qed.

(** Without the separator there is one piece. *)
Lemma split_loop_none (separator s piece : string) :
  includes separator s = false ->
  split_loop separator s 0 piece = [piece ++ s].
Proof.
  revert piece. induction s as [|c s IH]; intros piece H.
  - cbn. rewrite append_empty_r. reflexivity.
  - apply includes_tail in H. destruct H as [Hp Hs].
    cbn [split_loop]. rewrite Hp, (IH _ Hs), append_assoc. reflexivity.
Qed.

Lemma clear_of_slash (a t : string) :
  includes "/" a = false -> clear_of "/" a t.
Proof.
  intros H a1 c a2 ->. apply includes_suffix in H.
  rewrite prefix_long by (cbn [String.length]; lia).
  apply includes_tail in H. apply H.
Qed.

Lemma clear_of_node_modules (a t : string) :
  includes "node_modules/" (a ++ "node_modules") = false ->
  clear_of "node_modules/" a t.
Proof.
  intros H a1 c a2 ->. rewrite append_assoc in H. apply includes_suffix in H.
  change ("node_modules/" ++ t) with ("node_modules" ++ "/" ++ t).
  rewrite <- append_assoc.
  rewrite prefix_long
    by (rewrite JsNumberFacts.length_append; cbn [String.length]; lia).
  cbn [String.append] in H. apply includes_tail in H. apply H.
Qed.

(** The pieces around the first [node_modules/]. *)
Lemma split_node_modules (dir after : string) :
  includes "node_modules/" (dir ++ "node_modules") = false ->
  split "node_modules/" (dir ++ "node_modules/" ++ after)
  = dir :: split "node_modules/" after.
Proof.
  intros H. unfold split.
  exact (split_loop_first _ _ dir after "" (clear_of_node_modules dir after H)).
Qed.

Lemma split_slash (name rest : string) :
  includes "/" name = false ->
  split "/" (name ++ "/" ++ rest) = name :: split "/" rest.
Proof.
  intros H. unfold split.
  exact (split_loop_first _ _ name rest "" (clear_of_slash name rest H)).
Qed.

Lemma split_head (separator s : string) :
  exists first more, split separator s = first :: more.
Proof.
  unfold split. generalize 0%nat as skip. generalize "" as piece.
  induction s as [|c s IH]; intros piece skip; cbn [split_loop]; [eauto|].
  destruct skip as [|k]; [|apply IH].
  destruct (String.prefix separator (String c s)); [eauto|apply IH].
Qed.

End ViteFacts.

(** [manualChunks] gives no name to a module whose path does not hold
    [node_modules].  For a path with [node_modules/], the name is
    [vendor_] and what follows the first [node_modules/] up to the next
    slash, or up to the second slash when that begins with [@]; the
    package is read after the first [node_modules/] also when the path
    holds another one further on.  A path that holds [node_modules]
    without a slash after it makes the function throw. *)
Theorem manualChunks_names_the_package :
  (forall id,
     ViteConfig.includes "node_modules" id = false ->
     ViteConfig.manualChunks id = Return None)
  /\ (forall dir pkg file,
        ViteConfig.includes "node_modules/" (dir ++ "node_modules") = false ->
        ViteConfig.includes "/" pkg = false ->
        String.prefix "@" pkg = false ->
        ViteConfig.includes "node_modules/" (pkg ++ "/" ++ file) = false ->
        ViteConfig.manualChunks (dir ++ "node_modules/" ++ pkg ++ "/" ++ file)
        = Return (Some ("vendor_" ++ pkg)))
  /\ (forall dir scope name file,
        ViteConfig.includes "node_modules/" (dir ++ "node_modules") = false ->
        String.prefix "@" scope = true ->
        ViteConfig.includes "/" scope = false ->
        ViteConfig.includes "/" name = false ->
        ViteConfig.includes "node_modules/" (scope ++ "/" ++ name ++ "/" ++ file)
        = false ->
        ViteConfig.manualChunks
          (dir ++ "node_modules/" ++ scope ++ "/" ++ name ++ "/" ++ file)
        = Return (Some ("vendor_" ++ scope ++ "/" ++ name)))
  /\ (forall dir pkg inner rest,
        ViteConfig.includes "node_modules/" (dir ++ "node_modules") = false ->
        ViteConfig.includes "/" pkg = false ->
        String.prefix "@" pkg = false ->
        ViteConfig.includes "node_modules/" (pkg ++ "/" ++ inner ++ "node_modules")
        = false ->
        ViteConfig.manualChunks
          (dir ++ "node_modules/" ++ pkg ++ "/" ++ inner ++ "node_modules/" ++ rest)
        = Return (Some ("vendor_" ++ pkg)))
  /\ (forall id,
        ViteConfig.includes "node_modules" id = true ->
        ViteConfig.includes "node_modules/" id = false ->
        exists e, ViteConfig.manualChunks id = Throw e).
Proof.
  split; [|split; [|split; [|split]]].
  - intros id H. unfold ViteConfig.manualChunks. rewrite H. reflexivity.
  - intros dir pkg file Hdir Hpkg Hscope Hrest.
    unfold ViteConfig.manualChunks.
    change ("node_modules/" ++ pkg ++ "/" ++ file)
      with ("node_modules" ++ "/" ++ pkg ++ "/" ++ file) at 1.
    rewrite ViteFacts.includes_here.
    rewrite ViteFacts.split_node_modules by assumption.
    unfold ViteConfig.split at 1.
    rewrite ViteFacts.split_loop_none by assumption.
    cbn [nth_error]. cbv zeta.
    change ("" ++ pkg ++ "/" ++ file) with (pkg ++ "/" ++ file).
    rewrite ViteFacts.split_slash by assumption.
    rewrite Hscope. reflexivity.
  - intros dir scope name file Hdir Hscope Hs Hn Hrest.
    unfold ViteConfig.manualChunks.
    change ("node_modules/" ++ scope ++ "/" ++ name ++ "/" ++ file)
      with ("node_modules" ++ "/" ++ scope ++ "/" ++ name ++ "/" ++ file) at 1.
    rewrite ViteFacts.includes_here.
    rewrite ViteFacts.split_node_modules by assumption.
    unfold ViteConfig.split at 1.
    rewrite ViteFacts.split_loop_none by assumption.
    cbn [nth_error]. cbv zeta.
    change ("" ++ scope ++ "/" ++ name ++ "/" ++ file)
      with (scope ++ "/" ++ name ++ "/" ++ file).
    rewrite ViteFacts.split_slash by assumption.
    rewrite ViteFacts.split_slash by assumption.
    rewrite Hscope.
    destruct (ViteFacts.split_head "/" file) as (first & more & ->).
    reflexivity.
  - intros dir pkg inner rest Hdir Hpkg Hscope Hmid.
    unfold ViteConfig.manualChunks.
    change ("node_modules/" ++ pkg ++ "/" ++ inner ++ "node_modules/" ++ rest)
      with ("node_modules" ++ "/" ++ pkg ++ "/" ++ inner ++ "node_modules/" ++ rest)
      at 1.
    rewrite ViteFacts.includes_here.
    rewrite ViteFacts.split_node_modules by assumption.
    replace (pkg ++ "/" ++ inner ++ "node_modules/" ++ rest)
      with ((pkg ++ "/" ++ inner) ++ "node_modules/" ++ rest)
      by (rewrite !append_assoc; reflexivity).
    rewrite ViteFacts.split_node_modules
      by (rewrite !append_assoc; exact Hmid).
    cbn [nth_error]. cbv zeta.
    rewrite ViteFacts.split_slash by assumption.
    rewrite Hscope. reflexivity.
  - intros id Hin Hnone. unfold ViteConfig.manualChunks. rewrite Hin.
    unfold ViteConfig.split. rewrite ViteFacts.split_loop_none by assumption.
    cbn [nth_error]. eauto.
Qed.

Lemma manualChunks_names_the_package_sample :
  ViteConfig.manualChunks "/app/node_modules/react/index.js"
  = Return (Some "vendor_react")
  /\ ViteConfig.manualChunks "/app/node_modules/@cosmjs/encoding/build/index.js"
     = Return (Some "vendor_@cosmjs/encoding")
  /\ ViteConfig.manualChunks
       "/app/node_modules/.pnpm/react@18.2.0/node_modules/react/index.js"
     = Return (Some "vendor_.pnpm")
  /\ ViteConfig.manualChunks "/app/src/main.ts" = Return None
  /\ exists e, ViteConfig.manualChunks "/app/node_modules" = Throw e.
Proof.
  split; [|split; [|split; [|split]]].
  - apply (proj1 (proj2 manualChunks_names_the_package)
             "/app/" "react" "index.js"); reflexivity.
  - apply (proj1 (proj2 (proj2 manualChunks_names_the_package))
             "/app/" "@cosmjs" "encoding" "build/index.js"); reflexivity.
  - apply (proj1 (proj2 (proj2 (proj2 manualChunks_names_the_package)))
             "/app/" ".pnpm" "react@18.2.0/" "react/index.js"); reflexivity.
  - apply (proj1 manualChunks_names_the_package). reflexivity.
  - apply (proj2 (proj2 (proj2 (proj2 manualChunks_names_the_package))));
      reflexivity.
Defined.
